(* ===== verification/_CoqProject ===== *)
-Q . S2P
Prelude.v
Json.v
PyFloat.v
PosixPath.v
Progress.v
FileIO.v
LineParse.v
Traces.v
MetaScan.v
IndexSearch.v
IndexValidate.v
IndexBuilder.v
Scanner.v
Timeline.v
Extractor.v
Summary.v
HtlCli.v
TigConfig.v
NetUtil.v
NetCli.v
