(* ===== verification/Prelude.v ===== *)
(** * horovod-utils: a verified model of its trace extraction engine and tools

    The program.  [src/htimeline/extract.py] indexes and slices very large
    Chrome-style trace files (one JSON record per line, wrapped in a JSON
    array) written by Horovod.  A [HorovodTimeline] object summarises a
    trace once ([summarize]: line count, first and last timestamp;
    [find_metadata_events]: records without ["ts"]; [build_index]: a
    sparse (ts, byte offset) index), keeps the summary in a sidecar file
    that [__init__] reloads while the trace is unchanged, and answers
    queries: [search_index] maps a timestamp to a byte range,
    [extract_and_save_slice] streams the records of a time window into a
    new JSON file, [confirm_index_is_valid] checks the index.  Every
    component reads the trace through one line decoder,
    [parse_line_as_json], and the [ts] accessors.  Two tools sit beside
    it: [src/network-utilization/nu.py] parses NIC counter logs into a
    time series of snapshots, computes per-interval byte deltas and
    Gbit/s, and extracts, saves and graphs windows of it from the command
    line; [src/tig/telegraf_config.py] rewrites a telegraf configuration.

    The development, one file per component, each requiring the ones it
    calls:
    - [Prelude] (this file): text as [list ascii], [str.replace] and
      [str.split], the result type [res] (a value, a Python exception of
      [exn], or [NoFuel]) with its bind notation [x <- r ;; k] and
      [res_mapM] (a list comprehension whose function may raise), and
      [loop]/[loop_st], the model of a [while True] loop: a body returning
      [inl] (continue) or [inr] (break/return), run with fuel.  The loop
      theory proves termination from a decreasing measure ([loop_total],
      [loop_terminates]), invariants of the result ([loop_result_inv])
      and divergence under any fuel ([loop_diverges]).
    - [Json]: decoded JSON values, Python's truthiness, [.keys()] and
      numeric comparison on them, and the codec interface [JsonCodec]
      (with the law [JsonLaws]: [json.loads("")] fails), against which the
      components are proved; [simple_codec] is a concrete codec used to
      run the model in the witnesses.
    - [PyFloat]: Python's mixed [int]/[float] arithmetic on binary64:
      the implicit conversion of an [int] (rounded, [OverflowError] from
      [2 ^ 1024]), float division ([ZeroDivisionError] on a zero of
      either sign) and [int()] of a float (truncation; [OverflowError] on
      an infinity, [ValueError] on a NaN), with the lemmas that rounding
      never yields a NaN and that [0.0 / float(n)] is a zero.
    - [PosixPath]: [os.path.normpath], [join] and [abspath] as CPython's
      [posixpath] writes them (library code, used by both CLIs).
    - [Progress]: the console helpers of extract.py (10-103): [humanize],
      [humanize_float], [humanize_bytes], [print], the shared [spinner]
      and the fallback [tqdm] class (a record; [update], [update_spinner],
      [close]; the clock an argument), with binary64 floats.
    - [FileIO]: text-mode file handles ([read], [readline], [seek],
      [tell], iteration as [lines_of]) as contents plus position.
    - [LineParse]: [parse_line_as_json], [extract_ts_from_line],
      [extract_ts_from_json] (extract.py 431-459).
    - [Traces]: concrete traces for the witnesses.
    - [MetaScan]: [find_metadata_events] (334-365).
    - [IndexSearch]: [search_index] (533-550).
    - [IndexValidate]: [confirm_index_is_valid] (553-581).
    - [IndexBuilder]: [build_index] and its generator [line_samples]
      (368-417).
    - [Scanner]: [blocks] (107-111) and [summarize] (278-330).
    - [Timeline]: the attributes of a [HorovodTimeline] object as a
      record, and concrete timelines.
    - [Extractor]: [extract_and_save_slice] (463-528).
    - [Summary]: [HorovodTimeline.__init__] (136-230): the sidecar path,
      loading the summary, the rebuild decision, the fresh build and the
      summary written back, as a run from the arguments and the
      previous sidecar: the lines printed, the sidecar written, the new
      state.
    - [HtlCli]: the print helpers of [HorovodTimeline] (243-276,
      423-427), [examine_index] (583-587) and extract.py's [__main__]
      (605-679), a run being the list of its effects (printed lines, the
      sidecar, the extract file).
    - [TigConfig]: telegraf_config.py: the line rewriting of
      [generate_telegraf_conf] (18-98), and the script around it (its
      shell calls and files as effects, [test()], [__main__]).
    - [NetUtil]: [BufferTimeseries] of nu.py: [parse_line],
      [parse_raw_data], [add_computed_layers], [extract], [reduce],
      [save] and the series [graph_network_usage] plots (53-246).
    - [NetCli]: loading a series in [__init__] (26-39), [to_ms],
      [abspathify], [simple_sampler], [record_network_buffer_log] and the
      [__main__] block (248-433), the file system as a function and a run
      as the list of its effects.

    Correspondence.  Each Python method is a Definition of the same name
    taking the attributes it reads as arguments (or the [timeline] or
    [buffer_timeseries] record) and returning the new object where it
    changes one.  Each Python loop is a [loop] whose body is a Definition
    named after the loop ([meta_body], [sample_body], [min_ts_body],
    [extract_body], ...), its state the loop's variables, or a structural
    recursion where the loop walks a list ([add_layers_from],
    [extract_go], [series_go]); generators are folded into the loop that
    consumes them.  An exception the code can raise is an [Err];
    [extract_and_save_slice] also returns the output file's contents, and
    a [nu.py] run the effects it made, which an exception leaves as made
    so far.  Python dicts are association lists in insertion order.
    The progress bars inside the scans, [time.sleep] and the timing lines
    only observe and are not modelled there; the bar itself, the number
    formatting and the lines the two [__main__] blocks and the print
    helpers write are modelled in [Progress] and [HtlCli].

    What the theorems show.
    - Line decoding: the trailing-comma rewrite and the array delimiters.
    - Scanner: [blocks] partitions the file into bounded chunks, so the
      line count is the number of newlines; the min_ts scan finds the
      first timed line, and never ends on a trace without one; on files
      under 100 kB [summarize] raises [ValueError].
    - Metadata scanner: equal to a list-level reference; it examines one
      line more than [max_lines_to_scan]; a truthy non-object line raises.
    - Index builder: terminates for every stride; its sub-stepped jump
      equals one [read]; every entry is a sampled line's [ts] with the
      offset past it; offsets strictly increase; on a monotone trace the
      index is sorted.
    - Index searcher: the early returns; the bracket it returns; the
      [RuntimeError] past the last entry.
    - Validator: acceptance is exactly the index invariants; the first
      bad entry is reported; range checks come before ordering checks.
    - Extractor: a full-range extraction returns every timed record and
      writes a well-formed file when there is metadata; the file always
      matches the returned slice; without metadata it starts ["[,"]; with
      [min_ts = max_ts] only the first line is read; a file shorter than
      the summary says makes it loop forever; a non-numeric [ts] leaves a
      partial file.
    - Summary store: reloading an unchanged trace restores the same state
      and writes nothing; a grown file is not re-indexed when the
      requested end, a relative time, is below the absolute [max_ts]; a
      trace with one timestamp makes the float stride divide by zero for
      every [secs_per_index]; two paths
      can share one sidecar.
    - Console output: ["{:,}"] groups digits by three; the fallback bar
      counts every step, throttled or not; its backspaces return the
      cursor ([update_spinner_cursor]); [close] draws 100% unless the
      count is exactly 1, so a finished bar shows it twice; a bar of total
      0 raises at its first update.
    - Trace CLI: a wrong number of modes raises before the trace is
      read; [--extract] writes exactly what [extract_and_save_slice]
      writes; [--verify_index] prints "valid" exactly on a well-formed
      index; [--stats] raises [ZeroDivisionError] on an index of at most
      one entry, drops the gap after a timestamp 0, and agrees with
      [humanize_bytes] below a petabyte only.
    - Telegraf templater: a group header makes every later matching line
      change; a failing tag leaves [_telegraf.conf] behind and writes no
      configuration; [test()] passes on any prefix of the expected file;
      the default [--hostname] writes four quotes; no [--tags] raises.
    - Network series: parsed snapshots are raw with distinct queue ids; a
      cut counter raises [ValueError]; on well-formed series the layers
      are computed for every snapshot, each direction's Gbit/s figure is
      its queues' float throughputs added in order (the one loop over all
      queues splits into one per direction), and the deltas telescope to the
      change between first and last snapshot; equal timestamps raise
      [ZeroDivisionError]; the rx/tx length check never fires; on a
      series in time order [extract] is the filter of its window.
    - Network CLI: [save] then loading the file gives back the window's
      raw snapshots; [--extract] followed by [--graph --saved] graphs
      exactly the extracted window when the name does not end in [json],
      and the two path rules disagree when it does; an unreadable
      [--duration] is ignored; [abspathify] does not expand [~];
      [--simplesample --live] samples exactly the lines the recorder
      wrote, and raises off Linux; [--duration 1.001] becomes
      [1000.9999999999999] ms and drops a snapshot 1001 ms in.

    Fuel.  Every loop over a file is given one more unit of fuel than the
    length of the file (or [remaining] characters): each iteration that
    does not stop consumes a non-empty line or chunk, so this is enough,
    and the termination theorems ([build_index_terminates], the total
    forms of the [MetaScan] and [Extractor] loop lemmas) prove it.  The
    divergence theorems hold for every fuel.  [skip_jump]'s inner loop
    gets [jump / max_jump] rounded up, plus one.  [str.replace] gets one
    more step than the length of its subject.  The [nu.py] loops walk
    lists and need no fuel.

    Not modelled.  The JSON library, [float()] and the file system are
    interfaces, parameters or models of the library, not code of the
    repository.  Floats: trace timestamps are integers and the trace
    CLI's float seconds are taken integer-valued, for which Python's
    float arithmetic is exact below 2^53.  Everything else that Python
    computes in floats is a binary64 float here ([PyFloat]): the console
    formatting, the fallback progress bar, [duration_secs], the index
    stride of [__init__], and [nu.py]'s window offsets, Gbit/s figures
    and plotted times.  The progress bars drawn inside the scans and
    [extract_and_save_slice], and [--verbose]'s timings, are not among a
    run's effects; the other lines [__init__] and the extraction print are.  [nu.py]'s plotting is an effect carrying the plotted
    series; [BufferTimeseries.__str__] and [_timeseries] only return or
    print the series.  The [--live] recording is a child process: the
    samples its shell loop takes in 60 seconds and the platform are a
    parameter; the processes themselves are not modelled, so neither is
    the shell loop that outlives [terminate()].  What [telegraf] prints is
    a parameter too. *)

From Stdlib Require Export ZArith Lia Ascii Sorted.
From stdpp Require Export base list strings sets sorting.

(** ** Text

    Python [str] values read from a trace opened in text mode are modelled
    as lists of ASCII characters; a character is one byte of the file, so
    a text offset is a byte offset. *)
Abbreviation text := (list ascii).

Definition txt (s : string) : text := String.list_ascii_of_string s.

Definition nl : ascii := "010"%char.

(** [s.count("\n")] *)
Definition count_nl (s : text) : nat := length (filter (λ c, c = nl) s).

(** [s.replace(old, new)] for a non-empty [old]: every occurrence, left to
    right, without overlaps.  One character or one occurrence is consumed
    per unit of fuel. *)
Fixpoint replace_go (fuel : nat) (old new s : text) : text :=
  match fuel with
  | O => s
  | S f =>
      match s with
      | [] => []
      | c :: r =>
          if bool_decide (old ≠ [] ∧ old `prefix_of` s)
          then new ++ replace_go f old new (drop (length old) s)
          else c :: replace_go f old new r
      end
  end.

Definition py_replace (old new s : text) : text := replace_go (S (length s)) old new s.

(** [s.endswith(suf)] *)
Definition ends_with (suf s : text) : bool := bool_decide (suf `suffix_of` s).

(** [s.split(sep)] for a one-character separator. *)
Fixpoint split_on (sep : ascii) (s : text) : list text :=
  match s with
  | [] => [[]]
  | c :: r =>
      if decide (c = sep) then [] :: split_on sep r
      else match split_on sep r with
           | x :: xs => (c :: x) :: xs
           | [] => [[c]]
           end
  end.

(** ** Python exceptions and the result type

    A Python call returns a value, raises an exception, or (in the model
    only) runs out of fuel: [NoFuel] is how a [while True] loop that has
    not finished within the fuel it was given is reported, never a value
    the program computes. *)
Inductive exn : Type :=
| ValueError
| AttributeError
| TypeError
| ZeroDivisionError
| OverflowError
| KeyError
| IndexError
| FileNotFoundError
| AssertionError
| RuntimeError (msg : string).

Inductive res (A : Type) : Type :=
| Ok (a : A)
| Err (e : exn)
| NoFuel.
Arguments Ok {A} a.
Arguments Err {A} e.
Arguments NoFuel {A}.

Definition res_bind {A B} (r : res A) (k : A → res B) : res B :=
  match r with
  | Ok a => k a
  | Err e => Err e
  | NoFuel => NoFuel
  end.

Declare Scope py_scope.
Delimit Scope py_scope with py.
Notation "x <- r ;; k" := (res_bind r (λ x, k))
  (at level 100, r at next level, right associativity) : py_scope.
Notation "'raise' e" := (Err e) (at level 10) : py_scope.
Open Scope py_scope.

(** [[f(x) for x in xs]] where [f] may raise: the first exception wins. *)
Fixpoint res_mapM {A B} (f : A → res B) (xs : list A) : res (list B) :=
  match xs with
  | [] => Ok []
  | x :: r => y <- f x ;; ys <- res_mapM f r ;; Ok (y :: ys)
  end.

(** ** Runs with effects

    A computation that makes effects of type [E] (files written, commands
    run, plots shown), in order, and returns a result: a writer monad over
    [res].  An exception keeps the effects made before it. *)
Definition run (E A : Type) : Type := (list E * res A)%type.

Definition run_bind {E A B} (m : run E A) (k : A → run E B) : run E B :=
  match m.2 with
  | Ok a => ((m.1 ++ (k a).1), (k a).2)
  | Err e => (m.1, Err e)
  | NoFuel => (m.1, NoFuel)
  end.

Definition lift {E A} (r : res A) : run E A := ([], r).
Definition emit {E} (e : E) : run E unit := ([e], Ok tt).

Notation "x <-- m ;;; k" := (run_bind m (λ x, k))
  (at level 100, m at next level, right associativity) : py_scope.

(** ** [while True] loops

    [loop fuel body s] runs [body] from state [s] until it returns
    [inr r] (a [break] or [return] carrying [r]) or raises.  Each
    iteration costs one unit of fuel. *)
Fixpoint loop {St R : Type} (fuel : nat) (body : St → res (St + R)) (s : St) : res R :=
  match fuel with
  | O => NoFuel
  | S n =>
      match body s with
      | Ok (inl s') => loop n body s'
      | Ok (inr r) => Ok r
      | Err e => Err e
      | NoFuel => NoFuel
      end
  end.

(** [loop] that also returns the state of the last iteration that ran,
    the one that returned or raised: what a loop has written to a file
    before an exception stays in the file. *)
Fixpoint loop_st {St R : Type} (fuel : nat) (body : St → res (St + R)) (s : St) : St * res R :=
  match fuel with
  | O => (s, NoFuel)
  | S n =>
      match body s with
      | Ok (inl s') => loop_st n body s'
      | Ok (inr r) => (s, Ok r)
      | Err e => (s, Err e)
      | NoFuel => (s, NoFuel)
      end
  end.

(** ** Proof automation *)

Create HintDb htl discriminated.
Create Rewrite HintDb htl_rw.

Ltac invc H := inversion H; subst; clear H.

(** Case on the [res] scrutinee of a goal or hypothesis. *)
Ltac res_cases :=
  repeat match goal with
  | H : context [match ?r with Ok _ => _ | Err _ => _ | NoFuel => _ end] |- _ =>
      let E := fresh "E" in destruct r eqn:E
  | |- context [match ?r with Ok _ => _ | Err _ => _ | NoFuel => _ end] =>
      let E := fresh "E" in destruct r eqn:E
  end.

(** Decide every integer comparison of the goal whose outcome [lia]
    proves from the context. *)
Ltac zcmp :=
  repeat match goal with
  | |- context [(?x <=? ?y)%Z] =>
      first [ rewrite (proj2 (Z.leb_le x y)) by lia
            | rewrite (proj2 (Z.leb_gt x y)) by lia ]
  | |- context [(?x <? ?y)%Z] =>
      first [ rewrite (proj2 (Z.ltb_lt x y)) by lia
            | rewrite (proj2 (Z.ltb_ge x y)) by lia ]
  end.

(** ** Generic lemmas *)

Lemma res_bind_ok {A B} (a : A) (k : A → res B) : res_bind (Ok a) k = k a.
Proof. reflexivity. Qed.

Lemma res_bind_err {A B} (e : exn) (k : A → res B) : res_bind (Err e) k = Err e.
Proof. reflexivity. Qed.

#[export] Hint Rewrite @res_bind_ok @res_bind_err : htl_rw.

Lemma loop_S {St R} n (body : St → res (St + R)) s :
  loop (S n) body s =
    match body s with
    | Ok (inl s') => loop n body s'
    | Ok (inr r) => Ok r
    | Err e => Err e
    | NoFuel => NoFuel
    end.
Proof. reflexivity. Qed.

Lemma loop_st_S {St R} n (body : St → res (St + R)) s :
  loop_st (S n) body s =
    match body s with
    | Ok (inl s') => loop_st n body s'
    | Ok (inr r) => (s, Ok r)
    | Err e => (s, Err e)
    | NoFuel => (s, NoFuel)
    end.
Proof. reflexivity. Qed.

(** The result of [loop_st] is the result of [loop]. *)
Lemma loop_st_res {St R} n (body : St → res (St + R)) s : (loop_st n body s).2 = loop n body s.
Proof.
  revert s. induction n as [|n IH]; intros s; [done|]. simpl.
  destruct (body s) as [[s'|r]|e|]; auto.
Qed.

Section LoopTheory.
Context {St R : Type} (body : St → res (St + R)).

(** Fuel monotonicity: a loop that finished with some fuel finishes the
    same way with more. *)
Lemma loop_mono n m s r :
  loop n body s = r → r ≠ NoFuel → n ≤ m → loop m body s = r.
Proof.
  revert m s. induction n as [|n IH]; intros m s Hl Hr Hle; [by subst|].
  destruct m as [|m]; [lia|]. rewrite loop_S in Hl |- *.
  destruct (body s) as [[s'|r']|e|]; auto with lia.
Qed.

(** A loop whose every [continue] step preserves [P] and strictly
    decreases a measure [mu] finishes within [mu s + 1] iterations. *)
Section Measure.
Context (P : St → Prop) (mu : St → nat).
Hypothesis step_dec : ∀ s s', P s → body s = Ok (inl s') → P s' ∧ mu s' < mu s.
Hypothesis step_fuel : ∀ s, P s → body s ≠ NoFuel.

Lemma loop_terminates n s : P s → mu s < n → loop n body s ≠ NoFuel.
Proof.
  revert s. induction n as [|n IH]; intros s HP Hlt; [lia|].
  rewrite loop_S. destruct (body s) as [[s'|r]|e|] eqn:E; try done.
  - destruct (step_dec s s' HP E). apply IH; auto with lia.
  - by apply step_fuel in HP.
Qed.

Lemma loop_fuel_indep n m s :
  P s → mu s < n → mu s < m → loop n body s = loop m body s.
Proof.
  intros HP Hn Hm.
  destruct (Nat.le_ge_cases n m).
  - symmetry. eapply loop_mono; eauto using loop_terminates.
  - eapply loop_mono; eauto using loop_terminates.
Qed.
(** A loop whose body never raises and whose every [break] value
    satisfies [Q] returns such a value, given enough fuel. *)
Lemma loop_total (Q : R → Prop) n s :
  (∀ s r, P s → body s = Ok (inr r) → Q r) →
  (∀ s e, P s → body s ≠ Err e) →
  P s → mu s < n → ∃ r, loop n body s = Ok r ∧ Q r.
Proof.
  intros Hq He. revert s. induction n as [|n IH]; intros s HP Hlt; [lia|].
  rewrite loop_S. destruct (body s) as [[s'|r]|e|] eqn:E.
  - destruct (step_dec s s' HP E). apply IH; auto with lia.
  - eauto.
  - by apply He in E.
  - by apply step_fuel in HP.
Qed.
End Measure.

(** A property of every [break] value is a property of the result. *)
Lemma loop_result_inv (P : St → Prop) (Q : R → Prop) n s r :
  (∀ s s', P s → body s = Ok (inl s') → P s') →
  (∀ s r, P s → body s = Ok (inr r) → Q r) →
  P s → loop n body s = Ok r → Q r.
Proof.
  intros Hp Hq. revert s. induction n as [|n IH]; intros s HP Hl; [done|].
  rewrite loop_S in Hl. destruct (body s) as [[s'|r']|e|] eqn:E; try done.
  - eauto.
  - invc Hl. eauto.
Qed.

(** A loop that can always [continue] never finishes, whatever the fuel. *)
Lemma loop_diverges (P : St → Prop) n s :
  (∀ s, P s → ∃ s', body s = Ok (inl s') ∧ P s') →
  P s → loop n body s = NoFuel.
Proof.
  intros Hc. revert s. induction n as [|n IH]; intros s HP; [done|].
  rewrite loop_S. destruct (Hc s HP) as (s' & -> & HP'). auto.
Qed.
End LoopTheory.

(** ** Lists *)

(** A [Forall] proved by evaluating a boolean test on a concrete list. *)
Lemma Forall_forallb {A} (P : A → Prop) (f : A → bool) l :
  (∀ x, f x = true → P x) → forallb f l = true → Forall P l.
Proof.
  intros Hf Hl. apply Forall_forall. intros x Hx%list_elem_of_In.
  apply Hf. exact (proj1 (forallb_forall f l) Hl x Hx).
Qed.

Lemma count_nl_app s t : count_nl (s ++ t) = count_nl s + count_nl t.
Proof. unfold count_nl. by rewrite filter_app, length_app. Qed.

#[export] Hint Rewrite count_nl_app : htl_rw.

(** Two neighbours of a sorted list are in order. *)
Lemma sorted_adjacent {A} (R : A → A → Prop) xs a b ys :
  Sorted R (xs ++ a :: b :: ys) → R a b.
Proof.
  induction xs as [|x xs IH]; intros Hs; simpl in Hs.
  - apply Sorted_inv in Hs as [_ Hh]. by inversion Hh.
  - apply Sorted_inv in Hs as [Hs _]. auto.
Qed.

Lemma sorted_cons2 {A} (R : A → A → Prop) a b l :
  Sorted R (a :: b :: l) ↔ R a b ∧ Sorted R (b :: l).
Proof.
  split.
  - intros Hs. apply Sorted_inv in Hs as [Hs Hh]. by inversion Hh.
  - intros [Hab Hs]. constructor; [done|]. by constructor.
Qed.

Lemma default_last_cons {A} (d x : A) l : default d (last (x :: l)) = default x (last l).
Proof.
  destruct l as [|y l]; [done|]. rewrite last_cons_cons.
  destruct (last (y :: l)) eqn:E; [done|]. by apply last_None in E.
Qed.

#[export] Hint Rewrite @default_last_cons : htl_rw.

(** Appending after the last element of a sorted list. *)
Lemma sorted_snoc {A} (R : A → A → Prop) l x :
  Sorted R l → (∀ y, last l = Some y → R y x) → Sorted R (l ++ [x]).
Proof.
  induction 1 as [|a l Hs IH Hh]; intros Hl; simpl; [by repeat constructor|].
  constructor.
  - apply IH. intros y Hy. apply Hl. destruct l as [|b l]; [done|]. by rewrite last_cons_cons.
  - destruct l as [|b l]; simpl.
    + constructor. by apply Hl.
    + inversion Hh; subst. by constructor.
Qed.

Lemma ok_inl_inj {A B} (x y : A) : @Ok (A + B) (inl x) = Ok (inl y) → y = x.
Proof. congruence. Qed.

Lemma ok_inr_inj {A B} (x y : B) : @Ok (A + B) (inr x) = Ok (inr y) → y = x.
Proof. congruence. Qed.

Lemma sorted_app_l {A} (R : A → A → Prop) l1 l2 : Sorted R (l1 ++ l2) → Sorted R l1.
Proof.
  induction l1 as [|x l1 IH]; intros Hs; [constructor|]. simpl in Hs.
  apply Sorted_inv in Hs as [Hs Hh]. constructor; [by apply IH|].
  destruct l1; constructor. by inversion Hh.
Qed.

(** In a sorted list every element is related to the last one. *)
Lemma sorted_snoc_last {A} (R : A → A → Prop) `{!Transitive R} l b a :
  Sorted R (l ++ [b]) → a ∈ l → R a b.
Proof.
  induction l as [|x l IH] in a |- *; intros Hs Ha; [by apply not_elem_of_nil in Ha|].
  simpl in Hs. apply Sorted_inv in Hs as [Hs Hh].
  apply elem_of_cons in Ha as [->|Ha]; [|by apply IH].
  destruct l as [|y l]; simpl in Hh; inversion Hh as [|? ? Hxy]; subst; [done|].
  etransitivity; [exact Hxy|]. apply (IH y); [done | apply elem_of_cons; by left].
Qed.

(** Any two values of a sorted [omap] over [0, n) are in order. *)
Lemma sorted_omap_seq (f : nat → option Z) n p q a b :
  Sorted Z.le (omap f (seq 0 n)) → p < q < n → f p = Some a → f q = Some b → (a ≤ b)%Z.
Proof.
  revert p q. induction n as [|n IH]; intros p q Hs Hpq Hp Hq; [lia|].
  rewrite seq_S, omap_app in Hs. simpl in Hs.
  destruct (decide (q = n)) as [->|Hne].
  - rewrite Hq in Hs. apply (@sorted_snoc_last Z Z.le Z.le_trans _ b a Hs).
    apply list_elem_of_omap. exists p. split; [rewrite elem_of_seq; lia | done].
  - apply sorted_app_l in Hs. apply (IH p q); [exact Hs | lia | done | done].
Qed.

(** [res_mapM] succeeds exactly when [f] succeeds on every element. *)
Lemma res_mapM_Forall2 {A B} (f : A → res B) xs ys :
  res_mapM f xs = Ok ys ↔ Forall2 (λ x y, f x = Ok y) xs ys.
Proof.
  revert ys. induction xs as [|x xs IH]; intros ys; simpl.
  - split; [intros [= <-]; constructor | intros H; by inversion H].
  - split.
    + destruct (f x) as [y| |] eqn:Ef; cbn [res_bind]; [|done|done].
      destruct (res_mapM f xs) as [zs| |] eqn:E; cbn [res_bind]; [|done|done].
      intros [= <-]. constructor; [done|]. by apply IH.
    + intros H. inversion H as [|? y ? zs Hy Hzs]; subst. rewrite Hy. cbn [res_bind].
      by rewrite (proj2 (IH zs) Hzs).
Qed.

(** The first element on which [f] raises decides the exception. *)
Lemma res_mapM_app_err {A B} (f : A → res B) pre x post e ys :
  res_mapM f pre = Ok ys → f x = Err e → res_mapM f (pre ++ x :: post) = Err e.
Proof.
  revert ys. induction pre as [|a pre IH]; intros ys Hpre Hx; simpl.
  - by rewrite Hx.
  - simpl in Hpre. destruct (f a); cbn [res_bind] in *; [|done|done].
    destruct (res_mapM f pre) eqn:E; cbn [res_bind] in Hpre; [|done|done].
    by rewrite (IH _ eq_refl Hx).
Qed.

Lemma res_mapM_err {A B} (f : A → res B) xs e :
  res_mapM f xs = Err e → ∃ x, x ∈ xs ∧ f x = Err e.
Proof.
  induction xs as [|x xs IH]; simpl; [done|].
  destruct (f x) eqn:Hx; cbn [res_bind]; [|intros [= <-]; exists x; split; [left|]; done|done].
  destruct (res_mapM f xs); cbn [res_bind]; [done| |done].
  intros [= <-]. destruct (IH eq_refl) as (y & Hy & Hf). exists y. split; [by right|done].
Qed.

Lemma split_on_no_sep sep s : sep ∉ s → split_on sep s = [s].
Proof.
  induction s as [|c s IH]; intros Hs; [done|]. simpl.
  rewrite decide_False by set_solver. rewrite IH by set_solver. done.
Qed.

Lemma split_on_pair sep a b : sep ∉ a → sep ∉ b → split_on sep (a ++ sep :: b) = [a; b].
Proof.
  intros Ha Hb. induction a as [|c a IH]; simpl.
  - rewrite decide_True by done. by rewrite split_on_no_sep.
  - rewrite decide_False by set_solver. rewrite IH by set_solver. done.
Qed.

Lemma split_on_nonempty c l : split_on c l ≠ [].
Proof. induction l as [|x l IH]; simpl; [done|]. case_decide; [done|]. by destruct (split_on c l). Qed.

(** When [f] never runs out of fuel and raises on an element, [res_mapM]
    raises, with the exception of some element. *)
Lemma res_mapM_raises {A B} (f : A → res B) xs x e :
  (∀ y, f y ≠ NoFuel) → x ∈ xs → f x = Err e →
  ∃ e', res_mapM f xs = Err e' ∧ ∃ y, y ∈ xs ∧ f y = Err e'.
Proof.
  intros Hf Hx He. induction xs as [|z xs IH]; [by apply not_elem_of_nil in Hx|]. simpl.
  destruct (f z) as [w|e'|] eqn:Hz; cbn [res_bind].
  - apply elem_of_cons in Hx as [->|Hx]; [congruence|].
    destruct (IH Hx) as (e' & -> & y & Hy & Hfy). exists e'. split; [done|].
    exists y. split; [by right|done].
  - exists e'. split; [done|]. exists z. split; [by left|done].
  - by destruct (Hf z).
Qed.

Lemma run_bind_lift_ok {E A B} (a : A) (k : A → run E B) : run_bind (lift (Ok a)) k = k a.
Proof. unfold run_bind. cbn. by destruct (k a). Qed.

Lemma run_bind_lift_err {E A B} e (k : A → run E B) : run_bind (lift (Err e)) k = ([], Err e).
Proof. done. Qed.

Lemma run_bind_emit {E B} (x : E) (k : unit → run E B) : run_bind (emit x) k = (x :: (k tt).1, (k tt).2).
Proof. done. Qed.

Lemma run_bind_ret {E B} (k : unit → run E B) : run_bind ([], Ok tt) k = k tt.
Proof. unfold run_bind. cbn. by destruct (k tt). Qed.

Lemma run_bind_ok {E A B} (l : list E) (x : A) (k : A → run E B) :
  run_bind (l, Ok x) k = (l ++ (k x).1, (k x).2).
Proof. reflexivity. Qed.

Lemma run_bind_err {E A B} (l : list E) e (k : A → run E B) : run_bind (l, Err e) k = (l, Err e).
Proof. reflexivity. Qed.

#[export] Hint Rewrite @run_bind_ret @run_bind_ok @run_bind_err @run_bind_emit
  @run_bind_lift_ok @run_bind_lift_err : htl_rw.

Lemma count_nl_concat (bls : list text) : count_nl (concat bls) = sum_list (map count_nl bls).
Proof. induction bls as [|b bls IH]; [done|]. simpl. by rewrite count_nl_app, IH. Qed.
