(* ===== verification/Json.v ===== *)
(** * JSON values and the JSON codec the engine calls

    The engine (src/htimeline/extract.py) decodes every trace line with
    [json.loads] (ujson when installed) and encodes extracted records and
    the summary with [json.dumps]/[json.dump].  This file holds

    - [json], the values those calls produce; Python's [None] is [JNull],
      so a failed decode (the code returns [None]) and a decoded [null]
      are the same value, as they are in the source;
    - the Python operations the engine applies to them: truthiness
      ([if j], [if ts]), [.keys()] (an [AttributeError] on a non-dict),
      and the numeric coercion behind [>=], [<=] and [max] (a [TypeError]
      on a non-number; [bool] is an [int] in Python);
    - [JsonCodec], the interface of the codec the engine calls, which the
      components are proved against, and [simple_codec], a small concrete
      codec used to run the model on concrete traces.  The codec is a
      library, not code of the repository, and is not mapped to source. *)

From S2P Require Import Prelude.

Local Set Warnings "-register-all".

Inductive json : Type :=
| JNull
| JBool (b : bool)
| JNum (n : Z)
| JStr (s : string)
| JArr (xs : list json)
| JObj (kvs : list (string * json)).

(** ** Python semantics of decoded values *)

(** [bool(j)] *)
Definition truthy (j : json) : bool :=
  match j with
  | JNull => false
  | JBool b => b
  | JNum n => negb (n =? 0)%Z
  | JStr s => negb (String.eqb s EmptyString)
  | JArr xs => if xs is [] then false else true
  | JObj kvs => if kvs is [] then false else true
  end.

(** [d[k]] on a decoded object: a duplicated key keeps its last value, as
    [json.loads] does. *)
Fixpoint dict_lookup (k : string) (kvs : list (string * json)) : option json :=
  match kvs with
  | [] => None
  | (k', v) :: r =>
      match dict_lookup k r with
      | Some w => Some w
      | None => if String.eqb k k' then Some v else None
      end
  end.

(** [k in j.keys()]: only a dict has [.keys()]. *)
Definition has_key (k : string) (j : json) : res bool :=
  match j with
  | JObj kvs => Ok (if dict_lookup k kvs is Some _ then true else false)
  | _ => Err AttributeError
  end.

(** The number a value stands for in [<], [<=], [max] and arithmetic. *)
Definition py_num (j : json) : res Z :=
  match j with
  | JNum n => Ok n
  | JBool b => Ok (Z.b2z b)
  | _ => Err TypeError
  end.

(** [a <= b] and [a < b] on two values, each coerced to a number; a
    number the code computes is passed as a [JNum]. *)
Definition py_le (a b : json) : res bool :=
  x <- py_num a ;; y <- py_num b ;; Ok (x <=? y)%Z.

Definition py_lt (a b : json) : res bool :=
  x <- py_num a ;; y <- py_num b ;; Ok (x <? y)%Z.

(** ** The codec interface *)

Class JsonCodec := {
  json_loads : text → option json;
  json_dumps : json → text
}.

(** What the engine relies on from the codec: decoding the empty string
    fails ([json.loads("")] raises), which is what [readline()] returns at
    the end of the file. *)
Class JsonLaws `{JsonCodec} := {
  loads_nil : json_loads [] = None
}.

(** ** A concrete codec

    Decodes the JSON subset used by test traces (null, booleans, integers,
    strings without escapes, arrays, objects) and prints in [json.dumps]'
    default style ([", "] and [": "] separators). *)

Definition is_json_ws (c : ascii) : bool :=
  match nat_of_ascii c with 9 | 10 | 13 | 32 => true | _ => false end.

Fixpoint skip_ws (l : text) : text :=
  match l with
  | c :: r => if is_json_ws c then skip_ws r else l
  | [] => []
  end.

Definition digit_val (c : ascii) : option Z :=
  let n := nat_of_ascii c in
  if (48 <=? n) && (n <=? 57) then Some (Z.of_nat (n - 48)) else None.

Fixpoint parse_digits (l : text) (acc : Z) : Z * text :=
  match l with
  | c :: r =>
      match digit_val c with
      | Some d => parse_digits r (acc * 10 + d)%Z
      | None => (acc, l)
      end
  | [] => (acc, [])
  end.

(** A natural literal; a leading [0] stands alone, as in JSON. *)
Definition parse_nat_lit (l : text) : option (Z * text) :=
  match l with
  | c :: r =>
      match digit_val c with
      | Some 0%Z => Some (0%Z, r)
      | Some d => Some (parse_digits r d)
      | None => None
      end
  | [] => None
  end.

Section Parser.
Local Open Scope char_scope.

Fixpoint parse_str_body (l : text) (acc : text) : option (string * text) :=
  match l with
  | [] => None
  | c :: r =>
      if decide (c = "034") then Some (String.string_of_list_ascii (rev acc), r)
      else if bool_decide (c = "\") || (nat_of_ascii c <? 32)%nat then None
      else parse_str_body r (c :: acc)
  end.

Fixpoint parse_value (fuel : nat) (l : text) : option (json * text) :=
  match fuel with
  | O => None
  | S f =>
      match skip_ws l with
      | "n" :: "u" :: "l" :: "l" :: r => Some (JNull, r)
      | "t" :: "r" :: "u" :: "e" :: r => Some (JBool true, r)
      | "f" :: "a" :: "l" :: "s" :: "e" :: r => Some (JBool false, r)
      | "034" :: r =>
          match parse_str_body r [] with
          | Some (s, r') => Some (JStr s, r')
          | None => None
          end
      | "[" :: r =>
          match skip_ws r with
          | "]" :: r' => Some (JArr [], r')
          | _ => parse_elems f r []
          end
      | "{" :: r =>
          match skip_ws r with
          | "}" :: r' => Some (JObj [], r')
          | _ => parse_members f r []
          end
      | "-" :: r =>
          match parse_nat_lit r with
          | Some (n, r') => Some (JNum (- n)%Z, r')
          | None => None
          end
      | l' =>
          match parse_nat_lit l' with
          | Some (n, r') => Some (JNum n, r')
          | None => None
          end
      end
  end
with parse_elems (fuel : nat) (l : text) (acc : list json) : option (json * text) :=
  match fuel with
  | O => None
  | S f =>
      match parse_value f l with
      | Some (v, r) =>
          match skip_ws r with
          | "," :: r' => parse_elems f r' (v :: acc)
          | "]" :: r' => Some (JArr (rev (v :: acc)), r')
          | _ => None
          end
      | None => None
      end
  end
with parse_members (fuel : nat) (l : text) (acc : list (string * json))
    : option (json * text) :=
  match fuel with
  | O => None
  | S f =>
      match skip_ws l with
      | "034" :: r =>
          match parse_str_body r [] with
          | Some (k, r1) =>
              match skip_ws r1 with
              | ":" :: r2 =>
                  match parse_value f r2 with
                  | Some (v, r3) =>
                      match skip_ws r3 with
                      | "," :: r4 => parse_members f r4 ((k, v) :: acc)
                      | "}" :: r4 => Some (JObj (rev ((k, v) :: acc)), r4)
                      | _ => None
                      end
                  | None => None
                  end
              | _ => None
              end
          | None => None
          end
      | _ => None
      end
  end.
End Parser.

(** Every constructor consumes at least one character, so fuel equal to
    the length of the input (plus one) is enough. *)
Definition simple_loads (l : text) : option json :=
  match parse_value (S (length l)) l with
  | Some (j, r) => if skip_ws r is [] then Some j else None
  | None => None
  end.

(** The last decimal digit of [n]. *)
Definition digit (n : Z) : ascii := ascii_of_nat (48 + Z.to_nat (n mod 10)).

Fixpoint z_digits (fuel : nat) (n : Z) (acc : text) : text :=
  match fuel with
  | O => acc
  | S f =>
      let d := digit n in
      if (n <? 10)%Z then d :: acc else z_digits f (n / 10)%Z (d :: acc)
  end.

(** A number has at most as many decimal digits as binary ones. *)
Definition show_Z (z : Z) : text :=
  if (z <? 0)%Z then "-"%char :: z_digits (S (Z.to_nat (Z.log2 (- z)))) (- z) []
  else z_digits (S (Z.to_nat (Z.log2 z))) z [].

Fixpoint join_sep (sep : text) (l : list text) : text :=
  match l with
  | [] => []
  | [x] => x
  | x :: r => x ++ sep ++ join_sep sep r
  end.

(** JSON text written with single quotes for double ones, for examples. *)
Definition jtxt (s : string) : text :=
  map (λ c, if decide (c = "'"%char) then "034"%char else c) (txt s).

Definition quote (s : string) : text := "034"%char :: txt s ++ ["034"%char].

Fixpoint simple_dumps (j : json) : text :=
  match j with
  | JNull => txt "null"
  | JBool true => txt "true"
  | JBool false => txt "false"
  | JNum n => show_Z n
  | JStr s => quote s
  | JArr xs => "["%char :: join_sep (txt ", ") (map simple_dumps xs) ++ ["]"%char]
  | JObj kvs =>
      "{"%char :: join_sep (txt ", ")
        (map (λ kv, quote kv.1 ++ txt ": " ++ simple_dumps kv.2) kvs) ++ ["}"%char]
  end.

Definition simple_codec : JsonCodec :=
  {| json_loads := simple_loads; json_dumps := simple_dumps |}.

#[export] Instance simple_codec_laws : @JsonLaws simple_codec.
Proof. split. reflexivity. Qed.

(** ** Lemmas *)

Lemma py_le_num (x y : Z) : py_le (JNum x) (JNum y) = Ok (x <=? y)%Z.
Proof. reflexivity. Qed.

Lemma py_lt_num (x y : Z) : py_lt (JNum x) (JNum y) = Ok (x <? y)%Z.
Proof. reflexivity. Qed.

#[export] Hint Rewrite py_le_num py_lt_num : htl_rw.

Lemma has_key_obj k kvs :
  has_key k (JObj kvs) = Ok (if dict_lookup k kvs is Some _ then true else false).
Proof. reflexivity. Qed.

Example simple_loads_record :
  simple_loads (jtxt "{'ts': 5, 'name': 'allreduce'}") =
    Some (JObj [("ts", JNum 5); ("name", JStr "allreduce")]).
Proof. vm_compute. reflexivity. Qed.

Example simple_dumps_record :
  simple_dumps (JObj [("ts", JNum 120); ("ph", JStr "B")]) =
    jtxt "{'ts': 120, 'ph': 'B'}".
Proof. vm_compute. reflexivity. Qed.

(** ** Decimal digits *)

Lemma z_digits_app f n acc : z_digits f n acc = z_digits f n [] ++ acc.
Proof.
  revert n acc. induction f as [|f IH]; intros n acc; [done|].
  cbn [z_digits]. destruct (n <? 10)%Z; [done|].
  rewrite IH, (IH _ [_]). by rewrite <-app_assoc.
Qed.

Lemma z_digits_fuel f g n acc :
  (0 <= n < 10 ^ Z.of_nat (S f))%Z → (f <= g)%nat →
  z_digits (S g) n acc = z_digits (S f) n acc.
Proof.
  revert g n acc. induction f as [|f IH]; intros g n acc Hn Hg; cbn [z_digits].
  - by rewrite (proj2 (Z.ltb_lt n 10)) by (simpl in Hn; lia).
  - destruct (n <? 10)%Z eqn:E; [done|].
    destruct g as [|g]; [lia|]. apply IH; [|lia].
    rewrite Nat2Z.inj_succ, Z.pow_succ_r in Hn by lia.
    split; [apply Z.div_pos; lia|]. apply Z.div_lt_upper_bound; lia.
Qed.

Lemma show_Z_fuel n : (0 <= n)%Z → (n < 10 ^ Z.of_nat (S (Z.to_nat (Z.log2 n))))%Z.
Proof.
  intros Hn. rewrite Nat2Z.inj_succ, Z2Nat.id by apply Z.log2_nonneg.
  apply Z.lt_le_trans with (2 ^ Z.succ (Z.log2 n))%Z.
  - destruct (Z.eq_dec n 0%Z) as [->|]; [simpl; lia|]. apply Z.log2_spec; lia.
  - apply Z.pow_le_mono_l. split; [lia|lia].
Qed.

Lemma z_digits_fuel_eq f g n acc :
  (0 <= n < 10 ^ Z.of_nat (S f))%Z → (n < 10 ^ Z.of_nat (S g))%Z →
  z_digits (S f) n acc = z_digits (S g) n acc.
Proof.
  intros Hf Hg. destruct (Nat.le_ge_cases f g).
  - symmetry. apply z_digits_fuel; [done|lia].
  - apply z_digits_fuel; [lia|lia].
Qed.

Lemma z_digits_step f n acc :
  (10 <= n)%Z → z_digits (S f) n acc = z_digits f (n / 10) (digit n :: acc).
Proof. intros Hn. cbn [z_digits]. by rewrite (proj2 (Z.ltb_ge n 10)) by lia. Qed.

Lemma show_Z_nonneg n : (0 <= n)%Z → show_Z n = z_digits (S (Z.to_nat (Z.log2 n))) n [].
Proof. intros Hn. unfold show_Z. by rewrite (proj2 (Z.ltb_ge n 0)) by lia. Qed.

Lemma show_Z_snoc n : (10 <= n)%Z → show_Z n = show_Z (n / 10) ++ [digit n].
Proof.
  intros Hn. assert (Hq : (0 <= n / 10)%Z) by (apply Z.div_pos; lia).
  rewrite !show_Z_nonneg by lia.
  pose proof (show_Z_fuel n ltac:(lia)) as Hf.
  pose proof (show_Z_fuel (n / 10) Hq) as Hf2.
  destruct (Z.to_nat (Z.log2 n)) as [|L] eqn:EL.
  { simpl in Hf. lia. }
  rewrite z_digits_step, z_digits_app by lia. f_equal. apply z_digits_fuel_eq; [split; [done|]|done].
  rewrite Nat2Z.inj_succ, Z.pow_succ_r in Hf by lia.
  apply Z.div_lt_upper_bound; lia.
Qed.

Lemma show_Z_small n : (0 <= n < 10)%Z → show_Z n = [digit n].
Proof.
  intros Hn. rewrite show_Z_nonneg by lia. cbn [z_digits].
  by rewrite (proj2 (Z.ltb_lt n 10)) by lia.
Qed.

Lemma show_Z_nonempty n : (0 <= n)%Z → show_Z n ≠ [].
Proof.
  intros Hn. rewrite show_Z_nonneg by lia. cbn [z_digits].
  destruct (n <? 10)%Z; [done|]. rewrite z_digits_app. by destruct (z_digits _ _ _).
Qed.
