(* ===== verification/PyFloat.v ===== *)
(** * Python's [float] arithmetic on binary64

    The engine mixes [int]s and [float]s in three places: the sidecar's
    [duration_secs = (max_ts - min_ts) / MICROSECONDS_PER_SEC], the index
    stride [int(file_size_bytes / (duration_secs / secs_per_index))]
    (src/htimeline/extract.py 172, 200, 204-205) and the printed sizes and
    averages.  CPython evaluates them as follows, and so does this file:

    - an [int] operand of [/] next to a [float] is converted first
      ([PyLong_AsDouble]): rounded to nearest, ties to even, and an
      [OverflowError] when the rounded value would reach [2 ^ 1024];
    - [a / b] on floats raises [ZeroDivisionError] when [b] is a zero of
      either sign, and is otherwise the IEEE quotient;
    - [int(x)] truncates toward zero, raises [OverflowError] on an
      infinity and [ValueError] on a NaN.

    Floats are the kernel's primitive binary64 numbers; their meaning is
    read through [Prim2SF] and the specifications of [FloatAxioms].  The
    lemmas say what the stride's zero-division argument needs: an
    integer converts to a float that is never a NaN, so [0 / float(s)] is
    a zero whenever the division is allowed. *)

From Stdlib Require Import PrimFloat SpecFloat FloatOps FloatAxioms.
From S2P Require Import Prelude.

(** ** Conversions and division *)

(** [float(n)] for a Python [int]: round to nearest, ties to even. *)
Definition float_of_Z (z : Z) : float := SF2Prim (binary_normalize 53 1024 z 0 false).

(** The least magnitude that rounds to [2 ^ 1024]: halfway between the
    largest double [(2 ^ 53 - 1) * 2 ^ 971] and [2 ^ 1024], a tie that
    goes to the even [2 ^ 1024]. *)
Definition FLOAT_INT_LIMIT : Z := (2 ^ 1024 - 2 ^ 970)%Z.

(** The implicit conversion of an [int] operand ([PyLong_AsDouble]). *)
Definition py_float_of_int (z : Z) : res float :=
  if (Z.abs z <? FLOAT_INT_LIMIT)%Z then Ok (float_of_Z z) else Err OverflowError.

(** [a / b] on two floats ([float_div]). *)
Definition py_truediv (a b : float) : res float :=
  if (b =? 0)%float then Err ZeroDivisionError else Ok (a / b)%float.

(** [int / float] and [float / int]: the [int] is converted, then divided. *)
Definition py_int_div_float (a : Z) (b : float) : res float :=
  x <- py_float_of_int a ;; py_truediv x b.

Definition py_float_div_int (a : float) (b : Z) : res float :=
  y <- py_float_of_int b ;; py_truediv a y.

(** [int(x)] of a float: truncation toward zero of [m * 2 ^ e]. *)
Definition py_int_of_float (x : float) : res Z :=
  match Prim2SF x with
  | S754_zero _ => Ok 0%Z
  | S754_infinity _ => Err OverflowError
  | S754_nan => Err ValueError
  | S754_finite s m e =>
      let n := if (0 <=? e)%Z then Z.shiftl (Zpos m) e else Z.shiftr (Zpos m) (- e) in
      Ok (if s then (- n)%Z else n)
  end.

(** [int / int] ([long_true_divide]): a zero divisor raises; operands
    below [2 ^ 53] in magnitude are converted exactly and divided once
    (the fast path); larger ones give the correctly rounded quotient,
    [OverflowError] when it is too large for a float. *)
Definition int_div_round (a b : Z) : spec_float :=
  let '(m, e, l) := SFdiv_core_binary 53 1024 (Z.abs a) 0 (Z.abs b) 0 in
  binary_round_aux 53 1024 (xorb (a <? 0)%Z (b <? 0)%Z) m e l.

Definition py_int_truediv (a b : Z) : res float :=
  if (b =? 0)%Z then Err ZeroDivisionError
  else if (Z.abs a <? 2 ^ 53)%Z && (Z.abs b <? 2 ^ 53)%Z then Ok (float_of_Z a / float_of_Z b)%float
  else match int_div_round a b with
       | S754_infinity _ => Err OverflowError
       | r => Ok (SF2Prim r)
       end.

(** ** Python numbers

    A value that is an [int] or a [float], as the [nu.py] code mixes
    them: [+], [*] and [/] convert an [int] operand when the other one is
    a float, [int + int] and [int * int] stay exact, [/] always gives a
    float. *)
Inductive pynum := PInt (z : Z) | PFloat (f : float).

Definition float_of_num (x : pynum) : res float :=
  match x with PInt z => py_float_of_int z | PFloat f => Ok f end.

Definition py_add (a b : pynum) : res pynum :=
  match a, b with
  | PInt x, PInt y => Ok (PInt (x + y))
  | _, _ => x <- float_of_num a ;; y <- float_of_num b ;; Ok (PFloat (x + y)%float)
  end.

Definition py_mul (a b : pynum) : res pynum :=
  match a, b with
  | PInt x, PInt y => Ok (PInt (x * y))
  | _, _ => x <- float_of_num a ;; y <- float_of_num b ;; Ok (PFloat (x * y)%float)
  end.

Definition py_div (a b : pynum) : res pynum :=
  match a, b with
  | PInt x, PInt y => f <- py_int_truediv x y ;; Ok (PFloat f)
  | _, _ => x <- float_of_num a ;; y <- float_of_num b ;; f <- py_truediv x y ;; Ok (PFloat f)
  end.

(** [z < x] and [z > x] for an [int] [z]: CPython compares an [int] with
    a [float] by their exact values (the float [m * 2 ^ e] against the
    integer), never by rounding the [int]; a NaN makes both false. *)
Definition cmp_float_Z (z : Z) (f : float) : option comparison :=
  match Prim2SF f with
  | S754_nan => None
  | S754_infinity s => Some (if s then Gt else Lt)
  | S754_zero _ => Some (Z.compare z 0)
  | S754_finite s m e =>
      let v := if s then Zneg m else Zpos m in
      Some (if (0 <=? e)%Z then Z.compare z (v * 2 ^ e) else Z.compare (z * 2 ^ (- e)) v)
  end.

Definition cmp_Z_num (z : Z) (x : pynum) : option comparison :=
  match x with PInt y => Some (Z.compare z y) | PFloat f => cmp_float_Z z f end.

Definition py_lt_Z (z : Z) (x : pynum) : bool := if cmp_Z_num z x is Some Lt then true else false.
Definition py_gt_Z (z : Z) (x : pynum) : bool := if cmp_Z_num z x is Some Gt then true else false.

(** ** Rounding never produces a NaN *)

Lemma shr_record_of_loc_m m l : shr_m (shr_record_of_loc m l) = m.
Proof. by destruct l as [|[]]. Qed.

Lemma shr_1_nonneg mrs : (0 ≤ shr_m mrs)%Z → (0 ≤ shr_m (shr_1 mrs))%Z.
Proof. destruct mrs as [[|[p|p|]|p] r s]; cbn; lia. Qed.

Lemma iter_shr_1_nonneg (p : positive) mrs : (0 ≤ shr_m mrs)%Z → (0 ≤ shr_m (SpecFloat.iter_pos shr_1 p mrs))%Z.
Proof. revert mrs. induction p; intros mrs H; cbn; auto using shr_1_nonneg. Qed.

Lemma shr_fexp_nonneg prec emax m e l :
  (0 ≤ m)%Z → (0 ≤ shr_m (fst (shr_fexp prec emax m e l)))%Z.
Proof.
  intros Hm. unfold shr_fexp, shr.
  destruct (_ - e)%Z; cbn; rewrite ?shr_record_of_loc_m; auto.
  apply iter_shr_1_nonneg. by rewrite shr_record_of_loc_m.
Qed.

Lemma round_nearest_even_nonneg m l : (0 ≤ m)%Z → (0 ≤ round_nearest_even m l)%Z.
Proof. destruct l as [|[]]; cbn; try destruct (Z.even m); lia. Qed.

Lemma binary_round_aux_not_nan prec emax sx mx ex lx :
  (0 ≤ mx)%Z → binary_round_aux prec emax sx mx ex lx ≠ S754_nan.
Proof.
  intros Hm. unfold binary_round_aux.
  pose proof (shr_fexp_nonneg prec emax mx ex lx Hm) as H1.
  destruct (shr_fexp prec emax mx ex lx) as [mrs' e'].
  pose proof (shr_fexp_nonneg prec emax (round_nearest_even (shr_m mrs') (loc_of_shr_record mrs'))
                e' loc_Exact (round_nearest_even_nonneg _ _ H1)) as H2.
  destruct (shr_fexp _ _ _ _ _) as [mrs'' e'']; cbn in H2.
  destruct (shr_m mrs''); [done| |lia]. by destruct (_ <=? _)%Z.
Qed.

Lemma binary_normalize_not_nan prec emax m e sz :
  binary_normalize prec emax m e sz ≠ S754_nan.
Proof.
  destruct m as [|p|p]; [done| |]; unfold binary_normalize, binary_round;
    destruct (shl_align _ _ _); apply binary_round_aux_not_nan; lia.
Qed.

Lemma SFldexp_not_nan prec emax f e : f ≠ S754_nan → SFldexp prec emax f e ≠ S754_nan.
Proof.
  destruct f; cbn; try done. intros _. unfold binary_round.
  destruct (shl_align _ _ _). apply binary_round_aux_not_nan. lia.
Qed.

Lemma float_of_Z_not_nan z : Prim2SF (float_of_Z z) ≠ S754_nan.
Proof.
  unfold float_of_Z. pose proof (binary_normalize_not_nan 53 1024 z 0 false) as Hn.
  destruct (binary_normalize _ _ _ _ _) as [[]|[]| |s m e]; try (vm_compute; discriminate); [done|].
  cbn [SF2Prim]. unfold FloatOps.Z.ldexp.
  match goal with |- Prim2SF (if s then (- ?f)%float else ?f) ≠ _ =>
    assert (Prim2SF f ≠ S754_nan) as Hf end.
  { rewrite ldshiftexp_spec, of_uint63_spec. apply SFldexp_not_nan, binary_normalize_not_nan. }
  destruct s; [rewrite opp_spec|]; [|exact Hf].
  destruct (Prim2SF _); cbn; congruence.
Qed.

(** ** Division of zero *)

Lemma Prim2SF_zero : Prim2SF 0%float = S754_zero false.
Proof. vm_compute. reflexivity. Qed.

(** [0.0 / float(s)] is a zero whenever [float(s)] is not. *)
Lemma zero_div_float_of_Z z :
  (float_of_Z z =? 0)%float = false → ((0 / float_of_Z z) =? 0)%float = true.
Proof.
  rewrite !FloatAxioms.eqb_spec, div_spec, !Prim2SF_zero.
  pose proof (float_of_Z_not_nan z) as Hn.
  destruct (Prim2SF (float_of_Z z)); cbn; done.
Qed.

(** Dividing by a zero raises, whatever the dividend. *)
Lemma py_truediv_zero a b : (b =? 0)%float = true → py_truediv a b = Err ZeroDivisionError.
Proof. intros H. unfold py_truediv. by rewrite H. Qed.

Lemma py_float_of_int_small z :
  (Z.abs z < FLOAT_INT_LIMIT)%Z → py_float_of_int z = Ok (float_of_Z z).
Proof. intros H. unfold py_float_of_int. by rewrite (proj2 (Z.ltb_lt _ _) H). Qed.

(** ** Python numbers: errors and order *)

Lemma float_of_num_err x e : float_of_num x = Err e → e = OverflowError.
Proof. destruct x; cbn; [unfold py_float_of_int; case_match|]; congruence. Qed.

Lemma py_int_truediv_err a b e : py_int_truediv a b = Err e → e = ZeroDivisionError ∨ e = OverflowError.
Proof. unfold py_int_truediv. repeat case_match; intros [=]; auto. Qed.

Lemma py_truediv_err a b e : py_truediv a b = Err e → e = ZeroDivisionError.
Proof. unfold py_truediv. case_match; congruence. Qed.

(** Case analysis on the [res] values a goal binds. *)
Ltac res_cases :=
  repeat match goal with
  | |- context [res_bind ?r _] => let E := fresh "E" in destruct r eqn:E; cbn [res_bind]
  end.

(** The arithmetic raises [ZeroDivisionError] or [OverflowError] only,
    and always returns. *)
Lemma py_arith_err op a b e :
  op ∈ [py_add; py_mul; py_div] → op a b = Err e → e = ZeroDivisionError ∨ e = OverflowError.
Proof.
  intros Hop. repeat (apply elem_of_cons in Hop as [->|Hop]); [| | |by apply not_elem_of_nil in Hop];
    destruct a as [x|x], b as [y|y]; cbn [py_add py_mul py_div]; res_cases; try done; intros [= <-];
    first [ right; by eapply float_of_num_err | by eapply py_int_truediv_err | left; by eapply py_truediv_err ].
Qed.

Lemma py_arith_nofuel op a b : op ∈ [py_add; py_mul; py_div] → op a b ≠ NoFuel.
Proof.
  intros Hop. repeat (apply elem_of_cons in Hop as [->|Hop]); [| | |by apply not_elem_of_nil in Hop];
    destruct a as [x|x], b as [y|y]; cbn [py_add py_mul py_div]; res_cases; try done;
    match goal with
    | H : float_of_num _ = NoFuel |- _ => revert H; cbn; unfold py_float_of_int; case_match
    | H : py_int_truediv _ _ = NoFuel |- _ => revert H; unfold py_int_truediv; repeat case_match
    | H : py_truediv _ _ = NoFuel |- _ => revert H; unfold py_truediv; case_match
    end; done.
Qed.

(** Past a bound, every later integer is past it: [z > x] is monotone in [z]. *)
Lemma py_gt_Z_mono z z' x : py_gt_Z z x = true → (z ≤ z')%Z → py_gt_Z z' x = true.
Proof.
  unfold py_gt_Z, cmp_Z_num. intros H Hle. destruct x as [y|f].
  - destruct (Z.compare_spec z y); try done. destruct (Z.compare_spec z' y); lia.
  - unfold cmp_float_Z in *. destruct (Prim2SF f) as [s|s| |s m e]; try done.
    + destruct (Z.compare_spec z 0); try done. destruct (Z.compare_spec z' 0); lia.
    + destruct (Z.leb_spec 0 e).
      * destruct (Z.compare_spec z ((if s then Zneg m else Zpos m) * 2 ^ e)); try done.
        destruct (Z.compare_spec z' ((if s then Zneg m else Zpos m) * 2 ^ e)); lia.
      * assert (0 < 2 ^ (- e))%Z by (apply Z.pow_pos_nonneg; lia).
        destruct (Z.compare_spec (z * 2 ^ (- e)) (if s then Zneg m else Zpos m)); try done.
        destruct (Z.compare_spec (z' * 2 ^ (- e)) (if s then Zneg m else Zpos m)); nia.
Qed.

Lemma py_lt_Z_int z y : py_lt_Z z (PInt y) = (z <? y)%Z.
Proof. unfold py_lt_Z, cmp_Z_num. destruct (Z.compare_spec z y); symmetry; [apply Z.ltb_ge|apply Z.ltb_lt|apply Z.ltb_ge]; lia. Qed.

Lemma py_gt_Z_int z y : py_gt_Z z (PInt y) = (y <? z)%Z.
Proof. unfold py_gt_Z, cmp_Z_num. destruct (Z.compare_spec z y); symmetry; [apply Z.ltb_ge|apply Z.ltb_ge|apply Z.ltb_lt]; lia. Qed.

(** Below [2 ^ 53] the quotient of two integers is one rounded division. *)
Lemma py_int_truediv_small a b :
  b ≠ 0%Z → (Z.abs a < 2 ^ 53)%Z → (Z.abs b < 2 ^ 53)%Z →
  py_int_truediv a b = Ok (float_of_Z a / float_of_Z b)%float.
Proof.
  intros Hb Ha Hb'. unfold py_int_truediv.
  rewrite (proj2 (Z.eqb_neq _ _) Hb), (proj2 (Z.ltb_lt _ _) Ha), (proj2 (Z.ltb_lt _ _) Hb'). done.
Qed.

Lemma py_int_truediv_zero a : py_int_truediv a 0 = Err ZeroDivisionError.
Proof. done. Qed.

(** An [int] operand that converts. *)
Definition small_num (x : pynum) : Prop :=
  match x with PInt z => (Z.abs z < FLOAT_INT_LIMIT)%Z | PFloat _ => True end.

Lemma float_of_num_small x : small_num x → ∃ f, float_of_num x = Ok f.
Proof. destruct x as [z|f]; cbn; [intros H; rewrite py_float_of_int_small by done|]; by eexists. Qed.

(** Adding a float to a number that converts gives a float. *)
Lemma py_add_float a g : small_num a → ∃ f, py_add a (PFloat g) = Ok (PFloat f).
Proof.
  intros Ha. destruct (float_of_num_small a Ha) as [x Hx].
  destruct a; cbn [py_add]; rewrite Hx; cbn; by eexists.
Qed.

Lemma py_div_float_int x n :
  (Z.abs n < FLOAT_INT_LIMIT)%Z → (float_of_Z n =? 0)%float = false →
  py_div (PFloat x) (PInt n) = Ok (PFloat (x / float_of_Z n)%float).
Proof.
  intros Hn Hz. cbn [py_div float_of_num res_bind]. rewrite py_float_of_int_small by done.
  cbn [res_bind]. unfold py_truediv. by rewrite Hz.
Qed.

Lemma py_mul_float_int x n :
  (Z.abs n < FLOAT_INT_LIMIT)%Z → py_mul (PFloat x) (PInt n) = Ok (PFloat (x * float_of_Z n)%float).
Proof. intros Hn. cbn [py_mul float_of_num res_bind]. by rewrite py_float_of_int_small by done. Qed.

Lemma py_add_err a b e : py_add a b = Err e → e = ZeroDivisionError ∨ e = OverflowError.
Proof. apply py_arith_err. by apply elem_of_cons; left. Qed.

Lemma py_mul_err a b e : py_mul a b = Err e → e = ZeroDivisionError ∨ e = OverflowError.
Proof. apply py_arith_err. apply elem_of_cons; right. by apply elem_of_cons; left. Qed.

Lemma py_div_err a b e : py_div a b = Err e → e = ZeroDivisionError ∨ e = OverflowError.
Proof. apply py_arith_err. do 2 (apply elem_of_cons; right). by apply elem_of_cons; left. Qed.
