(* ===== verification/PosixPath.v ===== *)
(** * [posixpath]: the path functions the command lines call

    [os.path.normpath], [os.path.join] and [os.path.abspath] as CPython's
    [posixpath] module writes them, on text; [abspath] takes the current
    directory ([os.getcwd()]) as an argument.  Library code, not code of
    the repository: used by [NetCli] and [HtlCli]. *)

From S2P Require Import Prelude Json.

(** [os.path.normpath]: [.] and empty components dropped, [..] removing
    the component before it (kept at the start of a relative path). *)
Definition norm_step (initial_slashes : bool) (new_comps : list text) (comp : text) : list text :=
  if bool_decide (comp = []) || bool_decide (comp = txt ".") then new_comps
  else if negb (bool_decide (comp = txt "..")) || (negb initial_slashes && bool_decide (new_comps = []))
          || bool_decide (head new_comps = Some (txt ".."))
  then comp :: new_comps
  else tail new_comps.

Definition normpath_nonempty (path : text) : text :=
  let initial_slashes : nat :=
    if bool_decide (txt "//" `prefix_of` path) && negb (bool_decide (txt "///" `prefix_of` path)) then 2
    else if bool_decide (txt "/" `prefix_of` path) then 1 else 0 in
  let comps := rev (foldl (norm_step (bool_decide (initial_slashes ≠ 0))) [] (split_on "/"%char path)) in
  let p := replicate initial_slashes "/"%char ++ join_sep [ "/"%char ] comps in
  if p is [] then txt "." else p.

Definition normpath (path : text) : text := if path is [] then txt "." else normpath_nonempty path.

(** [os.path.join(a, b)] *)
Definition path_join (a b : text) : text :=
  if bool_decide (txt "/" `prefix_of` b) then b
  else if bool_decide (a = []) || ends_with (txt "/") a then a ++ b
  else a ++ "/"%char :: b.

(** [os.path.abspath(p)], [cwd] being [os.getcwd()]. *)
Definition abspath (cwd p : text) : text :=
  normpath (if bool_decide (txt "/" `prefix_of` p) then p else path_join cwd p).

(** ** Lemmas *)

Lemma normpath_not_nil p : normpath p ≠ [].
Proof. unfold normpath, normpath_nonempty. destruct p; [done|]. by case_match. Qed.

Lemma split_on_app_sep c a b : split_on c (a ++ c :: b) = split_on c a ++ split_on c b.
Proof.
  induction a as [|x a IH]; simpl; [by rewrite decide_True|].
  case_decide; [by rewrite IH|]. rewrite IH.
  destruct (split_on c a) as [|y ys] eqn:E; [by destruct (split_on_nonempty c a)|]. done.
Qed.

Lemma prefix_iff_take {A} (p l : list A) : p `prefix_of` l ↔ take (length p) l = p.
Proof.
  split; [intros [k ->]; apply take_app_length|].
  intros H. exists (drop (length p) l). rewrite <- H at 1. by rewrite take_drop.
Qed.

(** The first [length a + 1] characters of [a ++ c :: x] do not depend on [x]. *)
Lemma prefix_app_cons_indep {A} (p a x y : list A) (c : A) :
  length p ≤ length a + 1 → p `prefix_of` a ++ c :: x ↔ p `prefix_of` a ++ c :: y.
Proof.
  intros Hl. rewrite !prefix_iff_take, !take_app.
  destruct (length p - length a) as [|[|k]] eqn:E; [done|done|lia].
Qed.

Lemma norm_step_dot i acc : norm_step i acc ["."%char] = acc.
Proof. unfold norm_step. by rewrite (bool_decide_true (["."%char] = txt ".")), orb_true_r. Qed.

(** A [.] component changes nothing past the first two characters. *)
Lemma normpath_dot a x :
  2 ≤ length a → normpath (a ++ "/"%char :: "."%char :: "/"%char :: x) = normpath (a ++ "/"%char :: x).
Proof.
  intros Ha. destruct a as [|c0 a]; [simpl in Ha; lia|]. unfold normpath. cbn [app].
  change (c0 :: a ++ "/"%char :: "."%char :: "/"%char :: x) with ((c0 :: a) ++ "/"%char :: "."%char :: "/"%char :: x).
  change (c0 :: a ++ "/"%char :: x) with ((c0 :: a) ++ "/"%char :: x).
  unfold normpath_nonempty.
  rewrite !(bool_decide_ext (_ `prefix_of` (c0 :: a) ++ "/"%char :: "."%char :: _)
                            (_ `prefix_of` (c0 :: a) ++ "/"%char :: x))
    by (apply prefix_app_cons_indep; simpl in *; lia).
  rewrite !split_on_app_sep. change ("."%char :: "/"%char :: x) with (txt "." ++ "/"%char :: x).
  rewrite split_on_app_sep, !foldl_app, (split_on_no_sep "/"%char (txt ".")) by set_solver.
  cbn [foldl]. by rewrite norm_step_dot.
Qed.

Lemma path_join_rel a b :
  txt "/" `prefix_of` a → ¬ txt "/" `suffix_of` a → ¬ txt "/" `prefix_of` b →
  path_join a b = a ++ "/"%char :: b.
Proof.
  intros Ha Hs Hb. unfold path_join, ends_with. rewrite bool_decide_false by done.
  rewrite (bool_decide_false (a = [])) by (intros ->; by apply prefix_nil_not in Ha).
  by rewrite bool_decide_false.
Qed.

(** Joining a relative, non-empty component gives a non-empty path. *)
Lemma path_join_nonempty a b : b ≠ [] → path_join a b ≠ [].
Proof.
  intros Hb. unfold path_join. case_bool_decide; [done|].
  case_match; [by destruct a, b|by destruct a].
Qed.

