(* ===== verification/Progress.v ===== *)
(** * Console output of extract.py: number formatting and the progress bar

    The module-level helpers of [src/htimeline/extract.py] that produce
    what a run prints (lines 10-103): [humanize] ("{:,}"),
    [humanize_float] ("{0:,.2f}"), [humanize_bytes], the [print] that
    writes to [sys.stdout], the global [spinner] and the fallback [tqdm]
    class used when the [tqdm] package is missing (31-77).

    Floats are the kernel's primitive binary64 numbers, so [float(n)],
    [/], [*], [-], [<] and [!=] are Python's operations exactly.  A float
    is printed with two decimals from its exact value (mantissa and
    exponent, read with [Prim2SF]), rounded half to even, as CPython's
    formatting does.

    The console is a record: the position of the shared [spinner]
    ([itertools.cycle], one for the whole module) and the text written to
    [stdout] so far.  A [tqdm] object is a record of its four attributes;
    the clock that [time.time()] reads is an argument of [update] and of
    the constructor. *)

From Stdlib Require Import PrimFloat SpecFloat FloatOps.
From S2P Require Import Prelude Json PyFloat.

(** ** Floats *)

(** [n * 100] rounded half to even, for the value [m * 2 ^ e]. *)
Definition round_hundredths (m e : Z) : Z :=
  if (0 <=? e)%Z then m * 100 * 2 ^ e
  else
    let d := (2 ^ (- e))%Z in
    let q := (m * 100 / d)%Z in
    let r := (m * 100 mod d)%Z in
    if (d <? 2 * r)%Z then q + 1
    else if (2 * r =? d)%Z then (if Z.odd q then q + 1 else q)
    else q.

(** The two digits of [0 <= k < 100]. *)
Definition pad2 (k : Z) : text := [digit (k / 10); digit k].

(** ** "{:,}": digits grouped by three from the right *)

(** On the reversed digits. *)
Fixpoint group_rev (r : text) : text :=
  match r with
  | a :: b :: c :: t =>
      match t with
      | [] => [a; b; c]
      | _ :: _ => a :: b :: c :: ","%char :: group_rev t
      end
  | _ => r
  end.

Definition group3 (ds : text) : text := rev (group_rev (rev ds)).

(** [humanize(num)] on an [int]: ["{:,}".format(num)]. *)
Definition humanize (num : Z) : text :=
  if (num <? 0)%Z then "-"%char :: group3 (show_Z (- num)) else group3 (show_Z num).

(** ["%.2f" % x] ([commas = false]) and ["{0:,.2f}".format(x)]
    ([commas = true]). *)
Definition format_2f (commas : bool) (x : float) : text :=
  let body (neg : bool) (n : Z) :=
    let ip := show_Z (n / 100) in
    (if neg then ["-"%char] else []) ++ (if commas then group3 ip else ip)
      ++ "."%char :: pad2 (n mod 100) in
  match Prim2SF x with
  | S754_zero s => body s 0%Z
  | S754_infinity s => (if s then ["-"%char] else []) ++ txt "inf"
  | S754_nan => txt "nan"
  | S754_finite s m e => body s (round_hundredths (Zpos m) e)
  end.

Definition humanize_float (num : float) : text := format_2f true num.

Definition BYTES_PER_KB : float := float_of_Z 1000.
Definition BYTES_PER_MB : float := float_of_Z (1000 * 1000).
Definition BYTES_PER_GB : float := float_of_Z (1000 * 1000 * 1000).
Definition BYTES_PER_TB : float := float_of_Z (1000 * 1000 * 1000 * 1000).
Definition BYTES_PER_PB : float := float_of_Z (1000 * 1000 * 1000 * 1000 * 1000).

(** [humanize_bytes(byte_count)]: [//] is [Z.div], which floors. *)
Definition humanize_bytes (byte_count : Z) : text :=
  if (byte_count / 1000 =? 0)%Z then humanize byte_count ++ txt " bytes"
  else if (byte_count / (1000 * 1000) =? 0)%Z then
    humanize_float (float_of_Z byte_count / BYTES_PER_KB) ++ txt " KB"
  else if (byte_count / (1000 * 1000 * 1000) =? 0)%Z then
    humanize_float (float_of_Z byte_count / BYTES_PER_MB) ++ txt " MB"
  else if (byte_count / (1000 * 1000 * 1000 * 1000) =? 0)%Z then
    humanize_float (float_of_Z byte_count / BYTES_PER_GB) ++ txt " GB"
  else if (byte_count / (1000 * 1000 * 1000 * 1000 * 1000) =? 0)%Z then
    humanize_float (float_of_Z byte_count / BYTES_PER_TB) ++ txt " TB"
  else humanize_float (float_of_Z byte_count / BYTES_PER_PB) ++ txt " PB".

(** ** The console *)

Record console := { spinner : nat; stdout : text }.

Definition write (s : text) (w : console) : console :=
  {| spinner := spinner w; stdout := stdout w ++ s |}.

(** [print(s)], redefined at module level as [sys.stdout.write(f'{s}\n')]. *)
Definition py_print (s : text) (w : console) : console := write (s ++ [nl]) w.

(** [itertools.cycle(['\\', '|', '/', '-'])] *)
Definition spinner_chars : list ascii := ["\"%char; "|"%char; "/"%char; "-"%char].

(** [next(spinner)] *)
Definition next_spinner (w : console) : ascii * console :=
  (nth (spinner w mod 4) spinner_chars " "%char,
   {| spinner := S (spinner w); stdout := stdout w |}).

Definition bs : ascii := "008"%char.

(** ** The fallback [tqdm] *)

(** [self.total], [self.at], [self.last_time], [self.closed]; [at] is a
    keyword of Rocq, hence [at_]. *)
Record tqdm := { total : float; at_ : Z; last_time : float; closed : bool }.

(** [tqdm(total)] at clock [now]. *)
Definition tqdm_init (total : Z) (now : float) : tqdm :=
  {| total := float_of_Z total; at_ := 0; last_time := now; closed := false |}.

(** [MIN_SPIN_STEP_TIME = 0.05], the binary64 nearest to 5/100. *)
Definition MIN_SPIN_STEP_TIME : float := 5 / 100.

(** The backspaces [update_spinner] writes after [percent_2dec]. *)
Definition backspaces (percent_2dec : text) : text :=
  [bs; bs] ++ repeat bs (length percent_2dec) ++ [bs].

(** [update_spinner(percent)]: the spinner moves only when [percent] is
    not [1.0]. *)
Definition update_spinner (percent : float) (w : console) : console :=
  let percent_2dec := format_2f false (percent * 100) in
  let w :=
    if negb (percent =? 1)%float then
      let '(c, w) := next_spinner w in
      write (c :: " "%char :: percent_2dec ++ ["%"%char]) w
    else write (percent_2dec ++ txt "% ") w in
  if negb (percent =? 1)%float then write (backspaces percent_2dec) w else w.

(** [update(step)] at clock [now]: [self.at] grows first; [self.at /
    self.total] raises [ZeroDivisionError] on a bar of total [0]; then
    the throttle may return early.  The result carries the exception. *)
Definition update (now : float) (step : Z) (s : tqdm) (w : console)
    : tqdm * console * res unit :=
  let at' := (at_ s + step)%Z in
  let s1 := {| total := total s; at_ := at'; last_time := last_time s; closed := closed s |} in
  if (total s =? 0)%float then (s1, w, Err ZeroDivisionError) else
  let percent := (float_of_Z at' / total s)%float in
  let elapsed_seconds := (now - last_time s)%float in
  if (elapsed_seconds <? MIN_SPIN_STEP_TIME)%float then (s1, w, Ok tt)
  else
    ({| total := total s; at_ := at'; last_time := now; closed := closed s |},
     update_spinner percent w, Ok tt).

(** [close()]: [self.at != 1.0] compares the count, not the fraction. *)
Definition close (s : tqdm) (w : console) : tqdm * console :=
  if closed s then (s, w)
  else
    let s' := {| total := total s; at_ := at_ s; last_time := last_time s; closed := true |} in
    let w := if negb (at_ s =? 1)%Z then update_spinner 1 w else w in
    (s', py_print [] w).

(** A sequence of [pbar.update(step)] calls, each at its clock reading;
    an exception ends the sequence. *)
Fixpoint updates (evs : list (float * Z)) (s : tqdm) (w : console)
    : tqdm * console * res unit :=
  match evs with
  | [] => (s, w, Ok tt)
  | (now, step) :: r =>
      match update now step s w with
      | (s, w, Ok _) => updates r s w
      | stop => stop
      end
  end.

(** [with tqdm(total=total) as pbar:] around the updates: [__exit__]
    closes the bar, also when an update raised, and the exception then
    propagates. *)
Definition with_tqdm (total : Z) (now : float) (evs : list (float * Z)) (w : console)
    : tqdm * console * res unit :=
  let '(s, w, r) := updates evs (tqdm_init total now) w in
  let '(s, w) := close s w in (s, w, r).

(** ** Reference notions *)

(** How far a run of writes moves the cursor: a backspace moves it one
    column left, any other character one column right. *)
Definition cursor_shift (s : text) : Z :=
  fold_right (λ c k, if decide (c = bs) then (k - 1)%Z else (k + 1)%Z) 0%Z s.

Definition sum_steps (evs : list (float * Z)) : Z := fold_right (λ e k, (e.2 + k)%Z) 0%Z evs.

(** ** Lemmas: "{:,}" *)

Lemma group_rev_cons4 a b c x t :
  group_rev (a :: b :: c :: x :: t) = a :: b :: c :: ","%char :: group_rev (x :: t).
Proof. reflexivity. Qed.

Lemma group3_short ds : length ds ≤ 3 → group3 ds = ds.
Proof. intros H. destruct ds as [|a [|b [|c [|d ds]]]]; simpl in *; [done..|lia]. Qed.

(** Grouping puts a comma before the last three digits. *)
Lemma group3_snoc3 ds a b c :
  ds ≠ [] → group3 (ds ++ [a; b; c]) = group3 ds ++ [","%char; a; b; c].
Proof.
  intros Hne. unfold group3. rewrite rev_app_distr. cbn [rev app].
  destruct (rev ds) as [|x t] eqn:E.
  { by apply (f_equal (@rev ascii)) in E; rewrite rev_involutive in E. }
  rewrite group_rev_cons4. cbn [rev]. by rewrite <-!app_assoc.
Qed.

Lemma show_Z_three n :
  (1000 <= n)%Z → show_Z n = show_Z (n / 1000) ++ [digit (n / 100); digit (n / 10); digit n].
Proof.
  intros Hn.
  rewrite (show_Z_snoc n), (show_Z_snoc (n / 10)), (show_Z_snoc (n / 10 / 10))
    by (try apply Z.div_le_lower_bound; try apply Z.div_le_lower_bound; lia).
  rewrite !Z.div_div by lia. by rewrite <-!app_assoc.
Qed.

Lemma humanize_nonneg n : (0 <= n)%Z → humanize n = group3 (show_Z n).
Proof. intros Hn. unfold humanize. by rewrite (proj2 (Z.ltb_ge n 0)). Qed.

Lemma humanize_small n : (0 <= n < 1000)%Z → humanize n = show_Z n.
Proof.
  intros Hn. rewrite humanize_nonneg by lia. apply group3_short.
  destruct (Z.lt_ge_cases n 10); [rewrite show_Z_small by lia; simpl; lia|].
  rewrite show_Z_snoc by lia.
  destruct (Z.lt_ge_cases n 100).
  { rewrite show_Z_small; [simpl; lia|]. split; [apply Z.div_pos|apply Z.div_lt_upper_bound]; lia. }
  rewrite show_Z_snoc, show_Z_small; [simpl; lia| |].
  - rewrite Z.div_div by lia. split; [apply Z.div_pos|apply Z.div_lt_upper_bound]; lia.
  - apply Z.div_le_lower_bound; lia.
Qed.

(** ** Lemmas: characters and the cursor *)

Lemma group_rev_Forall (P : ascii → Prop) r : P ","%char → Forall P r → Forall P (group_rev r).
Proof.
  intros Hc. induction r as [r IH] using (induction_ltof1 _ (@length ascii)).
  unfold ltof in IH. intros Hr.
  destruct r as [|a [|b [|c [|x t]]]]; [done..|].
  rewrite group_rev_cons4. apply Forall_cons in Hr as [? Hr].
  apply Forall_cons in Hr as [? Hr]. apply Forall_cons in Hr as [? Hr].
  repeat constructor; [done..|]. apply IH; [simpl; lia|done].
Qed.

Lemma group3_Forall (P : ascii → Prop) ds : P ","%char → Forall P ds → Forall P (group3 ds).
Proof.
  intros Hc Hds. unfold group3. apply Forall_rev, group_rev_Forall; [done|].
  by apply Forall_rev.
Qed.

Lemma digit_not_bs k : digit k ≠ bs.
Proof.
  unfold digit, bs. intros H. apply (f_equal nat_of_ascii) in H.
  pose proof (Z.mod_pos_bound k 10 ltac:(lia)).
  rewrite nat_ascii_embedding in H by lia.
  change (nat_of_ascii "008") with 8 in H. lia.
Qed.

Lemma z_digits_not_bs f n acc :
  Forall (λ c, c ≠ bs) acc → Forall (λ c, c ≠ bs) (z_digits f n acc).
Proof.
  revert n acc. induction f as [|f IH]; intros n acc Hacc; [done|]. cbn [z_digits].
  destruct (n <? 10)%Z; [|apply IH]; constructor; [apply digit_not_bs|done|apply digit_not_bs|done].
Qed.

Lemma show_Z_not_bs n : Forall (λ c, c ≠ bs) (show_Z n).
Proof.
  unfold show_Z. destruct (n <? 0)%Z; [constructor; [done|]|]; by apply z_digits_not_bs.
Qed.

(** What [format_2f] prints has no backspace. *)
Lemma format_2f_not_bs commas x : Forall (λ c, c ≠ bs) (format_2f commas x).
Proof.
  assert (Hb : ∀ (neg : bool) (n : Z), Forall (λ c, c ≠ bs)
     ((if neg then ["-"%char] else []) ++
      (if commas then group3 (show_Z (n / 100)) else show_Z (n / 100)) ++
      "."%char :: pad2 (n mod 100))).
  { intros neg n. apply Forall_app; split; [by destruct neg; repeat constructor|].
    apply Forall_app; split.
    - destruct commas; [apply group3_Forall; [done|]|]; apply show_Z_not_bs.
    - repeat constructor; [done|apply digit_not_bs..]. }
  unfold format_2f. destruct (Prim2SF x) as [s|s| |s m e]; [apply Hb| |by repeat constructor|apply Hb].
  apply Forall_app; split; [by destruct s; repeat constructor|by repeat constructor].
Qed.

Lemma cursor_shift_app s t : cursor_shift (s ++ t) = (cursor_shift s + cursor_shift t)%Z.
Proof.
  induction s as [|c s IH]; [done|]. cbn [app cursor_shift fold_right].
  unfold cursor_shift in *. rewrite IH. case_decide; lia.
Qed.

Lemma cursor_shift_printable s : Forall (λ c, c ≠ bs) s → cursor_shift s = Z.of_nat (length s).
Proof.
  induction 1 as [|c s Hc _ IH]; [done|]. unfold cursor_shift in *. cbn [fold_right length].
  rewrite IH. case_decide; [done|lia].
Qed.

Lemma cursor_shift_backspaces p : cursor_shift (backspaces p) = (- Z.of_nat (length p) - 3)%Z.
Proof.
  unfold backspaces. rewrite !cursor_shift_app.
  assert (∀ n, cursor_shift (repeat bs n) = (- Z.of_nat n)%Z) as ->.
  { induction n as [|n IH]; [done|]. unfold cursor_shift in *. cbn [repeat fold_right].
    rewrite IH. case_decide; [lia|done]. }
  unfold cursor_shift. cbn [fold_right]. repeat case_decide; try done. lia.
Qed.

Lemma spinner_char_not_bs w : (next_spinner w).1 ≠ bs.
Proof.
  unfold next_spinner. cbn [fst].
  destruct (Nat.lt_ge_cases (spinner w mod 4) 4) as [H|H]; [|pose proof (Nat.mod_upper_bound (spinner w) 4); lia].
  destruct (spinner w mod 4) as [|[|[|[|]]]]; [done..|lia].
Qed.

Lemma format_full : format_2f false (1 * 100) = txt "100.00".
Proof. vm_compute. reflexivity. Qed.

Lemma update_spinner_full w : update_spinner 1 w = write (txt "100.00% ") w.
Proof.
  unfold update_spinner. replace (1 =? 1)%float with true by (vm_compute; reflexivity).
  cbn [negb]. rewrite format_full. reflexivity.
Qed.

(** ** Lemmas: the bar *)

Lemma update_counts now step s w :
  (total s =? 0)%float = false →
  ∃ s' w', update now step s w = (s', w', Ok tt) ∧
    total s' = total s ∧ at_ s' = (at_ s + step)%Z ∧ closed s' = closed s.
Proof.
  intros Ht. unfold update. rewrite Ht.
  destruct (_ <? _)%float; eexists _, _; by split.
Qed.

Lemma updates_counts evs s w :
  (total s =? 0)%float = false →
  ∃ s' w', updates evs s w = (s', w', Ok tt) ∧
    total s' = total s ∧ at_ s' = (at_ s + sum_steps evs)%Z ∧ closed s' = closed s.
Proof.
  revert s w. induction evs as [|[now step] evs IH]; intros s w Ht.
  - eexists _, _. split_and!; [done|done|cbn; lia|done].
  - destruct (update_counts now step s w Ht) as (s1 & w1 & Hu & Ht1 & Ha1 & Hc1).
    cbn [updates]. rewrite Hu.
    destruct (IH s1 w1) as (s2 & w2 & Hr & Ht2 & Ha2 & Hc2); [by rewrite Ht1|].
    exists s2, w2. rewrite Hr. cbn [sum_steps fold_right snd] in *.
    split; [done|]. unfold sum_steps in *. split; [congruence|]. split; [lia|congruence].
Qed.

Lemma close_closed s w : closed s = true → close s w = (s, w).
Proof. intros H. unfold close. by rewrite H. Qed.

Lemma close_open s w :
  closed s = false →
  close s w =
    ({| total := total s; at_ := at_ s; last_time := last_time s; closed := true |},
     {| spinner := spinner w;
        stdout := stdout w ++ (if (at_ s =? 1)%Z then [] else txt "100.00% ") ++ [nl] |}).
Proof.
  intros Hc. unfold close. rewrite Hc. destruct (at_ s =? 1)%Z; [done|].
  cbn [negb]. rewrite update_spinner_full. unfold py_print, write. cbn. by rewrite <-app_assoc.
Qed.

(** ** Theorems *)

(** C25: ["{:,}"] puts a comma before every group of three digits: a
    number of four digits or more prints as its thousands, a comma, and
    its last three digits. *)
Theorem humanize_thousands n :
  (1000 <= n)%Z →
  humanize n = humanize (n / 1000) ++ [","%char; digit (n / 100); digit (n / 10); digit n].
Proof.
  intros Hn. assert (Hq : (1 <= n / 1000)%Z) by (apply Z.div_le_lower_bound; lia).
  rewrite !humanize_nonneg, show_Z_three by lia.
  apply group3_snoc3, show_Z_nonempty. lia.
Qed.

Lemma humanize_thousands_witness :
  (1000 <= 1234567)%Z ∧
  humanize 1234567 = humanize (1234567 / 1000) ++
    [","%char; digit (1234567 / 100); digit (1234567 / 10); digit 1234567].
Proof. split; [lia | apply (humanize_thousands 1234567); lia]. Defined.

(** [update_spinner] leaves the cursor where it found it while the
    bar is below 100%: the backspaces it writes undo exactly the spinner
    character, the space, the percentage and the ["%"]; at 100% it writes
    the percentage, ["%"] and a space and moves on. *)
Theorem update_spinner_cursor percent w :
  ∃ t, stdout (update_spinner percent w) = stdout w ++ t ∧
    cursor_shift t =
      (if (percent =? 1)%float
       then Z.of_nat (length (format_2f false (percent * 100))) + 2 else 0)%Z.
Proof.
  pose proof (format_2f_not_bs false (percent * 100)) as Hp.
  unfold update_spinner. destruct (percent =? 1)%float; cbn [negb].
  - eexists. split; [done|]. rewrite cursor_shift_printable; [rewrite length_app; simpl; lia|].
    apply Forall_app; split; [done|]. by repeat constructor.
  - pose proof (spinner_char_not_bs w) as Hs. destruct (next_spinner w) as [c w1] eqn:E.
    assert (stdout w1 = stdout w) as Hw1 by (unfold next_spinner in E; by simplify_eq).
    eexists. cbn [write stdout]. rewrite Hw1, <-app_assoc. split; [done|].
    rewrite cursor_shift_app, cursor_shift_backspaces, cursor_shift_printable.
    + rewrite length_cons, length_cons, length_app. simpl. lia.
    + repeat constructor; [done|done|]. apply Forall_app; split; [done|by repeat constructor].
Qed.

(** C21: the bar counts every step: throttled updates skip the display but
    not the count, so after [with tqdm(total=n)] around any updates the
    count is the sum of the steps and the bar is closed. *)
Theorem with_tqdm_counts total now evs w :
  (float_of_Z total =? 0)%float = false →
  ∃ s w', with_tqdm total now evs w = (s, w', Ok tt) ∧
    at_ s = sum_steps evs ∧ closed s = true.
Proof.
  intros Ht. unfold with_tqdm.
  destruct (updates_counts evs (tqdm_init total now) w Ht) as (s & w1 & -> & _ & Ha & Hc).
  unfold close. cbn in Hc. rewrite Hc. eexists _, _. split; [done|]. cbn. cbn in Ha. lia.
Qed.

Lemma with_tqdm_counts_witness :
  (float_of_Z 100 =? 0)%float = false ∧
  ∃ s w', with_tqdm 100 0 [(1%float, 40%Z); (1%float, 60%Z)] {| spinner := 0; stdout := [] |} = (s, w', Ok tt) ∧
    at_ s = sum_steps [(1%float, 40%Z); (1%float, 60%Z)] ∧ closed s = true.
Proof. split; [vm_compute; reflexivity | apply (with_tqdm_counts 100); vm_compute; reflexivity]. Defined.



(** A bar that reached 100% on its last update shows it twice. *)
Example with_tqdm_full_twice :
  stdout (with_tqdm 10 0 [(1%float, 10%Z)] {| spinner := 0; stdout := [] |}).1.2 =
    txt "100.00% 100.00% " ++ [nl].
Proof. vm_compute. reflexivity. Qed.

(** A bar of total 0 raises [ZeroDivisionError] at its first update;
    [__exit__] still closes it. *)
Lemma with_tqdm_zero_total now t k evs w :
  ∃ s, with_tqdm 0 now ((t, k) :: evs) w =
    (s, {| spinner := spinner w;
           stdout := stdout w ++ (if (k =? 1)%Z then [] else txt "100.00% ") ++ [nl] |},
     Err ZeroDivisionError).
Proof.
  unfold with_tqdm. cbn [updates]. unfold update.
  replace (total (tqdm_init 0 now) =? 0)%float with true by (vm_compute; reflexivity).
  rewrite close_open by done. eexists. do 2 f_equal.
Qed.
