(* ===== verification/FileIO.v ===== *)
(** * Text-mode file handles

    The engine reads the trace through a Python file object opened in text
    mode ([open(path, "r")]) and uses [read(n)], [readline()], [seek(n)],
    [tell()] and iteration ([for line in f], which is [readline()] until it
    returns [""]).  A handle is the file's contents and the current
    position; every operation returns the value and the advanced handle.
    This is Python's [io] library, not code of the repository: it is not
    mapped to source.  The trace is assumed to be ASCII with [\n] line
    ends, so characters are bytes and [tell()] is the byte offset. *)

From S2P Require Import Prelude.

Record handle := { data : text; pos : nat }.

Definition open_file (d : text) : handle := {| data := d; pos := 0 |}.

Definition tell (h : handle) : nat := pos h.

(** The remaining contents. *)
Definition rest (h : handle) : text := drop (pos h) (data h).

Definition advance (h : handle) (n : nat) : handle :=
  {| data := data h; pos := pos h + n |}.

(** The line at the head of [l], its [\n] included. *)
Fixpoint take_line (l : text) : text :=
  match l with
  | [] => []
  | c :: r => if decide (c = nl) then [c] else c :: take_line r
  end.

(** [f.read(n)]: at most [n] characters; a negative size reads to the end. *)
Definition read (n : Z) (h : handle) : text * handle :=
  let s := if (n <? 0)%Z then rest h else take (Z.to_nat n) (rest h) in
  (s, advance h (length s)).

(** [f.readline()]: [""] at the end of the file. *)
Definition readline (h : handle) : text * handle :=
  let s := take_line (rest h) in
  (s, advance h (length s)).

(** [f.seek(n)]: a text-mode handle refuses a negative position with
    [ValueError]; a position past the end is accepted. *)
Definition seek (n : Z) (h : handle) : res handle :=
  if (n <? 0)%Z then Err ValueError else Ok {| data := data h; pos := Z.to_nat n |}.

(** The measure every reading loop decreases. *)
Definition remaining (h : handle) : nat := length (data h) - pos h.

(** The line of [contents] that starts at offset [p]. *)
Definition line_at (contents : text) (p : nat) : text := take_line (drop p contents).

(** [p] starts a line: it is the first offset or follows a [\n]. *)
Definition line_start (contents : text) (p : nat) : Prop :=
  p = 0 ∨ contents !! (p - 1) = Some nl.

#[export] Instance line_start_dec contents p : Decision (line_start contents p).
Proof. unfold line_start. apply _. Defined.

(** The lines [for line in f] yields from the start of [l]: each ends in
    [\n] except, when [l] does not end in one, the last. *)
Fixpoint lines_of (l : text) : list text :=
  match l with
  | [] => []
  | c :: r =>
      if decide (c = nl) then [c] :: lines_of r
      else match lines_of r with
           | [] => [[c]]
           | x :: xs => (c :: x) :: xs
           end
  end.

Arguments read : simpl never.
Arguments readline : simpl never.

(** ** Lemmas *)

Lemma take_line_prefix l : take_line l `prefix_of` l.
Proof.
  induction l as [|c l IH]; simpl; [done|].
  case_decide; [by apply prefix_cons, prefix_nil | by apply prefix_cons].
Qed.

Lemma take_line_nil l : take_line l = [] ↔ l = [].
Proof. destruct l; simpl; [done|]. case_decide; done. Qed.

(** A line is either the whole remainder (no [\n] in it) or ends at the
    first [\n]. *)
Lemma take_line_app_nl l r : nl ∉ l → take_line (l ++ nl :: r) = l ++ [nl].
Proof.
  induction l as [|c l IH]; intros Hn; simpl; [by repeat case_decide|].
  case_decide; [set_solver|]. f_equal. apply IH. set_solver.
Qed.

Lemma take_line_no_nl l : nl ∉ l → take_line l = l.
Proof.
  induction l as [|c l IH]; intros Hn; simpl; [done|].
  case_decide; [set_solver|]. f_equal. apply IH. set_solver.
Qed.

Lemma take_line_app l r : nl ∈ l → take_line (l ++ r) = take_line l.
Proof.
  induction l as [|c l IH]; intros Hn; [by apply not_elem_of_nil in Hn|]. simpl.
  case_decide; [done|]. f_equal. apply IH. set_solver.
Qed.

(** Advancing past a prefix of the remaining contents. *)
Lemma rest_advance h s : s `prefix_of` rest h → rest (advance h (length s)) = drop (length s) (rest h).
Proof. intros _. unfold rest, advance; simpl. by rewrite drop_drop. Qed.

Lemma prefix_rest_app h s : s `prefix_of` rest h → s ++ rest (advance h (length s)) = rest h.
Proof.
  intros Hp. rewrite rest_advance by done. destruct Hp as [k Hk]. rewrite Hk.
  by rewrite drop_app_length.
Qed.

Lemma read_prefix n h : (read n h).1 `prefix_of` rest h.
Proof. unfold read; simpl. case_match; [done | apply prefix_take]. Qed.

Lemma readline_prefix h : (readline h).1 `prefix_of` rest h.
Proof. apply take_line_prefix. Qed.

(** What was read, followed by what remains, is what remained before. *)
Lemma read_app n h : (read n h).1 ++ rest (read n h).2 = rest h.
Proof. apply prefix_rest_app, read_prefix. Qed.

Lemma readline_app h : (readline h).1 ++ rest (readline h).2 = rest h.
Proof. apply prefix_rest_app, readline_prefix. Qed.

Lemma readline_nil h : (readline h).1 = [] ↔ rest h = [].
Proof. apply take_line_nil. Qed.

Lemma read_nil n h : (0 < n)%Z → (read n h).1 = [] ↔ rest h = [].
Proof.
  intros Hn. unfold read. cbn [fst]. destruct (Z.ltb_spec n 0); [lia|].
  destruct (rest h) as [|c r], (Z.to_nat n) eqn:E; simpl; try lia; split; congruence.
Qed.

Lemma seek_0 h : seek 0 h = Ok {| data := data h; pos := 0 |}.
Proof. done. Qed.

Lemma read_data n h : data (read n h).2 = data h.
Proof. done. Qed.

Lemma readline_data h : data (readline h).2 = data h.
Proof. done. Qed.

Lemma readline_pos h : pos (readline h).2 = pos h + length (readline h).1.
Proof. done. Qed.

Lemma read_pos n h : pos (read n h).2 = pos h + length (read n h).1.
Proof. done. Qed.

Lemma length_rest h : length (rest h) = remaining h.
Proof. unfold rest, remaining. by rewrite length_drop. Qed.

Lemma remaining_advance h s :
  s `prefix_of` rest h → remaining (advance h (length s)) = remaining h - length s.
Proof.
  intros Hp. rewrite <- !length_rest, rest_advance by done.
  by rewrite length_drop.
Qed.

Lemma remaining_dec h s :
  s `prefix_of` rest h → s ≠ [] → remaining (advance h (length s)) < remaining h.
Proof.
  intros Hp Hs. rewrite remaining_advance by done.
  apply prefix_length in Hp. rewrite length_rest in Hp.
  destruct s; [done|]. simpl in *. lia.
Qed.

#[export] Hint Resolve read_prefix readline_prefix take_line_prefix : htl.
#[export] Hint Rewrite read_data readline_data : htl_rw.

Lemma handle_eq h1 h2 : data h1 = data h2 → pos h1 = pos h2 → h1 = h2.
Proof. destruct h1, h2; simpl. by intros -> ->. Qed.

Lemma read_pos_min n h :
  (0 ≤ n)%Z → pos (read n h).2 = pos h + min (Z.to_nat n) (remaining h).
Proof.
  intros Hn. unfold read. destruct (Z.ltb_spec n 0); [lia|]. simpl.
  rewrite length_take, length_rest. lia.
Qed.

(** Reading [n] then [m] characters moves the handle as one read of
    [n + m] does. *)
Lemma read_read n m h :
  (0 ≤ n)%Z → (0 ≤ m)%Z → (read m (read n h).2).2 = (read (n + m) h).2.
Proof.
  intros Hn Hm. apply handle_eq; [done|].
  rewrite !read_pos_min by lia. unfold remaining. rewrite read_data, read_pos_min by done.
  unfold remaining. lia.
Qed.

Lemma read_zero h : (read 0 h).2 = h.
Proof. apply handle_eq; [done|]. rewrite read_pos_min by lia. simpl. lia. Qed.

Lemma read_advance n h : (read n h).2 = advance h (length (read n h).1).
Proof. done. Qed.

Lemma readline_advance h : (readline h).2 = advance h (length (readline h).1).
Proof. done. Qed.

Lemma remaining_read_le n h : remaining (read n h).2 ≤ remaining h.
Proof. rewrite read_advance, remaining_advance by apply read_prefix. lia. Qed.

Lemma remaining_readline_le h : remaining (readline h).2 ≤ remaining h.
Proof. rewrite readline_advance, remaining_advance by apply readline_prefix. lia. Qed.

Lemma remaining_readline_lt h : (readline h).1 ≠ [] → remaining (readline h).2 < remaining h.
Proof. intros Hne. rewrite readline_advance. by apply remaining_dec; [apply readline_prefix|]. Qed.

(** Reading never moves a handle past the end of its file, nor back. *)
Lemma advance_pos_bound h s :
  s `prefix_of` rest h → pos h ≤ length (data h) → pos (advance h (length s)) ≤ length (data h).
Proof.
  intros Hp Hb. apply prefix_length in Hp. rewrite length_rest in Hp.
  unfold remaining, advance in *; simpl. lia.
Qed.

Lemma read_pos_bound n h : pos h ≤ length (data h) → pos (read n h).2 ≤ length (data h).
Proof. intros. rewrite read_advance. apply advance_pos_bound; [apply read_prefix | done]. Qed.

Lemma readline_pos_bound h : pos h ≤ length (data h) → pos (readline h).2 ≤ length (data h).
Proof. intros. rewrite readline_advance. apply advance_pos_bound; [apply readline_prefix | done]. Qed.

Lemma read_pos_ge n h : pos h ≤ pos (read n h).2.
Proof. rewrite read_pos. lia. Qed.

Lemma readline_pos_ge h : pos h ≤ pos (readline h).2.
Proof. rewrite readline_pos. lia. Qed.

Lemma readline_pos_gt h : (readline h).1 ≠ [] → pos h < pos (readline h).2.
Proof. intros Hne. rewrite readline_pos. destruct (readline h).1; [done|]. simpl. lia. Qed.

#[export] Hint Resolve remaining_read_le remaining_readline_le read_pos_bound readline_pos_bound
  read_pos_ge readline_pos_ge : htl.

(** A line either runs to the end of the input, which then has no [\n],
    or stops just after the first [\n]. *)
Lemma take_line_cases l :
  (take_line l = l ∧ nl ∉ l) ∨
  (∃ u k, l = u ++ nl :: k ∧ nl ∉ u ∧ take_line l = u ++ [nl]).
Proof.
  induction l as [|c l IH]; [left; split; [done | apply not_elem_of_nil]|]. simpl.
  case_decide as Hc.
  - right. subst. exists [], l. split; [done|]. split; [apply not_elem_of_nil | done].
  - destruct IH as [[-> Hn] | (u & k & -> & Hu & ->)].
    + left. split; [done|]. rewrite elem_of_cons. naive_solver.
    + right. exists (c :: u), k. split; [done|]. split; [|done].
      rewrite elem_of_cons. naive_solver.
Qed.

(** After a [readline] that did not reach the end of the file the handle
    is just past a [\n]. *)
Lemma readline_line_start h :
  rest (readline h).2 ≠ [] →
  0 < pos (readline h).2 ∧ data h !! (pos (readline h).2 - 1) = Some nl.
Proof.
  intros Hr. pose proof (readline_app h) as Happ.
  rewrite readline_pos. unfold readline in *. cbn [fst snd] in *.
  destruct (take_line_cases (rest h)) as [[Ht _] | (u & k & Hl & _ & Ht)].
  - exfalso. apply Hr. rewrite Ht, rest_advance by done. apply drop_all.
  - rewrite Ht, length_app. simpl. split; [lia|].
    replace (pos h + (length u + 1) - 1) with (pos h + length u) by lia.
    unfold rest in Hl. rewrite <- (lookup_drop (data h) (pos h) (length u)), Hl.
    by rewrite lookup_app_r, Nat.sub_diag by lia.
Qed.

(** ** Lines *)

Lemma line_start_bound contents p : line_start contents p → p ≤ length contents.
Proof. intros [->|Hl]; [lia|]. apply lookup_lt_Some in Hl. lia. Qed.

Lemma readline_line_at h : (readline h).1 = line_at (data h) (pos h).
Proof. done. Qed.

Lemma line_at_nil contents p : line_at contents p = [] ↔ length contents ≤ p.
Proof.
  unfold line_at. rewrite take_line_nil. split.
  - intros Hd. apply (f_equal length) in Hd. rewrite length_drop in Hd. simpl in Hd. lia.
  - intros. by apply drop_ge.
Qed.

(** A [readline()] from within the file ends at a line start or at the end
    of the file. *)
Lemma readline_ends_line h :
  pos h ≤ length (data h) →
  line_start (data h) (pos (readline h).2) ∨ pos (readline h).2 = length (data h).
Proof.
  intros Hb. rewrite readline_pos. unfold readline. cbn [fst].
  destruct (take_line_cases (rest h)) as [[-> _] | (u & k & Hl & _ & ->)].
  - right. rewrite length_rest. unfold remaining. lia.
  - left. right. rewrite length_app. simpl.
    replace (pos h + (length u + 1) - 1) with (pos h + length u) by lia.
    unfold rest in Hl. rewrite <- (lookup_drop (data h) (pos h) (length u)), Hl.
    by rewrite lookup_app_r, Nat.sub_diag by lia.
Qed.

(** No line starts strictly inside a line. *)
Lemma line_start_inside contents q r :
  line_start contents r → q < r → r < q + length (line_at contents q) → False.
Proof.
  intros [->|Hr] Hqr Hin; [lia|]. unfold line_at in Hin.
  destruct (take_line_cases (drop q contents)) as [[Ht Hn] | (u & k & Hl & Hn & Ht)];
    rewrite Ht in Hin.
  - apply Hn. apply list_elem_of_lookup. exists (r - 1 - q).
    rewrite lookup_drop. by replace (q + (r - 1 - q)) with (r - 1) by lia.
  - rewrite length_app in Hin. simpl in Hin. apply Hn, list_elem_of_lookup.
    exists (r - 1 - q). rewrite <- (lookup_app_l u (nl :: k)) by lia. rewrite <- Hl.
    rewrite lookup_drop. by replace (q + (r - 1 - q)) with (r - 1) by lia.
Qed.

(** The line at a line start before [p] ends at or before [p], when [p]
    starts a line. *)
Lemma line_end_before contents q p :
  line_start contents p → q < p → q + length (line_at contents q) ≤ p.
Proof.
  intros Hp Hqp. destruct (decide (q + length (line_at contents q) ≤ p)) as [|Hn]; [done|].
  exfalso. apply (line_start_inside contents q p); [done | done | lia].
Qed.

(** ** The lines of a text *)

Lemma lines_of_cons l :
  l ≠ [] → lines_of l = take_line l :: lines_of (drop (length (take_line l)) l).
Proof.
  induction l as [|c r IH]; intros Hl; [done|]. simpl. case_decide; [done|].
  destruct r as [|d r]; [done|]. rewrite IH by done. done.
Qed.

(** [readline()] yields the first line of what remains. *)
Lemma readline_lines h :
  rest h ≠ [] → lines_of (rest h) = (readline h).1 :: lines_of (rest (readline h).2).
Proof.
  intros Hr. rewrite lines_of_cons by done. unfold readline. cbn [fst snd].
  by rewrite rest_advance by apply take_line_prefix.
Qed.

Lemma concat_lines_of l : concat (lines_of l) = l.
Proof.
  induction l as [|c r IH]; [done|]. simpl. case_decide; simpl; [by rewrite IH|].
  destruct (lines_of r); simpl in *; by subst.
Qed.

Lemma lines_of_nonempty l : Forall (λ x, x ≠ []) (lines_of l).
Proof.
  induction l as [|c r IH]; simpl; [done|]. case_decide; [by constructor|].
  destruct (lines_of r); [by repeat constructor|]. inversion IH; by constructor.
Qed.

Lemma length_lines_of l : length (lines_of l) ≤ length l.
Proof.
  induction l as [|c r IH]; simpl; [lia|]. case_decide; simpl; [lia|].
  destruct (lines_of r); simpl in *; lia.
Qed.

Lemma readline_lines_inv h x xs :
  lines_of (rest h) = x :: xs → (readline h).1 = x ∧ lines_of (rest (readline h).2) = xs.
Proof.
  intros H. assert (rest h ≠ []) as Hr by (intros E; by rewrite E in H).
  rewrite readline_lines in H by done. split; congruence.
Qed.
