(* ===== verification/LineParse.v ===== *)
(** * Line decoding: [parse_line_as_json] and the [ts] accessors

    [HorovodTimeline.parse_line_as_json] (extract.py 431-446) strips a
    line, turns a trailing ["},"] into ["}"] (the trace is written as one
    big JSON array, one element per line), maps the array delimiters ["["]
    and ["]"] to [None] and decodes the rest, a decode failure giving
    [None].  [extract_ts_from_line] and [extract_ts_from_json] (448-459)
    read the ["ts"] field of the decoded value.  The [verbose] flag only
    prints and is not modelled. *)

From S2P Require Import Prelude Json.

(** [str.isspace()] on an ASCII character. *)
Definition py_isspace (c : ascii) : bool :=
  match nat_of_ascii c with
  | 9 | 10 | 11 | 12 | 13 | 28 | 29 | 30 | 31 | 32 => true
  | _ => false
  end.

Fixpoint lstrip (l : text) : text :=
  match l with
  | c :: r => if py_isspace c then lstrip r else l
  | [] => []
  end.

(** [s.strip()] *)
Definition strip (l : text) : text := rev (lstrip (rev (lstrip l))).

(** [s[-n:]] and [s[:-1]] *)
Definition last_chars (n : nat) (l : text) : text := drop (length l - n) l.
Definition drop_last (l : text) : text := take (length l - 1) l.

Definition all_space (w : text) : Prop := Forall (λ c, py_isspace c = true) w.

(** [u] starts with a non-blank character. *)
Definition edge_nonspace (u : text) : bool :=
  match u with c :: _ => negb (py_isspace c) | [] => false end.

Section WithCodec.
Context `{JsonCodec}.

Definition parse_line_as_json (line : text) : json :=
  let line := strip line in
  let line := if bool_decide (last_chars 2 line = txt "},") then drop_last line else line in
  if bool_decide (line = txt "]") || bool_decide (line = txt "[") then JNull
  else match json_loads line with
       | Some j => j
       | None => JNull
       end.

(** [j['ts'] if 'ts' in j.keys() else None] *)
Definition ts_field (j : json) : res json :=
  b <- has_key "ts" j ;;
  if b then
    match j with
    | JObj kvs => Ok (default JNull (dict_lookup "ts" kvs))
    | _ => Err AttributeError
    end
  else Ok JNull.

Definition extract_ts_from_line (line : text) : res json :=
  let j := parse_line_as_json line in
  match j with
  | JNull => Ok JNull
  | _ => ts_field j
  end.

Definition extract_ts_from_json (j : json) : res json :=
  match j with
  | JNull => Ok JNull
  | _ => ts_field j
  end.
End WithCodec.

(** ** Lemmas on [strip] *)

Lemma lstrip_all_space w t : all_space w → lstrip (w ++ t) = lstrip t.
Proof. induction 1 as [|c w Hc _ IH]; simpl; [done|]. by rewrite Hc. Qed.

Lemma lstrip_app_nonspace s c t :
  py_isspace c = false → lstrip (s ++ c :: t) = lstrip s ++ c :: t.
Proof.
  intros Hc. induction s as [|d s IH]; simpl; [by rewrite Hc|].
  destruct (py_isspace d); [done | done].
Qed.

Lemma all_space_rev w : all_space w → all_space (rev w).
Proof. unfold all_space. intros Hw. by apply Forall_rev. Qed.

Lemma lstrip_app_edge s u : edge_nonspace u = true → lstrip (s ++ u) = lstrip s ++ u.
Proof.
  destruct u as [|c u]; simpl; [done|]. intros Hc.
  apply lstrip_app_nonspace. by destruct (py_isspace c).
Qed.

Lemma lstrip_edge u : edge_nonspace u = true → lstrip u = u.
Proof. intros Hu. exact (lstrip_app_edge [] u Hu). Qed.

Lemma edge_nonspace_app u v : edge_nonspace u = true → edge_nonspace (u ++ v) = true.
Proof. by destruct u. Qed.

(** A line whose non-blank core [u] is followed by whitespace strips to the
    core, its leading blanks removed. *)
Lemma strip_frame s u w :
  edge_nonspace u = true → edge_nonspace (rev u) = true → all_space w →
  strip (s ++ u ++ w) = lstrip s ++ u.
Proof.
  intros Hu Hr Hw. unfold strip.
  rewrite lstrip_app_edge by (by apply edge_nonspace_app).
  rewrite !rev_app_distr, <- app_assoc.
  rewrite lstrip_all_space by by apply all_space_rev.
  rewrite (lstrip_edge (rev u ++ _)) by by apply edge_nonspace_app.
  by rewrite rev_app_distr, !rev_involutive.
Qed.

Lemma last_chars_2_app u a b : last_chars 2 (u ++ [a; b]) = [a; b].
Proof.
  unfold last_chars. rewrite length_app. simpl.
  replace (length u + 2 - 2) with (length u) by lia. by rewrite drop_app_length.
Qed.

Lemma drop_last_app u a : drop_last (u ++ [a]) = u.
Proof.
  unfold drop_last. rewrite length_app. simpl.
  replace (length u + 1 - 1) with (length u) by lia. by rewrite take_app_length.
Qed.

#[export] Hint Resolve all_space_rev : htl.

Lemma last_last_chars u a n : 1 ≤ n → last (last_chars n (u ++ [a])) = Some a.
Proof.
  intros Hn. unfold last_chars. rewrite length_app. simpl.
  rewrite drop_app_le by lia. by rewrite last_app.
Qed.

Lemma lstrip_all_space_nil w : all_space w → lstrip w = [].
Proof. intros Hw. by rewrite <- (app_nil_r w), lstrip_all_space. Qed.

Lemma extract_ts_from_line_json `{JsonCodec} line :
  extract_ts_from_line line = extract_ts_from_json (parse_line_as_json line).
Proof. reflexivity. Qed.

Lemma extract_ts_from_json_obj `{JsonCodec} kvs :
  extract_ts_from_json (JObj kvs) = Ok (default JNull (dict_lookup "ts" kvs)).
Proof. unfold extract_ts_from_json, ts_field. simpl. by destruct (dict_lookup "ts" kvs). Qed.

#[export] Hint Rewrite @extract_ts_from_line_json @extract_ts_from_json_obj : htl_rw.

(** Reading a timestamp returns or raises; it never loops. *)
Lemma extract_ts_from_json_fuel `{JsonCodec} j : extract_ts_from_json j ≠ NoFuel.
Proof.
  destruct j as [| | | | |kvs]; try done.
  rewrite extract_ts_from_json_obj. done.
Qed.

Lemma extract_ts_from_line_fuel `{JsonCodec} l : extract_ts_from_line l ≠ NoFuel.
Proof. rewrite extract_ts_from_line_json. apply extract_ts_from_json_fuel. Qed.

Section LineTheorems.
Context `{JsonCodec}.

(** A record line written with the trailing comma of the enclosing
    JSON array, ["{...},"], decodes exactly as the same line without the
    comma, whatever the line's leading text and trailing whitespace. *)
Theorem parse_line_trailing_comma s w :
  all_space w →
  parse_line_as_json (s ++ txt "}," ++ w) = parse_line_as_json (s ++ txt "}" ++ w).
Proof.
  intros Hw. unfold parse_line_as_json.
  rewrite !strip_frame by done.
  rewrite (bool_decide_eq_true_2 (last_chars 2 (lstrip s ++ txt "},") = txt "},"))
    by apply last_chars_2_app.
  rewrite (bool_decide_eq_false_2 (last_chars 2 (lstrip s ++ txt "}") = txt "},")).
  2:{ intros Heq. pose proof (last_last_chars (lstrip s) "}"%char 2 ltac:(lia)) as Hl.
      change (txt "}") with ["}"%char] in Heq. rewrite Heq in Hl.
      vm_compute in Hl. discriminate Hl. }
  change (txt "},") with (["}"%char] ++ [","%char]).
  by rewrite app_assoc, drop_last_app.
Qed.

(** The lines that open and close the enclosing JSON array, ["["]
    and ["]"] with any surrounding whitespace, decode to [None]. *)
Theorem parse_line_delimiter w1 d w2 :
  d = "["%char ∨ d = "]"%char → all_space w1 → all_space w2 →
  parse_line_as_json (w1 ++ [d] ++ w2) = JNull.
Proof.
  intros Hd H1 H2. unfold parse_line_as_json.
  rewrite strip_frame by (destruct Hd; subst; done).
  rewrite lstrip_all_space_nil by done.
  destruct Hd; subst; reflexivity.
Qed.
End LineTheorems.

Lemma parse_line_trailing_comma_witness :
  all_space [nl] ∧
  @parse_line_as_json simple_codec (jtxt "{'ts': 5, 'a': 1" ++ txt "}," ++ [nl]) =
    @parse_line_as_json simple_codec (jtxt "{'ts': 5, 'a': 1" ++ txt "}" ++ [nl]) ∧
  @parse_line_as_json simple_codec (jtxt "{'ts': 5, 'a': 1" ++ txt "}," ++ [nl]) =
    JObj [("ts", JNum 5); ("a", JNum 1)].
Proof.
  split; [repeat constructor|]. split.
  - apply parse_line_trailing_comma. repeat constructor.
  - vm_compute. reflexivity.
Defined.

Lemma parse_line_delimiter_witness :
  ("["%char = "["%char ∨ "["%char = "]"%char) ∧ all_space [" "%char] ∧ all_space [nl] ∧
  @parse_line_as_json simple_codec ([" "%char] ++ ["["%char] ++ [nl]) = JNull.
Proof.
  split; [by left|]. split; [repeat constructor|]. split; [repeat constructor|].
  apply parse_line_delimiter; [by left | repeat constructor | repeat constructor].
Defined.

(** At the end of the file [readline()] returns [""], which has no [ts]. *)
Lemma extract_ts_from_line_nil `{JsonLaws} : extract_ts_from_line [] = Ok JNull.
Proof. unfold extract_ts_from_line, parse_line_as_json. simpl. by rewrite loads_nil. Qed.
