(* ===== verification/Traces.v ===== *)
(** * Concrete traces

    Traces in the format the engine reads (a JSON array written one
    element per line: an opening [[] line, metadata records without
    ["ts"], then timed records with a trailing comma), used to run the
    model on concrete inputs in the witnesses of the theorems. *)

From S2P Require Import Prelude Json.

(** [{"ts": N, "ph": "X", "name": "step"},] *)
Definition rec_line (ts : Z) : text :=
  jtxt "{'ts': " ++ show_Z ts ++ jtxt ", 'ph': 'X', 'name': 'step'}," ++ [nl].

(** [{"name": "...", "ph": "M"},] *)
Definition meta_line (name : string) : text :=
  jtxt "{'name': '" ++ txt name ++ jtxt "', 'ph': 'M'}," ++ [nl].

Definition records (n : nat) (start step : Z) : text :=
  concat (map (λ i, rec_line (start + Z.of_nat i * step)%Z) (seq 0 n)).

Definition trace_of (metas : list string) (n : nat) (start step : Z) : text :=
  ["["%char; nl] ++ concat (map meta_line metas) ++ records n start step.

(** Two metadata records and eight timed records, [ts] 1000 to 1700. *)
Definition small_trace : text := trace_of ["process_name"; "thread_name"] 8 1000 100.

(** One metadata record and 2300 timed records, [ts] 0 to 2299000: just
    over 100 kB, the size below which [summarize] fails. *)
Definition big_trace : text := trace_of ["process_name"] 2300 0 1000.

(** One metadata record and 2500 timed records all at [ts] 5000: over
    100 kB, with [min_ts = max_ts]. *)
Definition flat_big_trace : text := trace_of ["process_name"] 2500 5000 0.
