(* ===== verification/MetaScan.v ===== *)
(** * Metadata Scanner: [HorovodTimeline.find_metadata_events]

    [find_metadata_events(max_lines_to_scan)] (extract.py 334-365) iterates
    over the lines of the trace ([for line in f]), numbering them from 1
    in [pbar_count]; it keeps [(pbar_count, line)] when the decoded line is
    truthy and has no ["ts"] key ([j and 'ts' not in j.keys()]), and it
    breaks once [pbar_count > max_lines_to_scan], after the line has been
    examined.  It returns the kept lines decoded again.  The progress bar,
    the timing and the prints are observational and not modelled.

    The loop is [loop] over the state [(f, pbar_count, results)]; its
    fuel, one more than the length of the file, is enough because every
    pass reads a non-empty line ([find_metadata_events_spec] proves that
    the loop returns).  [select_metadata] is the reference: the metadata
    lines among a list of lines, in order.  The main theorem says that the
    scanner selects among the first [max_lines_to_scan + 1] lines, one
    more than its name says. *)

From S2P Require Import Prelude Json FileIO LineParse Traces.

Section Metadata.
Context `{JsonCodec}.

(** [j and 'ts' not in j.keys()]: a falsy value (a failed decode, [{}],
    [0]) is skipped; a truthy non-dict has no [.keys()]. *)
Definition is_metadata (j : json) : res bool :=
  if truthy j then b <- has_key "ts" j ;; Ok (negb b) else Ok false.

(** One pass of [for line in f]; iteration stops at the end of the file,
    where [readline()] returns [""]. *)
Definition meta_body (max_lines_to_scan : Z) (st : handle * Z * list (Z * text))
    : res ((handle * Z * list (Z * text)) + list (Z * text)) :=
  let '(f, pbar_count, results) := st in
  let '(line, f') := readline f in
  if line is [] then Ok (inr results) else
  let pbar_count := (pbar_count + 1)%Z in
  let j := parse_line_as_json line in
  m <- is_metadata j ;;
  let results := if m then results ++ [(pbar_count, line)] else results in
  if (max_lines_to_scan <? pbar_count)%Z then Ok (inr results)
  else Ok (inl (f', pbar_count, results)).

Definition find_metadata_events (contents : text) (max_lines_to_scan : Z)
    : res (list json) :=
  results <- loop (S (length contents)) (meta_body max_lines_to_scan)
               (open_file contents, 0%Z, []) ;;
  Ok (map (λ result, parse_line_as_json result.2) results).

(** Reference: the lines of [ls] that are metadata, numbered from [k]. *)
Fixpoint select_metadata (k : Z) (ls : list text) : res (list (Z * text)) :=
  match ls with
  | [] => Ok []
  | l :: r =>
      m <- is_metadata (parse_line_as_json l) ;;
      rs <- select_metadata (k + 1) r ;;
      Ok (if m then (k, l) :: rs else rs)
  end.
End Metadata.

(** ** Lemmas *)

Section MetaLoop.
Context `{JsonCodec} (max : Z).

Lemma meta_body_eof h cnt acc : rest h = [] → meta_body max (h, cnt, acc) = Ok (inr acc).
Proof.
  intros Hr. pose proof (proj2 (readline_nil h) Hr) as Hl. unfold meta_body.
  destruct (readline h). simpl in Hl. by subst.
Qed.

Lemma meta_body_step h cnt acc :
  rest h ≠ [] →
  meta_body max (h, cnt, acc) =
    (m <- is_metadata (parse_line_as_json (readline h).1) ;;
     let results := if m then acc ++ [((cnt + 1)%Z, (readline h).1)] else acc in
     if (max <? cnt + 1)%Z then Ok (inr results)
     else Ok (inl ((readline h).2, (cnt + 1)%Z, results))).
Proof.
  intros Hr. assert ((readline h).1 ≠ []) as Hl by (by rewrite readline_nil).
  unfold meta_body. destruct (readline h) as [[|c l] h']; [done | reflexivity].
Qed.

(** From a state that may still continue, the loop returns the metadata
    lines among the next [max - cnt + 1] lines, after those found so far. *)
Lemma meta_loop fuel h cnt acc :
  (0 ≤ cnt ≤ max)%Z → length (lines_of (rest h)) < fuel →
  loop fuel (meta_body max) (h, cnt, acc) =
    (sel <- select_metadata (cnt + 1) (take (Z.to_nat (max - cnt) + 1) (lines_of (rest h))) ;;
     Ok (acc ++ sel)).
Proof.
  revert h cnt acc. induction fuel as [|fuel IH]; intros h cnt acc Hc Hf; [lia|].
  rewrite loop_S. destruct (decide (rest h = [])) as [Hr|Hr].
  { rewrite meta_body_eof, Hr by done. cbn [lines_of]. rewrite take_nil. simpl.
    by rewrite app_nil_r. }
  rewrite meta_body_step by done.
  rewrite readline_lines in Hf |- * by done. cbn [length] in Hf.
  rewrite Nat.add_1_r. cbn [take select_metadata].
  destruct (is_metadata _) as [m| |]; cbn [res_bind]; [|done|done].
  destruct (Z.ltb_spec max (cnt + 1)) as [Hm|Hm].
  - replace (Z.to_nat (max - cnt)) with 0 by lia. simpl. destruct m; by rewrite ?app_nil_r.
  - rewrite IH by lia. replace (Z.to_nat (max - cnt)) with (S (Z.to_nat (max - (cnt + 1)))) by lia.
    rewrite Nat.add_1_r. cbn [take].
    destruct (select_metadata _ _); cbn [res_bind]; [|done|done].
    destruct m; by rewrite <- ?app_assoc.
Qed.

Lemma select_metadata_err_app k pre l post e :
  Forall (λ x, ∃ b, is_metadata (parse_line_as_json x) = Ok b) pre →
  is_metadata (parse_line_as_json l) = Err e →
  select_metadata k (pre ++ l :: post) = Err e.
Proof.
  intros Hpre Hl. revert k. induction Hpre as [|x pre [b Hb] _ IH]; intros k; simpl.
  - by rewrite Hl.
  - rewrite Hb. cbn [res_bind]. by rewrite IH.
Qed.

Lemma select_metadata_all k ls :
  Forall (λ x, is_metadata (parse_line_as_json x) = Ok true) ls →
  ∃ sel, select_metadata k ls = Ok sel ∧ length sel = length ls.
Proof.
  intros Hall. revert k. induction Hall as [|x ls Hx _ IH]; intros k; simpl; [by exists []|].
  rewrite Hx. cbn [res_bind]. destruct (IH (k + 1)%Z) as (sel & -> & Hlen).
  exists ((k, x) :: sel). simpl. by rewrite Hlen.
Qed.
End MetaLoop.

Lemma is_metadata_non_dict `{JsonCodec} j :
  truthy j = true → (∀ kvs, j ≠ JObj kvs) → is_metadata j = Err AttributeError.
Proof.
  intros Ht Hd. unfold is_metadata. rewrite Ht.
  destruct j; try done. by destruct (Hd kvs).
Qed.

Section MetaTheorems.
Context `{JsonCodec} (contents : text).

(** The scanner is the reference [select_metadata] on the first [max + 1] lines. *)
Lemma find_metadata_events_select max :
  (0 ≤ max)%Z →
  find_metadata_events contents max =
    (sel <- select_metadata 1 (take (Z.to_nat max + 1) (lines_of contents)) ;;
     Ok (map (λ r, parse_line_as_json r.2) sel)).
Proof.
  intros Hm. unfold find_metadata_events.
  rewrite meta_loop by (unfold rest; simpl; rewrite ?drop_0; pose proof (length_lines_of contents); lia).
  unfold rest. simpl. rewrite ?drop_0. replace (max - 0)%Z with max by lia.
  change (0 + 1)%Z with 1%Z. by destruct (select_metadata 1 _).
Qed.

(** C4: for a non-negative [max_lines_to_scan], the scanner returns the
    metadata lines among the first [max_lines_to_scan + 1] lines of the
    file, decoded, in file order; it always returns (the loop never runs
    out of fuel), and it raises where the reference raises. *)
Theorem find_metadata_events_spec max :
  (0 ≤ max)%Z →
  find_metadata_events contents max =
    (sel <- select_metadata 1 (take (Z.to_nat max + 1) (lines_of contents)) ;;
     Ok (map (λ r, parse_line_as_json r.2) sel)).
Proof. by eapply find_metadata_events_select. Qed.

(** C35: when the first [n + 1] lines are all metadata, the scanner asked
    to scan the first [n] lines returns [n + 1] events: the line that
    makes [pbar_count > max_lines_to_scan] is examined before the
    [break]. *)
Theorem find_metadata_events_extra_line n :
  (0 ≤ n)%Z → Z.to_nat n + 1 ≤ length (lines_of contents) →
  Forall (λ l, is_metadata (parse_line_as_json l) = Ok true)
    (take (Z.to_nat n + 1) (lines_of contents)) →
  ∃ evs, find_metadata_events contents n = Ok evs ∧ length evs = Z.to_nat n + 1.
Proof.
  intros Hn Hlen Hall. rewrite find_metadata_events_select by done.
  destruct (select_metadata_all 1 _ Hall) as (sel & -> & Hs).
  exists (map (λ r, parse_line_as_json r.2) sel). split; [done|].
  rewrite length_map, Hs, length_take. lia.
Qed.

(** C36: a scanned line that decodes to a truthy value other than an
    object (a number, a string, a list) makes the scanner raise
    [AttributeError] when no earlier line did: the check is not a "parse
    failure skipped". *)
Theorem find_metadata_events_non_dict max pre l post :
  (0 ≤ max)%Z →
  take (Z.to_nat max + 1) (lines_of contents) = pre ++ l :: post →
  Forall (λ x, ∃ b, is_metadata (parse_line_as_json x) = Ok b) pre →
  truthy (parse_line_as_json l) = true → (∀ kvs, parse_line_as_json l ≠ JObj kvs) →
  find_metadata_events contents max = Err AttributeError.
Proof.
  intros Hm Ht Hpre Htr Hd. rewrite find_metadata_events_select, Ht by done.
  by rewrite (select_metadata_err_app 1 pre l post AttributeError Hpre (is_metadata_non_dict _ Htr Hd)).
Qed.
End MetaTheorems.

(** ** Runs on concrete traces *)

#[local] Existing Instance simple_codec.

Lemma find_metadata_events_spec_witness :
  find_metadata_events small_trace 5 =
    Ok [JObj [("name", JStr "process_name"); ("ph", JStr "M")];
        JObj [("name", JStr "thread_name"); ("ph", JStr "M")]].
Proof. rewrite (find_metadata_events_spec small_trace 5) by lia. vm_compute. reflexivity. Defined.

Lemma find_metadata_events_extra_line_witness :
  ∃ evs, find_metadata_events (concat (map meta_line ["a"; "b"; "c"; "d"])) 2 = Ok evs ∧
         length evs = 3.
Proof.
  apply (find_metadata_events_extra_line _ 2).
  - lia.
  - vm_compute. lia.
  - apply (Forall_forallb _ (λ l, if is_metadata (parse_line_as_json l) is Ok true then true else false)).
    + intros x. by destruct (is_metadata _) as [[]| |].
    + vm_compute. reflexivity.
Defined.

Lemma find_metadata_events_non_dict_witness :
  find_metadata_events (["["%char; nl] ++ txt "5" ++ [nl] ++ meta_line "a") 5 = Err AttributeError.
Proof.
  apply (find_metadata_events_non_dict _ 5 [["["%char; nl]] (txt "5" ++ [nl]) [meta_line "a"]).
  - lia.
  - vm_compute. reflexivity.
  - apply (Forall_forallb _ (λ x, if is_metadata (parse_line_as_json x) is Ok _ then true else false)).
    + intros x. destruct (is_metadata _) as [b| |]; [by exists b | done | done].
    + vm_compute. reflexivity.
  - vm_compute. reflexivity.
  - intros kvs. vm_compute. discriminate.
Defined.
