(* ===== verification/IndexSearch.v ===== *)
(** * Index Searcher: [HorovodTimeline.search_index]

    [search_index(find_ts)] (extract.py 533-550) maps a timestamp to a pair
    of byte offsets: [(0, 0)] at or below [min_ts], [(file_size_bytes,
    file_size_bytes)] at or above [max_ts], and otherwise the offsets of
    the first pair of consecutive index entries [(last_ts, last_byte)],
    [(ts, byte_ind)] with [last_ts <= find_ts <= ts], the scan starting
    from [(0, 0)]; it raises [RuntimeError] when no pair brackets
    [find_ts].  The attributes it reads ([self.min_ts], [self.max_ts],
    [self.file_size_bytes], [self.index]) are its parameters here.

    Index timestamps are the decoded ["ts"] values of trace lines, so they
    are [json] values compared through Python's numeric coercion; byte
    offsets come from [tell()] and are integers.  The theorems describe
    the result on an index of numbers, [num_index l]. *)

From S2P Require Import Prelude Json.

Fixpoint scan_index (find_ts last_ts : json) (last_byte_index : Z)
    (idx : list (json * Z)) : res (Z * Z) :=
  match idx with
  | [] => Err (RuntimeError "Something went very wrong while scanning index")
  | (ts, byte_ind) :: r =>
      c1 <- py_le last_ts find_ts ;;
      if c1 then
        c2 <- py_le find_ts ts ;;
        if c2 then Ok (last_byte_index, byte_ind) else scan_index find_ts ts byte_ind r
      else scan_index find_ts ts byte_ind r
  end.

Definition search_index (min_ts max_ts : json) (file_size_bytes : Z)
    (idx : list (json * Z)) (find_ts : json) : res (Z * Z) :=
  below <- py_le find_ts min_ts ;;
  if below then Ok (0, 0)%Z else
  above <- py_le max_ts find_ts ;;
  if above then Ok (file_size_bytes, file_size_bytes) else
  scan_index find_ts (JNum 0) 0 idx.

(** An index whose timestamps are numbers. *)
Definition num_index (l : list (Z * Z)) : list (json * Z) := map (λ e, (JNum e.1, e.2)) l.

(** The byte offset of the last entry of [pre], [b0] when [pre] is empty. *)
Fixpoint last_byte (b0 : Z) (pre : list (Z * Z)) : Z :=
  match pre with
  | [] => b0
  | (_, b) :: r => last_byte b r
  end.

Definition scan_error {A} : res A :=
  Err (RuntimeError "Something went very wrong while scanning index").

(** ** Lemmas *)

Lemma last_byte_cons b0 t b pre : last_byte b0 ((t, b) :: pre) = last_byte b pre.
Proof. reflexivity. Qed.

Lemma num_index_app l1 l2 : num_index (l1 ++ l2) = num_index l1 ++ num_index l2.
Proof. apply map_app. Qed.

#[export] Hint Rewrite last_byte_cons num_index_app : htl_rw.

Section Scan.
Context (find : Z).

(** The scan stops at the first entry at or after [find]; every entry it
    passes is before [find], so the [last_ts <= find_ts] test holds at
    each step after the first. *)
Lemma scan_index_first lt lb pre t hi post :
  (lt ≤ find)%Z → Forall (λ e, e.1 < find)%Z pre → (find ≤ t)%Z →
  scan_index (JNum find) (JNum lt) lb (num_index (pre ++ (t, hi) :: post)) =
    Ok (last_byte lb pre, hi).
Proof.
  revert lt lb. induction pre as [|[t0 b0] pre IH]; intros lt lb Hlt Hpre Ht;
    simpl; rewrite ?py_le_num; zcmp; simpl; rewrite ?py_le_num; zcmp; [done|].
  apply Forall_cons in Hpre as [H0 Hpre]. simpl in H0.
  rewrite ?py_le_num; zcmp. simpl. apply IH; auto with lia.
Qed.

Lemma scan_index_none lt lb l :
  (lt ≤ find)%Z → Forall (λ e, e.1 < find)%Z l →
  scan_index (JNum find) (JNum lt) lb (num_index l) = scan_error.
Proof.
  revert lt lb. induction l as [|[t0 b0] l IH]; intros lt lb Hlt Hl; simpl; [done|].
  apply Forall_cons in Hl as [H0 Hl]. simpl in H0.
  rewrite ?py_le_num; zcmp. simpl. rewrite ?py_le_num; zcmp. apply IH; auto with lia.
Qed.
End Scan.

(** The two early returns, on any index. *)
Lemma search_index_below mn mx fs idx find :
  (find ≤ mn)%Z → search_index (JNum mn) (JNum mx) fs idx (JNum find) = Ok (0, 0)%Z.
Proof. intros Hf. unfold search_index. rewrite py_le_num. by zcmp. Qed.

Lemma search_index_above mn mx fs idx find :
  (mn < find)%Z → (mx ≤ find)%Z → search_index (JNum mn) (JNum mx) fs idx (JNum find) = Ok (fs, fs).
Proof. intros Hf Hm. unfold search_index. rewrite ?py_le_num. zcmp. simpl. rewrite ?py_le_num. by zcmp. Qed.

Section SearchTheorems.
Context (min_ts max_ts fs : Z).

Lemma search_index_inside l find :
  (min_ts < find < max_ts)%Z →
  search_index (JNum min_ts) (JNum max_ts) fs (num_index l) (JNum find) =
    scan_index (JNum find) (JNum 0) 0 (num_index l).
Proof.
  intros Hf. unfold search_index. rewrite ?py_le_num. zcmp. simpl.
  rewrite ?py_le_num. by zcmp.
Qed.

(** At or below [min_ts] the search answers [(0, 0)], and strictly
    above [min_ts] but at or above [max_ts] it answers
    [(file_size_bytes, file_size_bytes)], whatever the index holds. *)
Theorem search_index_bounds l find :
  ((find ≤ min_ts)%Z →
     search_index (JNum min_ts) (JNum max_ts) fs (num_index l) (JNum find) = Ok (0, 0)%Z) ∧
  ((min_ts < find)%Z → (max_ts ≤ find)%Z →
     search_index (JNum min_ts) (JNum max_ts) fs (num_index l) (JNum find) = Ok (fs, fs)).
Proof. split; [apply search_index_below | apply search_index_above]. Qed.

(** C2: strictly between [min_ts] and [max_ts] (for a non-negative
    timestamp) the search returns the byte offset of the first index
    entry whose timestamp is at or after [find], paired with the offset
    of the entry before it ([0] when it is the first entry). *)
Theorem search_index_bracket l find pre t hi post :
  (min_ts < find < max_ts)%Z → (0 ≤ find)%Z →
  l = pre ++ (t, hi) :: post →
  Forall (λ e, e.1 < find)%Z pre → (find ≤ t)%Z →
  search_index (JNum min_ts) (JNum max_ts) fs (num_index l) (JNum find) =
    Ok (last_byte 0 pre, hi).
Proof.
  intros Hf H0 -> Hpre Ht. rewrite search_index_inside by done.
  by apply scan_index_first.
Qed.

(** C29: strictly between [min_ts] and [max_ts], a timestamp later than
    every index entry makes the search raise [RuntimeError]; this
    happens on a well-formed index whose last sample precedes [max_ts]
    (the last records of the trace are not sampled), and on an empty
    index. *)
Theorem search_index_past_last_entry l find :
  (min_ts < find < max_ts)%Z → (0 ≤ find)%Z →
  Forall (λ e, e.1 < find)%Z l →
  search_index (JNum min_ts) (JNum max_ts) fs (num_index l) (JNum find) = scan_error.
Proof.
  intros Hf H0 Hl. rewrite search_index_inside by done. by apply scan_index_none.
Qed.
End SearchTheorems.

Lemma search_index_bounds_witness :
  search_index (JNum 100) (JNum 900) 5000 (num_index [(200, 1000); (400, 2000)]%Z) (JNum 50)
    = Ok (0, 0)%Z ∧
  search_index (JNum 100) (JNum 900) 5000 (num_index [(200, 1000); (400, 2000)]%Z) (JNum 950)
    = Ok (5000, 5000)%Z.
Proof.
  split.
  - apply (search_index_bounds 100 900 5000 _ 50). lia.
  - apply (search_index_bounds 100 900 5000 _ 950); lia.
Defined.

Lemma search_index_bracket_witness :
  search_index (JNum 100) (JNum 900) 5000
    (num_index [(200, 1000); (400, 2000); (600, 3000)]%Z) (JNum 300) = Ok (1000, 2000)%Z.
Proof.
  apply (search_index_bracket 100 900 5000 _ 300 [(200, 1000)%Z] 400 2000 [(600, 3000)%Z]).
  - lia.
  - lia.
  - reflexivity.
  - repeat constructor; simpl; lia.
  - lia.
Defined.

Lemma search_index_past_last_entry_witness :
  search_index (JNum 100) (JNum 900) 5000 (num_index [(200, 1000); (400, 2000)]%Z) (JNum 500)
    = scan_error.
Proof.
  apply (search_index_past_last_entry 100 900 5000 _ 500).
  - lia.
  - lia.
  - repeat constructor; simpl; lia.
Defined.
