(* ===== verification/IndexValidate.v ===== *)
(** * Index Validator: [HorovodTimeline.confirm_index_is_valid]

    [confirm_index_is_valid()] (extract.py 553-581) walks the index from
    [last_ts = 0], [last_byte_index = 0] and, for each entry in turn, tests
    in this order: timestamp below [min_ts], timestamp above [max_ts],
    timestamp below the previous one, byte offset below the previous one,
    negative byte offset, byte offset past [file_size_bytes]; the first
    failing test is reported with the entry's position, and an index that
    passes every test is "good".  The [(False, message)] / [(True, "Index
    looks good")] pair is modelled as [Some problem] / [None], the problem
    carrying what the message reports. *)

From S2P Require Import Prelude Json IndexSearch.

Inductive index_problem : Type :=
| TsBeforeMin (i : nat)
| TsAfterMax (i : nat)
| TsOutOfOrder (ts last_ts : json) (i : nat)
| ByteOutOfOrder (i : nat)
| ByteNegative (i : nat)
| ByteBeyondFile (i : nat).

Definition problem_pos (p : index_problem) : nat :=
  match p with
  | TsBeforeMin i | TsAfterMax i | TsOutOfOrder _ _ i
  | ByteOutOfOrder i | ByteNegative i | ByteBeyondFile i => i
  end.

Section Validator.
Context (min_ts max_ts : json) (file_size_bytes : Z).

Fixpoint confirm_from (i : nat) (last_ts : json) (last_byte_index : Z)
    (idx : list (json * Z)) : res (option index_problem) :=
  match idx with
  | [] => Ok None
  | (ts, byte_ind) :: r =>
      c1 <- py_lt ts min_ts ;;
      if c1 then Ok (Some (TsBeforeMin i)) else
      c2 <- py_lt max_ts ts ;;
      if c2 then Ok (Some (TsAfterMax i)) else
      c3 <- py_lt ts last_ts ;;
      if c3 then Ok (Some (TsOutOfOrder ts last_ts i)) else
      if (byte_ind <? last_byte_index)%Z then Ok (Some (ByteOutOfOrder i)) else
      if (byte_ind <? 0)%Z then Ok (Some (ByteNegative i)) else
      if (file_size_bytes <? byte_ind)%Z then Ok (Some (ByteBeyondFile i)) else
      confirm_from (S i) ts byte_ind r
  end.

Definition confirm_index_is_valid (idx : list (json * Z)) : res (option index_problem) :=
  confirm_from 0 (JNum 0) 0 idx.
End Validator.

(** The invariants of an index (spec section 3), stated declaratively:
    timestamps and offsets non-decreasing (from the validator's starting
    point [0]), timestamps within [[min_ts, max_ts]] and offsets within
    [[0, file_size]]. *)
Definition index_wf (min_ts max_ts fs : Z) (l : list (Z * Z)) : Prop :=
  Sorted Z.le (0 :: map fst l)%Z ∧ Sorted Z.le (0 :: map snd l)%Z ∧
  Forall (λ e, min_ts ≤ e.1 ≤ max_ts ∧ 0 ≤ e.2 ≤ fs)%Z l.

(** ** Lemmas *)

Section ValidatorLemmas.
Context (min_ts max_ts fs : Z).

Lemma confirm_from_ok i lt lb l :
  confirm_from (JNum min_ts) (JNum max_ts) fs i (JNum lt) lb (num_index l) = Ok None ↔
  Sorted Z.le (lt :: map fst l) ∧ Sorted Z.le (lb :: map snd l) ∧
  Forall (λ e, min_ts ≤ e.1 ≤ max_ts ∧ 0 ≤ e.2 ≤ fs)%Z l.
Proof.
  revert i lt lb. induction l as [|[t b] l IH]; intros i lt lb; simpl.
  - split; [intros _; repeat constructor | done].
  - rewrite !sorted_cons2, Forall_cons. simpl. rewrite ?py_lt_num.
    destruct (Z.ltb_spec t min_ts); simpl; [split; [done | intros; destruct_and!; lia]|].
    destruct (Z.ltb_spec max_ts t); simpl; [split; [done | intros; destruct_and!; lia]|].
    destruct (Z.ltb_spec t lt); simpl; [split; [done | intros; destruct_and!; lia]|].
    destruct (Z.ltb_spec b lb); simpl; [split; [done | intros; destruct_and!; lia]|].
    destruct (Z.ltb_spec b 0); simpl; [split; [done | intros; destruct_and!; lia]|].
    destruct (Z.ltb_spec fs b); simpl; [split; [done | intros; destruct_and!; lia]|].
    rewrite IH. split; intros; destruct_and!; repeat split; auto with lia.
Qed.

(** Past a prefix the validator accepts, the walk resumes at the prefix's
    last entry with the position counted on. *)
Lemma confirm_from_app i lt lb l1 l2 :
  confirm_from (JNum min_ts) (JNum max_ts) fs i (JNum lt) lb (num_index l1) = Ok None →
  confirm_from (JNum min_ts) (JNum max_ts) fs i (JNum lt) lb (num_index (l1 ++ l2)) =
    confirm_from (JNum min_ts) (JNum max_ts) fs (i + length l1)
      (JNum (default lt (last (map fst l1)))) (last_byte lb l1) (num_index l2).
Proof.
  revert i lt lb. induction l1 as [|[t b] l1 IH]; intros i lt lb; simpl.
  - by rewrite Nat.add_0_r.
  - rewrite ?py_lt_num.
    destruct (t <? min_ts)%Z, (max_ts <? t)%Z, (t <? lt)%Z, (b <? lb)%Z, (b <? 0)%Z,
      (fs <? b)%Z; simpl; try done.
    intros H. rewrite (IH _ _ _ H), default_last_cons.
    by replace (S i + length l1) with (i + S (length l1)) by lia.
Qed.
End ValidatorLemmas.

Section ValidatorTheorems.
Context (min_ts max_ts fs : Z).

(** [confirm_index_is_valid] accepts exactly the indexes satisfying [index_ok]. *)
Lemma confirm_index_valid_spec l :
  confirm_index_is_valid (JNum min_ts) (JNum max_ts) fs (num_index l) = Ok None ↔
  index_wf min_ts max_ts fs l.
Proof. apply confirm_from_ok. Qed.

(** After a well-formed prefix [l1], an entry that breaks an
    invariant (out of range, or before the last entry of [l1]) is
    reported, at position [length l1], whatever follows it. *)
Theorem confirm_index_first_bad l1 t b l2 :
  index_wf min_ts max_ts fs l1 →
  ¬ ((min_ts ≤ t ≤ max_ts)%Z ∧ (0 ≤ b ≤ fs)%Z ∧
     (default 0 (last (map fst l1)) ≤ t)%Z ∧ (last_byte 0 l1 ≤ b)%Z) →
  ∃ p, confirm_index_is_valid (JNum min_ts) (JNum max_ts) fs (num_index (l1 ++ (t, b) :: l2))
         = Ok (Some p) ∧ problem_pos p = length l1.
Proof.
  intros Hwf Hbad. apply confirm_index_valid_spec in Hwf.
  unfold confirm_index_is_valid in *. rewrite (confirm_from_app _ _ _ _ _ _ _ _ Hwf). simpl.
  rewrite ?py_lt_num.
  destruct (Z.ltb_spec t min_ts); simpl; [by eexists|].
  destruct (Z.ltb_spec max_ts t); simpl; [by eexists|].
  destruct (Z.ltb_spec t (default 0%Z (last (map fst l1)))); simpl; [by eexists|].
  destruct (Z.ltb_spec b (last_byte 0 l1)); simpl; [by eexists|].
  destruct (Z.ltb_spec b 0); simpl; [by eexists|].
  destruct (Z.ltb_spec fs b); simpl; [by eexists|].
  exfalso. apply Hbad. lia.
Qed.

(** C6: the validator accepts an index of numbers exactly when the index
    satisfies the invariants of spec section 3: non-decreasing timestamps
    and offsets (the first ones at least [0]), timestamps in
    [[min_ts, max_ts]], offsets in [[0, file_size]]. *)
Theorem confirm_index_valid_iff l :
  confirm_index_is_valid (JNum min_ts) (JNum max_ts) fs (num_index l) = Ok None ↔
  index_wf min_ts max_ts fs l.
Proof. by eapply confirm_index_valid_spec. Qed.

(** The range tests come first: after a well-formed prefix, an entry
    below [min_ts] is reported as such even when it is also out of order,
    although the spec lists the ordering invariants first. *)
Theorem confirm_index_range_first l1 t b l2 :
  index_wf min_ts max_ts fs l1 → (t < min_ts)%Z →
  confirm_index_is_valid (JNum min_ts) (JNum max_ts) fs (num_index (l1 ++ (t, b) :: l2))
    = Ok (Some (TsBeforeMin (length l1))).
Proof.
  intros Hwf Ht. apply confirm_index_valid_spec in Hwf.
  unfold confirm_index_is_valid in *. rewrite (confirm_from_app _ _ _ _ _ _ _ _ Hwf). simpl.
  rewrite ?py_lt_num. by zcmp.
Qed.
End ValidatorTheorems.

Lemma confirm_index_valid_iff_witness :
  confirm_index_is_valid (JNum 100) (JNum 900) 5000 (num_index [(200, 1000); (400, 2000)]%Z)
    = Ok None ∧ index_wf 100 900 5000 [(200, 1000); (400, 2000)]%Z.
Proof.
  split; [reflexivity|].
  apply confirm_index_valid_iff. reflexivity.
Defined.

Lemma confirm_index_first_bad_witness :
  index_wf 100 900 5000 [(200, 1000)%Z] ∧
  confirm_index_is_valid (JNum 100) (JNum 900) 5000
    (num_index [(200, 1000); (150, 2000); (300, 2500)]%Z) =
    Ok (Some (TsOutOfOrder (JNum 150) (JNum 200) 1)) ∧
  ∃ p, confirm_index_is_valid (JNum 100) (JNum 900) 5000
         (num_index ([(200, 1000)] ++ (150, 2000) :: [(300, 2500)])%Z) = Ok (Some p) ∧
       problem_pos p = 1.
Proof.
  split; [apply confirm_index_valid_spec; reflexivity|]. split; [reflexivity|].
  apply (confirm_index_first_bad 100 900 5000 [(200, 1000)%Z] 150 2000 [(300, 2500)%Z]).
  - apply confirm_index_valid_spec. reflexivity.
  - simpl. lia.
Defined.

Lemma confirm_index_range_first_witness :
  index_wf 100 900 5000 [(200, 1000)%Z] ∧
  confirm_index_is_valid (JNum 100) (JNum 900) 5000 (num_index ([(200, 1000)] ++ [(50, 500)])%Z)
    = Ok (Some (TsBeforeMin 1)).
Proof.
  split; [apply confirm_index_valid_spec; reflexivity|].
  apply (confirm_index_range_first 100 900 5000 [(200, 1000)%Z] 50 500 []).
  - apply confirm_index_valid_spec. reflexivity.
  - lia.
Defined.
