(* ===== verification/IndexBuilder.v ===== *)
(** * Index Builder: [HorovodTimeline.build_index]

    [build_index(jump_bytes)] (extract.py 368-417) walks the trace with the
    generator [line_samples]: each round skips [jump] characters (when
    [jump >= max_jump = 65536] in reads of at most [max_jump], the inner
    [while jump-jumped > 0] loop), discards the rest of the current line
    with one [readline()], reads the next line as the sample, and stops
    when the sample is [""].  For each sample the consumer takes
    [ptr = f.tell()], the offset just past the sample, and appends
    [(ts, ptr)] when the sample's ["ts"] is truthy.  The generator and its
    consumer share the file handle; the consumer only reads [tell()], so
    one round of both is one step of [sample_body] on the handle.

    Fuel: a round that does not stop consumes its non-empty sample, so
    [length contents + 1] rounds suffice ([build_index_terminates]); the
    inner walk makes [ceil(jump / max_jump)] reads and one final test
    ([chunk_fuel]). *)

From S2P Require Import Prelude Json FileIO LineParse Traces IndexSearch.

Definition max_jump : Z := 65536.

(** [while jump-jumped > 0: next_jump = min(jump-jumped, max_jump);
    b = files.read(next_jump); jumped += next_jump] *)
Definition chunk_body (jump : Z) (st : Z * handle) : res ((Z * handle) + handle) :=
  let '(jumped, h) := st in
  if (0 <? jump - jumped)%Z then
    let next_jump := Z.min (jump - jumped) max_jump in
    Ok (inl (jumped + next_jump, (read next_jump h).2))%Z
  else Ok (inr h).

Definition chunk_fuel (jump : Z) : nat :=
  S (Z.to_nat ((jump + max_jump - 1) / max_jump)).

(** [if jump < max_jump: b = files.read(jump) else: <chunked walk>] *)
Definition skip_jump (jump : Z) (h : handle) : res handle :=
  if (jump <? max_jump)%Z then Ok (read jump h).2
  else loop (chunk_fuel jump) (chunk_body jump) (0%Z, h).

Section Builder.
Context `{JsonCodec}.

(** One round of [line_samples] and of the consumer's loop body. *)
Definition sample_body (jump : Z) (st : handle * list (json * Z))
    : res ((handle * list (json * Z)) + list (json * Z)) :=
  let '(h, indices) := st in
  h1 <- skip_jump jump h ;;
  let '(_, h2) := readline h1 in
  let '(b, h3) := readline h2 in
  match b with
  | [] => Ok (inr indices)
  | _ =>
      let ptr := Z.of_nat (tell h3) in
      ts <- extract_ts_from_line b ;;
      if truthy ts then Ok (inl (h3, indices ++ [(ts, ptr)]))
      else Ok (inl (h3, indices))
  end.

Definition build_index (contents : text) (jump_bytes : Z) : res (list (json * Z)) :=
  loop (S (length contents)) (sample_body jump_bytes) (open_file contents, []).
End Builder.

(** The handle of a round after the skip and the discarded partial line:
    the sample is the line read from it. *)
Definition resync (jump : Z) (h : handle) : handle := (readline (read jump h).2).2.

(** The invariant of the walk over [contents]: the handle stays within the
    file and every recorded offset is positive, increasing, and at most
    the position. *)
Definition walk_inv (contents : text) (st : handle * list (json * Z)) : Prop :=
  data st.1 = contents ∧ pos st.1 ≤ length contents ∧
  Sorted Z.lt (map snd st.2) ∧ Forall (λ e, 0 < e.2 ≤ Z.of_nat (pos st.1))%Z st.2.

(** [a] and [b] are numbers in order. *)
Definition ts_le (a b : json) : Prop := ∃ x y, a = JNum x ∧ b = JNum y ∧ (x ≤ y)%Z.

Section TraceProps.
Context `{JsonCodec}.

(** An index entry read from the complete line that starts just after a
    [\n] at offset [p]: its [ts] and the offset just past the line. *)
Definition sample_entry (contents : text) (e : json * Z) : Prop :=
  ∃ p, 0 < p ∧ contents !! (p - 1) = Some nl ∧ line_at contents p ≠ [] ∧
       e.2 = Z.of_nat (p + length (line_at contents p)) ∧
       extract_ts_from_line (line_at contents p) = Ok e.1 ∧ truthy e.1 = true.

(** The trace's timestamps are non-decreasing in file order. *)
Definition trace_monotone (contents : text) : Prop :=
  ∀ p q a b, line_start contents p → line_start contents q → p < q →
    extract_ts_from_line (line_at contents p) = Ok (JNum a) →
    extract_ts_from_line (line_at contents q) = Ok (JNum b) → (a ≤ b)%Z.

(** Every truthy timestamp of the trace is an integer. *)
Definition trace_numeric (contents : text) : Prop :=
  ∀ p ts, line_start contents p → extract_ts_from_line (line_at contents p) = Ok ts →
    truthy ts = true → ∃ z, ts = JNum z.

(** Executable checks of the two properties, over the offsets [0 .. size]
    (every line start is one of them). *)
Definition start_ts (contents : text) (p : nat) : option Z :=
  if bool_decide (line_start contents p) then
    match extract_ts_from_line (line_at contents p) with
    | Ok (JNum z) => Some z
    | _ => None
    end
  else None.

Definition trace_monotone_b (contents : text) : bool :=
  bool_decide (Sorted Z.le (omap (start_ts contents) (seq 0 (S (length contents))))).

Definition trace_numeric_b (contents : text) : bool :=
  forallb (λ p,
    if bool_decide (line_start contents p) then
      match extract_ts_from_line (line_at contents p) with
      | Ok ts => if truthy ts then (if ts is JNum _ then true else false) else true
      | _ => true
      end
    else true) (seq 0 (S (length contents))).
End TraceProps.

(** ** The chunked skip is one read *)

Lemma chunk_body_cases jump jumped h :
  ((0 < jump - jumped)%Z ∧
     chunk_body jump (jumped, h) =
       Ok (inl (jumped + Z.min (jump - jumped) max_jump,
                (read (Z.min (jump - jumped) max_jump) h).2))%Z) ∨
  ((jump - jumped ≤ 0)%Z ∧ chunk_body jump (jumped, h) = Ok (inr h)).
Proof. unfold chunk_body. destruct (Z.ltb_spec 0 (jump - jumped)); [left | right]; done. Qed.

(** The number of reads left decreases with every read. *)
Lemma chunk_measure_dec d :
  (0 < d)%Z →
  Z.to_nat ((d - Z.min d max_jump + max_jump - 1) / max_jump) <
  Z.to_nat ((d + max_jump - 1) / max_jump).
Proof.
  unfold max_jump. intros Hd.
  destruct (Z.min_spec d 65536) as [[Hm ->]|[Hm ->]].
  - replace (d - d + 65536 - 1)%Z with 65535%Z by lia. rewrite (Z.div_small 65535) by lia.
    assert (1 ≤ (d + 65536 - 1) / 65536)%Z by (apply Z.div_le_lower_bound; lia). lia.
  - replace (d + 65536 - 1)%Z with ((d - 1) + 1 * 65536)%Z by lia. rewrite Z.div_add by lia.
    replace (d - 65536 + 65536 - 1)%Z with (d - 1)%Z by lia.
    assert (0 ≤ (d - 1) / 65536)%Z by (apply Z.div_pos; lia). lia.
Qed.

(** The walk in steps of at most [max_jump] characters moves the
    handle exactly as one [read(jump)] does, for every [jump]: the
    sub-stepping is a pure performance device. *)
Theorem skip_jump_read jump h : skip_jump jump h = Ok (read jump h).2.
Proof.
  unfold skip_jump. destruct (Z.ltb_spec jump max_jump); [done|].
  assert (∃ r, loop (chunk_fuel jump) (chunk_body jump) (0%Z, h) = Ok r ∧ r = (read jump h).2)
    as (r & -> & ->); [|done].
  apply (loop_total (chunk_body jump)
           (λ st, (0 ≤ st.1 ≤ jump)%Z ∧ st.2 = (read st.1 h).2)
           (λ st, Z.to_nat ((jump - st.1 + max_jump - 1) / max_jump))).
  - intros [jumped h'] s' [Hj Hh]; cbn [fst snd] in Hj, Hh; subst h'.
    destruct (chunk_body_cases jump jumped (read jumped h).2) as [[Hd ->]|[_ ->]];
      [intros ->%ok_inl_inj | done].
    cbn [fst snd]. rewrite read_read by (unfold max_jump in *; lia).
    split; [unfold max_jump in *; split; [lia | done]|].
    replace (jump - (jumped + Z.min (jump - jumped) max_jump))%Z
      with (jump - jumped - Z.min (jump - jumped) max_jump)%Z by lia.
    by apply chunk_measure_dec.
  - intros [jumped h'] _. by destruct (chunk_body_cases jump jumped h') as [[_ ->]|[_ ->]].
  - intros [jumped h'] r [Hj Hh]; cbn [fst snd] in Hj, Hh; subst h'.
    destruct (chunk_body_cases jump jumped (read jumped h).2) as [[_ ->]|[Hd ->]]; [done|].
    intros ->%ok_inr_inj. by replace jumped with jump by lia.
  - intros [jumped h'] e _. by destruct (chunk_body_cases jump jumped h') as [[_ ->]|[_ ->]].
  - cbn [fst snd]. split; [unfold max_jump in *; lia|]. by rewrite read_zero.
  - unfold chunk_fuel. cbn [fst]. rewrite Z.sub_0_r. lia.
Qed.

(** ** One round *)

Section Round.
Context `{JsonCodec} (jump : Z).

Lemma sample_body_eq h idx :
  sample_body jump (h, idx) =
    match (readline (resync jump h)).1 with
    | [] => Ok (inr idx)
    | b =>
        ts <- extract_ts_from_line b ;;
        if truthy ts
        then Ok (inl ((readline (resync jump h)).2,
                      idx ++ [(ts, Z.of_nat (pos (readline (resync jump h)).2))]))
        else Ok (inl ((readline (resync jump h)).2, idx))
    end.
Proof.
  unfold sample_body, resync. rewrite skip_jump_read. cbn [res_bind].
  destruct (readline (read jump h).2) as [l2 h2]. cbn [snd].
  destruct (readline h2) as [b h3]. by destruct b.
Qed.

(** A round that continues has read a non-empty sample, moved the handle
    past it, and appended the sample's entry when its [ts] is truthy. *)
Lemma sample_body_next h idx s' :
  sample_body jump (h, idx) = Ok (inl s') →
  (readline (resync jump h)).1 ≠ [] ∧ s'.1 = (readline (resync jump h)).2 ∧
  (s'.2 = idx ∨
   ∃ ts, extract_ts_from_line (readline (resync jump h)).1 = Ok ts ∧ truthy ts = true ∧
         s'.2 = idx ++ [(ts, Z.of_nat (pos s'.1))]).
Proof.
  rewrite sample_body_eq. destruct (readline (resync jump h)).1 as [|c b] eqn:Eb; [done|].
  destruct (extract_ts_from_line (c :: b)) as [ts| |] eqn:Ets; cbn [res_bind]; [|done|done].
  destruct (truthy ts) eqn:Et; intros ->%ok_inl_inj; (split; [done|]); simpl; split; try done.
  - right. by exists ts.
  - by left.
Qed.

Lemma sample_body_stop h idx r :
  sample_body jump (h, idx) = Ok (inr r) → r = idx ∧ (readline (resync jump h)).1 = [].
Proof.
  rewrite sample_body_eq. destruct (readline (resync jump h)).1 as [|c b]; [by intros ->%ok_inr_inj|].
  destruct (extract_ts_from_line (c :: b)); cbn [res_bind]; [|done|done].
  by case_match.
Qed.

Lemma sample_body_fuel h idx : sample_body jump (h, idx) ≠ NoFuel.
Proof.
  rewrite sample_body_eq. destruct (readline (resync jump h)).1 as [|c b]; [done|].
  destruct (extract_ts_from_line (c :: b)) eqn:E; cbn [res_bind]; [by case_match | done |].
  by apply extract_ts_from_line_fuel in E.
Qed.

Lemma resync_remaining h : remaining (resync jump h) ≤ remaining h.
Proof. unfold resync. etransitivity; [apply remaining_readline_le | apply remaining_read_le]. Qed.

Lemma resync_pos h : pos h ≤ pos (resync jump h).
Proof. unfold resync. etransitivity; [apply read_pos_ge | apply readline_pos_ge]. Qed.

Lemma resync_data h : data (resync jump h) = data h.
Proof. done. Qed.

Lemma resync_pos_bound h : pos h ≤ length (data h) → pos (resync jump h) ≤ length (data h).
Proof.
  intros Hb. unfold resync. change (length (data h)) with (length (data (read jump h).2)).
  apply readline_pos_bound. rewrite read_data. by apply read_pos_bound.
Qed.
End Round.

(** ** The walk *)

Section Walk.
Context `{JsonCodec} (contents : text) (jump : Z).

Lemma sample_remaining_lt h :
  (readline (resync jump h)).1 ≠ [] → remaining (readline (resync jump h)).2 < remaining h.
Proof. intros Hne. pose proof (resync_remaining jump h). pose proof (remaining_readline_lt _ Hne). lia. Qed.

Lemma sample_pos_gt h :
  (readline (resync jump h)).1 ≠ [] → pos h < pos (readline (resync jump h)).2.
Proof. intros Hne. pose proof (resync_pos jump h). pose proof (readline_pos_gt _ Hne). lia. Qed.

(** C7: [build_index] terminates on every trace and every stride, even a
    zero or negative one: each round that does not stop consumes its
    non-empty sample line. *)
Theorem build_index_terminates : build_index contents jump ≠ NoFuel.
Proof.
  unfold build_index.
  apply (loop_terminates (sample_body jump) (λ _, True) (λ st, remaining st.1)).
  - intros [h idx] s' _ Hs. apply sample_body_next in Hs as (Hne & -> & _).
    split; [done|]. by apply sample_remaining_lt.
  - intros [h idx] _. apply sample_body_fuel.
  - done.
  - unfold remaining; simpl. lia.
Qed.

Lemma walk_inv_step st s' :
  walk_inv contents st → sample_body jump st = Ok (inl s') → walk_inv contents s'.
Proof.
  destruct st as [h idx]. intros (Hd & Hb & Hs & Hf) Hstep. cbn [fst snd] in *.
  apply sample_body_next in Hstep as (Hne & Hs1 & Hs2).
  pose proof (sample_pos_gt h Hne) as Hgt. rewrite <- Hs1 in Hgt.
  assert (pos s'.1 ≤ length contents).
  { rewrite Hs1, <- Hd. change (data h) with (data (resync jump h)).
    apply readline_pos_bound. rewrite resync_data. apply resync_pos_bound. by rewrite Hd. }
  assert (Forall (λ e, 0 < e.2 ≤ Z.of_nat (pos s'.1))%Z idx).
  { eapply Forall_impl; [exact Hf|]. simpl. lia. }
  repeat split; [by rewrite Hs1| done | |].
  - destruct Hs2 as [-> | (ts & _ & _ & ->)]; [done|].
    rewrite map_app. apply sorted_snoc; [done|]. intros y Hy. simpl.
    apply last_Some_elem_of, list_elem_of_In, in_map_iff in Hy as ([t b] & <- & Hin).
    rewrite Forall_forall in Hf. apply list_elem_of_In, Hf in Hin. simpl in *. lia.
  - destruct Hs2 as [-> | (ts & _ & _ & ->)]; [done|].
    apply Forall_app. split; [done|]. constructor; [simpl; lia | constructor].
Qed.

(** The offsets are positive, strictly increasing and within the file. *)
Lemma build_index_offsets_inv idx :
  build_index contents jump = Ok idx →
  Sorted Z.lt (map snd idx) ∧ Forall (λ e, 0 < e.2 ≤ Z.of_nat (length contents))%Z idx.
Proof.
  unfold build_index. intros Hl.
  apply (loop_result_inv (sample_body jump) (walk_inv contents)
           (λ r, Sorted Z.lt (map snd r) ∧
                 Forall (λ e, 0 < e.2 ≤ Z.of_nat (length contents))%Z r)
           (S (length contents)) (open_file contents, []) idx); [| | | exact Hl].
  - intros st s' HP Hs. by eapply walk_inv_step.
  - intros [h i] r (Hd & Hb & Hs & Hf) Hstop. apply sample_body_stop in Hstop as [-> _].
    split; [done|]. eapply Forall_impl; [exact Hf|]. simpl in *. lia.
  - repeat split; simpl; [lia | constructor | constructor].
Qed.

End Walk.

(** ** What the entries are *)

Section Entries.
Context `{JsonCodec} (contents : text) (jump : Z).

(** A sample is the whole line starting just after the [\n] that ends the
    discarded line. *)
Lemma sample_line_start h :
  data h = contents → (readline (resync jump h)).1 ≠ [] →
  0 < pos (resync jump h) ∧ contents !! (pos (resync jump h) - 1) = Some nl ∧
  (readline (resync jump h)).1 = line_at contents (pos (resync jump h)).
Proof.
  intros Hd Hne. unfold resync in *.
  destruct (readline_line_start (read jump h).2) as [Hp Hl].
  { intros Hr. apply Hne. by apply readline_nil. }
  split; [done|]. split; [by rewrite <- Hd|].
  unfold readline at 1, line_at. cbn [fst]. unfold rest. by rewrite <- Hd.
Qed.

Lemma walk_samples_step st s' :
  walk_inv contents st ∧ Forall (sample_entry contents) st.2 →
  sample_body jump st = Ok (inl s') →
  walk_inv contents s' ∧ Forall (sample_entry contents) s'.2.
Proof.
  destruct st as [h idx]. intros [Hw Hf] Hstep. split; [by eapply walk_inv_step|].
  destruct Hw as (Hd & _). cbn [fst snd] in *.
  apply sample_body_next in Hstep as (Hne & Hs1 & Hs2).
  destruct Hs2 as [-> | (ts & Hts & Ht & ->)]; [done|].
  apply Forall_app. split; [done|]. constructor; [|constructor].
  destruct (sample_line_start h Hd Hne) as (Hp & Hnl & Hline).
  exists (pos (resync jump h)). rewrite <- Hline. repeat split; try done.
  cbn [snd]. rewrite Hs1, readline_pos. done.
Qed.
End Entries.

Lemma sorted_ts_le_num xs : Sorted ts_le (map JNum xs) → Sorted Z.le xs.
Proof.
  induction xs as [|x xs IH]; intros Hs; [constructor|]. simpl in Hs.
  apply Sorted_inv in Hs as [Hs Hh]. constructor; [by apply IH|].
  destruct xs as [|y xs]; constructor. inversion Hh as [|? ? (a & b & Ha & Hb & Hab)]; subst.
  by injection Ha as ->; injection Hb as ->.
Qed.

Lemma num_index_fst l : map fst (num_index l) = map JNum (map fst l).
Proof. unfold num_index. by rewrite !map_map. Qed.

Lemma num_index_snd l : map snd (num_index l) = map snd l.
Proof. unfold num_index. by rewrite !map_map. Qed.

Lemma num_index_of (idx : list (json * Z)) :
  Forall (λ e, ∃ z, e.1 = JNum z) idx → ∃ l, idx = num_index l.
Proof.
  induction 1 as [|[t b] idx (z & Hz) _ (l & ->)]; [by exists []|].
  exists ((z, b) :: l). simpl in *. by subst.
Qed.

Section EntryTheorems.
Context `{JsonCodec} (contents : text) (jump : Z).

(** Every entry is a sampled line's ts with the offset past that line. *)
Lemma build_index_samples_inv idx :
  build_index contents jump = Ok idx → Forall (sample_entry contents) idx.
Proof.
  unfold build_index. intros Hl.
  apply (loop_result_inv (sample_body jump)
           (λ st, walk_inv contents st ∧ Forall (sample_entry contents) st.2)
           (λ r, Forall (sample_entry contents) r) (S (length contents))
           (open_file contents, []) idx); [| | | exact Hl].
  - intros st s' HP Hs. by eapply walk_samples_step.
  - intros [h i] r [_ Hf] Hstop. by apply sample_body_stop in Hstop as [-> _].
  - split; [repeat split; simpl; [lia | constructor | constructor] | constructor].
Qed.

Lemma walk_sorted_step st s' :
  trace_monotone contents → trace_numeric contents →
  walk_inv contents st ∧ Forall (sample_entry contents) st.2 ∧ Sorted ts_le (map fst st.2) →
  sample_body jump st = Ok (inl s') →
  walk_inv contents s' ∧ Forall (sample_entry contents) s'.2 ∧ Sorted ts_le (map fst s'.2).
Proof.
  intros Hmon Hnum (Hw & Hf & Hs) Hstep.
  destruct (walk_samples_step contents jump st s' (conj Hw Hf) Hstep) as [Hw' Hf'].
  split; [done|]. split; [done|].
  destruct st as [h idx]. destruct Hw as (Hd & _ & _ & Hb). cbn [fst snd] in *.
  apply sample_body_next in Hstep as (Hne & Hs1 & Hs2).
  destruct Hs2 as [-> | (ts & Hts & Ht & ->)]; [done|].
  destruct (sample_line_start contents jump h Hd Hne) as (Hp & Hnl & Hline).
  rewrite Hline in Hts.
  destruct (Hnum _ _ (or_intror Hnl) Hts Ht) as [y ->].
  rewrite map_app. apply sorted_snoc; [done|]. intros x Hx.
  apply last_Some_elem_of, list_elem_of_In, in_map_iff in Hx as ([t b] & <- & Hin).
  apply list_elem_of_In in Hin.
  rewrite Forall_forall in Hf, Hb. pose proof (Hb _ Hin) as Hbb. apply Hf in Hin as
    (q & Hq & Hqnl & Hqne & Hqb & Hqts & Hqt). cbn [fst snd] in *.
  destruct (Hnum _ _ (or_intror Hqnl) Hqts Hqt) as [x ->].
  exists x, y. repeat split. apply (Hmon q (pos (resync jump h)) x y); [by right | by right | | done | done].
  pose proof (resync_pos jump h). destruct (line_at contents q); [done|]. simpl in *. lia.
Qed.

(** C3: on a trace whose timestamps are integers in non-decreasing file
    order, the index holds integers in non-decreasing order at strictly
    increasing offsets: the ordering invariants of spec section 3 hold
    by construction. *)
Theorem build_index_sorted idx :
  trace_monotone contents → trace_numeric contents →
  build_index contents jump = Ok idx →
  ∃ l, idx = num_index l ∧ Sorted Z.le (map fst l) ∧ Sorted Z.lt (map snd l).
Proof.
  intros Hmon Hnum Hl.
  assert (Sorted ts_le (map fst idx)) as Hs.
  { unfold build_index in Hl.
    apply (loop_result_inv (sample_body jump)
             (λ st, walk_inv contents st ∧ Forall (sample_entry contents) st.2 ∧
                    Sorted ts_le (map fst st.2))
             (λ r, Sorted ts_le (map fst r)) (S (length contents))
             (open_file contents, []) idx); [| | | exact Hl].
    - intros st s' HP Hst. by apply (walk_sorted_step st s').
    - intros [h i] r (_ & _ & Hs) Hstop. by apply sample_body_stop in Hstop as [-> _].
    - split; [repeat split; simpl; [lia | constructor | constructor] | split; constructor]. }
  destruct (num_index_of idx) as [l ->].
  { apply build_index_samples_inv in Hl. eapply Forall_impl; [exact Hl|].
    intros e (p & _ & Hnl & _ & _ & Hts & Ht). by eapply (Hnum p); [right | |]. }
  exists l. split; [done|]. split.
  - apply sorted_ts_le_num. by rewrite <- num_index_fst.
  - rewrite <- num_index_snd. by eapply build_index_offsets_inv.
Qed.
End EntryTheorems.

(** ** The executable checks are sound *)

Section Checks.
Context `{JsonCodec} (contents : text).

Lemma trace_monotone_b_sound : trace_monotone_b contents = true → trace_monotone contents.
Proof.
  unfold trace_monotone_b. intros Hs%bool_decide_eq_true_1 p q a b Hp Hq Hpq Ha Hb.
  pose proof (line_start_bound _ _ Hq).
  apply (sorted_omap_seq (start_ts contents) (S (length contents)) p q); [done | lia | |];
    unfold start_ts; rewrite bool_decide_eq_true_2 by done; by rewrite ?Ha, ?Hb.
Qed.

Lemma trace_numeric_b_sound : trace_numeric_b contents = true → trace_numeric contents.
Proof.
  unfold trace_numeric_b. intros Hall p ts Hp Hts Ht.
  pose proof (line_start_bound _ _ Hp).
  rewrite forallb_forall in Hall. specialize (Hall p ltac:(apply in_seq; lia)).
  rewrite bool_decide_eq_true_2, Hts, Ht in Hall by done.
  destruct ts; try done. by eexists.
Qed.
End Checks.

(** ** Runs on a concrete trace *)

#[local] Existing Instance simple_codec.

Lemma build_index_sorted_witness :
  ∃ l, [(JNum 1000, 116); (JNum 1200, 198); (JNum 1400, 280); (JNum 1600, 362)]%Z = num_index l ∧
       Sorted Z.le (map fst l) ∧ Sorted Z.lt (map snd l).
Proof.
  apply (build_index_sorted small_trace 40).
  - apply trace_monotone_b_sound. vm_compute. reflexivity.
  - apply trace_numeric_b_sound. vm_compute. reflexivity.
  - vm_compute. reflexivity.
Defined.
