(* ===== verification/Scanner.v ===== *)
(** * Scanner: [blocks] and [HorovodTimeline.summarize]

    [summarize()] (extract.py 278-330) makes three passes over the open
    trace:
    - min_ts: [while min_ts is None: line = f.readline(); min_ts =
      extract_ts_from_line(line)], the first non-[None] ["ts"] from the
      start;
    - line count: [f.seek(0)], then the generator [blocks(f)] (107-111)
      reads chunks of 65536 characters until [read] returns [""], and the
      count is the sum of the chunks' ["\n"] counts;
    - max_ts: [f.seek(file_size_bytes - 100000)], one [readline()] to
      drop the partial line, then over the remaining lines
      [if ts: max_ts = max(ts, max_ts)] from [max_ts = 0].
    The progress bar and the timing prints are not modelled.

    Fuel: the min_ts loop is given [length contents + 2] rounds, enough to
    reach a timed line when there is one ([min_ts_loop_first]); when there
    is none it never stops, with any fuel ([min_ts_loop_diverges]).  The
    two other loops consume input each round and are given [remaining + 1]
    rounds. *)

From S2P Require Import Prelude Json FileIO LineParse Traces.

Definition block_size : Z := 65536.
Definition tail_bytes : Z := 100000.

(** [b = files.read(size); if not b: break; yield b] *)
Definition blocks_body (size : Z) (st : handle * list text)
    : res ((handle * list text) + (list text * handle)) :=
  let '(h, bs) := st in
  let '(b, h') := read size h in
  match b with
  | [] => Ok (inr (bs, h'))
  | _ => Ok (inl (h', bs ++ [b]))
  end.

Definition blocks (size : Z) (h : handle) : res (list text * handle) :=
  loop (S (remaining h)) (blocks_body size) (h, []).

(** [max(ts, max_ts)]: the first argument unless the second is larger. *)
Definition py_max2 (a b : json) : res json :=
  c <- py_lt a b ;; Ok (if c then b else a).

Section Summarize.
Context `{JsonCodec}.

(** [line = f.readline(); ts = extract_ts_from_line(line); min_ts = ts],
    repeated while [min_ts is None]. *)
Definition min_ts_body (h : handle) : res (handle + (json * handle)) :=
  let '(line, h') := readline h in
  ts <- extract_ts_from_line line ;;
  match ts with
  | JNull => Ok (inl h')
  | _ => Ok (inr (ts, h'))
  end.

(** [for line in f: ts = ...; if ts: max_ts = max(ts, max_ts)] *)
Definition max_ts_body (st : handle * json) : res ((handle * json) + json) :=
  let '(h, max_ts) := st in
  let '(line, h') := readline h in
  match line with
  | [] => Ok (inr max_ts)
  | _ =>
      ts <- extract_ts_from_line line ;;
      if truthy ts then (m <- py_max2 ts max_ts ;; Ok (inl (h', m)))
      else Ok (inl (h', max_ts))
  end.

Definition min_ts_scan (h : handle) : res (json * handle) :=
  loop (S (S (length (data h)))) min_ts_body h.

Definition max_ts_scan (h : handle) : res json :=
  loop (S (remaining h)) max_ts_body (h, JNum 0).

Definition summarize (contents : text) (file_size_bytes : Z) : res (nat * json * json) :=
  let f := open_file contents in
  r1 <- min_ts_scan f ;;
  let '(min_ts, f) := r1 in
  f <- seek 0 f ;;
  r2 <- blocks block_size f ;;
  let '(bls, f) := r2 in
  let lc := sum_list (map count_nl bls) in
  f <- seek (file_size_bytes - tail_bytes) f ;;
  let '(_, f) := readline f in
  max_ts <- max_ts_scan f ;;
  Ok (lc, min_ts, max_ts).
End Summarize.

(** No line of the trace has a [ts]: every line start decodes to [None]. *)
Definition untimed `{JsonCodec} (contents : text) : Prop :=
  ∀ q, line_start contents q → extract_ts_from_line (line_at contents q) = Ok JNull.

(** No line starting before offset [p] has a [ts]. *)
Definition untimed_upto_b `{JsonCodec} (contents : text) (p : nat) : bool :=
  forallb (λ q,
    if bool_decide (line_start contents q) then
      match extract_ts_from_line (line_at contents q) with Ok JNull => true | _ => false end
    else true) (seq 0 p).

Definition untimed_b `{JsonCodec} (contents : text) : bool :=
  untimed_upto_b contents (S (length contents)).

(** ** [blocks] *)

Lemma blocks_body_cases size h bs :
  ((read size h).1 = [] ∧ blocks_body size (h, bs) = Ok (inr (bs, (read size h).2))) ∨
  ((read size h).1 ≠ [] ∧
   blocks_body size (h, bs) = Ok (inl ((read size h).2, bs ++ [(read size h).1]))).
Proof.
  unfold blocks_body. destruct (read size h) as [b h'] eqn:E. cbn [fst snd].
  destruct b; [left | right]; done.
Qed.

Section Blocks.
Context (size : Z) (h0 : handle).
Hypothesis size_pos : (0 < size)%Z.

(** [blocks] terminates with bounded chunks that concatenate to the rest of the file. *)
Lemma blocks_partition :
  ∃ bls h', blocks size h0 = Ok (bls, h') ∧ concat bls = rest h0 ∧
            Forall (λ b, length b ≤ Z.to_nat size) bls ∧ rest h' = [].
Proof.
  assert (∃ r, blocks size h0 = Ok r ∧
               concat r.1 = rest h0 ∧ Forall (λ b, length b ≤ Z.to_nat size) r.1 ∧ rest r.2 = [])
    as ([bls h'] & ? & ?); [|by exists bls, h'].
  apply (loop_total (blocks_body size)
           (λ st, concat st.2 ++ rest st.1 = rest h0 ∧ Forall (λ b, length b ≤ Z.to_nat size) st.2)
           (λ st, remaining st.1)).
  - intros [h bs] s' [Hc Hf].
    destruct (blocks_body_cases size h bs) as [[_ ->]|[Hne ->]]; [done|]. intros ->%ok_inl_inj.
    cbn [fst snd]. split; [split|].
    + by rewrite concat_app, <- app_assoc, concat_cons, concat_nil, app_nil_r, read_app.
    + apply Forall_app. split; [done|]. constructor; [|constructor].
      unfold read. cbn [fst]. destruct (Z.ltb_spec size 0); [lia|]. rewrite length_take. lia.
    + rewrite read_advance. apply remaining_dec; [apply read_prefix | done].
  - intros [h bs] _. by destruct (blocks_body_cases size h bs) as [[_ ->]|[_ ->]].
  - intros [h bs] r [Hc Hf]. destruct (blocks_body_cases size h bs) as [[Hn ->]|[_ ->]]; [|done].
    intros ->%ok_inr_inj. cbn [fst snd] in *. apply read_nil in Hn; [|done].
    rewrite Hn, app_nil_r in Hc. split; [done|]. split; [done|].
    pose proof (read_app size h) as Happ. rewrite Hn in Happ. by apply app_eq_nil in Happ as [_ ->].
  - intros [h bs] e _. by destruct (blocks_body_cases size h bs) as [[_ ->]|[_ ->]].
  - split; [done | constructor].
  - cbn [fst]. lia.
Qed.

End Blocks.

(** ** The min_ts scan *)

Section MinScan.
Context `{JsonCodec} (contents : text).

Lemma min_ts_body_eq h :
  min_ts_body h =
    (ts <- extract_ts_from_line (line_at (data h) (pos h)) ;;
     match ts with
     | JNull => Ok (inl (readline h).2)
     | _ => Ok (inr (ts, (readline h).2))
     end).
Proof. unfold min_ts_body. rewrite <- readline_line_at. by destruct (readline h). Qed.

(** The min_ts scan returns the [ts] of the first line, from the
    start of the file, whose [ts] is not [None], with the handle just past
    that line. *)
Theorem min_ts_scan_first p t :
  line_start contents p → p < length contents →
  extract_ts_from_line (line_at contents p) = Ok t → t ≠ JNull →
  (∀ q, line_start contents q → q < p → extract_ts_from_line (line_at contents q) = Ok JNull) →
  min_ts_scan (open_file contents) =
    Ok (t, {| data := contents; pos := p + length (line_at contents p) |}).
Proof.
  intros Hp Hlen Ht Hnn Hbefore.
  assert (∃ r, min_ts_scan (open_file contents) = Ok r ∧
               r = (t, {| data := contents; pos := p + length (line_at contents p) |}))
    as (r & -> & ->); [|done].
  apply (loop_total min_ts_body
           (λ h, data h = contents ∧ line_start contents (pos h) ∧ pos h ≤ p)
           (λ h, p - pos h)).
  - intros h h' (Hd & Hs & Hle). rewrite min_ts_body_eq, Hd.
    destruct (decide (pos h = p)) as [->|Hne].
    { rewrite Ht. simpl. by destruct t. }
    rewrite Hbefore by (done || lia). intros ->%ok_inl_inj.
    pose proof (line_end_before contents (pos h) p Hp ltac:(lia)) as Hend.
    assert (line_at contents (pos h) ≠ []) as Hne'.
    { rewrite line_at_nil. lia. }
    rewrite readline_pos, readline_line_at, Hd. repeat split; [done | | exact Hend |].
    + destruct (readline_ends_line h) as [Hl|Hl]; [rewrite Hd; lia|..].
      * by rewrite readline_pos, readline_line_at, Hd in Hl.
      * rewrite readline_pos, readline_line_at, Hd in Hl. lia.
    + destruct (line_at contents (pos h)); [done|]. simpl. lia.
  - intros h (Hd & Hs & Hle). rewrite min_ts_body_eq, Hd.
    destruct (decide (pos h = p)) as [->|Hne].
    + rewrite Ht. simpl. by destruct t.
    + by rewrite Hbefore by (done || lia).
  - intros h r (Hd & Hs & Hle). rewrite min_ts_body_eq, Hd.
    destruct (decide (pos h = p)) as [Heq|Hne].
    + rewrite Heq, Ht. simpl. destruct h as [d q]. cbn [data pos] in *. subst.
      destruct t; try done; intros ->%ok_inr_inj; reflexivity.
    + by rewrite Hbefore by (done || lia).
  - intros h e (Hd & Hs & Hle). rewrite min_ts_body_eq, Hd.
    destruct (decide (pos h = p)) as [->|Hne].
    + rewrite Ht. simpl. by destruct t.
    + by rewrite Hbefore by (done || lia).
  - repeat split; simpl; [by left | lia].
  - simpl. lia.
Qed.
End MinScan.

Lemma untimed_upto_b_sound `{JsonCodec} contents p :
  untimed_upto_b contents p = true →
  ∀ q, line_start contents q → q < p → extract_ts_from_line (line_at contents q) = Ok JNull.
Proof.
  unfold untimed_upto_b. intros Hall q Hq Hqp.
  rewrite forallb_forall in Hall. specialize (Hall q ltac:(apply in_seq; lia)).
  rewrite bool_decide_eq_true_2 in Hall by done.
  by destruct (extract_ts_from_line (line_at contents q)) as [[]| |].
Qed.

Lemma untimed_b_sound `{JsonCodec} contents : untimed_b contents = true → untimed contents.
Proof.
  intros Hb q Hq. apply (untimed_upto_b_sound contents (S (length contents))); [done|done|].
  pose proof (line_start_bound _ _ Hq). lia.
Qed.

Section Untimed.
Context `{JsonLaws} (contents : text).

(** C26: on a trace in which no line has a [ts] (only metadata, or an
    empty file), the [while min_ts is None] loop of [summarize] never
    ends, whatever the fuel: at the end of the file [readline()] keeps
    returning [""], which decodes to [None]. *)
Theorem min_ts_scan_diverges n :
  untimed contents → loop n min_ts_body (open_file contents) = NoFuel.
Proof.
  intros Hu.
  apply (loop_diverges min_ts_body
           (λ h, data h = contents ∧ (line_start contents (pos h) ∨ length contents ≤ pos h))).
  - intros h (Hd & Hs). exists (readline h).2. rewrite min_ts_body_eq, Hd.
    assert (extract_ts_from_line (line_at contents (pos h)) = Ok JNull) as ->.
    { destruct Hs as [Hs|Hs]; [by apply Hu|].
      apply line_at_nil in Hs as ->. apply extract_ts_from_line_nil. }
    split; [done|]. split; [done|].
    destruct (decide (pos h ≤ length contents)) as [Hb|Hb].
    + destruct (readline_ends_line h) as [Hl|Hl]; [by rewrite Hd| |]; rewrite Hd in Hl.
      * by left.
      * right. lia.
    + right. rewrite readline_pos, readline_line_at, Hd.
      assert (line_at contents (pos h) = []) as -> by (apply line_at_nil; lia). simpl. lia.
  - split; [done|]. by left; left.
Qed.
End Untimed.

(** ** [summarize] *)

Section Summary.
Context `{JsonCodec} (contents : text).

(** C27: [summarize] raises [ValueError] on every trace shorter than
    100000 bytes whose min_ts scan finishes: the max_ts pass seeks to
    [file_size_bytes - 100000], a negative position, which a text-mode
    file refuses. *)
Theorem summarize_small_file fs r :
  min_ts_scan (open_file contents) = Ok r → (fs < tail_bytes)%Z →
  summarize contents fs = Err ValueError.
Proof.
  intros Hmin Hfs. unfold summarize. rewrite Hmin. destruct r as [mn h].
  cbn [res_bind]. rewrite seek_0. cbn [res_bind].
  destruct (blocks_partition block_size {| data := data h; pos := 0 |} ltac:(done))
    as (bls & h' & -> & _). cbn [res_bind].
  unfold seek. destruct (Z.ltb_spec (fs - tail_bytes) 0); [done | lia].
Qed.

(** C5: when [summarize] returns, its line count is the number of ["\n"]
    in the file, although it was counted chunk by chunk. *)
Theorem summarize_line_count fs lc mn mx :
  summarize contents fs = Ok (lc, mn, mx) → lc = count_nl contents.
Proof.
  unfold summarize. destruct (min_ts_scan (open_file contents)) as [[m h]| |] eqn:Hmin;
    cbn [res_bind]; [|done|done]. rewrite seek_0. cbn [res_bind].
  assert (data h = contents) as Hd.
  { unfold min_ts_scan in Hmin.
    apply (loop_result_inv min_ts_body (λ h, data h = contents) (λ r, data r.2 = contents)
             _ (open_file contents) (m, h)) in Hmin; [done| | |done].
    - intros h1 h2 Hd1. rewrite min_ts_body_eq.
      destruct (extract_ts_from_line _); cbn [res_bind]; [|done|done].
      destruct a; intros E; try discriminate E; apply ok_inl_inj in E; subst; done.
    - intros h1 r Hd1. rewrite min_ts_body_eq.
      destruct (extract_ts_from_line _); cbn [res_bind]; [|done|done].
      destruct a; intros E; try discriminate E; apply ok_inr_inj in E; subst; done. }
  destruct (blocks_partition block_size {| data := data h; pos := 0 |} ltac:(done))
    as (bls & h' & -> & Hc & _). cbn [res_bind].
  destruct (seek _ _) as [f| |]; cbn [res_bind]; [|done|done].
  destruct (readline f) as [l f']. destruct (max_ts_scan f'); cbn [res_bind]; [|done|done].
  intros [= <- _ _]. rewrite <- count_nl_concat, Hc. unfold rest. simpl. by rewrite Hd.
Qed.
End Summary.

(** ** Runs on concrete traces *)

#[local] Existing Instance simple_codec.

Lemma min_ts_scan_first_witness :
  let p := 2 + length (meta_line "process_name") + length (meta_line "thread_name") in
  line_start small_trace p ∧
  min_ts_scan (open_file small_trace) =
    Ok (JNum 1000, {| data := small_trace; pos := p + length (line_at small_trace p) |}).
Proof.
  intros p. split; [vm_compute; right; reflexivity|].
  apply min_ts_scan_first.
  - vm_compute. right. reflexivity.
  - vm_compute. lia.
  - vm_compute. reflexivity.
  - discriminate.
  - apply untimed_upto_b_sound. vm_compute. reflexivity.
Defined.

Lemma min_ts_scan_diverges_witness :
  untimed (trace_of ["process_name"; "thread_name"] 0 0 0) ∧
  loop 1000 min_ts_body (open_file (trace_of ["process_name"; "thread_name"] 0 0 0)) = NoFuel.
Proof.
  assert (untimed (trace_of ["process_name"; "thread_name"] 0 0 0)) as Hu.
  { apply untimed_b_sound. vm_compute. reflexivity. }
  split; [done|]. by apply min_ts_scan_diverges.
Defined.

Lemma summarize_small_file_witness :
  summarize small_trace 403 = Err ValueError.
Proof.
  set (p := 2 + length (meta_line "process_name") + length (meta_line "thread_name")).
  apply (summarize_small_file small_trace 403
           (JNum 1000, {| data := small_trace; pos := p + length (line_at small_trace p) |})).
  - vm_compute. reflexivity.
  - unfold tail_bytes. lia.
Defined.

Lemma summarize_line_count_witness :
  summarize big_trace (Z.of_nat (length big_trace)) = Ok (2302, JNum 0, JNum 2299000) ∧
  2302 = count_nl big_trace.
Proof.
  assert (summarize big_trace (Z.of_nat (length big_trace)) = Ok (2302, JNum 0, JNum 2299000))
    as E by (vm_compute; reflexivity).
  split; [exact E|]. exact (summarize_line_count big_trace _ _ _ _ E).
Defined.
