(* ===== verification/Timeline.v ===== *)
(** * The state of a [HorovodTimeline] object

    The attributes that [__init__] (extract.py 136-230) sets and that the
    query methods read: the trace file at [self.path] (its contents),
    [self.base_path], the summary fields [line_count], [min_ts],
    [max_ts], [index] and [metadata_events], and [file_size_bytes], the
    size of the file when the object was built.  Values loaded from the
    summary sidecar are JSON values, so [min_ts], [max_ts] and the index
    timestamps are [json]; index byte offsets are integers.
    [duration_secs] is derived from [min_ts] and [max_ts] and only feeds
    prints and the index stride, so it is not a field here. *)

From S2P Require Import Prelude Json Traces.

Record timeline := {
  trace : text;
  base_path : text;
  line_count : json;
  min_ts : json;
  max_ts : json;
  file_size_bytes : Z;
  index : list (json * Z);
  metadata_events : list json
}.

(** ** Concrete timelines *)

Definition meta_event (name : string) : json := JObj [("name", JStr name); ("ph", JStr "M")].

Definition mk_timeline (t : text) (mn mx fs : Z) (idx : list (json * Z)) (metas : list json)
    : timeline :=
  {| trace := t; base_path := txt "/data/trace"; line_count := JNum (Z.of_nat (count_nl t));
     min_ts := JNum mn; max_ts := JNum mx; file_size_bytes := fs; index := idx;
     metadata_events := metas |}.

(** [small_trace] with its summary: [ts] 1000 to 1700, 403 bytes, the
    index [build_index] builds with a 40-byte stride. *)
Definition small_timeline : timeline :=
  mk_timeline small_trace 1000 1700 403
    [(JNum 1000, 116); (JNum 1200, 198); (JNum 1400, 280); (JNum 1600, 362)]%Z
    [meta_event "process_name"; meta_event "thread_name"].

(** The same without metadata events. *)
Definition bare_timeline : timeline :=
  mk_timeline small_trace 1000 1700 403 [] [].

(** The same summary over a file that has shrunk: the summary says 500
    bytes. *)
Definition stale_timeline : timeline :=
  mk_timeline small_trace 1000 1700 500 [] [meta_event "process_name"; meta_event "thread_name"].

(** Three records, all at [ts] 1000. *)
Definition flat_trace : text := trace_of ["process_name"] 3 1000 0.

Definition flat_timeline : timeline :=
  mk_timeline flat_trace 1000 1000 (Z.of_nat (length flat_trace)) [] [meta_event "process_name"].

(** A record whose [ts] is a string, between two good ones. *)
Definition bad_ts_line : text := jtxt "{'ts': 'x', 'ph': 'X'}," ++ [nl].

Definition bad_trace : text :=
  ["["%char; nl] ++ meta_line "process_name" ++ rec_line 1000 ++ bad_ts_line ++ rec_line 1200.

Definition bad_timeline : timeline :=
  mk_timeline bad_trace 1000 1200 (Z.of_nat (length bad_trace)) [] [meta_event "process_name"].
