(* ===== verification/Extractor.v ===== *)
(** * Extractor: [HorovodTimeline.extract_and_save_slice]

    [extract_and_save_slice(start_secs, extract_duration_secs,
    return_slice)] (extract.py 463-528) computes the exact window
    [min_ts + start_secs * 1e6 .. min_ts + (start_secs + duration) * 1e6]
    and a buffered window two seconds wider, clamped below at [0] and above
    at [max_ts]; it resolves the buffered window to byte offsets with two
    [search_index] calls, writes ["["] and the metadata events to the
    output file, then reads lines from the lower offset, writing (and,
    with [return_slice], collecting) every record whose [ts] lies in the
    exact window, until [tell()] reaches the upper offset; it then writes
    ["\n]"] and returns.

    [extract_and_save_slice] returns the contents of the output file
    ([None] when it was never opened) and the method's result.  The
    scanning loop is [loop_st], so that on an exception the file holds
    what the iterations before it wrote.  Its fuel is one more than the
    length of the trace: every pass that does not stop reads a non-empty
    line when the upper offset lies within the file.

    The arguments are integers.  The CLI passes floats ([type=float]); an
    integer-valued float prints as ["N.0"], which [show_float_int]
    writes, and its products with [MICROSECONDS_PER_SEC] are exact below
    2^53.  Fractional seconds are not modelled.  The progress bar, the
    counter [i] and the verbose print are observational and not modelled;
    the one line the method prints is [extract_scanning_line]. *)

From S2P Require Import Prelude Json Progress FileIO LineParse Traces IndexSearch Timeline.

Definition MICROSECONDS_PER_SEC : Z := 1000000.

(** [f'{x}'] of an integer-valued float. *)
Definition show_float_int (z : Z) : text := show_Z z ++ txt ".0".

Section Extract.
Context `{JsonCodec}.

Definition extract_file_path (tl : timeline) (start_secs extract_duration_secs : Z) : text :=
  base_path tl ++ txt "-extract-" ++ show_float_int start_secs ++ txt "s-to-" ++
  show_float_int (start_secs + extract_duration_secs) ++ txt "s.json".

(** The metadata events, the first one after a bare ["\n"]. *)
Fixpoint write_metadata (first_line : bool) (evs : list json) : text :=
  match evs with
  | [] => []
  | m :: r =>
      (if first_line then [nl] else [","%char; nl]) ++ json_dumps m ++ write_metadata false r
  end.

(** [o.write("[")] and the metadata loop. *)
Definition extract_header (tl : timeline) : text :=
  txt "[" ++ write_metadata true (metadata_events tl).

(** [o.write(f',\n{json.dumps(j)}')] *)
Definition write_record (j : json) : text := [","%char; nl] ++ json_dumps j.

(** [ts is not None and ts >= min_extract_ts and ts <= max_extract_ts],
    after reading [ts] from the decoded line. *)
Definition in_window (min_extract_ts max_extract_ts : Z) (j : json) : res bool :=
  ts <- extract_ts_from_json j ;;
  match ts with
  | JNull => Ok false
  | _ =>
      c1 <- py_le (JNum min_extract_ts) ts ;;
      if c1 then py_le ts (JNum max_extract_ts) else Ok false
  end.

(** One pass of the [while True] loop: the state is the trace handle, the
    text written so far and [event_list]. *)
Definition extract_body (min_extract_ts max_extract_ts max_buffer_byte : Z)
    (return_slice : bool) (st : handle * text * list json)
    : res ((handle * text * list json) + (text * list json)) :=
  let '(h, out, event_list) := st in
  let '(line, h) := readline h in
  let j := parse_line_as_json line in
  keep <- in_window min_extract_ts max_extract_ts j ;;
  let event_list := if keep && return_slice then event_list ++ [j] else event_list in
  let out := if keep then out ++ write_record j else out in
  if (max_buffer_byte <=? Z.of_nat (tell h))%Z then Ok (inr (out ++ [nl; "]"%char], event_list))
  else Ok (inl (h, out, event_list)).

(** The window: [(min_extract_ts, max_extract_ts, min_buffer_ts,
    max_buffer_ts)]; the clamped upper bound is [self.max_ts] itself. *)
Definition extract_window (tl : timeline) (start_secs extract_duration_secs : Z)
    : res (Z * Z * Z * json) :=
  mn <- py_num (min_ts tl) ;;
  let min_extract_ts := (start_secs * MICROSECONDS_PER_SEC + mn)%Z in
  let min_buffer_ts := (min_extract_ts - 2 * MICROSECONDS_PER_SEC)%Z in
  let min_buffer_ts := if (min_buffer_ts <? 0)%Z then 0%Z else min_buffer_ts in
  let max_extract_ts := ((start_secs + extract_duration_secs) * MICROSECONDS_PER_SEC + mn)%Z in
  let max_buffer_ts := (max_extract_ts + 2 * MICROSECONDS_PER_SEC)%Z in
  above <- py_lt (max_ts tl) (JNum max_buffer_ts) ;;
  Ok (min_extract_ts, max_extract_ts, min_buffer_ts,
      if above then max_ts tl else JNum max_buffer_ts).

(** The exact window and the byte offsets of the buffered one:
    [(min_extract_ts, max_extract_ts, min_buffer_byte, max_buffer_byte)]
    (extract.py 469-482). *)
Definition extract_bounds (tl : timeline) (start_secs extract_duration_secs : Z)
    : res (Z * Z * Z * Z) :=
  let search := search_index (min_ts tl) (max_ts tl) (file_size_bytes tl) (index tl) in
  w <- extract_window tl start_secs extract_duration_secs ;;
  let '(min_extract_ts, max_extract_ts, min_buffer_ts, max_buffer_ts) := w in
  lo <- search (JNum min_buffer_ts) ;;
  hi <- search max_buffer_ts ;;
  Ok (min_extract_ts, max_extract_ts, lo.1, hi.2).

(** [print(f'Scanning {humanize_bytes(bytes_to_scan)}')] (484, 491):
    the line the method prints once both searches have returned. *)
Definition extract_scanning_line (tl : timeline) (start_secs extract_duration_secs : Z) : option text :=
  match extract_bounds tl start_secs extract_duration_secs with
  | Ok (_, _, min_buffer_byte, max_buffer_byte) =>
      Some (txt "Scanning " ++ humanize_bytes (max_buffer_byte - min_buffer_byte))
  | _ => None
  end.

(** The output file and the scan (extract.py 491-528): the file is
    opened, so it exists, before the trace is even sought. *)
Definition extract_scan (tl : timeline) (path : text)
    (min_extract_ts max_extract_ts min_buffer_byte max_buffer_byte : Z)
    (return_slice : bool) : option text * res (text * option (list json)) :=
  let header := extract_header tl in
  match seek min_buffer_byte (open_file (trace tl)) with
  | Err e => (Some header, Err e)
  | NoFuel => (Some header, NoFuel)
  | Ok h =>
      let '(st, r) :=
        loop_st (S (length (trace tl)))
          (extract_body min_extract_ts max_extract_ts max_buffer_byte return_slice)
          (h, header, []) in
      match r with
      | Ok (out, event_list) =>
          (Some out, Ok (path, if return_slice then Some event_list else None))
      | Err e => (Some st.1.2, Err e)
      | NoFuel => (Some st.1.2, NoFuel)
      end
  end.

Definition extract_and_save_slice (tl : timeline) (start_secs extract_duration_secs : Z)
    (return_slice : bool) : option text * res (text * option (list json)) :=
  let path := extract_file_path tl start_secs extract_duration_secs in
  match extract_bounds tl start_secs extract_duration_secs with
  | Err e => (None, Err e)
  | NoFuel => (None, NoFuel)
  | Ok (min_extract_ts, max_extract_ts, min_buffer_byte, max_buffer_byte) =>
      extract_scan tl path min_extract_ts max_extract_ts min_buffer_byte max_buffer_byte
        return_slice
  end.

(** ** Reference definitions *)

(** The lines the loop reads from offset [p], given the lines [ls] that
    follow: it stops after the first line that ends at or after [hi]; at
    the end of the file it reads [""] once, which ends the loop when the
    end is at or after [hi]. *)
Fixpoint scan_lines (p hi : nat) (ls : list text) : list text :=
  match ls with
  | [] => [[]]
  | l :: r => if hi <=? p + length l then [l] else l :: scan_lines (p + length l) hi r
  end.

(** The decoded lines of [ls] in the exact window, in order. *)
Fixpoint window_filter (lo hi : Z) (ls : list text) : res (list json) :=
  match ls with
  | [] => Ok []
  | l :: r =>
      keep <- in_window lo hi (parse_line_as_json l) ;;
      recs <- window_filter lo hi r ;;
      Ok (if keep then parse_line_as_json l :: recs else recs)
  end.

(** The decoded lines of [ls] that have a [ts]. *)
Fixpoint timed_records (ls : list text) : list json :=
  match ls with
  | [] => []
  | l :: r =>
      match extract_ts_from_line l with
      | Ok JNull => timed_records r
      | _ => parse_line_as_json l :: timed_records r
      end
  end.

(** A line without [ts], or with a numeric one in [mn .. mx]. *)
Definition ts_in_range (mn mx : Z) (l : text) : Prop :=
  extract_ts_from_line l = Ok JNull ∨
  ∃ t, extract_ts_from_line l = Ok (JNum t) ∧ (mn ≤ t ≤ mx)%Z.
Definition ts_in_range_b (mn mx : Z) (l : text) : bool :=
  match extract_ts_from_line l with
  | Ok JNull => true
  | Ok (JNum t) => (mn <=? t)%Z && (t <=? mx)%Z
  | _ => false
  end.
End Extract.

(** ** The scanning loop *)

Lemma ts_in_range_b_sound `{JsonCodec} mn mx ls :
  forallb (ts_in_range_b mn mx) ls = true → Forall (ts_in_range mn mx) ls.
Proof.
  intros Hall. apply Forall_forall. intros l Hl%list_elem_of_In.
  apply (proj1 (forallb_forall _ _) Hall) in Hl as Hall'. clear Hall. rename Hall' into Hall.
  unfold ts_in_range_b in Hall. unfold ts_in_range.
  destruct (extract_ts_from_line l) as [[| |t| | |]| |]; try done; [by left|].
  right. exists t. split; [done|]. apply andb_prop in Hall as [H1 H2]. lia.
Qed.

Section ExtractLoop.
Context `{JsonCodec} (lo hi_ts hi : Z) (rs : bool).

Lemma extract_body_eq h out evs :
  extract_body lo hi_ts hi rs (h, out, evs) =
    (keep <- in_window lo hi_ts (parse_line_as_json (readline h).1) ;;
     let j := parse_line_as_json (readline h).1 in
     let evs' := if keep && rs then evs ++ [j] else evs in
     let out' := if keep then out ++ write_record j else out in
     if (hi <=? Z.of_nat (tell (readline h).2))%Z then Ok (inr (out' ++ [nl; "]"%char], evs'))
     else Ok (inl ((readline h).2, out', evs'))).
Proof. unfold extract_body. by destruct (readline h). Qed.

(** With the upper offset inside the file, the loop writes and collects
    the records of [scan_lines] that lie in the window, then ["\n]"]. *)
Lemma extract_loop fuel h out evs :
  Z.to_nat hi ≤ length (data h) → pos h ≤ length (data h) → length (lines_of (rest h)) < fuel →
  loop fuel (extract_body lo hi_ts hi rs) (h, out, evs) =
    (recs <- window_filter lo hi_ts (scan_lines (pos h) (Z.to_nat hi) (lines_of (rest h))) ;;
     Ok (out ++ concat (map write_record recs) ++ [nl; "]"%char], if rs then evs ++ recs else evs)).
Proof.
  revert h out evs. induction fuel as [|fuel IH]; intros h out evs Hhi Hp Hf; [lia|].
  rewrite loop_S, extract_body_eq. unfold tell. rewrite readline_pos.
  destruct (decide (rest h = [])) as [Hr|Hr].
  - assert ((readline h).1 = []) as Hl by (by apply readline_nil).
    assert (pos h = length (data h)) as Hend.
    { unfold rest in Hr. apply (f_equal length) in Hr. rewrite length_drop in Hr. simpl in Hr. lia. }
    rewrite Hr, Hl. cbn [lines_of scan_lines window_filter length].
    destruct (in_window _ _ _) as [keep| |]; cbn [res_bind]; [|done|done].
    rewrite (proj2 (Z.leb_le _ _)) by lia.
    destruct keep, rs; simpl; by rewrite ?app_nil_r, <- ?app_assoc.
  - rewrite readline_lines in Hf |- * by done. cbn [length] in Hf. cbn [scan_lines].
    destruct (Nat.leb_spec (Z.to_nat hi) (pos h + length (readline h).1)) as [Hs|Hs];
      cbn [window_filter]; destruct (in_window _ _ _) as [keep| |]; cbn [res_bind];
      try done.
    + rewrite (proj2 (Z.leb_le _ _)) by lia.
      destruct keep, rs; simpl; by rewrite ?app_nil_r, <- ?app_assoc.
    + rewrite (proj2 (Z.leb_gt _ _)) by lia. rewrite IH, readline_pos.
      * destruct (window_filter _ _ _) as [recs| |]; cbn [res_bind]; [|done|done].
        destruct keep, rs; simpl; by rewrite <- ?app_assoc.
      * rewrite readline_data. lia.
      * rewrite readline_data. by apply readline_pos_bound.
      * lia.
Qed.
End ExtractLoop.

(** ** Reading the whole file *)

Lemma scan_lines_all p ls :
  ls ≠ [] → Forall (λ x, x ≠ []) ls → scan_lines p (p + length (concat ls)) ls = ls.
Proof.
  revert p. induction ls as [|l r IH]; intros p Hne Hall; [done|]. simpl.
  apply Forall_cons in Hall as [Hl Hr]. rewrite length_app.
  destruct r as [|x r].
  - simpl. rewrite (proj2 (Nat.leb_le _ _)) by lia. done.
  - rewrite (proj2 (Nat.leb_gt _ _)).
    + f_equal. rewrite Nat.add_assoc. by apply IH.
    + inversion Hr as [|? ? Hx]. simpl. rewrite length_app. destruct x; [done|]. simpl. lia.
Qed.

Lemma window_filter_in_range `{JsonCodec} lo hi mn mx ls :
  (lo ≤ mn)%Z → (mx ≤ hi)%Z → Forall (ts_in_range mn mx) ls →
  window_filter lo hi ls = Ok (timed_records ls).
Proof.
  intros Hlo Hhi Hall. induction Hall as [|l ls Hl _ IH]; [done|]. simpl.
  unfold in_window. rewrite <- extract_ts_from_line_json.
  destruct Hl as [E | (t & E & Ht)]; rewrite E; cbn [res_bind]; rewrite IH; [done|].
  rewrite !py_le_num. zcmp. done.
Qed.

(** At the end of the file [readline()] gives [""], which has no [ts]. *)
Lemma in_window_nil `{JsonLaws} lo hi : in_window lo hi (parse_line_as_json []) = Ok false.
Proof.
  unfold in_window, extract_ts_from_json, parse_line_as_json. simpl. by rewrite loads_nil.
Qed.

(** A line in range is kept exactly when it has a [ts]. *)
Lemma in_window_in_range `{JsonCodec} lo hi mn mx l :
  (lo ≤ mn)%Z → (mx ≤ hi)%Z → ts_in_range mn mx l →
  in_window lo hi (parse_line_as_json l) =
    Ok (match extract_ts_from_line l with Ok JNull => false | _ => true end).
Proof.
  intros Hlo Hhi Hl. unfold in_window. rewrite <- extract_ts_from_line_json.
  destruct Hl as [E | (t & E & Ht)]; rewrite E; cbn [res_bind]; [done|].
  rewrite !py_le_num. by zcmp.
Qed.

(** From offset [0] to the end of the file the loop reads every line. *)
Lemma scan_whole_file `{JsonLaws} lo hi mn mx t :
  (lo ≤ mn)%Z → (mx ≤ hi)%Z → Forall (ts_in_range mn mx) (lines_of t) →
  window_filter lo hi (scan_lines 0 (length t) (lines_of t)) = Ok (timed_records (lines_of t)).
Proof.
  intros Hlo Hhi Hall. destruct (decide (t = [])) as [->|Ht].
  - simpl. by rewrite in_window_nil.
  - replace (length t) with (0 + length (concat (lines_of t))) by (by rewrite concat_lines_of).
    rewrite (scan_lines_all 0 (lines_of t)).
    + by apply (window_filter_in_range lo hi mn mx).
    + intros E. apply Ht. by rewrite <- (concat_lines_of t), E.
    + apply lines_of_nonempty.
Qed.

(** ** The output file *)

Section ScanFile.
Context `{JsonCodec} (tl : timeline) (path : text) (a b lo hi : Z) (rs : bool).

Lemma extract_scan_ok h out evs :
  seek lo (open_file (trace tl)) = Ok h →
  loop (S (length (trace tl))) (extract_body a b hi rs) (h, extract_header tl, []) = Ok (out, evs) →
  extract_scan tl path a b lo hi rs = (Some out, Ok (path, if rs then Some evs else None)).
Proof.
  intros Hs Hl. unfold extract_scan. rewrite Hs. rewrite <- loop_st_res in Hl.
  destruct (loop_st _ _ _) as [st r]. simpl in Hl. by subst r.
Qed.

(** An exception in the loop leaves in the file what the passes before
    it wrote. *)
Lemma extract_scan_err h st e :
  seek lo (open_file (trace tl)) = Ok h →
  loop_st (S (length (trace tl))) (extract_body a b hi rs) (h, extract_header tl, []) = (st, Err e) →
  extract_scan tl path a b lo hi rs = (Some st.1.2, Err e).
Proof. intros Hs Hl. unfold extract_scan. by rewrite Hs, Hl. Qed.

Lemma extract_scan_nofuel h :
  seek lo (open_file (trace tl)) = Ok h →
  loop (S (length (trace tl))) (extract_body a b hi rs) (h, extract_header tl, []) = NoFuel →
  (extract_scan tl path a b lo hi rs).2 = NoFuel.
Proof.
  intros Hs Hl. unfold extract_scan. rewrite Hs. rewrite <- loop_st_res in Hl.
  destruct (loop_st _ _ _) as [st r]. simpl in Hl. by subst r.
Qed.

Lemma extract_scan_inv out r :
  extract_scan tl path a b lo hi rs = (Some out, Ok r) →
  ∃ h evs, seek lo (open_file (trace tl)) = Ok h ∧
    loop (S (length (trace tl))) (extract_body a b hi rs) (h, extract_header tl, []) = Ok (out, evs) ∧
    r = (path, if rs then Some evs else None).
Proof.
  unfold extract_scan. destruct (seek lo _) as [h| |]; [|done|done].
  destruct (loop_st _ _ _) as [st [[out' evs]| |]] eqn:E; [|done|done].
  intros [= -> <-]. exists h, evs. split; [done|]. split; [|done].
  by rewrite <- loop_st_res, E.
Qed.

(** With [return_slice], the loop keeps the file equal to the header
    followed by the collected events. *)
Lemma extract_loop_shape n h out evs out' evs' :
  out = extract_header tl ++ concat (map write_record evs) →
  loop n (extract_body a b hi true) (h, out, evs) = Ok (out', evs') →
  out' = extract_header tl ++ concat (map write_record evs') ++ [nl; "]"%char].
Proof.
  intros Hout Hl.
  apply (loop_result_inv (extract_body a b hi true)
           (λ st, st.1.2 = extract_header tl ++ concat (map write_record st.2))
           (λ r, r.1 = extract_header tl ++ concat (map write_record r.2) ++ [nl; "]"%char])
           n (h, out, evs) (out', evs')) in Hl; [done| | |done].
  - intros [[h1 o1] e1] s' Ho. rewrite extract_body_eq.
    destruct (in_window _ _ _) as [keep| |]; cbn [res_bind]; [|done|done].
    destruct (Z.leb _ _); [done|]. intros ->%ok_inl_inj. simpl in *. subst o1.
    destruct keep; cbn [fst snd andb]; [|done].
    rewrite map_app, concat_app. cbn [map concat]. by rewrite ?app_nil_r, ?app_assoc.
  - intros [[h1 o1] e1] r Ho. rewrite extract_body_eq.
    destruct (in_window _ _ _) as [keep| |]; cbn [res_bind]; [|done|done].
    destruct (Z.leb _ _); [|done]. intros ->%ok_inr_inj. simpl in *. subst o1.
    destruct keep; cbn [fst snd andb]; [|by rewrite ?app_assoc].
    rewrite map_app, concat_app. cbn [map concat]. by rewrite ?app_nil_r, ?app_assoc.
Qed.
End ScanFile.

(** ** Stopping early *)

(** A line whose [ts] cannot be compared raises; the file then holds what
    the lines before it wrote. *)
Lemma extract_loop_st_err `{JsonCodec} lo hi_ts hi rs mn mx pre l post e :
  (lo ≤ mn)%Z → (mx ≤ hi_ts)%Z → Forall (ts_in_range mn mx) pre →
  in_window lo hi_ts (parse_line_as_json l) = Err e →
  ∀ fuel h out evs,
  lines_of (rest h) = pre ++ l :: post →
  (Z.of_nat (pos h + length (concat pre)) < hi)%Z → length pre < fuel →
  ∃ st, loop_st fuel (extract_body lo hi_ts hi rs) (h, out, evs) = (st, Err e) ∧
        st.1.2 = out ++ concat (map write_record (timed_records pre)).
Proof.
  intros Hlo Hhi Hpre Hl. induction Hpre as [|x pre Hx _ IH];
    intros [|fuel] h out evs Hls Hpos Hf; try (simpl in Hf; lia).
  - destruct (readline_lines_inv _ _ _ Hls) as [Hl1 _].
    rewrite loop_st_S, extract_body_eq, Hl1, Hl. eexists. split; [reflexivity|].
    simpl. by rewrite app_nil_r.
  - destruct (readline_lines_inv _ _ _ Hls) as [Hx1 Hls'].
    rewrite loop_st_S, extract_body_eq, Hx1, (in_window_in_range _ _ mn mx) by done.
    cbn [res_bind]. unfold tell. rewrite readline_pos, Hx1.
    cbn [concat length] in Hpos. rewrite length_app in Hpos.
    rewrite (proj2 (Z.leb_gt _ _)) by lia.
    destruct (IH fuel (readline h).2
                (if match extract_ts_from_line x with Ok JNull => false | _ => true end
                 then out ++ write_record (parse_line_as_json x) else out)
                (if match extract_ts_from_line x with Ok JNull => false | _ => true end && rs
                 then evs ++ [parse_line_as_json x] else evs)) as (st & Hst & Hout);
      [done | rewrite readline_pos, Hx1; lia | simpl in Hf; lia |].
    exists st. split; [done|]. rewrite Hout. cbn [timed_records].
    destruct Hx as [E | (t & E & _)]; rewrite E; [done|].
    cbn [map concat]. by rewrite app_assoc.
Qed.

(** An upper offset past the end of the file is never reached: at the
    end [readline()] keeps returning [""] and [tell()] stays put. *)
Lemma extract_loop_diverges `{JsonLaws} lo hi_ts hi rs mn mx t n h out evs :
  (lo ≤ mn)%Z → (mx ≤ hi_ts)%Z → (Z.of_nat (length t) < hi)%Z →
  Forall (ts_in_range mn mx) (lines_of t) →
  data h = t → pos h ≤ length t → (∃ pre, pre ++ lines_of (rest h) = lines_of t) →
  loop n (extract_body lo hi_ts hi rs) (h, out, evs) = NoFuel.
Proof.
  intros Hlo Hhi Hend Hall Hd Hp Hpre.
  apply (loop_diverges _ (λ st, data st.1.1 = t ∧ pos st.1.1 ≤ length t ∧
                                ∃ pre, pre ++ lines_of (rest st.1.1) = lines_of t));
    [|done].
  intros [[h1 o1] e1] (Hd1 & Hp1 & pre & Hpre1). cbn [fst] in *.
  rewrite extract_body_eq.
  destruct (decide (rest h1 = [])) as [Hr|Hr].
  - rewrite (proj2 (readline_nil h1) Hr), in_window_nil. cbn [res_bind]. unfold tell.
    rewrite readline_pos, (proj2 (readline_nil h1) Hr). cbn [length].
    rewrite (proj2 (Z.leb_gt _ _)) by lia. eexists. split; [reflexivity|]. cbn [fst].
    rewrite readline_data. split; [done|]. split; [rewrite readline_pos, (proj2 (readline_nil h1) Hr); simpl; lia|].
    exists pre. pose proof (readline_app h1) as Ha. rewrite Hr, (proj2 (readline_nil h1) Hr) in Ha.
    cbn [app] in Ha. rewrite Ha. by rewrite Hr in Hpre1.
  - assert ((readline h1).1 ∈ lines_of t) as Hin.
    { rewrite <- Hpre1, readline_lines by done. apply elem_of_app. right. apply elem_of_cons. by left. }
    rewrite (in_window_in_range _ _ mn mx) by (done || by eapply Forall_forall).
    cbn [res_bind]. unfold tell.
    assert (pos (readline h1).2 ≤ length t) as Hb
      by (pose proof (readline_pos_bound h1) as Hb; rewrite Hd1 in Hb; auto).
    rewrite (proj2 (Z.leb_gt _ _)) by lia. eexists. split; [reflexivity|]. cbn [fst].
    rewrite readline_data. split; [done|]. split; [done|].
    exists (pre ++ [(readline h1).1]). rewrite <- app_assoc. cbn [app].
    by rewrite <- readline_lines.
Qed.

(** ** Windows starting at [min_ts] *)

Lemma extract_window_start `{JsonCodec} tl dur mn mx :
  min_ts tl = JNum mn → max_ts tl = JNum mx → (0 ≤ mn)%Z →
  (mx ≤ dur * MICROSECONDS_PER_SEC + mn)%Z →
  ∃ mb, extract_window tl 0 dur = Ok (mn, (dur * MICROSECONDS_PER_SEC + mn)%Z, mb, JNum mx) ∧
        (mb ≤ mn)%Z.
Proof.
  intros Hmn Hmx H0 Hd. unfold extract_window. rewrite Hmn, Hmx. cbn [py_num res_bind].
  rewrite py_lt_num. unfold MICROSECONDS_PER_SEC in *. zcmp. cbn [res_bind].
  replace (0 * 1000000 + mn)%Z with mn by lia.
  replace ((0 + dur) * 1000000 + mn)%Z with (dur * 1000000 + mn)%Z by lia.
  eexists. split; [reflexivity|]. destruct (Z.ltb_spec (mn - 2 * 1000000) 0); lia.
Qed.

(** A window starting at [min_ts] and reaching [max_ts] starts its scan
    at offset [0] and ends it where [search_index(max_ts)] says. *)
Lemma extract_bounds_start `{JsonCodec} tl dur mn mx :
  min_ts tl = JNum mn → max_ts tl = JNum mx → (0 ≤ mn)%Z →
  (mx ≤ dur * MICROSECONDS_PER_SEC + mn)%Z →
  extract_bounds tl 0 dur =
    (hi <- search_index (JNum mn) (JNum mx) (file_size_bytes tl) (index tl) (JNum mx) ;;
     Ok (mn, (dur * MICROSECONDS_PER_SEC + mn)%Z, 0%Z, hi.2)).
Proof.
  intros Hmn Hmx H0 Hd. unfold extract_bounds.
  destruct (extract_window_start tl dur mn mx) as (mb & -> & Hmb); try done.
  cbn [res_bind]. rewrite Hmn, Hmx, search_index_below by done. reflexivity.
Qed.

Lemma rest_open_file t : rest (open_file t) = t.
Proof. unfold rest. simpl. by rewrite drop_0. Qed.

Section ExtractTheorems.
Context `{JsonLaws} (tl : timeline).

(** C1: extracting from second [0] for at least the trace's duration
    returns every record that has a [ts], decoded, in file order, and
    writes the output file as ["["], the metadata events, each record
    after [",\n"], and ["\n]"]: no record is lost or repeated.  The
    timeline is consistent with its trace ([file_size_bytes] is its
    length, every [ts] is a number in [min_ts .. max_ts]) and spans
    more than one timestamp. *)
Theorem extract_full_range dur mn mx :
  min_ts tl = JNum mn → max_ts tl = JNum mx → (0 ≤ mn < mx)%Z →
  file_size_bytes tl = Z.of_nat (length (trace tl)) →
  (mx - mn ≤ dur * MICROSECONDS_PER_SEC)%Z →
  Forall (ts_in_range mn mx) (lines_of (trace tl)) →
  extract_and_save_slice tl 0 dur true =
    (Some (extract_header tl ++ concat (map write_record (timed_records (lines_of (trace tl)))) ++
           [nl; "]"%char]),
     Ok (extract_file_path tl 0 dur, Some (timed_records (lines_of (trace tl))))).
Proof.
  intros Hmn Hmx Hlt Hfs Hd Hall.
  unfold extract_and_save_slice. rewrite (extract_bounds_start tl dur mn mx) by (done || lia).
  rewrite search_index_above by lia. cbn [res_bind snd].
  apply (extract_scan_ok tl _ _ _ _ _ true (open_file (trace tl))); [done|].
  rewrite Hfs, extract_loop; cbn [pos data open_file]; rewrite ?rest_open_file, ?Nat2Z.id;
    [| lia | lia | pose proof (length_lines_of (trace tl)); lia].
  rewrite (scan_whole_file _ _ mn mx) by (done || lia). reflexivity.
Qed.

(** C28: when [min_ts = max_ts] (every record of the trace has the same
    timestamp), [search_index(max_buffer_ts)] answers [(0, 0)] because
    its [find_ts <= min_ts] test comes first, so the extraction reads
    only the first line of the trace, whatever the window. *)
Theorem extract_single_timestamp dur mn recs :
  min_ts tl = JNum mn → max_ts tl = JNum mn → (0 ≤ mn)%Z → (0 ≤ dur)%Z → trace tl ≠ [] →
  window_filter mn (dur * MICROSECONDS_PER_SEC + mn) (take 1 (lines_of (trace tl))) = Ok recs →
  extract_and_save_slice tl 0 dur true =
    (Some (extract_header tl ++ concat (map write_record recs) ++ [nl; "]"%char]),
     Ok (extract_file_path tl 0 dur, Some recs)).
Proof.
  intros Hmn Hmx Hm0 Hd Ht Hw.
  unfold extract_and_save_slice.
  rewrite (extract_bounds_start tl dur mn mn) by (unfold MICROSECONDS_PER_SEC; done || lia).
  rewrite search_index_below by lia. cbn [res_bind snd].
  apply (extract_scan_ok tl _ _ _ _ _ true (open_file (trace tl))); [done|].
  rewrite extract_loop; cbn [pos data open_file]; rewrite ?rest_open_file;
    [| simpl; lia | lia | pose proof (length_lines_of (trace tl)); lia].
  destruct (lines_of (trace tl)) as [|l ls] eqn:E.
  - exfalso. apply Ht. by rewrite <- (concat_lines_of (trace tl)), E.
  - simpl in Hw |- *. rewrite Hw. reflexivity.
Qed.
End ExtractTheorems.

Lemma extract_ok_inv `{JsonCodec} tl start dur rs out r :
  extract_and_save_slice tl start dur rs = (Some out, Ok r) →
  ∃ a b lo hi h evs,
    extract_bounds tl start dur = Ok (a, b, lo, hi) ∧
    seek lo (open_file (trace tl)) = Ok h ∧
    loop (S (length (trace tl))) (extract_body a b hi rs) (h, extract_header tl, []) = Ok (out, evs) ∧
    r = (extract_file_path tl start dur, if rs then Some evs else None).
Proof.
  unfold extract_and_save_slice.
  destruct (extract_bounds tl start dur) as [[[[a b] lo] hi]| |]; [|done|done].
  intros (h & evs & Hs & Hl & Hr)%extract_scan_inv. by exists a, b, lo, hi, h, evs.
Qed.

Section OutputTheorems.
Context `{JsonCodec} (tl : timeline).

(** C8: whenever an extraction with [return_slice] succeeds, the output
    file holds ["["], the metadata events, then exactly the returned
    records, each after [",\n"], then ["\n]"], and the returned path is
    [<base_path>-extract-<start>s-to-<end>s.json]. *)
Theorem extract_output_matches_slice start dur out p evs :
  extract_and_save_slice tl start dur true = (Some out, Ok (p, Some evs)) →
  out = extract_header tl ++ concat (map write_record evs) ++ [nl; "]"%char] ∧
  p = extract_file_path tl start dur.
Proof.
  intros (a & b & lo & hi & h & evs' & _ & _ & Hl & Hr)%extract_ok_inv.
  injection Hr as -> <-. split; [|done].
  apply (extract_loop_shape tl a b hi (S (length (trace tl))) h (extract_header tl) [] out evs); [|exact Hl].
  by rewrite app_nil_r.
Qed.

(** C10: with no metadata events, a successful extraction that finds a
    record writes a file starting ["[,"]: every record is written after
    a comma, and only the metadata loop tracks [first_line], so the
    output is not valid JSON. *)
Theorem extract_no_metadata_comma start dur out p evs :
  metadata_events tl = [] →
  extract_and_save_slice tl start dur true = (Some out, Ok (p, Some evs)) → evs ≠ [] →
  take 2 out = txt "[,".
Proof.
  intros Hm (a & b & lo & hi & h & evs' & _ & _ & Hl & Hr)%extract_ok_inv Hne.
  injection Hr as _ Hev. subst evs'.
  apply (extract_loop_shape tl a b hi _ h (extract_header tl) []) in Hl;
    [|by rewrite app_nil_r].
  subst out. unfold extract_header. rewrite Hm. destruct evs as [|j evs]; [done|]. reflexivity.
Qed.
End OutputTheorems.

Section FailureTheorems.
Context `{JsonLaws} (tl : timeline).

(** When the trace is shorter than the [file_size_bytes] of its
    timeline (the file was truncated or replaced after the summary was
    written), a full-range extraction never returns: the upper offset
    [file_size_bytes] lies past the end of the file, where [readline()]
    returns [""] forever and [tell()] stays below it. *)
Theorem extract_stale_size_diverges dur mn mx rs :
  min_ts tl = JNum mn → max_ts tl = JNum mx → (0 ≤ mn < mx)%Z →
  (Z.of_nat (length (trace tl)) < file_size_bytes tl)%Z →
  (mx - mn ≤ dur * MICROSECONDS_PER_SEC)%Z →
  Forall (ts_in_range mn mx) (lines_of (trace tl)) →
  (extract_and_save_slice tl 0 dur rs).2 = NoFuel.
Proof.
  intros Hmn Hmx Hlt Hfs Hd Hall.
  unfold extract_and_save_slice. rewrite (extract_bounds_start tl dur mn mx) by (done || lia).
  rewrite search_index_above by lia. cbn [res_bind snd].
  apply (extract_scan_nofuel tl _ _ _ _ _ rs (open_file (trace tl))); [done|].
  apply (extract_loop_diverges _ _ _ _ mn mx (trace tl));
    [lia | lia | lia | done | done | simpl; lia | exists []; by rewrite rest_open_file].
Qed.

(** C30: a record whose [ts] is a string, met during a full-range
    extraction, raises [TypeError] ([ts >= min_extract_ts]); the output
    file is left holding ["["], the metadata events and the records
    before it, with no closing ["]"]: a failed extraction leaves a
    partial file under the final name. *)
Theorem extract_partial_output dur mn mx rs pre l post s :
  min_ts tl = JNum mn → max_ts tl = JNum mx → (0 ≤ mn < mx)%Z →
  file_size_bytes tl = Z.of_nat (length (trace tl)) →
  (mx - mn ≤ dur * MICROSECONDS_PER_SEC)%Z →
  lines_of (trace tl) = pre ++ l :: post → Forall (ts_in_range mn mx) pre →
  extract_ts_from_line l = Ok (JStr s) →
  extract_and_save_slice tl 0 dur rs =
    (Some (extract_header tl ++ concat (map write_record (timed_records pre))), Err TypeError).
Proof.
  intros Hmn Hmx Hlt Hfs Hd Hls Hpre Hl.
  unfold extract_and_save_slice. rewrite (extract_bounds_start tl dur mn mx) by (done || lia).
  rewrite search_index_above by lia. cbn [res_bind snd].
  assert (length (concat pre) < length (trace tl)) as Hlen.
  { rewrite <- (concat_lines_of (trace tl)), Hls, concat_app, length_app.
    pose proof (lines_of_nonempty (trace tl)) as Hne. rewrite Hls in Hne.
    apply Forall_app in Hne as [_ Hne]. inversion Hne as [|? ? Hl0].
    destruct l; [done|]. simpl. lia. }
  assert (in_window mn (dur * MICROSECONDS_PER_SEC + mn) (parse_line_as_json l) = Err TypeError)
    as Hw by (unfold in_window; rewrite <- extract_ts_from_line_json, Hl; reflexivity).
  destruct (extract_loop_st_err mn (dur * MICROSECONDS_PER_SEC + mn) (file_size_bytes tl) rs
              mn mx pre l post TypeError ltac:(lia) ltac:(lia) Hpre Hw
              (S (length (trace tl))) (open_file (trace tl)) (extract_header tl) [])
    as (st & Hst & Hout).
  - by rewrite rest_open_file.
  - cbn [pos open_file]. lia.
  - pose proof (length_lines_of (trace tl)) as Hll. rewrite Hls, length_app in Hll.
    simpl in Hll. lia.
  - rewrite (extract_scan_err tl _ _ _ _ _ rs (open_file (trace tl)) st TypeError); [|done|done].
    by rewrite Hout.
Qed.
End FailureTheorems.

(** ** Runs on concrete timelines *)

#[local] Existing Instance simple_codec.

(** Discharges a hypothesis of an extractor theorem on a concrete
    timeline by evaluation. *)
Local Ltac concrete :=
  first [ reflexivity | lia | unfold MICROSECONDS_PER_SEC; lia
        | apply ts_in_range_b_sound; vm_compute; reflexivity
        | vm_compute; reflexivity | vm_compute; discriminate ].

Lemma extract_full_range_witness :
  extract_and_save_slice small_timeline 0 1 true =
    (Some (extract_header small_timeline ++
           concat (map write_record (timed_records (lines_of small_trace))) ++ [nl; "]"%char]),
     Ok (extract_file_path small_timeline 0 1, Some (timed_records (lines_of small_trace)))) ∧
  length (timed_records (lines_of small_trace)) = 8.
Proof.
  split; [|vm_compute; reflexivity].
  apply (extract_full_range small_timeline 1 1000 1700); concrete.
Defined.

Lemma extract_single_timestamp_witness :
  extract_and_save_slice flat_timeline 0 1 true =
    (Some (extract_header flat_timeline ++ [nl; "]"%char]),
     Ok (extract_file_path flat_timeline 0 1, Some [])).
Proof.
  apply (extract_single_timestamp flat_timeline 1 1000 []); concrete.
Defined.

Lemma extract_output_matches_slice_witness :
  match extract_and_save_slice small_timeline 0 1 true with
  | (Some out, Ok (p, Some evs)) =>
      out = extract_header small_timeline ++ concat (map write_record evs) ++ [nl; "]"%char] ∧
      p = extract_file_path small_timeline 0 1
  | _ => False
  end.
Proof.
  destruct (extract_and_save_slice small_timeline 0 1 true) as [[out|] [[p [evs|]]| |]] eqn:E;
    try (vm_compute in E; discriminate E).
  exact (extract_output_matches_slice small_timeline 0 1 out p evs E).
Defined.

Lemma extract_no_metadata_comma_witness :
  take 2 (default [] (extract_and_save_slice bare_timeline 0 1 true).1) = txt "[,".
Proof.
  destruct (extract_and_save_slice bare_timeline 0 1 true) as [[out|] [[p [evs|]]| |]] eqn:E;
    try (vm_compute in E; discriminate E).
  apply (extract_no_metadata_comma bare_timeline 0 1 out p evs); [reflexivity | exact E |].
  intros ->. vm_compute in E. discriminate E.
Defined.

Lemma extract_stale_size_diverges_witness :
  (extract_and_save_slice stale_timeline 0 1 true).2 = NoFuel.
Proof.
  apply (extract_stale_size_diverges stale_timeline 1 1000 1700 true); concrete.
Defined.

Lemma extract_partial_output_witness :
  extract_and_save_slice bad_timeline 0 1 false =
    (Some (extract_header bad_timeline ++ write_record (JObj [("ts", JNum 1000); ("ph", JStr "X");
                                                               ("name", JStr "step")])),
     Err TypeError).
Proof.
  change (write_record (JObj [("ts", JNum 1000); ("ph", JStr "X"); ("name", JStr "step")]))
    with (concat (map write_record
            (timed_records [["["%char; nl]; meta_line "process_name"; rec_line 1000]))).
  apply (extract_partial_output bad_timeline 1 1000 1200 false
           [["["%char; nl]; meta_line "process_name"; rec_line 1000] bad_ts_line [rec_line 1200] "x");
    concrete.
Defined.
