(* ===== verification/Summary.v ===== *)
(** * Summary Store: [HorovodTimeline.__init__]

    [__init__] (extract.py 136-230) derives [base_path] from the trace's
    path (every [".json"] removed when the path ends in [".json"]) and
    the sidecar path [base_path + ".sum.json"].  When the sidecar exists
    (and [build_new_summary] is off) it loads the six summary fields from
    it; when the file's size differs from the recorded one it schedules a
    rebuild of the line count, min/max timestamps and the index if the
    caller asked for an extraction ending after [max_ts]
    ([max_extract_time]) or passed [live].  Without a sidecar everything
    is built: [summarize], [find_metadata_events] and [build_index], the
    stride [bytes_per_index] derived from the duration when not given.
    Whatever was rebuilt is written back to the sidecar.

    The sidecar is modelled as the JSON value it holds ([json.dump] then
    [json.load] gives the value back: that is the library's contract);
    [horovod_timeline_init] takes the value read (or [None] when there is
    no sidecar) and is a run (the writer monad of [Prelude]): the lines
    [__init__] prints with [verbose] off, as the CLI calls it ([LOADING
    ...], one line before each scan, [... LOAD COMPLETE]), the sidecar it
    writes when something was rebuilt, and the object's state, a
    [timeline], or the exception that stopped it.  [htl_effect], the
    effects of an extract.py run, is declared here for that reason.  [duration_secs] and the
    stride [int(file_size_bytes / (duration_secs / secs_per_index))] are
    computed in binary64 as Python computes them ([PyFloat]): the [int]
    operands converted, each division refusing a zero divisor, [int()]
    truncating toward zero.  Loaded
    index entries must be [[ts, offset]] pairs with an integer offset and
    [metadata_events] a list: the model rejects other shapes at load with
    [TypeError], where Python fails only when the value is used. *)

From Stdlib Require Import PrimFloat.
From S2P Require Import Prelude Json PyFloat Progress FileIO LineParse Traces MetaScan.
From S2P Require Import IndexBuilder Scanner Timeline Extractor.

(** ** Paths *)

Definition json_ext : text := txt ".json".

(** [self.path.replace(".json", "") if self.path.endswith(".json") else self.path] *)
Definition base_path_of (path : text) : text :=
  if ends_with json_ext path then py_replace json_ext [] path else path.

(** [self.base_path + ".sum.json"] *)
Definition summary_json_path (path : text) : text := base_path_of path ++ txt ".sum.json".

(** ** Arguments *)

(** The keyword arguments of [__init__] that change what it computes;
    [verbose] only prints.  [max_extract_time] is [None] or a number of
    seconds (integer-valued here). *)
Record init_args := {
  max_lines_to_scan_for_metadata : Z;
  bytes_per_index : option Z;
  secs_per_index : option Z;
  build_new_summary : bool;
  max_extract_time : option Z;
  live : bool
}.

(** The defaults, with the CLI's [max_extract_time] and [live]. *)
Definition cli_args (end_time : option Z) (live_flag : bool) : init_args := {|
  max_lines_to_scan_for_metadata := (5 * 1000 * 1000)%Z;
  bytes_per_index := None;
  secs_per_index := Some 1%Z;
  build_new_summary := false;
  max_extract_time := end_time;
  live := live_flag
|}.

(** ** The summary as JSON *)

(** [summary[k]] *)
Definition get_key (k : string) (j : json) : res json :=
  match j with
  | JObj kvs => match dict_lookup k kvs with Some v => Ok v | None => Err KeyError end
  | _ => Err TypeError
  end.

Fixpoint index_entries_of_json (es : list json) : res (list (json * Z)) :=
  match es with
  | [] => Ok []
  | JArr [ts; JNum b] :: r => rest <- index_entries_of_json r ;; Ok ((ts, b) :: rest)
  | _ :: _ => Err TypeError
  end.

Definition index_of_json (j : json) : res (list (json * Z)) :=
  match j with JArr es => index_entries_of_json es | _ => Err TypeError end.

(** [json.dump] writes a tuple [(ts, ptr)] as a list. *)
Definition index_to_json (idx : list (json * Z)) : json :=
  JArr (map (λ e, JArr [e.1; JNum e.2]) idx).

Definition metadata_of_json (j : json) : res (list json) :=
  match j with JArr evs => Ok evs | _ => Err TypeError end.

(** The dict [json.dump] writes (extract.py 215-222). *)
Definition summary_to_json (tl : timeline) : json :=
  JObj [("line_count", line_count tl); ("min_ts", min_ts tl); ("max_ts", max_ts tl);
        ("index", index_to_json (index tl));
        ("metadata_events", JArr (metadata_events tl));
        ("file_size", JNum (file_size_bytes tl))].

(** The fields read back (extract.py 168-174), [file_size] first. *)
Definition load_summary (summary : json)
    : res (json * json * json * json * list (json * Z) * list json) :=
  previous_file_size <- get_key "file_size" summary ;;
  lc <- get_key "line_count" summary ;;
  mn <- get_key "min_ts" summary ;;
  mx <- get_key "max_ts" summary ;;
  idx <- (i <- get_key "index" summary ;; index_of_json i) ;;
  metas <- (m <- get_key "metadata_events" summary ;; metadata_of_json m) ;;
  Ok (previous_file_size, lc, mn, mx, idx, metas).

(** ** Derived values *)

(** [(self.max_ts - self.min_ts)], in microseconds. *)
Definition duration_us (mn mx : json) : res Z :=
  a <- py_num mn ;; b <- py_num mx ;; Ok (b - a)%Z.

(** [self.file_size_bytes != previous_file_size]: an [int] is never equal
    to a value of another type. *)
Definition size_changed (fs : Z) (previous : json) : bool :=
  match previous with
  | JNum n => negb (fs =? n)%Z
  | JBool b => negb (fs =? Z.b2z b)%Z
  | _ => true
  end.

(** [self.duration_secs = (self.max_ts - self.min_ts) / MICROSECONDS_PER_SEC]
    (172, 200): the [int] difference converted to a float, over [1e6]. *)
Definition MICROSECONDS_PER_SEC_f : float := float_of_Z MICROSECONDS_PER_SEC.

Definition duration_secs_of (mn mx : json) : res float :=
  d <- duration_us mn mx ;; py_int_div_float d MICROSECONDS_PER_SEC_f.

(** The stride (extract.py 210-214): [bytes_per_index] when given, else
    [jumps = self.duration_secs / secs_per_index] and
    [int(self.file_size_bytes / jumps)], both divisions on floats; a zero
    [secs_per_index] or a zero [jumps] raises [ZeroDivisionError]. *)
Definition index_stride (a : init_args) (fs : Z) (duration_secs : float) : res Z :=
  match bytes_per_index a with
  | Some b => Ok b
  | None =>
      match secs_per_index a with
      | None => Err (RuntimeError "One of bytes_per_index or secs_per_index must be not None")
      | Some s =>
          jumps <- py_float_div_int duration_secs s ;;
          q <- py_int_div_float fs jumps ;;
          py_int_of_float q
      end
  end.

(** The rebuild decision of a loaded summary (extract.py 177-190):
    [max_extract_time * MICROSECONDS_PER_SEC > self.max_ts], or [live],
    once the size has changed. *)
Definition needs_rebuild (a : init_args) (fs : Z) (previous mx : json) : res bool :=
  if size_changed fs previous then
    by_time <- (match max_extract_time a with
                | Some t => if (t =? 0)%Z then Ok false
                            else py_lt mx (JNum (t * MICROSECONDS_PER_SEC))
                | None => Ok false
                end) ;;
    Ok (by_time || live a)
  else Ok false.

(** ** What a run does *)

(** The effects of a run of extract.py, in order: a line printed, the
    summary sidecar written, an extract file written. *)
Inductive htl_effect : Type :=
| Print (line : text)
| WriteSummary (path : text) (contents : json)
| WriteExtract (path : text) (contents : text).

(** [print(s)] (82-83): one line on stdout. *)
Definition print_line (s : text) : run htl_effect unit := emit (Print s).

Section Init.
Context `{JsonCodec}.

(** The rebuild of a loaded summary whose file has grown (196-214): the
    line count and timestamps, then the index; the metadata events are
    kept. *)
Definition rebuild_stats (a : init_args) (t : text) (fs : Z)
    : run htl_effect (json * json * json * list (json * Z)) :=
  _ <-- print_line (txt "Scanning file for statistics") ;;;
  s <-- lift (summarize t fs) ;;;
  let '(lc, mn, mx) := s in
  dur <-- lift (duration_secs_of mn mx) ;;;
  _ <-- print_line (txt "Building index") ;;;
  bpi <-- lift (index_stride a fs dur) ;;;
  idx <-- lift (build_index t bpi) ;;;
  lift (Ok (JNum (Z.of_nat lc), mn, mx, idx)).

(** [__init__] as the CLI calls it ([verbose] off): the lines it prints,
    the sidecar it writes when something was rebuilt (216-229), and the
    object. *)
Definition horovod_timeline_init (t path : text) (sidecar : option json) (a : init_args)
    : run htl_effect timeline :=
  let base := base_path_of path in
  let fs := Z.of_nat (length t) in
  let mk lc mn mx idx metas :=
    {| trace := t; base_path := base; line_count := lc; min_ts := mn; max_ts := mx;
       file_size_bytes := fs; index := idx; metadata_events := metas |} in
  let save tl :=
    _ <-- emit (WriteSummary (summary_json_path path) (summary_to_json tl)) ;;;
    _ <-- print_line (txt "HOROVOD TIMELINE LOAD COMPLETE") ;;;
    lift (Ok tl) in
  _ <-- print_line (txt "LOADING HOROVOD TIMELINE") ;;;
  match (if build_new_summary a then None else sidecar) with
  | None =>
      _ <-- print_line (txt "Scanning file for statistics") ;;;
      s <-- lift (summarize t fs) ;;;
      let '(lc, mn, mx) := s in
      dur <-- lift (duration_secs_of mn mx) ;;;
      _ <-- print_line (txt "Scanning first " ++ humanize (max_lines_to_scan_for_metadata a) ++
                        txt " events for metadata events") ;;;
      metas <-- lift (find_metadata_events t (max_lines_to_scan_for_metadata a)) ;;;
      _ <-- print_line (txt "Building index") ;;;
      bpi <-- lift (index_stride a fs dur) ;;;
      idx <-- lift (build_index t bpi) ;;;
      save (mk (JNum (Z.of_nat lc)) mn mx idx metas)
  | Some summary =>
      loaded <-- lift (load_summary summary) ;;;
      let '(previous, lc, mn, mx, idx, metas) := loaded in
      _ <-- lift (duration_secs_of mn mx) ;;;
      rebuild <-- lift (needs_rebuild a fs previous mx) ;;;
      if rebuild then
        stats <-- rebuild_stats a t fs ;;;
        let '(lc', mn', mx', idx') := stats in
        save (mk lc' mn' mx' idx' metas)
      else
        _ <-- print_line (txt "HOROVOD TIMELINE LOAD COMPLETE") ;;;
        lift (Ok (mk lc mn mx idx metas))
  end.
End Init.

(** ** Lemmas *)

Lemma index_of_json_to_json idx : index_of_json (index_to_json idx) = Ok idx.
Proof.
  unfold index_of_json, index_to_json. induction idx as [|[t b] idx IH]; [done|].
  simpl. rewrite IH. reflexivity.
Qed.

(** Reading back the summary [__init__] writes gives back its fields. *)
Lemma load_summary_to_json tl :
  load_summary (summary_to_json tl) =
    Ok (JNum (file_size_bytes tl), line_count tl, min_ts tl, max_ts tl, index tl,
        metadata_events tl).
Proof.
  unfold load_summary, summary_to_json, get_key. cbn [dict_lookup String.eqb Ascii.eqb Bool.eqb].
  cbn [res_bind]. rewrite index_of_json_to_json. reflexivity.
Qed.

Lemma size_changed_same fs : size_changed fs (JNum fs) = false.
Proof. unfold size_changed. by rewrite Z.eqb_refl. Qed.

Lemma MICROSECONDS_PER_SEC_f_nonzero : (MICROSECONDS_PER_SEC_f =? 0)%float = false.
Proof. vm_compute. reflexivity. Qed.

Lemma duration_secs_of_num mn mx :
  (Z.abs (mx - mn) < FLOAT_INT_LIMIT)%Z →
  duration_secs_of (JNum mn) (JNum mx) = Ok (float_of_Z (mx - mn) / MICROSECONDS_PER_SEC_f)%float.
Proof.
  intros H. unfold duration_secs_of, py_int_div_float. cbn [duration_us py_num res_bind].
  rewrite py_float_of_int_small by done. cbn [res_bind]. unfold py_truediv.
  by rewrite MICROSECONDS_PER_SEC_f_nonzero.
Qed.

Lemma duration_secs_of_same m : duration_secs_of (JNum m) (JNum m) = Ok 0%float.
Proof.
  rewrite duration_secs_of_num, Z.sub_diag; [vm_compute; reflexivity|].
  rewrite Z.sub_diag. vm_compute. reflexivity.
Qed.

(** With a zero duration the stride divides by [jumps = 0.0 / s], a zero
    once [s] itself is not. *)
Lemma index_stride_zero_duration a fs s :
  bytes_per_index a = None → secs_per_index a = Some s →
  (Z.abs s < FLOAT_INT_LIMIT)%Z → (Z.abs fs < FLOAT_INT_LIMIT)%Z →
  index_stride a fs 0%float = Err ZeroDivisionError.
Proof.
  intros Hb Hs Hs' Hfs. unfold index_stride, py_float_div_int, py_int_div_float.
  rewrite Hb, Hs, !py_float_of_int_small by done. cbn [res_bind].
  unfold py_truediv at 1. destruct (float_of_Z s =? 0)%float eqn:E; [done|]. cbn [res_bind].
  by rewrite py_truediv_zero by (apply zero_div_float_of_Z, E).
Qed.

Section InitTheorems.
Context `{JsonCodec} (t path : text) (a : init_args).

Local Abbreviation LOADING := (Print (txt "LOADING HOROVOD TIMELINE")).
Local Abbreviation COMPLETE := (Print (txt "HOROVOD TIMELINE LOAD COMPLETE")).

(** A fresh build prints its four lines, writes the sidecar of the
    object it returns, and prints the last line. *)
Lemma init_fresh_effects tl efs :
  horovod_timeline_init t path None a = (efs, Ok tl) →
  efs = [LOADING; Print (txt "Scanning file for statistics");
         Print (txt "Scanning first " ++ humanize (max_lines_to_scan_for_metadata a) ++
                txt " events for metadata events");
         Print (txt "Building index"); WriteSummary (summary_json_path path) (summary_to_json tl);
         COMPLETE] ∧
  trace tl = t ∧ base_path tl = base_path_of path ∧ file_size_bytes tl = Z.of_nat (length t) ∧
  ∃ dur, duration_secs_of (min_ts tl) (max_ts tl) = Ok dur.
Proof.
  unfold horovod_timeline_init, print_line.
  destruct (build_new_summary a); autorewrite with htl_rw; cbn [fst snd];
  (destruct (summarize t _) as [[[lc mn] mx]|e|]; autorewrite with htl_rw; cbn [fst snd]; [|by intros [=]..]);
  (destruct (duration_secs_of mn mx) as [dur|e|] eqn:Hd; autorewrite with htl_rw; cbn [fst snd];
     [|by intros [=]..]);
  (destruct (find_metadata_events _ _) as [metas|e|]; autorewrite with htl_rw; cbn [fst snd];
     [|by intros [=]..]);
  (destruct (index_stride _ _ _) as [bpi|e|]; autorewrite with htl_rw; cbn [fst snd]; [|by intros [=]..]);
  (destruct (build_index _ _) as [idx|e|]; autorewrite with htl_rw; cbn [fst snd lift];
     [|by intros [=]..]);
  intros [= <- <-]; split_and!; try done; by exists dur.
Qed.

(** C9: loading the summary that a first [__init__] wrote, on the same
    unchanged file, rebuilds nothing and writes nothing (it prints only
    its first and last lines) and restores the same state: running the
    scanners once per file is enough. *)
Theorem init_reload_unchanged tl efs sj :
  build_new_summary a = false →
  horovod_timeline_init t path None a = (efs, Ok tl) →
  WriteSummary (summary_json_path path) sj ∈ efs →
  horovod_timeline_init t path (Some sj) a = ([LOADING; COMPLETE], Ok tl).
Proof.
  intros Hb Hinit Hin.
  destruct (init_fresh_effects _ _ Hinit) as (-> & Ht & Hbase & Hfs & dur & Hd).
  assert (sj = summary_to_json tl) as ->.
  { rewrite !elem_of_cons, elem_of_nil in Hin. naive_solver. }
  unfold horovod_timeline_init, print_line. rewrite Hb. autorewrite with htl_rw.
  rewrite load_summary_to_json. autorewrite with htl_rw. rewrite Hd. autorewrite with htl_rw.
  unfold needs_rebuild. rewrite <- Hfs, size_changed_same. autorewrite with htl_rw.
  destruct tl; cbn in *; subst. reflexivity.
Qed.

(** C37: the rebuild test compares [max_extract_time * 1e6], a time
    relative to the start of the trace, with [max_ts], an absolute
    timestamp: when the file has grown and an extraction is asked to end
    after [max_ts] (at [min_ts + max_extract_time * 1e6]), [__init__]
    still keeps the stale summary, printing only its first and last
    lines, whenever [max_extract_time * 1e6 <= max_ts], as it is for any
    trace whose timestamps are clock times. *)
Theorem init_relative_end_time summary prev lc mn mx idx metas T :
  build_new_summary a = false → live a = false → max_extract_time a = Some T → T ≠ 0%Z →
  load_summary summary = Ok (prev, lc, JNum mn, JNum mx, idx, metas) →
  size_changed (Z.of_nat (length t)) prev = true →
  (mx < mn + T * MICROSECONDS_PER_SEC)%Z → (T * MICROSECONDS_PER_SEC ≤ mx)%Z →
  (Z.abs (mx - mn) < FLOAT_INT_LIMIT)%Z →
  horovod_timeline_init t path (Some summary) a =
    ([LOADING; COMPLETE],
     Ok {| trace := t; base_path := base_path_of path; line_count := lc;
           min_ts := JNum mn; max_ts := JNum mx; file_size_bytes := Z.of_nat (length t);
           index := idx; metadata_events := metas |}).
Proof.
  intros Hb Hl HT HT0 Hload Hch _ Hle Hd. unfold horovod_timeline_init, print_line. rewrite Hb.
  autorewrite with htl_rw. rewrite Hload. autorewrite with htl_rw.
  rewrite duration_secs_of_num by done. autorewrite with htl_rw. unfold needs_rebuild.
  rewrite Hch, HT, Hl. rewrite (proj2 (Z.eqb_neq T 0)) by done.
  rewrite py_lt_num. rewrite (proj2 (Z.ltb_ge _ _)) by lia. autorewrite with htl_rw. reflexivity.
Qed.

(** C38: on a trace whose timed records all carry the same timestamp
    (so [min_ts = max_ts]), building a new summary with no
    [bytes_per_index] divides by the zero duration: [jumps = 0.0 / s] is
    a zero (or [s] is), and [__init__] raises [ZeroDivisionError] after
    printing ["Building index"], for every [secs_per_index] and file size
    that convert to floats. *)
Theorem init_single_timestamp_zero_division lc m metas s :
  bytes_per_index a = None → secs_per_index a = Some s → (Z.abs s < FLOAT_INT_LIMIT)%Z →
  (Z.of_nat (length t) < FLOAT_INT_LIMIT)%Z →
  summarize t (Z.of_nat (length t)) = Ok (lc, JNum m, JNum m) →
  find_metadata_events t (max_lines_to_scan_for_metadata a) = Ok metas →
  horovod_timeline_init t path None a =
    ([LOADING; Print (txt "Scanning file for statistics");
      Print (txt "Scanning first " ++ humanize (max_lines_to_scan_for_metadata a) ++
             txt " events for metadata events");
      Print (txt "Building index")], Err ZeroDivisionError).
Proof.
  intros Hbpi Hspi Hs Hlen Hsum Hm. unfold horovod_timeline_init, print_line.
  destruct (build_new_summary a); autorewrite with htl_rw; rewrite Hsum; autorewrite with htl_rw;
    rewrite duration_secs_of_same; autorewrite with htl_rw; rewrite Hm; autorewrite with htl_rw;
    rewrite (index_stride_zero_duration _ _ s) by (done || rewrite Z.abs_eq; lia);
    autorewrite with htl_rw; reflexivity.
Qed.
End InitTheorems.

(** Two different trace paths share one sidecar: [replace] removes
    every [".json"], not only the extension, so ["/d.json/x.json"] and
    ["/d/x.json"] both keep their summary in ["/d/x.sum.json"], and the
    second trace loads the first one's summary. *)
Example summary_path_collision :
  summary_json_path (txt "/d.json/x.json") = summary_json_path (txt "/d/x.json") ∧
  txt "/d.json/x.json" ≠ txt "/d/x.json".
Proof. split; [vm_compute; reflexivity | discriminate]. Qed.

(** ** Runs on concrete traces *)

(** The stride is Python's binary64 quotient, not the exact one: a
    123,456,789-byte trace lasting 5 microseconds gets
    [int(123456789 / 5e-06) = 24691357799999], one below
    [123456789 * 10 ^ 6 / 5]. *)
Example index_stride_rounds :
  index_stride (cli_args None false) 123456789 (float_of_Z 5 / MICROSECONDS_PER_SEC_f)%float
    = Ok 24691357799999%Z ∧ (123456789 * 10 ^ 6 / 5 = 24691357800000)%Z.
Proof. split; vm_compute; reflexivity. Qed.

#[local] Existing Instance simple_codec.

Lemma init_reload_unchanged_witness :
  let a := {| max_lines_to_scan_for_metadata := 10; bytes_per_index := Some 40000%Z;
              secs_per_index := Some 1%Z; build_new_summary := false;
              max_extract_time := None; live := false |} in
  (match (horovod_timeline_init big_trace (txt "/data/big.json") None a).2 with
   | Ok tl => index tl
   | _ => []
   end) = [(JNum 932000, 40045%Z); (JNum 1844000, 80106%Z)] ∧
  match horovod_timeline_init big_trace (txt "/data/big.json") None a with
  | (_, Ok tl) =>
      horovod_timeline_init big_trace (txt "/data/big.json") (Some (summary_to_json tl)) a =
        ([Print (txt "LOADING HOROVOD TIMELINE"); Print (txt "HOROVOD TIMELINE LOAD COMPLETE")], Ok tl)
  | _ => False
  end.
Proof.
  intros a. split; [vm_compute; reflexivity|].
  assert (match horovod_timeline_init big_trace (txt "/data/big.json") None a with
          | (_, Ok _) => true
          | _ => false
          end = true) as Hb by (vm_compute; reflexivity).
  destruct (horovod_timeline_init big_trace (txt "/data/big.json") None a) as [efs [tl| |]] eqn:E;
    try discriminate Hb.
  apply (init_reload_unchanged _ _ a tl efs); [done|done|].
  destruct (init_fresh_effects _ _ _ _ _ E) as (-> & _).
  repeat (apply elem_of_cons; first [left; reflexivity | right]).
Defined.

Lemma init_relative_end_time_witness :
  let s := summary_to_json (mk_timeline small_trace 1000000000 1005000000 300 [] []) in
  horovod_timeline_init small_trace (txt "/data/trace.json") (Some s) (cli_args (Some 10%Z) false) =
    ([Print (txt "LOADING HOROVOD TIMELINE"); Print (txt "HOROVOD TIMELINE LOAD COMPLETE")],
     Ok {| trace := small_trace; base_path := txt "/data/trace"; line_count := JNum 11;
           min_ts := JNum 1000000000; max_ts := JNum 1005000000;
           file_size_bytes := Z.of_nat (length small_trace); index := [];
           metadata_events := [] |}).
Proof.
  cbv zeta. change (txt "/data/trace") with (base_path_of (txt "/data/trace.json")).
  apply (init_relative_end_time _ _ _ _ (JNum 300) (JNum 11) 1000000000 1005000000 [] [] 10);
    first [ reflexivity | discriminate | unfold MICROSECONDS_PER_SEC; lia | vm_compute; reflexivity ].
Defined.

Lemma init_single_timestamp_zero_division_witness :
  horovod_timeline_init flat_big_trace (txt "/data/flat.json") None (cli_args None false) =
    ([Print (txt "LOADING HOROVOD TIMELINE"); Print (txt "Scanning file for statistics");
      Print (txt "Scanning first 5,000,000 events for metadata events"); Print (txt "Building index")],
     Err ZeroDivisionError).
Proof.
  change (txt "Scanning first 5,000,000 events for metadata events") with
    (txt "Scanning first " ++ humanize (max_lines_to_scan_for_metadata (cli_args None false)) ++
     txt " events for metadata events").
  apply (init_single_timestamp_zero_division _ _ _ 2502 5000 [meta_event "process_name"] 1);
    vm_compute; reflexivity.
Defined.
