(* ===== verification/HtlCli.v ===== *)
(** * The command line of extract.py: the print helpers and [__main__]

    [HorovodTimeline.print_file_size], [print_timeline_duration],
    [print_index_stats] and [print_stats] (extract.py 243-276, 423-427),
    [examine_index] (583-587), and the [__main__] block (605-679): the
    mode check, the timeline object built with the CLI's
    [max_extract_time] and [live], and the [--extract], [--stats] and
    [--verify_index] modes.

    What a run does is a list of effects, in order, kept when a later
    step raises (the writer monad [run] of [Prelude]): the lines the
    methods and the block [print] themselves, the summary sidecar that
    [__init__] writes back and the extract file that
    [extract_and_save_slice] writes, with the lines [__init__] prints
    and the ["Scanning ..."] line of [extract_and_save_slice]
    ([extract_scanning_line]).  The progress bars of the scans and the
    timing lines of [--verbose] (off by default) are not among them.
    [--start_time] and [--duration] are floats in Python; as in
    [Extractor] they are integer-valued here, and [f'{x}'] of such a
    float prints ["N.0"].  [duration_secs] is computed in binary64 as
    Python does. *)

From Stdlib Require Import PrimFloat.
From S2P Require Import Prelude Json PyFloat PosixPath Progress FileIO LineParse Traces MetaScan.
From S2P Require Import IndexSearch IndexValidate IndexBuilder Scanner Timeline Extractor Summary.

(** ** Values *)

(** [self.duration_secs], as [__init__] computed it (172, 200). *)
Definition duration_secs (tl : timeline) : res float := duration_secs_of (min_ts tl) (max_ts tl).

(** ["{:,}".format(x)] on a decoded JSON value: a [bool] is an [int];
    a string refuses [','] ([ValueError]); [None], lists and dicts have
    no such format ([TypeError]). *)
Definition humanize_json (j : json) : res text :=
  match j with
  | JNum n => Ok (humanize n)
  | JBool b => Ok (humanize (Z.b2z b))
  | JStr _ => Err ValueError
  | _ => Err TypeError
  end.

(** [str(x)] of an index timestamp that [<] and [>] accepted: a number
    or a [bool] (other values never reach it). *)
Definition py_str (j : json) : text :=
  match j with
  | JNum n => show_Z n
  | JBool true => txt "True"
  | JBool false => txt "False"
  | _ => simple_dumps j
  end.

(** ** The print helpers *)

Definition print (s : text) : run text unit := emit s.

(** [print_file_size()] (243-255): [//] floors; at a petabyte and above
    it prints no number. *)
Definition print_file_size (tl : timeline) : run text unit :=
  let fs := file_size_bytes tl in
  if (fs / 1000 =? 0)%Z then print (txt "File size: " ++ humanize fs ++ txt " bytes")
  else if (fs / (1000 * 1000) =? 0)%Z then
    print (txt "File size: " ++ humanize_float (float_of_Z fs / BYTES_PER_KB) ++ txt " KB")
  else if (fs / (1000 * 1000 * 1000) =? 0)%Z then
    print (txt "File size: " ++ humanize_float (float_of_Z fs / BYTES_PER_MB) ++ txt " MB")
  else if (fs / (1000 * 1000 * 1000 * 1000) =? 0)%Z then
    print (txt "File size: " ++ humanize_float (float_of_Z fs / BYTES_PER_GB) ++ txt " GB")
  else if (fs / (1000 * 1000 * 1000 * 1000 * 1000) =? 0)%Z then
    print (txt "File size: " ++ humanize_float (float_of_Z fs / BYTES_PER_TB) ++ txt " TB")
  else print (txt "File size: GIGANTIC (PBs or larger)").

(** [print_timeline_duration()] (257-261) *)
Definition print_timeline_duration (tl : timeline) : run text unit :=
  d <-- lift (duration_secs tl) ;;;
  if (120 <? d)%float then print (txt "Timeline Duration: " ++ humanize_float (d / 60) ++ txt " mins")
  else print (txt "Timeline Duration: " ++ humanize_float d ++ txt " secs").

(** The loop of [print_index_stats()] (264-269): [if last_ts:] skips the
    first entry, and also the entry after a falsy timestamp ([0]). *)
Fixpoint index_diffs (last_ts : json) (idx : list (json * Z)) : res (list Z) :=
  match idx with
  | [] => Ok []
  | (ts, _) :: r =>
      d <- (if truthy last_ts then x <- py_num ts ;; y <- py_num last_ts ;; Ok [(x - y)%Z]
            else Ok []) ;;
      rest <- index_diffs ts r ;;
      Ok (d ++ rest)
  end.

Definition sum_Z (l : list Z) : Z := fold_right Z.add 0%Z l.

(** [print_index_stats()] (263-276): [sum(diffs) / float(len(diffs))]
    divides by the float [0.0] when there is no gap, and raises
    [ZeroDivisionError] before anything is printed. *)
Definition print_index_stats (tl : timeline) : run text unit :=
  diffs <-- lift (index_diffs JNull (index tl)) ;;;
  average_diff <-- lift (py_int_div_float (sum_Z diffs) (float_of_Z (Z.of_nat (length diffs)))) ;;;
  _ <-- print (humanize (Z.of_nat (length (index tl))) ++ txt " indices built") ;;;
  print (txt "Average time between indices is " ++
         humanize_float (average_diff / MICROSECONDS_PER_SEC_f)%float ++ txt "s").

(** [print_stats()] (423-427) *)
Definition print_stats (tl : timeline) : run text unit :=
  _ <-- print_file_size tl ;;;
  _ <-- print_timeline_duration tl ;;;
  lc <-- lift (humanize_json (line_count tl)) ;;;
  _ <-- print (lc ++ txt " lines in timeline file") ;;;
  print_index_stats tl.

(** ** [examine_index] (583-587) *)

(** [l[i]]: a negative index counts from the end. *)
Definition py_index {A} (l : list A) (i : Z) : res A :=
  let n := Z.of_nat (length l) in
  let k := if (i <? 0)%Z then (n + i)%Z else i in
  if (0 <=? k)%Z && (k <? n)%Z then
    match l !! Z.to_nat k with Some x => Ok x | None => Err IndexError end
  else Err IndexError.

(** [range(a, b)] *)
Definition py_range (a b : Z) : list Z := map (λ k, (a + Z.of_nat k)%Z) (seq 0 (Z.to_nat (b - a))).

Definition examine_index (tl : timeline) (min_ind max_ind : Z) : res (list (json * Z)) :=
  res_mapM (py_index (index tl)) (py_range min_ind (max_ind + 1)).

(** ** [__main__] (605-679) *)

(** The parsed arguments; [--verbose] only prints. *)
Record htl_args := {
  arg_stats : bool;
  arg_extract : bool;
  arg_verify_index : bool;
  arg_live : bool;
  arg_timeline : text;
  arg_start_time : Z;
  arg_duration : Z
}.

Definition prints (m : run text unit) : run htl_effect unit := (map Print m.1, m.2).

Definition ret_unit : run htl_effect unit := ([], Ok tt).

(** [str(modes)] *)
Definition py_repr_bools (bs : list bool) : text :=
  "["%char :: join_sep (txt ", ") (map (λ b : bool, if b then txt "True" else txt "False") bs) ++ ["]"%char].

(** The message of [confirm_index_is_valid] (559-581). *)
Definition index_message (p : option index_problem) : text :=
  match p with
  | None => txt "Index looks good"
  | Some (TsBeforeMin i) =>
      txt "There is an index ts that is before the min_ts. Index ind " ++ show_Z (Z.of_nat i)
  | Some (TsAfterMax i) =>
      txt "There is an index ts that is asfter the max_ts. Index ind " ++ show_Z (Z.of_nat i)
  | Some (TsOutOfOrder ts last_ts i) =>
      txt "There is an out-of-order index. TS: " ++ py_str ts ++ txt ", LastTS: " ++
      py_str last_ts ++ txt ". Index ind " ++ show_Z (Z.of_nat i)
  | Some (ByteOutOfOrder i) =>
      txt "There is an out-of-order byte_index. Index ind " ++ show_Z (Z.of_nat i)
  | Some (ByteNegative i) =>
      txt "There is a byte_index that is below 0. Index ind " ++ show_Z (Z.of_nat i)
  | Some (ByteBeyondFile i) =>
      txt "There is a byte_index greater than the file_size. Index ind " ++ show_Z (Z.of_nat i)
  end.

Section Main.
Context `{JsonCodec}.

(** The mode check (621-627). *)
Definition check_modes (a : htl_args) : res unit :=
  let modes := [arg_stats a; arg_extract a; arg_verify_index a] in
  let count_modes_chosen := length (List.filter (λ m : bool, m) modes) in
  if (1 <? count_modes_chosen)%nat then
    Err (RuntimeError (String.string_of_list_ascii
           (txt "Only one of " ++ py_repr_bools modes ++ txt " may be chosen")))
  else if (count_modes_chosen =? 0)%nat then
    Err (RuntimeError (String.string_of_list_ascii
           (txt "One of " ++ py_repr_bools modes ++ txt " must be chosen")))
  else Ok tt.

(** [--extract] (641-648) *)
Definition extract_mode (a : htl_args) (tl : timeline) : run htl_effect unit :=
  let start := arg_start_time a in
  let end_time := (arg_start_time a + arg_duration a)%Z in
  _ <-- print_line (txt "Extracting " ++ show_float_int start ++ txt "s to " ++
                    show_float_int end_time ++ txt "s from " ++ arg_timeline a) ;;;
  _ <-- print_line [] ;;;
  _ <-- (if extract_scanning_line tl start (arg_duration a) is Some l then print_line l else ret_unit) ;;;
  let '(written, r) := extract_and_save_slice tl start (arg_duration a) false in
  _ <-- (if written is Some c then emit (WriteExtract (extract_file_path tl start (arg_duration a)) c)
         else ret_unit) ;;;
  x <-- lift r ;;;
  _ <-- print_line [] ;;;
  print_line (txt "Extract complete - " ++ x.1).

(** [--stats] (650-653) *)
Definition stats_mode (tl : timeline) : run htl_effect unit :=
  _ <-- print_line (txt "Timeline Info:") ;;;
  _ <-- print_line [] ;;;
  prints (print_stats tl).

(** [--verify_index] (656-662) *)
Definition verify_mode (tl : timeline) : run htl_effect unit :=
  _ <-- print_line (txt "Checking index is valid:") ;;;
  p <-- lift (confirm_index_is_valid (min_ts tl) (max_ts tl) (file_size_bytes tl) (index tl)) ;;;
  _ <-- print_line [] ;;;
  _ <-- print_line (txt "Index is " ++ (if p is None then txt "valid" else txt "invalid")) ;;;
  if p is Some _ then print_line (index_message p) else ret_unit.

(** The block, from the current directory, the trace's contents and the
    sidecar found next to it. *)
Definition htl_main (cwd trace : text) (sidecar : option json) (a : htl_args)
    : run htl_effect unit :=
  _ <-- print_line [] ;;;
  _ <-- lift (check_modes a) ;;;
  let htimeline_path := abspath cwd (arg_timeline a) in
  let end_time := if arg_extract a then Some (arg_start_time a + arg_duration a)%Z else None in
  tl <-- horovod_timeline_init trace htimeline_path sidecar (cli_args end_time (arg_live a)) ;;;
  _ <-- print_line [] ;;;
  _ <-- (if arg_extract a then extract_mode a tl else ret_unit) ;;;
  _ <-- (if arg_stats a then stats_mode tl else ret_unit) ;;;
  _ <-- (if arg_verify_index a then verify_mode tl else ret_unit) ;;;
  print_line [].
End Main.

(** ** Concrete runs *)

Definition cli_cwd : text := txt "/data".

(** The sidecar of [small_trace] as [__init__] would have written it. *)
Definition cli_sidecar : option json := Some (summary_to_json small_timeline).

Definition cli_args_of (stats extract verify : bool) : htl_args :=
  {| arg_stats := stats; arg_extract := extract; arg_verify_index := verify; arg_live := false;
     arg_timeline := txt "trace.json"; arg_start_time := 0; arg_duration := 1 |}.

(** [small_trace] with a one-entry index. *)
Definition one_entry_timeline : timeline :=
  mk_timeline small_trace 1000 1700 403 [(JNum 1000, 116%Z)] [].

(** ** Lemmas *)


Lemma check_modes_one a :
  length (List.filter (λ m : bool, m) [arg_stats a; arg_extract a; arg_verify_index a]) = 1 →
  check_modes a = Ok tt.
Proof.
  unfold check_modes. intros ->. reflexivity.
Qed.

Lemma confirm_from_total mn mx fs i lt lb l :
  ∃ p, confirm_from (JNum mn) (JNum mx) fs i (JNum lt) lb (num_index l) = Ok p.
Proof.
  revert i lt lb. induction l as [|[t b] l IH]; intros i lt lb; [by eexists|].
  change (num_index ((t, b) :: l)) with ((JNum t, b) :: num_index l).
  cbn [confirm_from]. rewrite !py_lt_num. cbn [res_bind].
  repeat (case_match; [by eexists|]). apply IH.
Qed.

(** [index_diffs] on numbers none of which is [0]: one gap per entry
    after the first, summing to the span of the index. *)
Lemma index_diffs_nonzero lt l :
  lt ≠ 0%Z → Forall (λ e, e.1 ≠ 0%Z) l →
  ∃ ds, index_diffs (JNum lt) (num_index l) = Ok ds ∧
    sum_Z ds = (default lt (last (map fst l)) - lt)%Z ∧ length ds = length l.
Proof.
  intros Hlt Hl. revert lt Hlt. induction Hl as [|[t b] l Ht Hl IH]; intros lt Hlt.
  - exists []. split_and!; [done|cbn; lia|done].
  - change (num_index ((t, b) :: l)) with ((JNum t, b) :: num_index l).
    cbn [index_diffs truthy py_num res_bind].
    rewrite (proj2 (negb_true_iff _)) by (apply Z.eqb_neq; done).
    cbn [res_bind fst]. destruct (IH t Ht) as (ds & -> & Hs & Hlen). cbn [res_bind app].
    eexists. split; [done|]. cbn [map fst]. rewrite default_last_cons. cbn [sum_Z fold_right length] in *.
    unfold sum_Z in *. split; lia.
Qed.

(** ** Theorems *)

Section MainTheorems.
Context `{JsonCodec} (cwd trace : text) (sidecar : option json) (a : htl_args).

(** C23: unless exactly one of [--stats], [--extract] and [--verify_index]
    is given, the run prints its first empty line and raises
    [RuntimeError]: the trace is not opened and no file is written. *)
Theorem htl_main_modes :
  length (List.filter (λ m : bool, m) [arg_stats a; arg_extract a; arg_verify_index a]) ≠ 1 →
  ∃ msg, htl_main cwd trace sidecar a = ([Print []], Err (RuntimeError msg)).
Proof.
  intros Hn. unfold htl_main, print_line. rewrite run_bind_emit. unfold check_modes.
  destruct (arg_stats a), (arg_extract a), (arg_verify_index a); cbn in Hn |- *;
    first [lia | eexists; reflexivity].
Qed.


(** C20: [--verify_index]: the run prints ["Index is valid"] exactly when
    the index satisfies the index invariants, and the validator's message
    after ["Index is invalid"] otherwise. *)
Theorem htl_main_verify tl efs mn mx l :
  arg_verify_index a = true → arg_stats a = false → arg_extract a = false →
  horovod_timeline_init trace (abspath cwd (arg_timeline a)) sidecar (cli_args None (arg_live a))
    = (efs, Ok tl) →
  min_ts tl = JNum mn → max_ts tl = JNum mx → index tl = num_index l →
  ∃ p, htl_main cwd trace sidecar a =
    ([Print []] ++ efs ++
     [Print []; Print (txt "Checking index is valid:"); Print [];
      Print (txt "Index is " ++ (if p is None then txt "valid" else txt "invalid"))] ++
     (if p is Some _ then [Print (index_message p)] else []) ++ [Print []],
     Ok tt) ∧
    (p = None ↔ index_wf mn mx (file_size_bytes tl) l).
Proof.
  intros Hv Hs He Hinit Hmn Hmx Hidx.
  destruct (confirm_from_total mn mx (file_size_bytes tl) 0 0 0 l) as [p Hp].
  exists p. split.
  - unfold htl_main, print_line.
    rewrite run_bind_emit, check_modes_one by (by rewrite He, Hs, Hv).
    rewrite run_bind_lift_ok, He, Hinit, run_bind_ok, Hs, Hv.
    unfold verify_mode, print_line, confirm_index_is_valid. rewrite Hmn, Hmx, Hidx, Hp.
    destruct p as [q|]; autorewrite with htl_rw; cbn; by rewrite <- ?app_assoc.
  - rewrite <-(confirm_index_valid_spec mn mx (file_size_bytes tl) l).
    unfold confirm_index_is_valid. rewrite Hp. split; [by intros ->|by intros [= ->]].
Qed.
End MainTheorems.

Section StatsTheorems.

Lemma print_file_size_line tl : ∃ line, print_file_size tl = ([line], Ok tt).
Proof. unfold print_file_size. repeat case_match; by eexists. Qed.

Lemma print_timeline_duration_line tl d :
  duration_secs tl = Ok d → ∃ line, print_timeline_duration tl = ([line], Ok tt).
Proof.
  intros Hd. unfold print_timeline_duration. rewrite Hd, run_bind_lift_ok.
  case_match; by eexists.
Qed.

(** C24: [--stats] on a timeline whose index has at most one entry prints
    the size, the duration and the line count, then raises
    [ZeroDivisionError]: [print_index_stats] averages over no gap. *)
Theorem print_stats_few_entries tl d lc :
  length (index tl) ≤ 1 → duration_secs tl = Ok d → humanize_json (line_count tl) = Ok lc →
  ∃ l1 l2, print_stats tl = ([l1; l2; lc ++ txt " lines in timeline file"], Err ZeroDivisionError).
Proof.
  intros Hn Hd Hlc.
  destruct (print_file_size_line tl) as [l1 H1]. destruct (print_timeline_duration_line tl d Hd) as [l2 H2].
  exists l1, l2. unfold print_stats, print. rewrite H1, run_bind_ok, H2, run_bind_ok, Hlc.
  unfold print_index_stats.
  destruct (index tl) as [|[ts b] [|e r]]; [| |cbn in Hn; lia]; cbn; reflexivity.
Qed.

(** [print_file_size] prints what [humanize_bytes] returns for every
    size below a petabyte; from a petabyte on it prints ["GIGANTIC (PBs or
    larger)"] where [humanize_bytes] gives a number of PB. *)
Theorem print_file_size_bytes tl :
  (0 <= file_size_bytes tl)%Z →
  print_file_size tl =
    ([if (file_size_bytes tl <? 1000 * 1000 * 1000 * 1000 * 1000)%Z
      then txt "File size: " ++ humanize_bytes (file_size_bytes tl)
      else txt "File size: GIGANTIC (PBs or larger)"], Ok tt).
Proof.
  intros Hfs. unfold print_file_size, humanize_bytes, print, emit.
  destruct (Z.ltb_spec (file_size_bytes tl) (1000 * 1000 * 1000 * 1000 * 1000)) as [Hlt|Hge].
  - rewrite (proj2 (Z.eqb_eq (file_size_bytes tl / (1000 * 1000 * 1000 * 1000 * 1000)) 0))
      by (apply Z.div_small; lia).
    repeat (case_match; [done|]). done.
  - assert (∀ k, (0 < k <= 1000 * 1000 * 1000 * 1000 * 1000)%Z → (file_size_bytes tl / k =? 0)%Z = false)
      as Hk.
    { intros k Hk. apply Z.eqb_neq. enough (1 <= file_size_bytes tl / k)%Z by lia.
      apply Z.div_le_lower_bound; lia. }
    rewrite !Hk by lia. reflexivity.
Qed.
End StatsTheorems.

(** A timestamp [0] is falsy: the gap after it is not counted. *)
Example index_diffs_zero_ts :
  index_diffs JNull (num_index [(0, 10); (5, 20); (9, 30)]%Z) = Ok [4%Z].
Proof. reflexivity. Qed.

(** ** Runs on concrete inputs *)

#[local] Existing Instance simple_codec.

Lemma htl_main_modes_witness :
  length (List.filter (λ m : bool, m) [true; true; false]) ≠ 1 ∧
  ∃ msg, htl_main cli_cwd small_trace cli_sidecar (cli_args_of true true false) =
    ([Print []], Err (RuntimeError msg)).
Proof. split; [cbn; lia | apply htl_main_modes; cbn; lia]. Defined.


Lemma htl_main_verify_witness :
  (htl_main cli_cwd small_trace cli_sidecar (cli_args_of false false true)).2 = Ok tt.
Proof.
  assert (match horovod_timeline_init small_trace (abspath cli_cwd (txt "trace.json")) cli_sidecar
                  (cli_args None false) with
          | (_, Ok tl) => (min_ts tl, max_ts tl, index tl) =
                            (JNum 1000, JNum 1700, num_index [(1000, 116); (1200, 198); (1400, 280); (1600, 362)]%Z)
          | _ => False
          end) as Hb by (vm_compute; reflexivity).
  destruct (horovod_timeline_init small_trace (abspath cli_cwd (txt "trace.json")) cli_sidecar
              (cli_args None false)) as [efs [tl| |]] eqn:Ei; try contradiction Hb.
  injection Hb as Hmn Hmx Hidx.
  destruct (htl_main_verify cli_cwd small_trace cli_sidecar (cli_args_of false false true)
              tl efs 1000 1700 [(1000, 116); (1200, 198); (1400, 280); (1600, 362)]%Z)
    as (p & -> & _); done.
Defined.

Lemma print_stats_few_entries_witness :
  ∃ l1 l2, print_stats one_entry_timeline =
    ([l1; l2; humanize (Z.of_nat (count_nl small_trace)) ++ txt " lines in timeline file"],
     Err ZeroDivisionError).
Proof.
  apply (print_stats_few_entries one_entry_timeline
           (float_of_Z 700 / MICROSECONDS_PER_SEC_f)%float); [cbn; lia|vm_compute; reflexivity..].
Defined.

Lemma print_file_size_bytes_witness :
  print_file_size small_timeline = ([txt "File size: " ++ humanize_bytes 403], Ok tt).
Proof. rewrite print_file_size_bytes; [reflexivity | cbn; lia]. Defined.
