(* ===== verification/TigConfig.v ===== *)
(** * Telegraf config templater: [src/tig/telegraf_config.py]

    [generate_telegraf_conf] (telegraf_config.py 12-37) has [telegraf]
    write a default configuration, reads its lines, rewrites five
    parameters and adds one global tag per [name=value] pair, then writes
    the result.  Every rewrite is [replace_param_line] (42-57): a pass
    over the lines that, once it has seen the group header
    [confgroup_str] (compared after [strip()]), replaces each line equal
    to [existing_param_string] (after [strip()]) by the same line with the
    parameter replaced, keeping the old line first when asked.

    [generate_conf_lines] is the pure middle part (18-32), from the lines
    [telegraf] wrote to the lines written back; [generate_telegraf_conf]
    adds the shell calls and the files as effects (the default
    configuration [telegraf] prints is a parameter), [tg_test] is the
    script's [test()] and [tg_main] its command line.  Strings that
    contain a double quote are written with [jtxt], which reads a single
    quote as a double one. *)

From S2P Require Import Prelude Json LineParse.

(** The loop of [replace_param_line]; [in_correct_confgroup] is set by
    the group header and never reset. *)
Fixpoint replace_param_go (confgroup_str existing_param_string new_param_string : text)
    (keep_old_param_line in_correct_confgroup : bool) (conf_lines : list text) : list text :=
  match conf_lines with
  | [] => []
  | line :: r =>
      let l := strip line in
      let in_group := in_correct_confgroup || bool_decide (l = confgroup_str) in
      if in_group && bool_decide (l = existing_param_string) then
        (if keep_old_param_line then [line] else []) ++
        py_replace existing_param_string new_param_string line ::
        replace_param_go confgroup_str existing_param_string new_param_string
          keep_old_param_line in_group r
      else
        line :: replace_param_go confgroup_str existing_param_string new_param_string
                  keep_old_param_line in_group r
  end.

Definition replace_param_line (conf_lines : list text) (confgroup_str existing_param_string
    new_param_string : text) (keep_old_param_line : bool) : list text :=
  replace_param_go confgroup_str existing_param_string new_param_string keep_old_param_line
    false conf_lines.

Definition agent_group_str : text := txt "[agent]".
Definition influx_group_str : text := txt "[[outputs.influxdb]]".
Definition global_tags_group_str : text := txt "[global_tags]".

Definition set_agent_interval (conf_lines : list text) (new_interval : text) : list text :=
  replace_param_line conf_lines agent_group_str (jtxt "interval = '10s'")
    (jtxt "interval = '" ++ new_interval ++ jtxt "'") false.

Definition set_agent_flush_interval (conf_lines : list text) (new_interval : text) : list text :=
  replace_param_line conf_lines agent_group_str (jtxt "flush_interval = '10s'")
    (jtxt "flush_interval = '" ++ new_interval ++ jtxt "'") false.

Definition set_hostname (conf_lines : list text) (hostname : text) : list text :=
  replace_param_line conf_lines agent_group_str (jtxt "hostname = ''")
    (jtxt "hostname = '" ++ hostname ++ jtxt "'") false.

Definition set_influxdb_urls (conf_lines : list text) (new_url : text) : list text :=
  replace_param_line conf_lines influx_group_str (jtxt "# urls = ['http://127.0.0.1:8086']")
    (jtxt "urls = ['" ++ new_url ++ jtxt "']") false.

Definition set_influxdb_database (conf_lines : list text) (new_database : text) : list text :=
  replace_param_line conf_lines influx_group_str (jtxt "# database = 'telegraf'")
    (jtxt "database = '" ++ new_database ++ jtxt "'") false.

(** The marker line after which global tags are added. *)
Definition user_tag_marker : text := jtxt "# user = '$USER'".

Definition tag_param_str (tag_name tag_val_str : text) : text :=
  tag_name ++ jtxt " = '" ++ tag_val_str ++ jtxt "'".

Definition add_global_tag (conf_lines : list text) (tag_name tag_val_str : text) : list text :=
  replace_param_line conf_lines global_tags_group_str user_tag_marker
    (tag_param_str tag_name tag_val_str) true.

(** [for tag_pair in tags:] with its split (telegraf_config.py 24-32):
    more than one ['='] raises the intended [RuntimeError]; none leaves a
    one-element list, and [split_tag_pair[1]] raises [IndexError]. *)
Fixpoint add_tags (conf_lines : list text) (tags : list text) : res (list text) :=
  match tags with
  | [] => Ok conf_lines
  | tag_pair :: r =>
      let split_tag_pair := split_on "="%char tag_pair in
      if (2 <? length split_tag_pair)%nat then
        Err (RuntimeError ("Tag may have '=' in value. Input was: " ++
                           String.string_of_list_ascii tag_pair))
      else
        match split_tag_pair with
        | [tag_name; tag_val] => add_tags (add_global_tag conf_lines tag_name tag_val) r
        | _ => Err IndexError
        end
  end.

Definition generate_conf_lines (conf_lines : list text) (agent_interval agent_flush_interval
    influx_url influx_db : text) (tags : list text) (hostname : text) : res (list text) :=
  let conf_lines := set_agent_interval conf_lines agent_interval in
  let conf_lines := set_agent_flush_interval conf_lines agent_flush_interval in
  let conf_lines := set_hostname conf_lines hostname in
  let conf_lines := set_influxdb_urls conf_lines influx_url in
  let conf_lines := set_influxdb_database conf_lines influx_db in
  add_tags conf_lines tags.

(** Whether the group header occurs among [ls]. *)
Definition seen_group (confgroup_str : text) (ls : list text) : bool :=
  existsb (λ l, bool_decide (strip l = confgroup_str)) ls.

(** ** The script: [generate_telegraf_conf] (12-37), [test] (103-130), [__main__] (133-172)

    What the script does to the outside world is a list of effects: the
    shell commands it runs ([sh], 7-8) and the files it writes.  A file
    is held as its list of lines: [readlines] gives back what
    [writelines] wrote when every line ends in a newline, as telegraf's
    do.  What [telegraf ... config] prints is a parameter. *)

Inductive tg_effect : Type :=
| Sh (cmd : text)
| WriteLines (path : text) (lines : list text).

Definition tg_files : Type := text → option (list text).

Definition apply_tg_effect (f : tg_files) (e : tg_effect) : tg_files :=
  match e with
  | WriteLines p ls => λ q, if bool_decide (q = p) then Some ls else f q
  | Sh _ => f
  end.

(** [with open(path, 'r') as f: f.readlines()] *)
Definition readlines (f : tg_files) (path : text) : res (list text) :=
  if f path is Some ls then Ok ls else Err FileNotFoundError.

Definition telegraf_cmd (input_filters : text) : text :=
  txt "telegraf --input-filter " ++ input_filters ++ txt " --output-filter influxdb config > _telegraf.conf".

Section Script.
(** The default configuration [telegraf] prints for the input filters. *)
Variable telegraf_config : text → list text.

Definition generate_telegraf_conf (agent_interval agent_flush_interval influx_url influx_db : text)
    (tags : list text) (input_filters hostname : text) : run tg_effect unit :=
  _ <-- emit (Sh (telegraf_cmd input_filters)) ;;;
  let conf_lines := telegraf_config input_filters in
  out <-- lift (generate_conf_lines conf_lines agent_interval agent_flush_interval influx_url
                  influx_db tags hostname) ;;;
  _ <-- emit (WriteLines (txt "telegraf.conf") out) ;;;
  emit (Sh (txt "rm _telegraf.conf")).

(** The loop of [test]: [gt_lines[i]] raises [IndexError] past the end
    of the expected file, a different line fails the [assert]. *)
Fixpoint compare_lines (actual_lines gt_lines : list text) : res unit :=
  match actual_lines, gt_lines with
  | [], _ => Ok tt
  | _ :: _, [] => Err IndexError
  | a :: r, g :: gr => if bool_decide (a = g) then compare_lines r gr else Err AssertionError
  end.

(** [test()], on the files [f] holds before it runs. *)
Definition tg_test (f : tg_files) : run tg_effect unit :=
  let gen := generate_telegraf_conf (txt "10ms") (txt "1s") (txt "http://127.0.0.1:8086")
               (txt "telegraf-test") [txt "run=test-run"; txt "cluster=armand-cluster-1"]
               (txt "cpu:mem:diskio:disk") (txt "algo-1") in
  _ <-- gen ;;;
  let f := foldl apply_tg_effect f gen.1 in
  gt_lines <-- lift (readlines f (txt "telegraf_example.conf")) ;;;
  actual_lines <-- lift (readlines f (txt "telegraf.conf")) ;;;
  _ <-- lift (compare_lines actual_lines gt_lines) ;;;
  emit (Sh (txt "rm telegraf.conf")).

(** The options of the argument parser, with their defaults. *)
Record tg_args := {
  arg_agent_interval : text;
  arg_agent_flush_interval : text;
  arg_influx_url : text;
  arg_influx_db : text;
  arg_tags : option text;
  arg_input_filters : text;
  arg_test : bool;
  arg_hostname : text
}.

Definition tg_defaults : tg_args :=
  {| arg_agent_interval := txt "1s"; arg_agent_flush_interval := txt "10s";
     arg_influx_url := txt "http://127.0.0.1:8096"; arg_influx_db := txt "telegraf";
     arg_tags := None; arg_input_filters := txt "cpu:mem:diskio:disk:nvidia_smi";
     arg_test := false; arg_hostname := jtxt "''" |}.

(** [__main__]: [--test] runs [test()] and quits; otherwise
    [ARGS.tags.split(",")], which raises [AttributeError] on the default
    [None]. *)
Definition tg_main (f : tg_files) (args : tg_args) : run tg_effect unit :=
  if arg_test args then tg_test f else
  match arg_tags args with
  | None => lift (Err AttributeError)
  | Some t =>
      generate_telegraf_conf (arg_agent_interval args) (arg_agent_flush_interval args)
        (arg_influx_url args) (arg_influx_db args) (split_on ","%char t)
        (arg_input_filters args) (arg_hostname args)
  end.
End Script.

(** The line [add_global_tag] makes of a tag, from the marker line [m]. *)
Definition tag_line_of (m : text) (tv : text * text) : text :=
  py_replace user_tag_marker (tag_param_str tv.1 tv.2) m.

(** A configuration of three lines, its first two as the expected file. *)
Definition tg_template (_ : text) : list text :=
  [txt "[agent]"; jtxt "  interval = '10s'"; txt "[global_tags]"].

Definition tg_files_example : tg_files :=
  λ p, if bool_decide (p = txt "telegraf_example.conf")
       then Some [txt "[agent]"; jtxt "  interval = '10ms'"] else None.

(** ** Lemmas *)

Section Replace.
Context (g e n : text) (keep : bool).

Lemma replace_param_go_app b pre post :
  replace_param_go g e n keep b (pre ++ post) =
    replace_param_go g e n keep b pre ++ replace_param_go g e n keep (b || seen_group g pre) post.
Proof.
  revert b. induction pre as [|l pre IH]; intros b; simpl; [by rewrite orb_false_r|].
  rewrite IH, orb_assoc. by destruct (_ && _); rewrite ?app_comm_cons, <- ?app_assoc.
Qed.

Lemma replace_param_go_nomatch b ls :
  Forall (λ l, strip l ≠ e) ls → replace_param_go g e n keep b ls = ls.
Proof.
  revert b. induction ls as [|l ls IH]; intros b Hls; [done|]. apply Forall_cons in Hls as [Hl Hls].
  simpl. rewrite (bool_decide_eq_false_2 (strip l = e)), andb_false_r by done. by rewrite IH.
Qed.

Lemma replace_param_go_match b l ls :
  (b || bool_decide (strip l = g)) = true → strip l = e →
  replace_param_go g e n keep b (l :: ls) =
    (if keep then [l] else []) ++ py_replace e n l :: replace_param_go g e n keep true ls.
Proof.
  intros Hb He. simpl. rewrite Hb, bool_decide_eq_true_2 by done. reflexivity.
Qed.
End Replace.

Lemma seen_group_app_cons g pre gl mid :
  strip gl = g → seen_group g (pre ++ gl :: mid) = true.
Proof.
  intros Hg. unfold seen_group. rewrite existsb_app. simpl.
  rewrite bool_decide_eq_true_2 by done. by rewrite orb_true_r.
Qed.

(** One [add_global_tag] puts its line right after the marker. *)
Lemma add_global_tag_after_marker pre m ins post name val :
  seen_group global_tags_group_str pre = true → strip m = user_tag_marker →
  Forall (λ l, strip l ≠ user_tag_marker) (pre ++ ins ++ post) →
  add_global_tag (pre ++ m :: ins ++ post) name val =
    pre ++ m :: py_replace user_tag_marker (tag_param_str name val) m :: ins ++ post.
Proof.
  intros Hs Hm Hno. apply Forall_app in Hno as [Hpre Hrest].
  unfold add_global_tag, replace_param_line.
  rewrite replace_param_go_app, replace_param_go_nomatch, Hs by done.
  rewrite replace_param_go_match by (done || by rewrite orb_true_l).
  by rewrite replace_param_go_nomatch.
Qed.

Lemma add_tags_after_marker pre m post tvs ins :
  seen_group global_tags_group_str pre = true → strip m = user_tag_marker →
  Forall (λ l, strip l ≠ user_tag_marker) (pre ++ ins ++ post) →
  Forall (λ tv, (("="%char) ∉ fst tv) ∧ (("="%char) ∉ snd tv) ∧
                strip (tag_line_of m tv) ≠ user_tag_marker) tvs →
  add_tags (pre ++ m :: ins ++ post) (map (λ tv, tv.1 ++ "="%char :: tv.2) tvs) =
    Ok (pre ++ m :: rev (map (tag_line_of m) tvs) ++ ins ++ post).
Proof.
  intros Hs Hm. revert ins. induction tvs as [|[a b] tvs IH]; intros ins Hno Htv; [done|].
  apply Forall_cons in Htv as [(Ha & Hb & Hl) Htv]. cbn [map add_tags fst snd] in *.
  rewrite split_on_pair by done. cbn [length Nat.ltb Nat.leb].
  rewrite add_global_tag_after_marker by done.
  change (pre ++ m :: py_replace user_tag_marker (tag_param_str a b) m :: ins ++ post)
    with (pre ++ m :: (tag_line_of m (a, b) :: ins) ++ post).
  rewrite IH.
  - cbn [rev]. by rewrite <- app_assoc.
  - apply Forall_app in Hno as [Hpre Hrest]. apply Forall_app. split; [done|].
    by constructor.
  - done.
Qed.

(** C39: [replace_param_line] never leaves the group: once the header has
    been seen, a matching line is rewritten in every later section too,
    whatever lies between the header and the line (other section headers
    included). *)
Theorem replace_param_line_sticky_group g e n keep pre gl mid x post :
  strip gl = g → strip x = e →
  replace_param_line (pre ++ gl :: mid ++ x :: post) g e n keep =
    replace_param_line (pre ++ gl :: mid) g e n keep ++
    (if keep then [x] else []) ++ py_replace e n x :: replace_param_go g e n keep true post.
Proof.
  intros Hg He. unfold replace_param_line.
  rewrite app_comm_cons, app_assoc, replace_param_go_app, seen_group_app_cons by done.
  rewrite replace_param_go_match by (done || by rewrite orb_true_r). reflexivity.
Qed.

(** Global tags given as [name=value] pairs are inserted right after
    the [# user = "$USER"] marker line in the reverse of their order, as
    the comment above the test says, when the marker occurs once in the
    [[global_tags]] group and no generated tag line is itself the
    marker. *)
Theorem add_tags_reversed pre m post tvs :
  seen_group global_tags_group_str pre = true → strip m = user_tag_marker →
  Forall (λ l, strip l ≠ user_tag_marker) (pre ++ post) →
  Forall (λ tv, (("="%char) ∉ fst tv) ∧ (("="%char) ∉ snd tv) ∧
                strip (tag_line_of m tv) ≠ user_tag_marker) tvs →
  add_tags (pre ++ m :: post) (map (λ tv, tv.1 ++ "="%char :: tv.2) tvs) =
    Ok (pre ++ m :: rev (map (tag_line_of m) tvs) ++ post).
Proof. intros. exact (add_tags_after_marker pre m post tvs [] ltac:(done) ltac:(done) ltac:(done) ltac:(done)). Qed.

(** A tag without ['='] makes the configuration step raise
    [IndexError] ([split_tag_pair[1]] of a one-element list), not the
    [RuntimeError] the code raises for a tag with too many ['=']. *)
Theorem generate_conf_no_equals conf ai afi url db tg tags host :
  ("="%char) ∉ tg →
  generate_conf_lines conf ai afi url db (tg :: tags) host = Err IndexError.
Proof.
  intros Hn. unfold generate_conf_lines. cbn [add_tags]. rewrite split_on_no_sep by done.
  reflexivity.
Qed.

(** ** Runs on concrete configurations *)

(** The [[agent]] group, then a plugin group with its own interval. *)
Lemma replace_param_line_sticky_group_witness :
  set_agent_interval
    [txt "[agent]"; jtxt "  interval = '10s'"; txt "[[inputs.cpu]]"; jtxt "  interval = '10s'"]
    (txt "1s") =
  [txt "[agent]"; jtxt "  interval = '1s'"; txt "[[inputs.cpu]]"; jtxt "  interval = '1s'"].
Proof.
  unfold set_agent_interval.
  rewrite (replace_param_line_sticky_group _ _ _ false [] (txt "[agent]")
             [jtxt "  interval = '10s'"; txt "[[inputs.cpu]]"] (jtxt "  interval = '10s'") []);
    [| vm_compute; reflexivity | vm_compute; reflexivity].
  vm_compute. reflexivity.
Defined.

Lemma add_tags_reversed_witness :
  add_tags ([txt "[global_tags]"] ++ jtxt "  # user = '$USER'" :: [txt "[agent]"])
    (map (λ tv, tv.1 ++ "="%char :: tv.2) [(txt "run", txt "test-run"); (txt "cluster", txt "c1")]) =
  Ok ([txt "[global_tags]"] ++ jtxt "  # user = '$USER'" ::
      [jtxt "  cluster = 'c1'"; jtxt "  run = 'test-run'"] ++ [txt "[agent]"]).
Proof.
  rewrite (add_tags_reversed [txt "[global_tags]"] (jtxt "  # user = '$USER'") [txt "[agent]"]).
  - vm_compute. reflexivity.
  - vm_compute. reflexivity.
  - vm_compute. reflexivity.
  - apply (Forall_forallb _ (λ l, negb (bool_decide (strip l = user_tag_marker)))).
    + intros x Hx. by apply negb_true_iff, bool_decide_eq_false in Hx.
    + vm_compute. reflexivity.
  - apply (Forall_forallb _ (λ tv, bool_decide ((("="%char) ∉ fst tv) ∧ (("="%char) ∉ snd tv) ∧
                                    strip (tag_line_of (jtxt "  # user = '$USER'") tv) ≠ user_tag_marker))).
    + intros x Hx. by apply bool_decide_eq_true in Hx.
    + vm_compute. reflexivity.
Defined.

Lemma generate_conf_no_equals_witness :
  generate_conf_lines [] (txt "1s") (txt "10s") (txt "http://db:8086") (txt "tg")
    [txt "run"] (txt "host") = Err IndexError.
Proof. apply generate_conf_no_equals. apply (bool_decide_unpack _). vm_compute. exact I. Defined.

(** ** The script *)

Lemma compare_lines_prefix a g : compare_lines a g = Ok tt ↔ a `prefix_of` g.
Proof.
  revert g. induction a as [|x a IH]; intros [|y g]; cbn [compare_lines].
  - split; [intros _; apply prefix_nil | done].
  - split; [intros _; apply prefix_nil | done].
  - split; [done | intros Hp; by apply prefix_nil_not in Hp].
  - case_bool_decide as Hxy.
    + subst. rewrite IH. split; [apply prefix_cons | apply prefix_cons_inv_2].
    + split; [done | intros Hp; by apply prefix_cons_inv_1 in Hp].
Qed.

Section ScriptTheorems.
Variable telegraf_config : text → list text.

Lemma generate_telegraf_conf_ok ai afi url db tags filters host out :
  generate_conf_lines (telegraf_config filters) ai afi url db tags host = Ok out →
  generate_telegraf_conf telegraf_config ai afi url db tags filters host =
    ([Sh (telegraf_cmd filters); WriteLines (txt "telegraf.conf") out; Sh (txt "rm _telegraf.conf")], Ok tt).
Proof. intros Hg. unfold generate_telegraf_conf. rewrite run_bind_emit, Hg. done. Qed.


(** [test()] passes exactly when the generated [telegraf.conf] is a
    prefix of [telegraf_example.conf]: its loop runs over the generated
    lines only, so a configuration missing its last lines passes. *)
Theorem tg_test_prefix f gt out :
  f (txt "telegraf_example.conf") = Some gt →
  generate_conf_lines (telegraf_config (txt "cpu:mem:diskio:disk")) (txt "10ms") (txt "1s")
    (txt "http://127.0.0.1:8086") (txt "telegraf-test") [txt "run=test-run"; txt "cluster=armand-cluster-1"]
    (txt "algo-1") = Ok out →
  (tg_test telegraf_config f).2 = Ok tt ↔ out `prefix_of` gt.
Proof.
  intros Hf Hg. unfold tg_test. rewrite (generate_telegraf_conf_ok _ _ _ _ _ _ _ _ Hg).
  unfold run_bind. cbn [fst snd foldl apply_tg_effect]. unfold readlines.
  rewrite bool_decide_false by (by intros [=]). rewrite Hf. cbn.
  rewrite bool_decide_true by done. cbn. rewrite <- compare_lines_prefix.
  by destruct (compare_lines out gt) as [[]| |].
Qed.
End ScriptTheorems.

(** Without [--tags], [ARGS.tags.split(",")] raises before anything runs. *)
Lemma tg_main_no_tags telegraf_config f args :
  arg_test args = false → arg_tags args = None → tg_main telegraf_config f args = ([], Err AttributeError).
Proof. intros Ht Hn. unfold tg_main. by rewrite Ht, Hn. Qed.

(** The default [--hostname] is the two characters of an empty string
    literal, so the [hostname] line of [[agent]] gets four quotes. *)
Lemma tg_default_hostname :
  set_hostname [txt "[agent]"; jtxt "  hostname = ''"] (arg_hostname tg_defaults) =
    [txt "[agent]"; jtxt "  hostname = ''''"].
Proof. vm_compute. reflexivity. Qed.


Lemma tg_test_prefix_witness :
  (tg_test tg_template tg_files_example).2 = Ok tt ↔
    [txt "[agent]"; jtxt "  interval = '10ms'"; txt "[global_tags]"] `prefix_of`
    [txt "[agent]"; jtxt "  interval = '10ms'"].
Proof. apply tg_test_prefix; vm_compute; reflexivity. Defined.
