(* ===== verification/NetUtil.v ===== *)
(** * Network utilization: [BufferTimeseries] of [src/network-utilization/nu.py]

    A log line ([record_network_buffer_log]) is a millisecond timestamp
    followed by [ethtool -S] counters, ["1536614209799 queue_0_tx_bytes:
    329065983972 queue_0_rx_bytes: ..."].  [parse_line] (53-62) splits it
    into the timestamp and (name, count) pairs; [parse_raw_data] (65-89)
    keeps the [queue_<n>_<rx|tx>_bytes] counters of each line as a
    snapshot [{'raw': {'timestamp': ts, 'queues': {'tx_0': ...}}}];
    [add_computed_layers] (93-152) adds to every snapshot after the first
    the differences with the previous one ([deltas]) and the rx and tx
    throughput in Gbit/s ([gbps]); [extract] (155-179) selects the
    snapshots of a time window, [reduce] (181-183) keeps them, [save]
    (244-246) writes their raw parts; [graph_network_usage] (186-235)
    plots the rx and tx series of a window.

    Snapshots are records; their dicts are association lists in insertion
    order, as Python dicts iterate, with [dict_set] replacing the value of
    a key already present in place.  Counts and timestamps are integers;
    window offsets, Gbit/s figures and plotted times are Python numbers
    ([PyFloat.pynum]): an [int], or a binary64 float once a float or a
    true division enters, with Python's conversions, its exact
    [int]/[float] comparisons and its [ZeroDivisionError] and
    [OverflowError].  A method that raises
    returns the exception and no object: [add_computed_layers] may have
    updated snapshots before it raised, but the CLI does not catch the
    exception, so the partly updated object is never used.
    The plots, the prints and the timing are not modelled. *)

From Stdlib Require Import PrimFloat.
From S2P Require Import Prelude Json PyFloat FileIO LineParse.

(** ** Python helpers *)

(** [int(s)] on a decimal literal: surrounding whitespace, an optional
    sign, digits with single underscores between them. *)
Fixpoint int_digits (l : text) (acc : Z) (after_digit : bool) : option Z :=
  match l with
  | [] => if after_digit then Some acc else None
  | c :: r =>
      match digit_val c with
      | Some d => int_digits r (acc * 10 + d)%Z true
      | None => if after_digit && bool_decide (c = "_"%char) then int_digits r acc false else None
      end
  end.

Definition py_int (s : text) : res Z :=
  let s := strip s in
  let r := match s with
           | "-"%char :: r => option_map Z.opp (int_digits r 0 false)
           | "+"%char :: r => int_digits r 0 false
           | _ => int_digits s 0 false
           end in
  match r with Some n => Ok n | None => Err ValueError end.

(** A dict as an association list in insertion order. *)
Abbreviation dict A := (list (text * A)).

Fixpoint dict_get {A} (k : text) (d : dict A) : res A :=
  match d with
  | [] => Err KeyError
  | (k', v) :: r => if bool_decide (k = k') then Ok v else dict_get k r
  end.

(** [d[k] = v]: an existing key keeps its place. *)
Fixpoint dict_set {A} (k : text) (v : A) (d : dict A) : dict A :=
  match d with
  | [] => [(k, v)]
  | (k', v') :: r => if bool_decide (k = k') then (k, v) :: r else (k', v') :: dict_set k v r
  end.

(** ** Snapshots *)

Record snapshot := {
  timestamp : Z;
  queues : dict Z;
  deltas : option (Z * dict Z);
  gbps : option (pynum * pynum)
}.

Definition raw_snapshot (ts : Z) (qs : dict Z) : snapshot :=
  {| timestamp := ts; queues := qs; deltas := None; gbps := None |}.

(** ** Parsing (nu.py 53-89) *)

(** [kv.split(":")] unpacked into [k, v], then [int(v)]. *)
Definition parse_kv (kv : text) : res (text * Z) :=
  match split_on ":"%char kv with
  | [k; v] => n <- py_int v ;; Ok (k, n)
  | _ => Err ValueError
  end.

(** [line.replace(": ", ":")], newlines removed, [.strip().split(" ")] *)
Definition split_line (line : text) : list text :=
  split_on " "%char (strip (py_replace [nl] [] (py_replace (txt ": ") (txt ":") line))).

Definition parse_line (line : text) : res (Z * list (text * Z)) :=
  match split_line line with
  | [] => Err IndexError
  | t :: kv_pairs_str =>
      ts <- py_int t ;;
      kv_pairs <- res_mapM parse_kv kv_pairs_str ;;
      Ok (ts, kv_pairs)
  end.

(** [_, q_num, rxtx, _ = k.split("_")]; a name of another shape raises
    [ValueError], which the [try] catches: the counter is skipped. *)
Definition queue_id (k : text) : option text :=
  match split_on "_"%char k with
  | [_; q_num; rxtx; _] => Some (rxtx ++ "_"%char :: q_num)
  | _ => None
  end.

Definition add_queue (qs : dict Z) (kv : text * Z) : dict Z :=
  match queue_id kv.1 with
  | Some q_id => dict_set q_id kv.2 qs
  | None => qs
  end.

Definition snapshot_of_line (line : text) : res snapshot :=
  p <- parse_line line ;;
  Ok (raw_snapshot p.1 (foldl add_queue [] p.2)).

(** [for line in raw_data]. *)
Definition parse_raw_data (contents : text) : res (list snapshot) :=
  res_mapM snapshot_of_line (lines_of contents).

(** ** Computed layers (nu.py 93-152) *)

(** [current_bytes - prev_bytes] for every queue of the current snapshot,
    in its order; a queue the previous snapshot lacks raises [KeyError]. *)
Definition queue_deltas (cur prev : dict Z) : res (dict Z) :=
  res_mapM (λ kv, p <- dict_get kv.1 prev ;; Ok (kv.1, kv.2 - p)%Z) cur.

(** [to_gigabits_per_sec] (128-133): [bits / ms_delta] divides two
    [int]s, the rest is float arithmetic. *)
Definition to_gigabits_per_sec (ms_delta byte_delta : Z) : res pynum :=
  let bits := PInt (byte_delta * 8) in
  bits_per_ms <- py_div bits (PInt ms_delta) ;;
  gigabits_per_ms <- py_div bits_per_ms (PInt (1000 * 1000 * 1000)) ;;
  py_mul gigabits_per_ms (PInt 1000).

(** The [gbps] loop: [tx...] queues add to [tx], [rx...] ones to [rx]. *)
Fixpoint sum_gbps (ms_delta : Z) (ds : dict Z) (acc : pynum * pynum) : res (pynum * pynum) :=
  match ds with
  | [] => Ok acc
  | (q_id, d) :: r =>
      g <- to_gigabits_per_sec ms_delta d ;;
      if bool_decide (txt "tx" `prefix_of` q_id) then tx <- py_add acc.2 g ;; sum_gbps ms_delta r (acc.1, tx)
      else if bool_decide (txt "rx" `prefix_of` q_id) then rx <- py_add acc.1 g ;; sum_gbps ms_delta r (rx, acc.2)
      else Err (RuntimeError ("Unrecognized queue id: " ++ String.string_of_list_ascii q_id))
  end.

(** One pass of the loop for a snapshot after the first. *)
Definition add_layers (prev s : snapshot) : res snapshot :=
  let ts_delta := (timestamp s - timestamp prev)%Z in
  ds <- queue_deltas (queues s) (queues prev) ;;
  g <- sum_gbps ts_delta ds (PInt 0, PInt 0) ;;
  Ok {| timestamp := timestamp s; queues := queues s; deltas := Some (ts_delta, ds);
        gbps := Some g |}.

(** The loop, the previous snapshot being the one processed just before
    (its raw part is all [add_layers] reads). *)
Fixpoint add_layers_from (prev : snapshot) (ss : list snapshot) : res (list snapshot) :=
  match ss with
  | [] => Ok []
  | s :: r => s' <- add_layers prev s ;; r' <- add_layers_from s r ;; Ok (s' :: r')
  end.

Record buffer_timeseries := {
  timeseries : list snapshot;
  deltas_computed : bool
}.

Definition add_computed_layers (bt : buffer_timeseries) : res buffer_timeseries :=
  if deltas_computed bt then Ok bt else
  match timeseries bt with
  | [] => Ok {| timeseries := []; deltas_computed := true |}
  | s0 :: r =>
      r' <- add_layers_from s0 r ;;
      Ok {| timeseries := s0 :: r'; deltas_computed := true |}
  end.

(** ** Windows (nu.py 155-183, 244-246) *)

(** [{'raw': snapshot['raw']}] *)
Definition min_state (s : snapshot) : snapshot := raw_snapshot (timestamp s) (queues s).

(** The loop of [extract]: [continue] before the window, [break] after it. *)
Fixpoint extract_go (start_raw_ms end_raw_ms : pynum) (reduce_to_min_state : bool)
    (ss : list snapshot) : list snapshot :=
  match ss with
  | [] => []
  | s :: r =>
      if py_lt_Z (timestamp s) start_raw_ms
      then extract_go start_raw_ms end_raw_ms reduce_to_min_state r
      else if py_gt_Z (timestamp s) end_raw_ms then []
      else (if reduce_to_min_state then min_state s else s) ::
           extract_go start_raw_ms end_raw_ms reduce_to_min_state r
  end.

(** The window [extract] computes: [self.timeseries[0]] and [[-1]] raise
    [IndexError] on an empty series; the bounds stay [int]s unless a
    float offset is added. *)
Definition series_window (ss : list snapshot) (start_ms duration_ms : option pynum)
    : res (pynum * pynum) :=
  match ss, last ss with
  | s0 :: _, Some sl =>
      start_raw_ms <- (if start_ms is Some x then py_add (PInt (timestamp s0)) x
                       else Ok (PInt (timestamp s0))) ;;
      end_raw_ms <- (if duration_ms is Some d then py_add start_raw_ms d
                     else Ok (PInt (timestamp sl))) ;;
      Ok (start_raw_ms, end_raw_ms)
  | _, _ => Err IndexError
  end.

Definition extract (ss : list snapshot) (start_ms duration_ms : option pynum)
    (reduce_to_min_state : bool) : res (list snapshot) :=
  w <- series_window ss start_ms duration_ms ;;
  Ok (extract_go w.1 w.2 reduce_to_min_state ss).

Definition reduce (bt : buffer_timeseries) (start_ms duration_ms : option pynum)
    : res buffer_timeseries :=
  ss <- extract (timeseries bt) start_ms duration_ms false ;;
  Ok {| timeseries := ss; deltas_computed := deltas_computed bt |}.

(** [json.dump] of a snapshot: the dict Python builds. *)
Definition dict_to_json (d : dict Z) : json :=
  JObj (map (λ kv, (String.string_of_list_ascii kv.1, JNum kv.2)) d).

Definition raw_to_json (s : snapshot) : json :=
  JObj [("timestamp", JNum (timestamp s)); ("queues", dict_to_json (queues s))].

(** [{'raw': snapshot['raw']}] as [json.dump] writes it. *)
Definition min_state_to_json (s : snapshot) : json := JObj [("raw", raw_to_json s)].

(** [save]: the JSON value written, the window reduced to raw parts. *)
Definition save (bt : buffer_timeseries) (start_ms duration_ms : option pynum) : res json :=
  ss <- extract (timeseries bt) start_ms duration_ms true ;;
  Ok (JArr (map min_state_to_json ss)).

(** ** The plotted series (nu.py 186-210) *)

(** The loop of [graph_network_usage]: a first snapshot without [gbps] is
    skipped, a later one raises [KeyError]. *)
Fixpoint series_go (first : bool) (ss : list snapshot) : res (list pynum * list pynum * list Z) :=
  match ss with
  | [] => Ok ([], [], [])
  | s :: r =>
      match gbps s with
      | None => if first then series_go false r else Err KeyError
      | Some (rx, tx) =>
          rest <- series_go false r ;;
          let '(rxs, txs, tss) := rest in
          Ok (rx :: rxs, tx :: txs, timestamp s :: tss)
      end
  end.

(** The object after the call (its layers computed) and the rx, tx and
    time series plotted, times in seconds from the first kept snapshot;
    [skip_ms] is [Some 0] by default and [None] when the caller passes
    [None]. *)
Definition graph_network_usage (bt : buffer_timeseries) (skip_ms length_ms : option pynum)
    : res (buffer_timeseries * (list pynum * list pynum * list pynum)) :=
  bt <- add_computed_layers bt ;;
  reduced <- extract (timeseries bt) skip_ms length_ms false ;;
  ser <- series_go true reduced ;;
  let '(rxs, txs, tss) := ser in
  match tss with
  | [] => Err IndexError
  | t0 :: _ =>
      tss' <- res_mapM (λ t, py_div (PInt (t - t0)) (PInt 1000)) tss ;;
      if negb (length rxs =? length txs)%nat
      then Err (RuntimeError "Code expects rx and tx timeseries to be of the same length")
      else Ok (bt, (rxs, txs, tss'))
  end.

(** ** Reference notions

    What the theorems below are stated with; none of it is code. *)

(** Timestamps in order, as the logger appends them. *)
Definition ts_le (a b : snapshot) : Prop := (timestamp a ≤ timestamp b)%Z.

(** The snapshots [extract] keeps: neither before [start_raw_ms] nor
    after [end_raw_ms], compared by value (a NaN bound excludes nothing). *)
Definition in_series_window (lo hi : pynum) (s : snapshot) : bool :=
  negb (py_lt_Z (timestamp s) lo) && negb (py_gt_Z (timestamp s) hi).

Definition keys {A} (d : dict A) : list text := map fst d.

(** The value of [q] in a dict where it is known to be. *)
Definition qval (q : text) (d : dict Z) : Z := if dict_get q d is Ok v then v else 0%Z.

Definition is_tx_or_rx (q : text) : Prop := txt "tx" `prefix_of` q ∨ txt "rx" `prefix_of` q.

(** The [tx] (or [rx]) queues of a dict, in order. *)
Definition dir_queues (dir : text) (ds : dict Z) : dict Z :=
  List.filter (λ kv, bool_decide (dir `prefix_of` kv.1)) ds.

(** [acc += x] for each [x] in turn. *)
Fixpoint py_accumulate (acc : pynum) (xs : list pynum) : res pynum :=
  match xs with
  | [] => Ok acc
  | x :: r => acc' <- py_add acc x ;; py_accumulate acc' r
  end.

(** The adjacent snapshots [prev], [s] on which the loop body succeeds:
    no queue appears, the timestamps differ when there is a queue, every
    queue is a [tx] or an [rx] one, and the time delta and each queue's
    bits are below [2 ^ 53], so that [bits / ms_delta] is one rounded
    division (far above what a NIC counts between two samples). *)
Definition layers_ok (prev s : snapshot) : Prop :=
  Forall (λ q, q ∈ keys (queues prev)) (keys (queues s)) ∧
  (queues s ≠ [] → timestamp s ≠ timestamp prev) ∧
  Forall (λ kv, is_tx_or_rx kv.1) (queues s) ∧
  (Z.abs (timestamp s - timestamp prev) < 2 ^ 53)%Z ∧
  Forall (λ kv, Z.abs ((kv.2 - qval kv.1 (queues prev)) * 8) < 2 ^ 53)%Z (queues s).

(** The change of a counter, [0] on a snapshot without deltas. *)
Definition delta_ts (s : snapshot) : Z := if deltas s is Some (t, _) then t else 0%Z.
Definition delta_q (q : text) (s : snapshot) : Z := if deltas s is Some (_, ds) then qval q ds else 0%Z.

Global Instance ts_le_dec : RelDecision ts_le.
Proof. intros a b. unfold ts_le. apply _. Defined.

Global Instance is_tx_or_rx_dec q : Decision (is_tx_or_rx q).
Proof. unfold is_tx_or_rx. apply _. Defined.

Global Instance layers_ok_dec : RelDecision layers_ok.
Proof. intros a b. unfold layers_ok. apply _. Defined.

(** ** A recorded log

    Three lines of [record_network_buffer_log] output, 10 ms apart. *)

Definition net_log : text :=
  txt "1000 queue_0_tx_bytes: 100 queue_0_rx_bytes: 200 queue_1_tx_bytes: 50 queue_1_rx_bytes: 70" ++ [nl] ++
  txt "1010 queue_0_tx_bytes: 1350 queue_0_rx_bytes: 2700 queue_1_tx_bytes: 1300 queue_1_rx_bytes: 70" ++ [nl] ++
  txt "1020 queue_0_tx_bytes: 2600 queue_0_rx_bytes: 2700 queue_1_tx_bytes: 2550 queue_1_rx_bytes: 12570" ++ [nl].

Definition net_queues (tx0 rx0 tx1 rx1 : Z) : dict Z :=
  [(txt "tx_0", tx0); (txt "rx_0", rx0); (txt "tx_1", tx1); (txt "rx_1", rx1)].

Definition net_s0 : snapshot := raw_snapshot 1000 (net_queues 100 200 50 70).
Definition net_s1 : snapshot := raw_snapshot 1010 (net_queues 1350 2700 1300 70).
Definition net_s2 : snapshot := raw_snapshot 1020 (net_queues 2600 2700 2550 12570).
Definition net_series : list snapshot := [net_s0; net_s1; net_s2].

(** The log with a fourth line cut inside a counter name. *)
Definition net_log_cut : text := net_log ++ txt "1030 queue_0_tx_bytes: 3850 queue_0_rx_by".

(** ** Lemmas: windows *)

(** Past the end of the window, a later snapshot is past it too. *)
Lemma in_window_false_after lo hi s s' :
  py_gt_Z (timestamp s) hi = true → ts_le s s' → in_series_window lo hi s' = false.
Proof.
  intros Hgt Hle. unfold in_series_window. rewrite (py_gt_Z_mono _ _ _ Hgt Hle).
  by rewrite andb_false_r.
Qed.

Lemma filter_none {A} (f : A → bool) l : Forall (λ x, f x = false) l → List.filter f l = [].
Proof. induction 1 as [|x l Hx _ IH]; [done|]. simpl. by rewrite Hx. Qed.

(** On a series in timestamp order, the [break] loses nothing: [extract]
    is the filter of the window. *)
Lemma extract_go_filter lo hi m ss :
  Sorted ts_le ss →
  extract_go lo hi m ss = map (if m then min_state else id) (List.filter (in_series_window lo hi) ss).
Proof.
  intros Hs. apply Sorted_StronglySorted in Hs; [|intros ???; unfold ts_le; lia].
  induction Hs as [|s ss _ IH Hall]; [done|]. cbn [extract_go List.filter].
  unfold in_series_window at 1.
  destruct (py_lt_Z (timestamp s) lo); [done|].
  destruct (py_gt_Z (timestamp s) hi) eqn:Hhi; cbn [negb andb]; [|cbn [map]; rewrite IH; by destruct m].
  rewrite filter_none; [done|]. eapply Forall_impl; [exact Hall|].
  intros x. by apply in_window_false_after.
Qed.

(** ** Lemmas: computed layers *)

Lemma dict_get_elem {A} q (d : dict A) : q ∈ keys d → ∃ v, dict_get q d = Ok v.
Proof.
  induction d as [|[k v] d IH]; cbn; [by intros ?%not_elem_of_nil|].
  case_bool_decide; [by eexists|]. intros [->|Hq]%elem_of_cons; [done|]. by apply IH.
Qed.

Lemma dict_get_not_elem {A} q (d : dict A) : q ∉ keys d → dict_get q d = Err KeyError.
Proof.
  induction d as [|[k v] d IH]; cbn; [done|]. rewrite not_elem_of_cons.
  intros [Hk Hq]. rewrite bool_decide_false by done. by apply IH.
Qed.

(** One queue's throughput is a float when the quotient takes the fast path. *)
Lemma to_gigabits_per_sec_ok ms d :
  ms ≠ 0%Z → (Z.abs ms < 2 ^ 53)%Z → (Z.abs (d * 8) < 2 ^ 53)%Z →
  ∃ g, to_gigabits_per_sec ms d = Ok (PFloat g).
Proof.
  intros Hms Hms' Hd. unfold to_gigabits_per_sec. cbn [py_div].
  rewrite py_int_truediv_small by done. cbn [res_bind].
  rewrite py_div_float_int by (vm_compute; reflexivity). cbn [res_bind].
  rewrite py_mul_float_int by (vm_compute; reflexivity). by eexists.
Qed.

Lemma to_gigabits_per_sec_err ms d e :
  to_gigabits_per_sec ms d = Err e → e = ZeroDivisionError ∨ e = OverflowError.
Proof.
  unfold to_gigabits_per_sec. res_cases; try done;
    first [ apply py_mul_err | intros [= <-]; by eapply py_div_err ].
Qed.

(** [queue_deltas] subtracts, key by key, the previous value. *)
Lemma queue_deltas_ok cur prev :
  (∀ q, q ∈ keys cur → q ∈ keys prev) →
  queue_deltas cur prev = Ok (map (λ kv, (kv.1, kv.2 - qval kv.1 prev)%Z) cur).
Proof.
  unfold queue_deltas. induction cur as [|[k v] cur IH]; intros Hin; [done|]. cbn [res_mapM fst snd].
  destruct (dict_get_elem k prev) as [p Hp]; [apply Hin; by left|].
  simpl. rewrite Hp. cbn [res_bind fst snd]. rewrite IH by (intros q ?; apply Hin; by right).
  unfold qval. by rewrite Hp.
Qed.

Lemma queue_deltas_missing cur prev q :
  q ∈ keys cur → q ∉ keys prev → queue_deltas cur prev = Err KeyError.
Proof.
  unfold queue_deltas. induction cur as [|[k v] cur IH]; cbn [res_mapM keys map fst snd];
    [by intros ?%not_elem_of_nil|].
  intros Hq Hn. destruct (decide (k ∈ keys prev)) as [Hk|Hk].
  - destruct (dict_get_elem k prev Hk) as [p ->]. cbn [res_bind].
    apply elem_of_cons in Hq as [->|Hq]; [done|]. by rewrite IH.
  - by rewrite dict_get_not_elem.
Qed.

Lemma tx_not_rx q : txt "tx" `prefix_of` q → ¬ txt "rx" `prefix_of` q.
Proof. intros [a ->] [b Hb]. discriminate Hb. Qed.

(** The [gbps] loop returns when every queue is [tx] or [rx] and every
    throughput is a float. *)
Lemma sum_gbps_ok ms ds acc :
  ms ≠ 0%Z → (Z.abs ms < 2 ^ 53)%Z →
  Forall (λ kv, is_tx_or_rx kv.1 ∧ (Z.abs (kv.2 * 8) < 2 ^ 53)%Z) ds →
  small_num acc.1 → small_num acc.2 → ∃ rx tx, sum_gbps ms ds acc = Ok (rx, tx).
Proof.
  intros Hms Hms' Hall. revert acc. induction Hall as [|[k d] ds [Hk Hd] _ IH]; intros [a b] Ha Hb.
  { by exists a, b. }
  destruct (to_gigabits_per_sec_ok ms d Hms Hms' Hd) as [g Hg].
  cbn [sum_gbps fst snd] in *. rewrite Hg. cbn [res_bind].
  destruct Hk as [Htx|Hrx].
  - rewrite bool_decide_true by done. destruct (py_add_float b g Hb) as [f ->]. cbn [res_bind].
    by apply IH.
  - rewrite (bool_decide_false (txt "tx" `prefix_of` k)) by (intros Htx; by apply (tx_not_rx _ Htx)).
    rewrite bool_decide_true by done. destruct (py_add_float a g Ha) as [f ->]. cbn [res_bind].
    by apply IH.
Qed.

(** The interleaved loop adds up each direction on its own: the rx
    figure is the rx queues' throughputs added in order to the rx
    accumulator, and likewise for tx. *)
Lemma sum_gbps_split ms ds acc rx tx :
  sum_gbps ms ds acc = Ok (rx, tx) →
  ∃ grx gtx,
    res_mapM (λ kv, to_gigabits_per_sec ms kv.2) (dir_queues (txt "rx") ds) = Ok grx ∧
    py_accumulate acc.1 grx = Ok rx ∧
    res_mapM (λ kv, to_gigabits_per_sec ms kv.2) (dir_queues (txt "tx") ds) = Ok gtx ∧
    py_accumulate acc.2 gtx = Ok tx.
Proof.
  revert acc. induction ds as [|[k d] ds IH]; intros [a b]; cbn [sum_gbps fst snd].
  { intros [= -> ->]. by exists [], []. }
  destruct (to_gigabits_per_sec ms d) as [g|e|] eqn:Hg; cbn [res_bind]; [|done|done].
  unfold dir_queues. cbn [List.filter fst snd].
  case_bool_decide as Htx.
  - rewrite (bool_decide_false (txt "rx" `prefix_of` k)) by (intros Hrx; by apply (tx_not_rx _ Htx)).
    destruct (py_add b g) as [b'| |] eqn:Hb; cbn [res_bind]; [|done|done].
    intros (grx & gtx & Hr & Hra & Ht & Hta)%IH. exists grx, (g :: gtx). cbn [fst snd] in *.
    cbn [res_mapM snd]. rewrite Hg. cbn [res_bind]. unfold dir_queues in Ht. rewrite Ht.
    cbn [res_bind py_accumulate]. rewrite Hb. cbn [res_bind]. done.
  - case_bool_decide as Hrx; [|done].
    destruct (py_add a g) as [a'| |] eqn:Ha; cbn [res_bind]; [|done|done].
    intros (grx & gtx & Hr & Hra & Ht & Hta)%IH. exists (g :: grx), gtx. cbn [fst snd] in *.
    cbn [res_mapM snd]. rewrite Hg. cbn [res_bind]. unfold dir_queues in Hr. rewrite Hr.
    cbn [res_bind py_accumulate]. rewrite Ha. cbn [res_bind]. done.
Qed.

Lemma sum_gbps_zero_division ds acc : ds ≠ [] → sum_gbps 0 ds acc = Err ZeroDivisionError.
Proof. destruct ds as [|[k d] ds]; [done|]. done. Qed.

Lemma sum_gbps_keys ms ds acc g : sum_gbps ms ds acc = Ok g → Forall (λ kv, is_tx_or_rx kv.1) ds.
Proof.
  revert acc. induction ds as [|[k d] ds IH]; intros acc; [constructor|]. cbn [sum_gbps].
  destruct (to_gigabits_per_sec ms d); cbn [res_bind]; [|done|done].
  case_bool_decide; [destruct (py_add _ _); cbn [res_bind]; [|done|done];
                     intros Hr; constructor; [by left | by eapply IH]|].
  case_bool_decide; [destruct (py_add _ _); cbn [res_bind]; [|done|done];
                     intros Hr; constructor; [by right | by eapply IH]|]. done.
Qed.

Lemma queue_deltas_inv cur prev ds :
  queue_deltas cur prev = Ok ds → ds = map (λ kv, (kv.1, kv.2 - qval kv.1 prev)%Z) cur.
Proof.
  unfold queue_deltas. revert ds. induction cur as [|[k v] cur IH]; intros ds; [by intros [= <-]|].
  simpl. unfold qval at 1. destruct (dict_get k prev); cbn [res_bind]; [|done|done].
  destruct (res_mapM _ cur) eqn:E; cbn [res_bind]; [|done|done]. intros [= <-]. by rewrite (IH _ eq_refl).
Qed.

Lemma qval_ok q d v : dict_get q d = Ok v → qval q d = v.
Proof. unfold qval. by intros ->. Qed.

Lemma qval_deltas q cur prev :
  q ∈ keys cur → qval q (map (λ kv, (kv.1, kv.2 - qval kv.1 prev)%Z) cur) = (qval q cur - qval q prev)%Z.
Proof.
  intros Hq. destruct (dict_get_elem q cur Hq) as [v Hv]. rewrite (qval_ok _ _ _ Hv).
  apply qval_ok. clear Hq. induction cur as [|[k w] cur IH]; [done|].
  simpl in *. case_bool_decide; [subst; congruence | by apply IH].
Qed.

Lemma add_layers_ok prev s :
  layers_ok prev s → ∃ s', add_layers prev s = Ok s' ∧ min_state s' = min_state s ∧
    is_Some (deltas s') ∧ is_Some (gbps s').
Proof.
  intros (Hk & Hts & Hq & Hms & Hb). unfold add_layers. rewrite queue_deltas_ok by by apply Forall_forall.
  cbn [res_bind].
  destruct (decide (queues s = [])) as [Hnil|Hne].
  - rewrite Hnil. cbn. eexists. split; [done|]. unfold min_state. cbn. rewrite Hnil. done.
  - assert (∃ rx tx, sum_gbps (timestamp s - timestamp prev)
              (map (λ kv, (kv.1, kv.2 - qval kv.1 (queues prev))%Z) (queues s)) (PInt 0, PInt 0) = Ok (rx, tx))
      as (rx & tx & ->).
    { apply sum_gbps_ok; [specialize (Hts Hne); lia | done | | by vm_compute | by vm_compute].
      apply List.Forall_map, Forall_and. split; cbn; [exact Hq | exact Hb]. }
    cbn [res_bind]. eexists. split; [done|]. done.
Qed.

Lemma add_layers_from_ok prev r :
  Sorted layers_ok (prev :: r) → ∃ r', add_layers_from prev r = Ok r' ∧
    map min_state r' = map min_state r ∧ Forall (λ s', is_Some (deltas s') ∧ is_Some (gbps s')) r'.
Proof.
  revert prev. induction r as [|s r IH]; intros prev Hs; [by exists []|].
  apply sorted_cons2 in Hs as [Hps Hs].
  destruct (add_layers_ok _ _ Hps) as (s' & Hs' & Hm & Hd & Hg).
  destruct (IH _ Hs) as (r' & Hr' & Hmr & Hall).
  exists (s' :: r'). cbn [add_layers_from]. rewrite Hs', Hr'. cbn [res_bind map].
  rewrite Hm, Hmr. by repeat constructor.
Qed.

(** The first snapshot on which the loop body raises decides the exception. *)
Lemma add_layers_from_err prev pre s post r' e :
  add_layers_from prev pre = Ok r' → add_layers (default prev (last pre)) s = Err e →
  add_layers_from prev (pre ++ s :: post) = Err e.
Proof.
  revert prev r'. induction pre as [|x pre IH]; intros prev r' Hpre Hs; cbn [app add_layers_from].
  - simpl in Hs. by rewrite Hs.
  - cbn [add_layers_from] in Hpre. rewrite default_last_cons in Hs.
    destruct (add_layers prev x); cbn [res_bind] in *; [|done|done].
    destruct (add_layers_from x pre) eqn:E; cbn [res_bind] in Hpre; [|done|done].
    by rewrite (IH _ _ E Hs).
Qed.

Lemma add_layers_inv prev s s' :
  add_layers prev s = Ok s' →
  ∃ g, s' = {| timestamp := timestamp s; queues := queues s;
               deltas := Some ((timestamp s - timestamp prev)%Z,
                               map (λ kv, (kv.1, kv.2 - qval kv.1 (queues prev))%Z) (queues s));
               gbps := Some g |} ∧
       sum_gbps (timestamp s - timestamp prev)
         (map (λ kv, (kv.1, kv.2 - qval kv.1 (queues prev))%Z) (queues s)) (PInt 0, PInt 0) = Ok g.
Proof.
  unfold add_layers. destruct (queue_deltas _ _) eqn:Hd; cbn [res_bind]; [|done|done].
  apply queue_deltas_inv in Hd as ->.
  destruct (sum_gbps _ _ _) eqn:Hg; cbn [res_bind]; [|done|done]. intros [= <-]. by eexists.
Qed.

Lemma add_layers_from_telescope prev r r' q :
  add_layers_from prev r = Ok r' → Forall (λ s, q ∈ keys (queues s)) r →
  foldr Z.add 0%Z (map delta_ts r') = (timestamp (default prev (last r)) - timestamp prev)%Z ∧
  foldr Z.add 0%Z (map (delta_q q) r') =
    (qval q (queues (default prev (last r))) - qval q (queues prev))%Z.
Proof.
  revert prev r'. induction r as [|s r IH]; intros prev r' Hr Hq; cbn [add_layers_from] in Hr.
  { injection Hr as <-. simpl. lia. }
  destruct (add_layers prev s) as [s'| |] eqn:Hs; cbn [res_bind] in Hr; [|done|done].
  destruct (add_layers_from s r) as [r''| |] eqn:Hrr; cbn [res_bind] in Hr; [|done|done].
  injection Hr as <-. apply Forall_cons in Hq as [Hqs Hq].
  destruct (IH _ _ Hrr Hq) as [IHt IHq]. apply add_layers_inv in Hs as (g & -> & _).
  rewrite default_last_cons. cbn [map foldr delta_ts delta_q deltas].
  rewrite qval_deltas by done. lia.
Qed.

(** ** Lemmas: parsing and the plotted series *)

Lemma keys_dict_set {A} k (v : A) d :
  keys (dict_set k v d) = if bool_decide (k ∈ keys d) then keys d else keys d ++ [k].
Proof.
  induction d as [|[k' v'] d IH]; [done|]. cbn [dict_set keys map fst] in *.
  destruct (decide (k = k')) as [<-|Hk].
  - rewrite !bool_decide_true by (rewrite ?elem_of_cons; auto). done.
  - rewrite (bool_decide_false (k = k')) by done. cbn [map fst]. unfold keys in *. rewrite IH. destruct (decide (k ∈ map fst d)) as [Hin|Hin].
    + rewrite !bool_decide_true by (rewrite ?elem_of_cons; auto). done.
    + rewrite !bool_decide_false by (rewrite ?elem_of_cons; naive_solver). done.
Qed.

Lemma NoDup_dict_set {A} k (v : A) d : NoDup (keys d) → NoDup (keys (dict_set k v d)).
Proof.
  intros Hd. rewrite keys_dict_set. case_bool_decide; [done|].
  apply NoDup_app. split; [done|]. split; [|apply NoDup_singleton].
  intros x Hx Hx2. apply list_elem_of_singleton in Hx2 as ->. done.
Qed.

Lemma NoDup_add_queues kvs qs : NoDup (keys qs) → NoDup (keys (foldl add_queue qs kvs)).
Proof.
  revert qs. induction kvs as [|kv kvs IH]; intros qs Hqs; [done|]. simpl. apply IH.
  unfold add_queue. destruct (queue_id kv.1); [by apply NoDup_dict_set | done].
Qed.

(** The three plotted series have one entry per kept snapshot. *)
Lemma series_go_length first ss rxs txs tss :
  series_go first ss = Ok (rxs, txs, tss) → length rxs = length tss ∧ length txs = length tss.
Proof.
  revert first rxs txs tss. induction ss as [|s ss IH]; intros first rxs txs tss; cbn [series_go].
  { by intros [= <- <- <-]. }
  destruct (gbps s) as [[rx tx]|].
  - destruct (series_go false ss) as [[[rxs' txs'] tss']| |] eqn:E; cbn [res_bind]; [|done|done].
    intros [= <- <- <-]. destruct (IH _ _ _ _ E). simpl. lia.
  - destruct first; [apply IH | done].
Qed.

(** ** Lemmas: the exceptions of the loop *)

Lemma add_layers_zero_division prev s :
  Forall (λ q, q ∈ keys (queues prev)) (keys (queues s)) → queues s ≠ [] →
  timestamp s = timestamp prev → add_layers prev s = Err ZeroDivisionError.
Proof.
  intros Hk Hne Hts. unfold add_layers. rewrite queue_deltas_ok by by apply Forall_forall.
  cbn [res_bind]. replace (timestamp s - timestamp prev)%Z with 0%Z by lia.
  rewrite sum_gbps_zero_division; [done|]. by destruct (queues s).
Qed.

Lemma add_layers_key_error prev s q :
  q ∈ keys (queues s) → q ∉ keys (queues prev) → add_layers prev s = Err KeyError.
Proof. intros Hq Hn. unfold add_layers. by rewrite (queue_deltas_missing _ _ q). Qed.

(** The loop raises what its body raises on the first snapshot that fails. *)
Lemma add_computed_layers_err s0 pre s post e :
  Sorted layers_ok (s0 :: pre) → add_layers (default s0 (last pre)) s = Err e →
  add_computed_layers {| timeseries := s0 :: pre ++ s :: post; deltas_computed := false |} = Err e.
Proof.
  intros Hs He. destruct (add_layers_from_ok _ _ Hs) as (r' & Hr' & _).
  unfold add_computed_layers. cbn [deltas_computed timeseries].
  by rewrite (add_layers_from_err _ _ _ _ _ _ Hr' He).
Qed.

(** Under a series in order, every snapshot lies between the first and the last. *)
Lemma sorted_between s0 r s :
  Sorted ts_le (s0 :: r) → s ∈ s0 :: r →
  (timestamp s0 ≤ timestamp s ≤ timestamp (default s0 (last r)))%Z.
Proof.
  intros Hs Hin. apply Sorted_StronglySorted in Hs; [|intros ???; unfold ts_le; lia].
  revert s0 s Hs Hin. induction r as [|x r IH]; intros s0 s Hs Hin.
  { apply list_elem_of_singleton in Hin as ->. simpl. lia. }
  apply StronglySorted_inv in Hs as [Hs Hall]. rewrite default_last_cons.
  apply elem_of_cons in Hin as [->|Hin].
  - inversion Hall as [|? ? Hx _]; subst. specialize (IH x x Hs ltac:(by left)). unfold ts_le in Hx. lia.
  - specialize (IH x s Hs Hin). apply Forall_cons in Hall as [Hx _]. unfold ts_le in Hx. lia.
Qed.

(** ** Lemmas: parse errors *)

Lemma py_int_err s e : py_int s = Err e → e = ValueError.
Proof. unfold py_int. by case_match; [intros [=]|intros [= <-]]. Qed.

Lemma py_int_nofuel s : py_int s ≠ NoFuel.
Proof. unfold py_int. by case_match. Qed.

Lemma parse_kv_err kv e : parse_kv kv = Err e → e = ValueError.
Proof.
  unfold parse_kv. repeat case_match; try by intros [= <-].
  destruct (py_int _) eqn:E; cbn [res_bind]; [done| |done]. intros [= <-]. by apply py_int_err in E.
Qed.

Lemma parse_kv_nofuel kv : parse_kv kv ≠ NoFuel.
Proof.
  unfold parse_kv. destruct (split_on _ kv) as [|k [|v [|]]]; try done.
  pose proof (py_int_nofuel v). by destruct (py_int v).
Qed.

Lemma parse_kv_no_colon kv : ":"%char ∉ kv → parse_kv kv = Err ValueError.
Proof. intros Hc. unfold parse_kv. by rewrite split_on_no_sep. Qed.

(** A log line raises nothing but [ValueError], and it raises it when a
    counter after the timestamp has no [:]. *)
Lemma snapshot_of_line_err l e : snapshot_of_line l = Err e → e = ValueError.
Proof.
  unfold snapshot_of_line, parse_line. pose proof (split_on_nonempty " "%char
    (strip (py_replace [nl] [] (py_replace (txt ": ") (txt ":") l)))) as Hne.
  unfold split_line. destruct (split_on _ _) as [|t kvs]; [done|].
  destruct (py_int t) eqn:Ht; cbn [res_bind]; [|intros [= <-]; by apply py_int_err in Ht|done].
  destruct (res_mapM parse_kv kvs) eqn:Hk; cbn [res_bind]; [done| |done].
  intros [= <-]. apply res_mapM_err in Hk as (kv & _ & Hkv). by apply parse_kv_err in Hkv.
Qed.

Lemma snapshot_of_line_bad_token l kv :
  kv ∈ tail (split_line l) → ":"%char ∉ kv → snapshot_of_line l = Err ValueError.
Proof.
  intros Hkv Hc. unfold snapshot_of_line, parse_line.
  destruct (split_line l) as [|t kvs]; [simpl in Hkv; by apply not_elem_of_nil in Hkv|].
  cbn [tail] in Hkv. destruct (py_int t) eqn:Ht; cbn [res_bind].
  - destruct (res_mapM_raises parse_kv kvs kv ValueError parse_kv_nofuel Hkv (parse_kv_no_colon _ Hc))
      as (e & -> & y & _ & Hy).
    cbn [res_bind]. by rewrite (parse_kv_err _ _ Hy).
  - by rewrite (py_int_err _ _ Ht).
  - by destruct (py_int_nofuel t).
Qed.

Lemma snapshot_of_line_nofuel l : snapshot_of_line l ≠ NoFuel.
Proof.
  destruct (snapshot_of_line l) as [| |] eqn:E; [done|done|].
  unfold snapshot_of_line, parse_line in E. destruct (split_line l) as [|t kvs]; [done|].
  destruct (py_int t) eqn:Ht; cbn [res_bind] in E; [|done|by destruct (py_int_nofuel t)].
  destruct (res_mapM parse_kv kvs) eqn:Hk; cbn [res_bind] in E; [done|done|].
  clear E. induction kvs as [|x xs IH]; [done|]. cbn [res_mapM] in Hk.
  destruct (parse_kv x) eqn:Hx; cbn [res_bind] in Hk; [|done|by destruct (parse_kv_nofuel x)].
  destruct (res_mapM parse_kv xs); cbn [res_bind] in Hk; [done|done|by apply IH].
Qed.

(** ** Lemmas: which exceptions each stage raises *)

Local Abbreviation len_msg := "Code expects rx and tx timeseries to be of the same length"%string.

Lemma dict_get_err {A} q (d : dict A) e : dict_get q d = Err e → e = KeyError.
Proof. induction d as [|[k v] d IH]; simpl; [congruence|]. case_bool_decide; [done|apply IH]. Qed.

Lemma sum_gbps_not_len ms ds acc : sum_gbps ms ds acc ≠ Err (RuntimeError len_msg).
Proof.
  revert acc. induction ds as [|[k d] ds IH]; intros acc; cbn [sum_gbps]; [done|].
  destruct (to_gigabits_per_sec ms d) as [g|e|] eqn:Hg; cbn [res_bind];
    [|intros [= ->]; by destruct (to_gigabits_per_sec_err _ _ _ Hg) | done].
  case_bool_decide; [|case_bool_decide; [|by intros [=]]];
    match goal with |- context [py_add ?a ?b] =>
      destruct (py_add a b) as [x|e|] eqn:Ha; cbn [res_bind];
        [apply IH | intros [= ->]; by destruct (py_add_err a b _ Ha) | done]
    end.
Qed.

Lemma add_layers_not_len prev s : add_layers prev s ≠ Err (RuntimeError len_msg).
Proof.
  unfold add_layers. destruct (queue_deltas _ _) as [ds|e|] eqn:Hd; cbn [res_bind].
  - destruct (sum_gbps _ _ _) eqn:Hg; cbn [res_bind]; [done| |done].
    intros [= ->]. by apply (sum_gbps_not_len _ _ _ Hg).
  - apply res_mapM_err in Hd as ([k v] & _ & Hk). cbn [fst] in Hk.
    destruct (dict_get k (queues prev)) eqn:Hg; cbn [res_bind] in Hk; [done| |done].
    injection Hk as <-. apply dict_get_err in Hg as ->. by intros [=].
  - done.
Qed.

Lemma add_computed_layers_not_len bt : add_computed_layers bt ≠ Err (RuntimeError len_msg).
Proof.
  unfold add_computed_layers. destruct (deltas_computed bt); [done|].
  destruct (timeseries bt) as [|s0 r]; [done|].
  cut (add_layers_from s0 r ≠ Err (RuntimeError len_msg)).
  { destruct (add_layers_from s0 r); cbn [res_bind]; congruence. }
  revert s0. induction r as [|s r IH]; intros s0; cbn [add_layers_from]; [done|].
  destruct (add_layers s0 s) eqn:Hs; cbn [res_bind]; [| intros [= ->]; by apply (add_layers_not_len s0 s) | done].
  specialize (IH s). destruct (add_layers_from s r); cbn [res_bind]; congruence.
Qed.

Lemma series_go_err first ss e : series_go first ss = Err e → e = KeyError.
Proof.
  revert first. induction ss as [|s ss IH]; intros first; cbn [series_go]; [done|].
  destruct (gbps s) as [[rx tx]|].
  - destruct (series_go false ss) as [[[? ?] ?]| |] eqn:E; cbn [res_bind]; [done| |done].
    intros [= <-]. by apply (IH false).
  - destruct first; [apply IH | congruence].
Qed.

Lemma extract_err ss st du m e :
  extract ss st du m = Err e → e = IndexError ∨ e = ZeroDivisionError ∨ e = OverflowError.
Proof.
  unfold extract, series_window. destruct ss as [|s0 ss]; [cbn; intros [= <-]; by left|].
  destruct (last (s0 :: ss)); [|cbn; intros [= <-]; by left].
  destruct st, du; cbn [res_bind];
    repeat match goal with |- context [py_add ?a ?b] => destruct (py_add a b) as [?|?|] eqn:?; cbn [res_bind] end;
    try done; intros [= <-]; right; by eapply py_add_err.
Qed.

(** ** Theorems *)

(** [extract] on a sorted series is the filter of its window. *)
Lemma extract_filter ss start_ms duration_ms m :
  Sorted ts_le ss →
  extract ss start_ms duration_ms m =
    (w <- series_window ss start_ms duration_ms ;;
     Ok (map (if m then min_state else id) (List.filter (in_series_window w.1 w.2) ss))).
Proof.
  intros Hs. unfold extract. destruct (series_window _ _ _); cbn [res_bind]; [|done|done].
  by rewrite extract_go_filter.
Qed.

(** C12: on a series in timestamp order, [extract] returns exactly the
    snapshots whose timestamp lies in the window
    [[first + start_ms, first + start_ms + duration_ms]] (the last
    timestamp without a duration), in order, reduced to their raw part
    when asked: the [break] at the first later snapshot loses nothing. *)
Theorem extract_sorted ss start_ms duration_ms m :
  Sorted ts_le ss →
  extract ss start_ms duration_ms m =
    (w <- series_window ss start_ms duration_ms ;;
     Ok (map (if m then min_state else id) (List.filter (in_series_window w.1 w.2) ss))).
Proof. by eapply extract_filter. Qed.

(** Without a window, [reduce] of a series in order keeps every
    snapshot: the default window runs from the first to the last. *)
Theorem reduce_whole bt :
  timeseries bt ≠ [] → Sorted ts_le (timeseries bt) → reduce bt None None = Ok bt.
Proof.
  intros Hne Hs. unfold reduce. rewrite extract_filter by done.
  destruct bt as [[|s0 r] dc]; [done|]. cbn [timeseries deltas_computed series_window default].
  destruct (last (s0 :: r)) as [sl|] eqn:Hl; [|by apply last_None in Hl]. cbn [res_bind fst snd].
  cbn [timeseries] in Hs.
  assert (default s0 (last r) = sl) as Hsl by (by rewrite <- (default_last_cons s0), Hl).
  rewrite List.forallb_filter_id.
  - by rewrite map_id.
  - apply forallb_forall. intros s Hin%list_elem_of_In.
    pose proof (sorted_between s0 r s Hs Hin) as Hb. rewrite Hsl in Hb.
    unfold in_series_window. rewrite py_lt_Z_int, py_gt_Z_int, andb_true_iff, !negb_true_iff, !Z.ltb_ge. lia.
Qed.

(** C11: when every snapshot keeps the queues of its predecessor, has a
    later timestamp (or no queue) and names only [tx] and [rx] queues,
    [add_computed_layers] returns: the first snapshot unchanged, every
    later one with its raw part unchanged and its [deltas] and [gbps]
    computed, and the flag set. *)
Theorem add_computed_layers_total s0 r :
  Sorted layers_ok (s0 :: r) →
  ∃ r', add_computed_layers {| timeseries := s0 :: r; deltas_computed := false |} =
          Ok {| timeseries := s0 :: r'; deltas_computed := true |} ∧
        map min_state r' = map min_state r ∧
        Forall (λ s, is_Some (deltas s) ∧ is_Some (gbps s)) r'.
Proof.
  intros Hs. destruct (add_layers_from_ok _ _ Hs) as (r' & Hr' & Hm & Hall).
  exists r'. unfold add_computed_layers. cbn [deltas_computed timeseries]. by rewrite Hr'.
Qed.

(** C15: for a snapshot [s] after [prev], the loop body stores the time
    delta and each queue's byte delta (its value minus the previous
    one), and its one [gbps] loop over all queues adds up each direction
    on its own: the rx (tx) figure is [0] plus, in queue order, the
    throughput [to_gigabits_per_sec] of each rx (tx) queue, added as
    Python adds an [int] and floats. *)
Theorem add_layers_gbps prev s s' :
  add_layers prev s = Ok s' →
  ∃ ds rx tx grx gtx,
    deltas s' = Some ((timestamp s - timestamp prev)%Z, ds) ∧ gbps s' = Some (rx, tx) ∧
    ds = map (λ kv, (kv.1, kv.2 - qval kv.1 (queues prev))%Z) (queues s) ∧
    res_mapM (λ kv, to_gigabits_per_sec (timestamp s - timestamp prev) kv.2) (dir_queues (txt "rx") ds) = Ok grx ∧
    py_accumulate (PInt 0) grx = Ok rx ∧
    res_mapM (λ kv, to_gigabits_per_sec (timestamp s - timestamp prev) kv.2) (dir_queues (txt "tx") ds) = Ok gtx ∧
    py_accumulate (PInt 0) gtx = Ok tx.
Proof.
  intros Hl. apply add_layers_inv in Hl as ([rx tx] & -> & Hg).
  destruct (sum_gbps_split _ _ _ _ _ Hg) as (grx & gtx & H1 & H2 & H3 & H4).
  by eexists _, rx, tx, grx, gtx.
Qed.

(** C16: the computed deltas telescope: summed over the snapshots after
    the first, the time deltas give the time between the first and the
    last snapshot, and the deltas of a queue every snapshot has give the
    change of its counter between them.  Each delta is taken against the
    snapshot just before. *)
Theorem add_computed_layers_telescope s0 r bt' q :
  add_computed_layers {| timeseries := s0 :: r; deltas_computed := false |} = Ok bt' →
  Forall (λ s, q ∈ keys (queues s)) r →
  foldr Z.add 0%Z (map delta_ts (tail (timeseries bt'))) =
    (timestamp (default s0 (last r)) - timestamp s0)%Z ∧
  foldr Z.add 0%Z (map (delta_q q) (tail (timeseries bt'))) =
    (qval q (queues (default s0 (last r))) - qval q (queues s0))%Z.
Proof.
  unfold add_computed_layers. cbn [deltas_computed timeseries].
  destruct (add_layers_from s0 r) as [r'| |] eqn:Hr; cbn [res_bind]; [|done|done].
  intros [= <-] Hq. by apply (add_layers_from_telescope _ _ _ _ Hr).
Qed.

(** C31: two snapshots with the same millisecond timestamp make
    [add_computed_layers] raise [ZeroDivisionError] (when the second one
    has a queue and the snapshots before are well formed): the logger
    samples every millisecond, so this takes only a slow [sleep]. *)
Theorem add_computed_layers_zero_division s0 pre s post :
  Sorted layers_ok (s0 :: pre) →
  Forall (λ q, q ∈ keys (queues (default s0 (last pre)))) (keys (queues s)) →
  queues s ≠ [] → timestamp s = timestamp (default s0 (last pre)) →
  add_computed_layers {| timeseries := s0 :: pre ++ s :: post; deltas_computed := false |} =
    Err ZeroDivisionError.
Proof. intros Hs Hk Hne Hts. apply add_computed_layers_err; [done|]. by apply add_layers_zero_division. Qed.

(** A queue that the previous snapshot lacks (a line cut short, a
    queue added to the interface) makes [add_computed_layers] raise
    [KeyError]. *)
Theorem add_computed_layers_key_error s0 pre s post q :
  Sorted layers_ok (s0 :: pre) →
  q ∈ keys (queues s) → q ∉ keys (queues (default s0 (last pre))) →
  add_computed_layers {| timeseries := s0 :: pre ++ s :: post; deltas_computed := false |} =
    Err KeyError.
Proof. intros Hs Hq Hn. apply add_computed_layers_err; [done|]. by apply (add_layers_key_error _ _ q). Qed.


(** [graph_network_usage] never raises its [RuntimeError] on rx and
    tx series of different lengths: the loop appends to both together. *)
Theorem graph_network_usage_same_length bt skip_ms length_ms :
  graph_network_usage bt skip_ms length_ms ≠ Err (RuntimeError len_msg).
Proof.
  unfold graph_network_usage.
  destruct (add_computed_layers bt) as [bt'|e|] eqn:Hb; cbn [res_bind];
    [| intros [= ->]; by apply (add_computed_layers_not_len bt) | done].
  destruct (extract _ _ _ _) as [red|e|] eqn:He; cbn [res_bind];
    [| intros [= ->]; apply extract_err in He; naive_solver | done].
  destruct (series_go true red) as [[[rxs txs] tss]|e|] eqn:Hs; cbn [res_bind];
    [| intros [= ->]; by apply series_go_err in Hs | done].
  destruct tss as [|t0 tss]; [done|].
  destruct (res_mapM _ _) as [tss'|e|] eqn:Ht; cbn [res_bind];
    [| intros [= ->]; apply res_mapM_err in Ht as (t & _ & Ht);
       by destruct (py_div_err _ _ _ Ht) | done].
  destruct (series_go_length _ _ _ _ _ Hs) as [H1 H2].
  rewrite (proj2 (Nat.eqb_eq _ _)) by lia. done.
Qed.

(** The snapshots [parse_raw_data] returns: one per line, raw, with distinct queue ids. *)
Lemma parse_raw_data_shape contents ss :
  parse_raw_data contents = Ok ss →
  length ss = length (lines_of contents) ∧
  Forall (λ s, deltas s = None ∧ gbps s = None ∧ NoDup (keys (queues s))) ss.
Proof.
  unfold parse_raw_data. intros Hp%res_mapM_Forall2. split; [symmetry; by eapply Forall2_length|].
  induction Hp as [|l s ls ss Hl _ IH]; constructor; [|done].
  unfold snapshot_of_line in Hl. destruct (parse_line l) as [[ts kvs]| |]; cbn [res_bind] in Hl; [|done|done].
  injection Hl as <-. cbn. split_and!; [done|done|]. apply NoDup_add_queues. constructor.
Qed.


(** C34: a log line with a counter that has no [:] after the timestamp (the
    last line of a log whose writer was stopped in the middle of a name)
    makes [parse_raw_data] raise [ValueError]: no line is skipped. *)
Theorem parse_raw_data_bad_token contents l kv :
  l ∈ lines_of contents → kv ∈ tail (split_line l) → ":"%char ∉ kv →
  parse_raw_data contents = Err ValueError.
Proof.
  intros Hl Hkv Hc. unfold parse_raw_data.
  destruct (res_mapM_raises snapshot_of_line _ l ValueError snapshot_of_line_nofuel Hl
              (snapshot_of_line_bad_token l kv Hkv Hc)) as (e & -> & y & _ & Hy).
  by rewrite (snapshot_of_line_err _ _ Hy).
Qed.

(** On a series out of timestamp order (a clock stepped back between
    two log lines), [extract] stops at the first snapshot past the window
    and loses a later snapshot inside it. *)
Example extract_unsorted_break :
  extract [raw_snapshot 0 []; raw_snapshot 100 []; raw_snapshot 5 []] None (Some (PInt 10)) false =
    Ok [raw_snapshot 0 []] ∧
  in_series_window (PInt 0) (PInt 10) (raw_snapshot 5 []) = true.
Proof. split; vm_compute; reflexivity. Qed.

(** ** Runs on the recorded log *)

(** A decidable hypothesis at a concrete input, by evaluation. *)
Local Ltac by_decide := apply (bool_decide_eq_true_1 _); vm_compute; reflexivity.
Local Ltac by_decide_false := apply (bool_decide_eq_false_1 _); vm_compute; reflexivity.

Lemma parse_raw_data_net_log : parse_raw_data net_log = Ok net_series.
Proof. vm_compute. reflexivity. Qed.

Lemma extract_sorted_witness :
  extract net_series (Some (PInt 5)) (Some (PInt 10)) true = Ok [min_state net_s1].
Proof.
  rewrite (extract_sorted net_series) by by_decide.
  vm_compute. reflexivity.
Defined.

Lemma reduce_whole_witness :
  reduce {| timeseries := net_series; deltas_computed := false |} None None =
    Ok {| timeseries := net_series; deltas_computed := false |}.
Proof.
  apply reduce_whole; [discriminate | by_decide].
Defined.

Lemma add_computed_layers_total_witness :
  ∃ r', add_computed_layers {| timeseries := net_s0 :: [net_s1; net_s2]; deltas_computed := false |} =
          Ok {| timeseries := net_s0 :: r'; deltas_computed := true |} ∧
        map min_state r' = map min_state [net_s1; net_s2] ∧
        Forall (λ s, is_Some (deltas s) ∧ is_Some (gbps s)) r'.
Proof. apply add_computed_layers_total. by_decide. Defined.

Lemma add_layers_gbps_witness :
  match add_layers net_s1 net_s2 with
  | Ok s' => ∃ ds rx tx grx gtx,
      deltas s' = Some ((timestamp net_s2 - timestamp net_s1)%Z, ds) ∧ gbps s' = Some (rx, tx) ∧
      ds = map (λ kv, (kv.1, kv.2 - qval kv.1 (queues net_s1))%Z) (queues net_s2) ∧
      res_mapM (λ kv, to_gigabits_per_sec (timestamp net_s2 - timestamp net_s1) kv.2)
        (dir_queues (txt "rx") ds) = Ok grx ∧
      py_accumulate (PInt 0) grx = Ok rx ∧
      res_mapM (λ kv, to_gigabits_per_sec (timestamp net_s2 - timestamp net_s1) kv.2)
        (dir_queues (txt "tx") ds) = Ok gtx ∧
      py_accumulate (PInt 0) gtx = Ok tx
  | _ => False
  end.
Proof.
  destruct (add_layers net_s1 net_s2) as [s'| |] eqn:E; [| by vm_compute in E | by vm_compute in E].
  exact (add_layers_gbps _ _ _ E).
Defined.

(** The figures Python prints for the last interval of the log: rx
    [0.01] and tx [0.002] Gbit/s, the floats nearest those decimals. *)
#[warnings="-inexact-float"]
Example add_layers_net_gbps :
  option_map gbps (match add_layers net_s1 net_s2 with Ok s' => Some s' | _ => None end) =
    Some (Some (PFloat 0.01, PFloat 0.002)).
Proof. vm_compute. reflexivity. Qed.

Lemma add_computed_layers_telescope_witness :
  match add_computed_layers {| timeseries := net_s0 :: [net_s1; net_s2]; deltas_computed := false |} with
  | Ok bt' =>
      foldr Z.add 0%Z (map delta_ts (tail (timeseries bt'))) =
        (timestamp (default net_s0 (last [net_s1; net_s2])) - timestamp net_s0)%Z ∧
      foldr Z.add 0%Z (map (delta_q (txt "rx_1")) (tail (timeseries bt'))) =
        (qval (txt "rx_1") (queues (default net_s0 (last [net_s1; net_s2]))) -
         qval (txt "rx_1") (queues net_s0))%Z
  | _ => False
  end.
Proof.
  destruct (add_computed_layers _) as [bt'| |] eqn:E; [| by vm_compute in E | by vm_compute in E].
  apply (add_computed_layers_telescope _ _ _ _ E).
  apply Forall_forallb with (f := λ s, bool_decide (txt "rx_1" ∈ keys (queues s)));
    [intros x; apply (bool_decide_eq_true_1 _) | vm_compute; reflexivity].
Defined.

Lemma add_computed_layers_zero_division_witness :
  add_computed_layers {| timeseries := net_s0 :: [net_s1; net_s2] ++
                           raw_snapshot 1020 (net_queues 2700 2800 2650 12670) :: [];
                         deltas_computed := false |} = Err ZeroDivisionError.
Proof.
  apply add_computed_layers_zero_division;
    [by_decide
    |apply Forall_forallb with (f := λ q, bool_decide (q ∈ keys (queues net_s2)));
       [intros x; apply (bool_decide_eq_true_1 _) | vm_compute; reflexivity]
    |discriminate | reflexivity].
Defined.

Lemma add_computed_layers_key_error_witness :
  add_computed_layers {| timeseries := net_s0 :: [net_s1] ++
                           raw_snapshot 1020 ((txt "tx_2", 10%Z) :: net_queues 2600 2700 2550 12570) :: [];
                         deltas_computed := false |} = Err KeyError.
Proof.
  apply (add_computed_layers_key_error _ _ _ _ (txt "tx_2"));
    [by_decide
    |by_decide
    |by_decide_false].
Defined.


Lemma parse_raw_data_bad_token_witness : parse_raw_data net_log_cut = Err ValueError.
Proof.
  apply (parse_raw_data_bad_token _ (txt "1030 queue_0_tx_bytes: 3850 queue_0_rx_by")
           (txt "queue_0_rx_by"));
    [by_decide
    |by_decide
    |by_decide_false].
Defined.
