(* ===== verification/NetCli.v ===== *)
(** * Network utilization: loading a series, paths and the command line of [nu.py]

    [BufferTimeseries.__init__] (26-39) reads a series from a raw log
    ([parse_raw_data]) or from a [.bt.json] file that [save] wrote
    ([json.load]); [to_ms] (274-287) reads the [--start] and
    [--duration] options; [abspathify] (290-296) makes paths absolute;
    [simple_sampler] (248-270) and the [__main__] block (311-433) run the
    [--simplesample] (with [--live]), [--extract] and [--graph] modes.

    The file system is a function from paths to contents; [float()] of a
    string is a parameter of the section ([None] where it raises
    [ValueError]), and the millisecond figures [to_ms] returns are
    binary64 floats; what
    a run does to the outside world is the list of its effects (trees
    removed, directories made, files written, plots made), in order, kept
    when a later step raises: a small writer monad over [res].  The
    [--live] recording ([record_network_buffer_log], 299-306) runs
    [ethtool] in a shell loop for 60 seconds: the platform and the
    samples the loop takes are a parameter ([live_recording]), and the
    log it leaves is one line per sample.  [os.path] functions follow
    [posixpath] ([PosixPath]).  A saved file is decoded into snapshots
    when it is loaded: a file of another shape raises [TypeError] or
    [KeyError] there, where Python raises at the first use of the
    series. *)

From Stdlib Require Import PrimFloat.
From S2P Require Import Prelude Json PyFloat FileIO LineParse NetUtil PosixPath.

(** ** [abspathify] (290-296) *)

Definition abspathify (cwd path_str : text) : text :=
  if bool_decide (txt "/" `prefix_of` path_str) then path_str
  else if bool_decide (txt "~" `prefix_of` path_str) then abspath cwd path_str
  else abspath cwd (path_join cwd path_str).

(** ** Loading a saved series (37-39) *)

Definition json_int (j : json) : res Z := if j is JNum n then Ok n else Err TypeError.

(** [j[k]] on a decoded dict. *)
Definition obj_get (k : string) (j : json) : res json :=
  match j with
  | JObj kvs => if dict_lookup k kvs is Some v then Ok v else Err KeyError
  | _ => Err TypeError
  end.

Definition obj_has (k : string) (j : json) : bool :=
  if j is JObj kvs then if dict_lookup k kvs is Some _ then true else false else false.

(** A decoded dict of counters: a key given twice keeps its first place
    and its last value, as [json.load] builds it. *)
Fixpoint counters_of_kvs (kvs : list (string * json)) (acc : dict Z) : res (dict Z) :=
  match kvs with
  | [] => Ok acc
  | (k, v) :: r => n <- json_int v ;; counters_of_kvs r (dict_set (String.list_ascii_of_string k) n acc)
  end.

Definition counters_of_json (j : json) : res (dict Z) :=
  if j is JObj kvs then counters_of_kvs kvs [] else Err TypeError.

Definition raw_of_json (j : json) : res (Z * dict Z) :=
  t <- obj_get "timestamp" j ;; ts <- json_int t ;;
  q <- obj_get "queues" j ;; qs <- counters_of_json q ;; Ok (ts, qs).

(** A snapshot of the file: its [raw] part, and its [deltas] and [gbps]
    when the file has them (integers in this JSON model). *)
Definition snapshot_of_json (j : json) : res snapshot :=
  r <- obj_get "raw" j ;; tq <- raw_of_json r ;;
  d <- (if obj_has "deltas" j then dj <- obj_get "deltas" j ;; x <- raw_of_json dj ;; Ok (Some x)
        else Ok None) ;;
  g <- (if obj_has "gbps" j
        then gj <- obj_get "gbps" j ;; rx <- obj_get "rx" gj ;; rx <- json_int rx ;;
             tx <- obj_get "tx" gj ;; tx <- json_int tx ;; Ok (Some (PInt rx, PInt tx))
        else Ok None) ;;
  Ok {| timestamp := tq.1; queues := tq.2; deltas := d; gbps := g |}.

Definition series_of_json (j : json) : res (list snapshot) :=
  if j is JArr xs then res_mapM snapshot_of_json xs else Err TypeError.

(** ** [__init__] (26-39) *)

Definition fs := text → option text.

Definition read_file (f : fs) (p : text) : res text :=
  if f p is Some c then Ok c else Err FileNotFoundError.

Section Init.
Context `{JsonCodec} (f : fs).

Definition load_btfile (btfile_path : text) : res (list snapshot) :=
  c <- read_file f btfile_path ;;
  match json_loads c with Some j => series_of_json j | None => Err ValueError end.

(** [None]: a path given as the empty string passes the two checks and
    leaves [self.timeseries] unset. *)
Definition buffer_timeseries_init (log_path btfile_path : option text)
    : res (option buffer_timeseries) :=
  match log_path, btfile_path with
  | None, None => Err (RuntimeError "One of log_path or btfile_path must be specified")
  | Some _, Some _ => Err (RuntimeError "Only one of log_path or btfile_path may be specified")
  | Some lp, None =>
      if lp is [] then Ok None else
      c <- read_file f lp ;; ss <- parse_raw_data c ;;
      Ok (Some {| timeseries := ss; deltas_computed := false |})
  | None, Some bp =>
      if bp is [] then Ok None else
      ss <- load_btfile bp ;; Ok (Some {| timeseries := ss; deltas_computed := false |})
  end.
End Init.

(** ** [to_ms] (274-287) *)

Section ToMs.
Variable py_float : text → option float.

(** [None] where [float()] raises: [to_ms] prints the exception and
    returns [None].  The products are float products ([1000] and [60]
    convert exactly). *)
Definition to_ms (dur_str : text) : option float :=
  if ends_with (txt "ms") dur_str then py_float (take (length dur_str - 2) dur_str)
  else if ends_with (txt "s") dur_str
  then option_map (λ x, x * float_of_Z 1000)%float (py_float (take (length dur_str - 1) dur_str))
  else if ends_with (txt "m") dur_str
  then option_map (λ x, x * float_of_Z 60 * float_of_Z 1000)%float (py_float (take (length dur_str - 1) dur_str))
  else option_map (λ x, x * float_of_Z 1000)%float (py_float dur_str).
End ToMs.

(** ** What a run does: effects, in order *)

Inductive effect : Type :=
| RemoveTree (path : text)
| MakeDirs (path : text)
| WriteFile (path : text) (contents : text)
| Plot (title : option text) (series : list pynum * list pynum * list pynum) (save_path : option text)
       (show : bool).

(** The file system after an effect: [shutil.rmtree] removes a tree,
    writing a file replaces it. *)
Definition apply_effect (f : fs) (e : effect) : fs :=
  match e with
  | RemoveTree p => λ q, if bool_decide (q = p) || bool_decide ((p ++ ["/"%char]) `prefix_of` q)
                        then None else f q
  | WriteFile p c => λ q, if bool_decide (q = p) then Some c else f q
  | _ => f
  end.

Section Cli.
Context `{JsonCodec} (py_float : text → option float) (cwd : text).

(** [bt.graph_network_usage(...)]: the plot, then the object. *)
Definition graph_call (bt : buffer_timeseries) (title : option text) (skip_ms length_ms : option pynum)
    (save_path : option text) (plt_shot : bool) : run effect buffer_timeseries :=
  p <-- lift (graph_network_usage bt skip_ms length_ms) ;;;
  _ <-- emit (Plot title p.2 save_path plt_shot) ;;;
  lift (Ok p.1).

(** [bt.save(save_path, ...)] (244-246): [open(save_path, 'w+')] empties
    the file before [extract] runs. *)
Definition save_to (bt : buffer_timeseries) (save_path : text) (start_ms duration_ms : option pynum)
    : run effect unit :=
  _ <-- emit (WriteFile save_path []) ;;;
  j <-- lift (save bt start_ms duration_ms) ;;;
  emit (WriteFile save_path (json_dumps j)).

(** [sample_sizes=(60, 10, 5, 2, 1, 0.5, 0.1)], five [int]s and two
    floats, with the text f-strings print for each. *)
#[warnings="-inexact-float"]
Definition sample_sizes : list (text * pynum) :=
  [(txt "60", PInt 60); (txt "10", PInt 10); (txt "5", PInt 5); (txt "2", PInt 2); (txt "1", PInt 1);
   (txt "0.5", PFloat 0.5); (txt "0.1", PFloat 0.1)].

(** The loop (264-267): [length_ms=sample_dur_secs*1000], the default
    [skip_ms=0]. *)
Fixpoint sample_graphs (bt : buffer_timeseries) (dir_path : text) (sizes : list (text * pynum))
    : run effect buffer_timeseries :=
  match sizes with
  | [] => lift (Ok bt)
  | (label, secs) :: r =>
      length_ms <-- lift (py_mul secs (PInt 1000)) ;;;
      bt <-- graph_call bt (Some (label ++ txt " Second Sample")) (Some (PInt 0)) (Some length_ms)
               (Some (path_join dir_path (label ++ txt "_second_sample.png"))) false ;;;
      sample_graphs bt dir_path r
  end.

(** [simple_sampler] (248-270); the graphs of the loop are made on the
    module's [bt], which is [self] in the only call. *)
Definition simple_sampler (bt : buffer_timeseries) (dir_path : option text) (start : option pynum)
    : run effect buffer_timeseries :=
  _dir <-- (if dir_path is Some d then lift (Ok d)
            else let d := path_join cwd (txt "SimpleSample") in
                 _ <-- emit (MakeDirs d) ;;; lift (Ok d)) ;;;
  let dir_path := _dir in
  let start := default (PInt 0) start in
  bt <-- graph_call bt (Some (txt "Complete Sample")) (Some (PInt 0)) None
           (Some (path_join dir_path (txt "complete_sample.png"))) false ;;;
  bt <-- lift (reduce bt (Some start) (Some (PInt (60 * 1000)))) ;;;
  bt <-- sample_graphs bt dir_path sample_sizes ;;;
  _ <-- save_to bt (path_join dir_path (txt "sample_data.bt.json")) None None ;;;
  lift (Ok bt).

(** The options of [nu.py]'s argument parser. *)
Record nu_args := {
  args_simplesample : bool;
  args_extract : bool;
  args_graph : bool;
  args_raw : option text;
  args_saved : option text;
  args_live : bool;
  args_start : option text;
  args_duration : option text;
  args_save : option text;
  args_title : option text
}.

(** [if ARGS.x:] on an optional string option. *)
Definition given (o : option text) : option text :=
  match o with Some (_ :: _) as s => s | _ => None end.

Definition primary_options : list string := ["simplesample"; "extract"; "graph"].

(** The [repr] of a list of option names. *)
Definition py_repr_list (l : list string) : string :=
  ("[" ++ String.concat ", " (map (λ s, "'" ++ s ++ "'") l) ++ "]")%string.

Definition primary_error (active : list string) : string :=
  ("Exactly one primary option must be set. Primary options are " ++ py_repr_list primary_options ++
   ". Currently, " ++ (if active is [] then "none" else py_repr_list active) ++ " are set")%string.

(** [start_ms = to_ms(ARGS.start) if ARGS.start else 0] (350). *)
Definition cli_start_ms (args : nu_args) : option pynum :=
  if given (args_start args) is Some s then option_map PFloat (to_ms py_float s) else Some (PInt 0).

(** [duration_ms = to_ms(ARGS.duration) if ARGS.duration else None] (351). *)
Definition cli_duration_ms (args : nu_args) : option pynum :=
  if given (args_duration args) is Some d then option_map PFloat (to_ms py_float d) else None.

(** [--raw] made absolute (357-360). *)
Definition cli_raw (args : nu_args) : option text := option_map (abspathify cwd) (given (args_raw args)).

(** [--saved] with [.bt.json] added unless it ends in [.json] (363-364),
    made absolute (366). *)
Definition saved_name (s : text) : text := if ends_with (txt ".json") s then s else s ++ txt ".bt.json".

Definition cli_saved (args : nu_args) : option text :=
  option_map (λ s, abspathify cwd (saved_name s)) (given (args_saved args)).

(** [--save] of [--extract], with [.bt.json] added unless it ends in
    [json] (413-414), made absolute (415). *)
Definition extract_save_name (s : text) : text := if ends_with (txt "json") s then s else s ++ txt ".bt.json".

Definition extract_save_path (s : text) : text := abspathify cwd (extract_save_name s).

(** [--graph]: [--save] made absolute when given (426-427), the plot
    shown when it is not (428), the title (429). *)
Definition graph_save_path (args : nu_args) : option text :=
  if args_save args is Some s then Some (if s is [] then s else abspathify cwd s) else None.

Definition show_graph (args : nu_args) : bool := if given (args_save args) is Some _ then false else true.

Definition graph_title (args : nu_args) : text := default (txt "Network Utilization") (given (args_title args)).

(** [record_network_buffer_log(save_dir)] (299-306), run in a child
    process that [__main__] terminates after 60 seconds: on Linux it
    removes the log (a missing file is ignored) and its shell loop appends
    one line per sample, the [date +%s%3N] reading, a space and the
    [ethtool] counters joined by [xargs]. *)
Record live_recording := { platform_system : text; samples : list (text * text) }.

Definition log_line (sample : text * text) : text := sample.1 ++ " "%char :: sample.2 ++ [nl].

Definition record_network_buffer_log (live : live_recording) (save_dir : text) : run effect unit :=
  if negb (bool_decide (platform_system live = txt "Linux")) then
    lift (Err (RuntimeError "--live requires ethtool and is only supported on Linux"))
  else
    let save_filepath := path_join save_dir (txt "network_buffer_log.txt") in
    ([RemoveTree save_filepath; WriteFile save_filepath (concat (map log_line (samples live)))], Ok tt).

(** [--simplesample]'s folder (376-379): [--save], or the current
    directory, made absolute, with [SimpleSample] appended. *)
Definition simplesample_dir (args : nu_args) : text :=
  path_join (abspathify cwd (default cwd (given (args_save args)))) (txt "SimpleSample").

(** The [__main__] block (311-433); [live] is the platform and what
    the 60 seconds of [--live] recording sample. *)
Definition nu_main (f : fs) (live : live_recording) (args : nu_args) : run effect unit :=
  let active := map fst (List.filter snd [("simplesample", args_simplesample args);
                                          ("extract", args_extract args);
                                          ("graph", args_graph args)])%string in
  if negb (length active =? 1)%nat then lift (Err (RuntimeError (primary_error active))) else
  let start_ms := cli_start_ms args in
  let duration_ms := cli_duration_ms args in
  let raw := cli_raw args in
  let saved := cli_saved args in
  if args_simplesample args then
    let save := simplesample_dir args in
    let log := path_join save (txt "network_buffer_log.txt") in
    let pre0 := [RemoveTree save; MakeDirs save] in
    if args_live args && negb (bool_decide (platform_system live = txt "Linux")) then
      (pre0, Err (RuntimeError "--live requires ethtool and is only supported on Linux"))
    else
    let pre := pre0 ++ (if args_live args then (record_network_buffer_log live save).1 else []) in
    let raw := if args_live args then Some log else raw in
    let start_ms := if args_live args then Some (PInt 0) else start_ms in
    _ <-- (pre, Ok tt) ;;;
    obt <-- lift (buffer_timeseries_init (foldl apply_effect f pre) raw saved) ;;;
    match obt with
    | None => lift (Err AttributeError)
    | Some bt => _ <-- simple_sampler bt (Some save) start_ms ;;; lift (Ok tt)
    end
  else if args_extract args then
    match args_save args with
    | None => lift (Err (RuntimeError "--save must be specified for an extraction"))
    | Some s =>
        let s := extract_save_path s in
        obt <-- lift (buffer_timeseries_init f raw saved) ;;;
        match obt with
        | None => lift (Err AttributeError)
        | Some bt => save_to bt s start_ms duration_ms
        end
    end
  else
    obt <-- lift (buffer_timeseries_init f raw saved) ;;;
    match obt with
    | None => lift (Err AttributeError)
    | Some bt =>
        _ <-- graph_call bt (Some (graph_title args)) start_ms duration_ms (graph_save_path args)
                (show_graph args) ;;;
        lift (Ok tt)
    end.
End Cli.

(** [args] with another [--duration] (not code: the theorems' notation). *)
Definition with_duration (a : nu_args) (d : option text) : nu_args :=
  {| args_simplesample := args_simplesample a; args_extract := args_extract a;
     args_graph := args_graph a; args_raw := args_raw a; args_saved := args_saved a;
     args_live := args_live a; args_start := args_start a; args_duration := d;
     args_save := args_save a; args_title := args_title a |}.

(** ** A run

    A working directory holding the recorded log of [NetUtil], and a
    stand-in for [float()] that reads plain decimals ([10], [0.5]), which
    is all the runs below use. *)

Fixpoint digits_val (l : text) (acc : Z) : option Z :=
  match l with
  | [] => Some acc
  | c :: r => if digit_val c is Some d then digits_val r (acc * 10 + d)%Z else None
  end.

(** [n / 10 ^ k] rounded once: for [n < 2 ^ 53] and [k <= 22] both are
    exact doubles and the quotient is the correctly rounded value of the
    decimal, as [float()] gives it; other literals are refused. *)
Definition decimal_float (s : text) : option float :=
  let of_digits (ds : text) (k : nat) :=
    match digits_val ds 0 with
    | Some n => if (n <? 2 ^ 53)%Z && (k <=? 22)%nat
                then Some (float_of_Z n / float_of_Z (10 ^ Z.of_nat k))%float else None
    | None => None
    end in
  match split_on "."%char s with
  | [ip] => if ip is [] then None else of_digits ip 0%nat
  | [ip; fp] => if bool_decide (ip ++ fp = []) then None else of_digits (ip ++ fp) (length fp)
  | _ => None
  end.

(** A Linux host whose recording took no sample. *)
Definition linux_recording : live_recording := {| platform_system := txt "Linux"; samples := [] |}.

Definition run_cwd : text := txt "/home/u".

Definition run_fs : fs := λ p, if bool_decide (p = txt "/home/u/log.txt") then Some net_log else None.

Definition run_extract : nu_args :=
  {| args_simplesample := false; args_extract := true; args_graph := false;
     args_raw := Some (txt "log.txt"); args_saved := None; args_live := false;
     args_start := Some (txt "5ms"); args_duration := Some (txt "10ms");
     args_save := Some (txt "out"); args_title := None |}.

Definition run_graph : nu_args :=
  {| args_simplesample := false; args_extract := false; args_graph := true;
     args_raw := None; args_saved := Some (txt "out"); args_live := false;
     args_start := None; args_duration := None; args_save := Some (txt "out.png"); args_title := None |}.

(** [--simplesample --live] on a Linux host whose recording took two
    samples. *)
Definition run_live : nu_args :=
  {| args_simplesample := true; args_extract := false; args_graph := false;
     args_raw := None; args_saved := None; args_live := true;
     args_start := None; args_duration := None; args_save := None; args_title := None |}.

Definition live_two_samples : live_recording :=
  {| platform_system := txt "Linux";
     samples := [(txt "1000", txt "queue_0_tx_bytes: 5 queue_0_rx_bytes: 7");
                 (txt "1010", txt "queue_0_tx_bytes: 9 queue_0_rx_bytes: 8")] |}.

(** ** Lemmas: saved series *)

Lemma dict_set_fresh {A} k (v : A) d : k ∉ keys d → dict_set k v d = d ++ [(k, v)].
Proof.
  induction d as [|[k' v'] d IH]; [done|]. cbn [keys map fst]. rewrite not_elem_of_cons.
  intros [Hk Hd]. cbn [dict_set]. rewrite bool_decide_false by done. cbn [app]. by rewrite IH.
Qed.

Lemma counters_of_kvs_json d acc :
  NoDup (keys acc ++ keys d) →
  counters_of_kvs (map (λ kv, (String.string_of_list_ascii kv.1, JNum kv.2)) d) acc = Ok (acc ++ d).
Proof.
  revert acc. induction d as [|[k v] d IH]; intros acc Hnd; cbn; [by rewrite app_nil_r|].
  rewrite String.list_ascii_of_string_of_list_ascii.
  unfold keys in Hnd. cbn [map fst] in Hnd.
  apply NoDup_app in Hnd as (Hacc & Hdis & Hkd). apply NoDup_cons in Hkd as [Hk Hd].
  rewrite dict_set_fresh by (intros Hin; by apply (Hdis k); [|left]).
  rewrite IH, <- app_assoc; [done|]. unfold keys. rewrite map_app. cbn [map fst].
  rewrite <- app_assoc. apply NoDup_app. split; [done|]. split.
  - intros x Hx [->%list_elem_of_singleton | Hx']%elem_of_app; [by apply (Hdis k); [|left]|].
    by apply (Hdis x); [|right].
  - by apply NoDup_cons.
Qed.

(** What [save] writes decodes to the raw snapshot. *)
Lemma snapshot_of_min_state_json s :
  NoDup (keys (queues s)) → snapshot_of_json (min_state_to_json s) = Ok (min_state s).
Proof.
  intros Hnd. unfold snapshot_of_json, min_state_to_json, raw_to_json. cbn.
  rewrite (counters_of_kvs_json (queues s) []) by done. reflexivity.
Qed.

Lemma extract_go_min_state lo hi ss :
  ∃ ss', extract_go lo hi true ss = map min_state ss' ∧ ss' ⊆+ ss.
Proof.
  induction ss as [|s ss IH]; [by exists []|]. cbn [extract_go].
  destruct IH as (ss' & -> & Hsub).
  destruct (py_lt_Z _ lo); [exists ss'; split; [done | by apply submseteq_cons]|].
  destruct (py_gt_Z _ hi); [exists []; split; [done | apply submseteq_nil_l]|].
  exists (s :: ss'). split; [done | by apply submseteq_skip].
Qed.

Lemma series_of_saved ss :
  Forall (λ s, NoDup (keys (queues s))) ss →
  series_of_json (JArr (map min_state_to_json ss)) = Ok (map min_state ss).
Proof.
  intros Hall. cbn [series_of_json]. induction Hall as [|s ss Hs _ IH]; [done|]. cbn [map res_mapM].
  rewrite snapshot_of_min_state_json by done. cbn [res_bind]. by rewrite IH.
Qed.

Lemma min_state_idem s : min_state (min_state s) = min_state s.
Proof. done. Qed.

(** ** Theorems *)

(** Loading what [save] wrote gives the window's raw snapshots. *)
Lemma save_load_window `{JsonCodec} (f : fs) bt start_ms duration_ms path j :
  Forall (λ s, NoDup (keys (queues s))) (timeseries bt) →
  save bt start_ms duration_ms = Ok j → json_loads (json_dumps j) = Some j → path ≠ [] →
  ∃ ss, extract (timeseries bt) start_ms duration_ms true = Ok ss ∧
    buffer_timeseries_init (apply_effect f (WriteFile path (json_dumps j))) None (Some path) =
      Ok (Some {| timeseries := ss; deltas_computed := false |}).
Proof.
  intros Hnd Hs Hj Hp. unfold save in Hs.
  destruct (extract _ _ _ true) as [ss| |] eqn:He; cbn [res_bind] in Hs; [|done|done].
  injection Hs as <-. exists ss. split; [done|].
  unfold extract in He. destruct (series_window _ _ _) as [w| |]; cbn [res_bind] in He; [|done|done].
  injection He as <-. destruct (extract_go_min_state w.1 w.2 (timeseries bt)) as (ss' & Hgo & Hsub).
  rewrite Hgo in *.
  destruct path as [|c p]; [done|]. cbn [buffer_timeseries_init load_btfile read_file apply_effect].
  unfold load_btfile, read_file. rewrite bool_decide_true by done. cbn [res_bind]. rewrite Hj.
  rewrite series_of_saved.
  - cbn [res_bind]. by rewrite map_map.
  - apply Forall_map, Forall_forall. intros x Hx. rewrite Forall_forall in Hnd.
    simpl. apply Hnd. by eapply elem_of_submseteq.
Qed.

(** C14: what [save] writes to a file reads back, through
    [BufferTimeseries(btfile_path=...)], as the window [extract] returned
    with [reduce_to_min_state=True]: each snapshot's raw part, in order,
    with [deltas_computed] false.  It needs the snapshots' queue ids to be
    distinct (as [parse_raw_data] makes them) and the JSON library to read
    back what it wrote. *)
Theorem save_then_load `{JsonCodec} (f : fs) bt start_ms duration_ms path j :
  Forall (λ s, NoDup (keys (queues s))) (timeseries bt) →
  save bt start_ms duration_ms = Ok j → json_loads (json_dumps j) = Some j → path ≠ [] →
  ∃ ss, extract (timeseries bt) start_ms duration_ms true = Ok ss ∧
    buffer_timeseries_init (apply_effect f (WriteFile path (json_dumps j))) None (Some path) =
      Ok (Some {| timeseries := ss; deltas_computed := false |}).
Proof. by eapply save_load_window. Qed.

(** ** Lemmas: runs *)

Lemma abspathify_nonempty cwd s : s ≠ [] → abspathify cwd s ≠ [].
Proof. intros Hs. unfold abspathify, abspath. case_bool_decide; [done|]. by case_bool_decide; apply normpath_not_nil. Qed.

Section CliTheorems.
Context `{JsonCodec} (py_float : text → option float) (cwd : text).

Lemma nu_main_graph_saved f live a p ss :
  args_simplesample a = false → args_extract a = false → args_graph a = true →
  cli_raw cwd a = None → cli_saved cwd a = Some p → p ≠ [] → load_btfile f p = Ok ss →
  nu_main py_float cwd f live a =
    (_ <-- graph_call {| timeseries := ss; deltas_computed := false |} (Some (graph_title a))
             (cli_start_ms py_float a) (cli_duration_ms py_float a) (graph_save_path cwd a)
             (show_graph a) ;;;
     lift (Ok tt)).
Proof.
  intros Hss Hex Hgr Hraw Hsaved Hp Hl. unfold nu_main. rewrite Hss, Hex, Hgr.
  cbn -[cli_raw cli_saved graph_call]. rewrite Hraw, Hsaved.
  destruct p as [|ch q]; [done|]. cbn [buffer_timeseries_init]. rewrite Hl. cbn [res_bind].
  by rewrite run_bind_lift_ok.
Qed.

(** The effects of [save_to] when [save] succeeds. *)
Lemma save_to_ok bt p st du j :
  save bt st du = Ok j → save_to bt p st du = ([WriteFile p []; WriteFile p (json_dumps j)], Ok tt).
Proof. intros Hs. unfold save_to, run_bind, lift, emit. cbn. by rewrite Hs. Qed.

(** In [--extract] mode with a raw log, [nu.py] parses the log and
    runs [save] on the whole series, to the [--save] path with
    [.bt.json] added unless it ends in [json], made absolute; the window
    is [--start] and [--duration] read by [to_ms]. *)
Theorem nu_main_extract f live a s log c ss :
  args_simplesample a = false → args_extract a = true → args_graph a = false →
  args_save a = Some s → cli_raw cwd a = Some log → cli_saved cwd a = None →
  f log = Some c → parse_raw_data c = Ok ss →
  nu_main py_float cwd f live a =
    save_to {| timeseries := ss; deltas_computed := false |} (extract_save_path cwd s)
      (cli_start_ms py_float a) (cli_duration_ms py_float a).
Proof.
  intros Hss Hex Hgr Hs Hraw Hsaved Hf Hp. unfold nu_main. rewrite Hss, Hex, Hgr. cbn -[cli_raw cli_saved].
  rewrite Hs, Hraw, Hsaved. cbn [buffer_timeseries_init].
  assert (log ≠ []) as Hlog.
  { unfold cli_raw in Hraw. destruct (given (args_raw a)) as [r|] eqn:Hg; [|done].
    injection Hraw as <-. apply abspathify_nonempty. destruct (args_raw a) as [[|]|]; by inversion Hg. }
  destruct log as [|ch l]; [done|]. unfold read_file. rewrite Hf. cbn [res_bind]. rewrite Hp.
  cbn [res_bind]. by rewrite run_bind_lift_ok.
Qed.


(** [--live] off Linux raises after the [SimpleSample] folder is
    recreated. *)
Lemma nu_main_live_not_linux f live a :
  args_simplesample a = true → args_extract a = false → args_graph a = false →
  args_live a = true → platform_system live ≠ txt "Linux" →
  nu_main py_float cwd f live a =
    ([RemoveTree (simplesample_dir cwd a); MakeDirs (simplesample_dir cwd a)],
     Err (RuntimeError "--live requires ethtool and is only supported on Linux")).
Proof.
  intros Hss Hex Hgr Hlive Hsys. unfold nu_main.
  by rewrite Hss, Hex, Hgr, Hlive, bool_decide_false.
Qed.
End CliTheorems.

(** C33: [abspathify] does not expand [~]: a path starting with [~] is
    made absolute under the working directory, exactly as the same path
    written [./~...] is ([os.path.abspath] never looks at [~]). *)
Theorem abspathify_tilde cwd r :
  txt "/" `prefix_of` cwd → ¬ txt "/" `suffix_of` cwd →
  abspathify cwd ("~"%char :: r) = abspathify cwd (txt "./~" ++ r).
Proof.
  intros Hp Hs. unfold abspathify, abspath.
  rewrite (bool_decide_false (txt "/" `prefix_of` "~"%char :: r)) by (intros [? ?]; discriminate).
  rewrite (bool_decide_true (txt "~" `prefix_of` "~"%char :: r)) by (by exists r).
  rewrite (bool_decide_false (txt "/" `prefix_of` txt "./~" ++ r)) by (intros [? ?]; discriminate).
  rewrite (bool_decide_false (txt "~" `prefix_of` txt "./~" ++ r)) by (intros [? ?]; discriminate).
  rewrite !path_join_rel by (done || (intros [? ?]; discriminate)).
  rewrite bool_decide_true by (destruct Hp as [k ->]; by exists (k ++ "/"%char :: txt "./~" ++ r)).
  symmetry. apply normpath_dot.
  destruct Hp as [[|c k] ->]; [by destruct Hs; exists [] | simpl; lia].
Qed.

Section CliComposition.
Context `{JsonCodec} (py_float : text → option float) (cwd : text).

(** C32: a [--duration] that [to_ms] cannot read ([float()] raises; [to_ms]
    prints and returns [None]) runs [nu.py] exactly as no [--duration]:
    the window silently extends to the end of the log. *)
Theorem nu_main_bad_duration f live a d :
  d ≠ [] → to_ms py_float d = None →
  nu_main py_float cwd f live (with_duration a (Some d)) =
    nu_main py_float cwd f live (with_duration a None).
Proof.
  intros Hd Hto. unfold nu_main, cli_duration_ms. destruct d as [|ch d]; [done|].
  cbn [given args_duration with_duration]. rewrite Hto. reflexivity.
Qed.

(** When the two path rules of the CLI agree. *)
Lemma save_names_iff s :
  saved_name s = extract_save_name s ↔ ¬ (ends_with (txt "json") s = true ∧ ends_with (txt ".json") s = false).
Proof.
  unfold saved_name, extract_save_name.
  destruct (ends_with (txt ".json") s) eqn:Hdot.
  - assert (ends_with (txt "json") s = true) as ->; [|naive_solver].
    unfold ends_with in *. apply bool_decide_eq_true in Hdot as [k ->].
    apply bool_decide_eq_true. exists (k ++ txt "."). by rewrite <- app_assoc.
  - destruct (ends_with (txt "json") s); [|naive_solver].
    split; [|naive_solver]. intros Heq. apply (f_equal length) in Heq.
    rewrite length_app in Heq. simpl in Heq. lia.
Qed.

(** C13: an extraction followed by a graph of the file it saved: when the
    [--save] name does not end in [json], [nu.py --graph --saved] on the
    same name loads exactly the window the extraction kept (raw parts,
    layers to compute) and graphs it. *)
Theorem extract_then_graph f live a1 a2 s log c ss j :
  args_simplesample a1 = false → args_extract a1 = true → args_graph a1 = false →
  args_save a1 = Some s → cli_raw cwd a1 = Some log → cli_saved cwd a1 = None →
  f log = Some c → parse_raw_data c = Ok ss →
  save {| timeseries := ss; deltas_computed := false |}
    (cli_start_ms py_float a1) (cli_duration_ms py_float a1) = Ok j →
  json_loads (json_dumps j) = Some j → ends_with (txt "json") s = false →
  args_simplesample a2 = false → args_extract a2 = false → args_graph a2 = true →
  cli_raw cwd a2 = None → given (args_saved a2) = Some s →
  ∃ win, extract ss (cli_start_ms py_float a1) (cli_duration_ms py_float a1) true = Ok win ∧
    nu_main py_float cwd (foldl apply_effect f (nu_main py_float cwd f live a1).1) live a2 =
      (_ <-- graph_call {| timeseries := win; deltas_computed := false |} (Some (graph_title a2))
               (cli_start_ms py_float a2) (cli_duration_ms py_float a2) (graph_save_path cwd a2)
               (show_graph a2) ;;;
       lift (Ok tt)).
Proof.
  intros Hss1 Hex1 Hgr1 Hs1 Hraw1 Hsaved1 Hf Hp Hsave Hj Hjson Hss2 Hex2 Hgr2 Hraw2 Hsaved2.
  rewrite (nu_main_extract _ _ _ _ _ _ _ _ _ Hss1 Hex1 Hgr1 Hs1 Hraw1 Hsaved1 Hf Hp).
  rewrite (save_to_ok _ _ _ _ _ Hsave). cbn [fst foldl].
  assert (Forall (λ s, NoDup (keys (queues s))) ss) as Hnd.
  { apply parse_raw_data_shape in Hp as [_ Hall]. eapply Forall_impl; [exact Hall|]. naive_solver. }
  assert (extract_save_path cwd s ≠ []) as Hne.
  { apply abspathify_nonempty. unfold extract_save_name. rewrite Hjson. by destruct s. }
  destruct (save_load_window (apply_effect f (WriteFile (extract_save_path cwd s) []))
              {| timeseries := ss; deltas_computed := false |} _ _ _ _ Hnd Hsave Hj Hne)
    as (win & Hwin & Hinit).
  exists win. split; [done|].
  apply (nu_main_graph_saved py_float cwd _ _ _ (extract_save_path cwd s) win); [done|done|done|done| |done|].
  - unfold cli_saved. rewrite Hsaved2. cbn [option_map]. unfold extract_save_path. f_equal. f_equal.
    apply save_names_iff. rewrite Hjson. naive_solver.
  - destruct (extract_save_path cwd s) as [|ch q]; [done|]. cbn [buffer_timeseries_init] in Hinit.
    destruct (load_btfile _ _); cbn [res_bind] in Hinit; congruence.
Qed.
End CliComposition.

(** ** Runs *)

#[local] Existing Instance simple_codec.

Local Ltac by_decide := apply (bool_decide_eq_true_1 _); vm_compute; reflexivity.

Lemma save_then_load_witness :
  match save {| timeseries := net_series; deltas_computed := false |} (Some (PInt 5)) None with
  | Ok j =>
      ∃ ss, extract net_series (Some (PInt 5)) None true = Ok ss ∧
        buffer_timeseries_init (apply_effect run_fs (WriteFile (txt "/home/u/s.bt.json") (json_dumps j)))
          None (Some (txt "/home/u/s.bt.json")) = Ok (Some {| timeseries := ss; deltas_computed := false |})
  | _ => False
  end.
Proof.
  destruct (save _ _ _) as [j| |] eqn:E; [|by vm_compute in E..].
  apply (save_then_load run_fs {| timeseries := net_series; deltas_computed := false |});
    [by_decide | exact E | vm_compute in E; injection E as <-; vm_compute; reflexivity | discriminate].
Defined.

Lemma nu_main_extract_witness :
  nu_main decimal_float run_cwd run_fs linux_recording run_extract =
    save_to {| timeseries := net_series; deltas_computed := false |} (extract_save_path run_cwd (txt "out"))
      (cli_start_ms decimal_float run_extract) (cli_duration_ms decimal_float run_extract).
Proof.
  apply (nu_main_extract decimal_float run_cwd run_fs linux_recording run_extract (txt "out") (txt "/home/u/log.txt") net_log);
    try reflexivity; vm_compute; reflexivity.
Defined.

Lemma abspathify_tilde_witness :
  abspathify run_cwd (txt "~/logs") = abspathify run_cwd (txt "./~" ++ txt "/logs").
Proof.
  apply abspathify_tilde; [by_decide | apply (bool_decide_eq_false_1 _); vm_compute; reflexivity].
Defined.

(** What both give: the directory [~] under the working directory. *)
Lemma abspathify_tilde_value : abspathify run_cwd (txt "~/logs") = txt "/home/u/~/logs".
Proof. vm_compute. reflexivity. Qed.

Lemma nu_main_bad_duration_witness :
  nu_main decimal_float run_cwd run_fs linux_recording (with_duration run_extract (Some (txt "10x"))) =
    nu_main decimal_float run_cwd run_fs linux_recording (with_duration run_extract None).
Proof. apply nu_main_bad_duration; [discriminate | vm_compute; reflexivity]. Defined.

(** [run_json] is written as [run_json] and read as [run_json.bt.json]. *)
Lemma save_names_run_json :
  extract_save_name (txt "run_json") = txt "run_json" ∧ saved_name (txt "run_json") = txt "run_json.bt.json".
Proof. split; vm_compute; reflexivity. Qed.

Lemma extract_then_graph_witness :
  match save {| timeseries := net_series; deltas_computed := false |}
          (cli_start_ms decimal_float run_extract) (cli_duration_ms decimal_float run_extract) with
  | Ok j =>
      ∃ win, extract net_series (cli_start_ms decimal_float run_extract)
               (cli_duration_ms decimal_float run_extract) true = Ok win ∧
        nu_main decimal_float run_cwd
          (foldl apply_effect run_fs (nu_main decimal_float run_cwd run_fs linux_recording run_extract).1) linux_recording run_graph =
          (_ <-- graph_call {| timeseries := win; deltas_computed := false |} (Some (graph_title run_graph))
                   (cli_start_ms decimal_float run_graph) (cli_duration_ms decimal_float run_graph)
                   (graph_save_path run_cwd run_graph) (show_graph run_graph) ;;;
           lift (Ok tt))
  | _ => False
  end.
Proof.
  destruct (save _ _ _) as [j| |] eqn:E; [|by vm_compute in E..].
  pose proof E as E'. vm_compute in E'. injection E' as Ej.
  apply (extract_then_graph decimal_float run_cwd run_fs linux_recording run_extract run_graph (txt "out")
           (txt "/home/u/log.txt") net_log net_series j);
    first [exact E | reflexivity | rewrite <- Ej; vm_compute; reflexivity | vm_compute; reflexivity].
Defined.


(** [--duration 1.001] asks for 1001 ms, but [to_ms] computes
    [float("1.001") * 1000 = 1000.9999999999999]: [--graph] leaves out a
    snapshot exactly 1001 ms after the first, which an exact window keeps. *)
Example duration_rounding_drops_boundary :
  let a := with_duration run_graph (Some (txt "1.001")) in
  extract [raw_snapshot 0 []; raw_snapshot 1001 []]
    (cli_start_ms decimal_float a) (cli_duration_ms decimal_float a) false = Ok [raw_snapshot 0 []] ∧
  extract [raw_snapshot 0 []; raw_snapshot 1001 []] (Some (PInt 0)) (Some (PInt 1001)) false =
    Ok [raw_snapshot 0 []; raw_snapshot 1001 []].
Proof. split; vm_compute; reflexivity. Qed.
